(** * The redisplay engine of mg (display.c) and its mouse decoder (mouse.c)

    A shallow embedding of the two C files and the properties of their
    specification.  C [int] values are integers of [Z]; arithmetic that can
    leave the 32-bit range is wrapped with [to_int], a store into a [short]
    with [to_short].  Arrays are lists read and written by index; pointers
    into an array are indices.  Calls into the terminal driver are recorded,
    in order, in the [tty] field of the display state. *)

From Stdlib Require Import ZArith List Lia Bool String.
From stdpp Require Import base option list numbers.
Import ListNotations.
Open Scope Z_scope.

(** ** C integers *)

(** The value an [int] holds after an operation whose mathematical result is
    [z] (two's complement wrap-around). *)
Definition to_int (z : Z) : Z := (z + 2147483648) mod 4294967296 - 2147483648.

(** The value a [short] holds after [z] is stored into it. *)
Definition to_short (z : Z) : Z := (z + 32768) mod 65536 - 32768.

Definition INT_MAX : Z := 2147483647.

(** [a + b] on two [int]s. *)
Definition iadd (a b : Z) : Z := to_int (a + b).

(** ** Arrays

    An access outside the array is undefined in C; here a read outside
    yields nothing (a default where one is named) and a write outside is
    dropped. *)

Definition zget {A : Type} (l : list A) (i : Z) : option A :=
  if i <? 0 then None else l !! Z.to_nat i.

Definition zset {A : Type} (l : list A) (i : Z) (x : A) : list A :=
  if i <? 0 then l else <[Z.to_nat i := x]> l.

Definition rd {A : Type} (d : A) (l : list A) (i : Z) : A :=
  default d (zget l i).

(** A character cell of a text or attribute buffer. *)
Definition chr (text : list Z) (i : Z) : Z := rd 0 text i.

(** [memcpy]/[bcopy] of the first [n] cells of [src] over [dst]. *)
Definition bcopy (n : Z) (src dst : list Z) : list Z :=
  take (Z.to_nat n) src ++ drop (Z.to_nat n) dst.

(** [memcmp(a, b, n) != 0] *)
Definition memdiff (n : Z) (a b : list Z) : bool :=
  negb (bool_decide (take (Z.to_nat n) a = take (Z.to_nat n) b)).

(** ** Data of display.c *)

Record video := {
  v_hash : Z;               (* short: hash code, for compares *)
  v_flag : Z;               (* short: flag word *)
  v_color : Z;              (* short: color of the line *)
  v_cost : Z;               (* cost of display *)
  v_text : list Z;          (* the actual characters *)
  v_attr : list Z           (* per-character attributes *)
}.

Definition VFCHG : Z := 1.
Definition VFHBAD : Z := 2.
Definition VFEXT : Z := 4.

(** A zeroed [struct video], as [vtresize] leaves a fresh entry. *)
Definition video0 : video :=
  {| v_hash := 0; v_flag := 0; v_color := 0; v_cost := 0; v_text := []; v_attr := [] |}.

Record score := {
  s_itrace : Z;             (* "i" index for track back *)
  s_jtrace : Z;             (* "j" index for trace back *)
  s_cost : Z                (* display cost *)
}.

Definition score0 : score := {| s_itrace := 0; s_jtrace := 0; s_cost := 0 |}.

(** Calls into the terminal driver. *)
Inductive ttyop :=
| TtMove (row col : Z)
| TtPutc (c : Z)
| TtColor (color : Z)
| TtEeol
| TtEeop
| TtInsl (row bot nchunk : Z)
| TtDell (row bot nchunk : Z)
| TtFlush.

(** A text buffer: the lines linked between the two ends of the header line
    [b_headp].  A line pointer is the position of the line, the header being
    the position after the last line. *)
Record buffer := {
  b_lines : list (list Z);
  b_flag : Z;
  b_bname : list Z;
  b_tabw : Z;
  b_modes : list (list Z);  (* p_name of b_modes[0], b_modes[1], ... *)
  b_nmodes : Z
}.

Record mgwin := {
  w_bufp : buffer;
  w_linep : nat;            (* top line in the window *)
  w_dotp : nat;             (* line containing "." *)
  w_markp : option nat;     (* line containing "mark", NULL when unset *)
  w_doto : Z;
  w_marko : Z;
  w_dotline : Z;
  w_markline : Z;
  w_toprow : Z;
  w_ntrows : Z;
  w_rflag : Z;
  w_frame : Z
}.

(** The globals of display.c, the window list, and the driver calls made so
    far. *)
Record display := {
  vscreen : list video;     (* edge vector, virtual *)
  pscreen : list video;     (* edge vector, physical *)
  blanks : video;           (* blank line image *)
  scores : list score;      (* struct score *score, [NROW * NROW] *)
  sgarbf : bool;
  epresf : bool;
  vtrow : Z;
  vtcol : Z;
  tthue : Z;
  ttcol : Z;
  tttop : Z;
  ttbot : Z;
  lbound : Z;
  linenos : bool;
  colnos : bool;
  timesh : bool;
  wheadp : list mgwin;
  curwp : nat;
  tty : list ttyop
}.

(** ** What display.c and mouse.c take from the rest of the editor

    The terminal geometry and cost figures (tty.c), the constants of def.h,
    the character classes of chrdef.h and libc, and the editor state the
    mode line prints.  None of them is changed by the code modelled here. *)
Class Env := {
  ncol : Z;                 (* terminal columns *)
  nrow : Z;                 (* terminal rows, the echo line included *)
  tceeol : Z;               (* cost of erase to end of line *)
  tcinsl : Z;               (* cost of insert line *)
  tcdell : Z;               (* cost of delete line *)
  HUGE : Z;
  CNONE : Z; CTEXT : Z; CMODE : Z; CSELECT : Z;
  WFFRAME : Z; WFEDIT : Z; WFFULL : Z; WFMODE : Z;
  BFREADONLY : Z; BFCHG : Z;
  ISCTRL : Z -> bool;
  CCHR : Z -> Z;
  isprint : Z -> bool;
  toupper : Z -> Z;
  getcolpos : mgwin -> Z;
  charswaiting : bool;      (* typeahead is pending *)
  macrodef : bool;          (* macrodef == TRUE *)
  globalwd : bool;
  clock : list Z            (* strftime(buf, 20, "  %H:%M", ...) *)
}.

(** The outcome of [update]. *)
Inductive outcome :=
| Returned (st : display)
| Panic (msg : string)
| Diverges.

(** ** Data of mouse.h *)

Inductive mouse_type := MOUSE_PRESS | MOUSE_RELEASE | MOUSE_DRAG.

Record mouse_event := {
  me_type : mouse_type;
  me_button : Z;
  me_x : Z;
  me_y : Z
}.

(** ** Assignments to one global *)

Definition set_vscreen (x : list video) (st : display) : display :=
  {| vscreen := x; pscreen := pscreen st; blanks := blanks st;
     scores := scores st; sgarbf := sgarbf st; epresf := epresf st;
     vtrow := vtrow st; vtcol := vtcol st; tthue := tthue st;
     ttcol := ttcol st; tttop := tttop st; ttbot := ttbot st;
     lbound := lbound st; linenos := linenos st; colnos := colnos st;
     timesh := timesh st; wheadp := wheadp st; curwp := curwp st;
     tty := tty st |}.

Definition set_pscreen (x : list video) (st : display) : display :=
  {| vscreen := vscreen st; pscreen := x; blanks := blanks st;
     scores := scores st; sgarbf := sgarbf st; epresf := epresf st;
     vtrow := vtrow st; vtcol := vtcol st; tthue := tthue st;
     ttcol := ttcol st; tttop := tttop st; ttbot := ttbot st;
     lbound := lbound st; linenos := linenos st; colnos := colnos st;
     timesh := timesh st; wheadp := wheadp st; curwp := curwp st;
     tty := tty st |}.

Definition set_blanks (x : video) (st : display) : display :=
  {| vscreen := vscreen st; pscreen := pscreen st; blanks := x;
     scores := scores st; sgarbf := sgarbf st; epresf := epresf st;
     vtrow := vtrow st; vtcol := vtcol st; tthue := tthue st;
     ttcol := ttcol st; tttop := tttop st; ttbot := ttbot st;
     lbound := lbound st; linenos := linenos st; colnos := colnos st;
     timesh := timesh st; wheadp := wheadp st; curwp := curwp st;
     tty := tty st |}.

Definition set_scores (x : list score) (st : display) : display :=
  {| vscreen := vscreen st; pscreen := pscreen st; blanks := blanks st;
     scores := x; sgarbf := sgarbf st; epresf := epresf st;
     vtrow := vtrow st; vtcol := vtcol st; tthue := tthue st;
     ttcol := ttcol st; tttop := tttop st; ttbot := ttbot st;
     lbound := lbound st; linenos := linenos st; colnos := colnos st;
     timesh := timesh st; wheadp := wheadp st; curwp := curwp st;
     tty := tty st |}.

Definition set_sgarbf (x : bool) (st : display) : display :=
  {| vscreen := vscreen st; pscreen := pscreen st; blanks := blanks st;
     scores := scores st; sgarbf := x; epresf := epresf st;
     vtrow := vtrow st; vtcol := vtcol st; tthue := tthue st;
     ttcol := ttcol st; tttop := tttop st; ttbot := ttbot st;
     lbound := lbound st; linenos := linenos st; colnos := colnos st;
     timesh := timesh st; wheadp := wheadp st; curwp := curwp st;
     tty := tty st |}.

Definition set_epresf (x : bool) (st : display) : display :=
  {| vscreen := vscreen st; pscreen := pscreen st; blanks := blanks st;
     scores := scores st; sgarbf := sgarbf st; epresf := x;
     vtrow := vtrow st; vtcol := vtcol st; tthue := tthue st;
     ttcol := ttcol st; tttop := tttop st; ttbot := ttbot st;
     lbound := lbound st; linenos := linenos st; colnos := colnos st;
     timesh := timesh st; wheadp := wheadp st; curwp := curwp st;
     tty := tty st |}.

Definition set_vtrow (x : Z) (st : display) : display :=
  {| vscreen := vscreen st; pscreen := pscreen st; blanks := blanks st;
     scores := scores st; sgarbf := sgarbf st; epresf := epresf st;
     vtrow := x; vtcol := vtcol st; tthue := tthue st; ttcol := ttcol st;
     tttop := tttop st; ttbot := ttbot st; lbound := lbound st;
     linenos := linenos st; colnos := colnos st; timesh := timesh st;
     wheadp := wheadp st; curwp := curwp st; tty := tty st |}.

Definition set_vtcol (x : Z) (st : display) : display :=
  {| vscreen := vscreen st; pscreen := pscreen st; blanks := blanks st;
     scores := scores st; sgarbf := sgarbf st; epresf := epresf st;
     vtrow := vtrow st; vtcol := x; tthue := tthue st; ttcol := ttcol st;
     tttop := tttop st; ttbot := ttbot st; lbound := lbound st;
     linenos := linenos st; colnos := colnos st; timesh := timesh st;
     wheadp := wheadp st; curwp := curwp st; tty := tty st |}.

Definition set_tthue (x : Z) (st : display) : display :=
  {| vscreen := vscreen st; pscreen := pscreen st; blanks := blanks st;
     scores := scores st; sgarbf := sgarbf st; epresf := epresf st;
     vtrow := vtrow st; vtcol := vtcol st; tthue := x; ttcol := ttcol st;
     tttop := tttop st; ttbot := ttbot st; lbound := lbound st;
     linenos := linenos st; colnos := colnos st; timesh := timesh st;
     wheadp := wheadp st; curwp := curwp st; tty := tty st |}.

Definition set_ttcol (x : Z) (st : display) : display :=
  {| vscreen := vscreen st; pscreen := pscreen st; blanks := blanks st;
     scores := scores st; sgarbf := sgarbf st; epresf := epresf st;
     vtrow := vtrow st; vtcol := vtcol st; tthue := tthue st; ttcol := x;
     tttop := tttop st; ttbot := ttbot st; lbound := lbound st;
     linenos := linenos st; colnos := colnos st; timesh := timesh st;
     wheadp := wheadp st; curwp := curwp st; tty := tty st |}.

Definition set_tttop (x : Z) (st : display) : display :=
  {| vscreen := vscreen st; pscreen := pscreen st; blanks := blanks st;
     scores := scores st; sgarbf := sgarbf st; epresf := epresf st;
     vtrow := vtrow st; vtcol := vtcol st; tthue := tthue st;
     ttcol := ttcol st; tttop := x; ttbot := ttbot st; lbound := lbound st;
     linenos := linenos st; colnos := colnos st; timesh := timesh st;
     wheadp := wheadp st; curwp := curwp st; tty := tty st |}.

Definition set_ttbot (x : Z) (st : display) : display :=
  {| vscreen := vscreen st; pscreen := pscreen st; blanks := blanks st;
     scores := scores st; sgarbf := sgarbf st; epresf := epresf st;
     vtrow := vtrow st; vtcol := vtcol st; tthue := tthue st;
     ttcol := ttcol st; tttop := tttop st; ttbot := x; lbound := lbound st;
     linenos := linenos st; colnos := colnos st; timesh := timesh st;
     wheadp := wheadp st; curwp := curwp st; tty := tty st |}.

Definition set_lbound (x : Z) (st : display) : display :=
  {| vscreen := vscreen st; pscreen := pscreen st; blanks := blanks st;
     scores := scores st; sgarbf := sgarbf st; epresf := epresf st;
     vtrow := vtrow st; vtcol := vtcol st; tthue := tthue st;
     ttcol := ttcol st; tttop := tttop st; ttbot := ttbot st; lbound := x;
     linenos := linenos st; colnos := colnos st; timesh := timesh st;
     wheadp := wheadp st; curwp := curwp st; tty := tty st |}.

Definition set_wheadp (x : list mgwin) (st : display) : display :=
  {| vscreen := vscreen st; pscreen := pscreen st; blanks := blanks st;
     scores := scores st; sgarbf := sgarbf st; epresf := epresf st;
     vtrow := vtrow st; vtcol := vtcol st; tthue := tthue st;
     ttcol := ttcol st; tttop := tttop st; ttbot := ttbot st;
     lbound := lbound st; linenos := linenos st; colnos := colnos st;
     timesh := timesh st; wheadp := x; curwp := curwp st; tty := tty st |}.

Definition set_tty (x : list ttyop) (st : display) : display :=
  {| vscreen := vscreen st; pscreen := pscreen st; blanks := blanks st;
     scores := scores st; sgarbf := sgarbf st; epresf := epresf st;
     vtrow := vtrow st; vtcol := vtcol st; tthue := tthue st;
     ttcol := ttcol st; tttop := tttop st; ttbot := ttbot st;
     lbound := lbound st; linenos := linenos st; colnos := colnos st;
     timesh := timesh st; wheadp := wheadp st; curwp := curwp st; tty := x |}.

(** ** Assignments to one member of a [struct video] *)

Definition set_v_hash (x : Z) (vp : video) : video :=
  {| v_hash := x; v_flag := v_flag vp; v_color := v_color vp;
     v_cost := v_cost vp; v_text := v_text vp; v_attr := v_attr vp |}.

Definition set_v_flag (x : Z) (vp : video) : video :=
  {| v_hash := v_hash vp; v_flag := x; v_color := v_color vp;
     v_cost := v_cost vp; v_text := v_text vp; v_attr := v_attr vp |}.

Definition set_v_color (x : Z) (vp : video) : video :=
  {| v_hash := v_hash vp; v_flag := v_flag vp; v_color := x;
     v_cost := v_cost vp; v_text := v_text vp; v_attr := v_attr vp |}.

Definition set_v_cost (x : Z) (vp : video) : video :=
  {| v_hash := v_hash vp; v_flag := v_flag vp; v_color := v_color vp;
     v_cost := x; v_text := v_text vp; v_attr := v_attr vp |}.

Definition set_v_text (x : list Z) (vp : video) : video :=
  {| v_hash := v_hash vp; v_flag := v_flag vp; v_color := v_color vp;
     v_cost := v_cost vp; v_text := x; v_attr := v_attr vp |}.

Definition set_v_attr (x : list Z) (vp : video) : video :=
  {| v_hash := v_hash vp; v_flag := v_flag vp; v_color := v_color vp;
     v_cost := v_cost vp; v_text := v_text vp; v_attr := x |}.


(** ** What the toggles and mouse.c take from the rest of the editor

    Constants of def.h and mouse.h, the word class of chrdef.h, and the two
    editor functions the mouse handler calls; none of them is among the
    sources.  The two functions are taken as they act on the globals
    modelled here: the display with its windows, and [curbp]. *)
Class Defs := {
  TRUE : Z; FALSE : Z;      (* the values commands return *)
  FFARG : Z;                (* the command was given an argument *)
  WFMOVE : Z; WFSAVE : Z;
  ISWORD : Z -> bool;
  MOUSE_BUTTON_LEFT : Z; MOUSE_WHEEL_UP : Z; MOUSE_WHEEL_DOWN : Z;
  isetmark : display -> buffer -> display * buffer;
  region_to_clipboard : display -> buffer -> display * buffer
}.

(** ** Data of mouse.c

    [curbp], which mouse.c reads and assigns, and the statics of the
    file; [sent] holds what was written to stdout. *)
Record mouse := {
  curbp : buffer;
  mouse_enabled : Z;
  mouse_down : Z;
  drag_start_x : Z;
  drag_start_y : Z;
  last_click_time : Z * Z;  (* tv_sec, tv_usec *)
  last_click_x : Z;
  last_click_y : Z;
  sent : list Z
}.

Definition DOUBLE_CLICK_MS : Z := 400.

Definition MOUSE_SGR_ON : list Z :=
  [27; 91; 63; 49; 48; 48; 48; 104; 27; 91; 63; 49; 48; 48; 50; 104;
   27; 91; 63; 49; 48; 48; 54; 104].

Definition MOUSE_SGR_OFF : list Z :=
  [27; 91; 63; 49; 48; 48; 54; 108; 27; 91; 63; 49; 48; 48; 50; 108;
   27; 91; 63; 49; 48; 48; 48; 108].

(** The value a [long] holds after an operation whose mathematical result
    is [z]. *)
Definition to_long (z : Z) : Z :=
  (z + 9223372036854775808) mod 18446744073709551616 - 9223372036854775808.

(** ** Assignments to the mode flags and to the current window *)

Definition set_linenos (x : bool) (st : display) : display :=
  {| vscreen := vscreen st; pscreen := pscreen st; blanks := blanks st;
     scores := scores st; sgarbf := sgarbf st; epresf := epresf st;
     vtrow := vtrow st; vtcol := vtcol st; tthue := tthue st;
     ttcol := ttcol st; tttop := tttop st; ttbot := ttbot st;
     lbound := lbound st; linenos := x; colnos := colnos st;
     timesh := timesh st; wheadp := wheadp st; curwp := curwp st;
     tty := tty st |}.

Definition set_colnos (x : bool) (st : display) : display :=
  {| vscreen := vscreen st; pscreen := pscreen st; blanks := blanks st;
     scores := scores st; sgarbf := sgarbf st; epresf := epresf st;
     vtrow := vtrow st; vtcol := vtcol st; tthue := tthue st;
     ttcol := ttcol st; tttop := tttop st; ttbot := ttbot st;
     lbound := lbound st; linenos := linenos st; colnos := x;
     timesh := timesh st; wheadp := wheadp st; curwp := curwp st;
     tty := tty st |}.

Definition set_timesh (x : bool) (st : display) : display :=
  {| vscreen := vscreen st; pscreen := pscreen st; blanks := blanks st;
     scores := scores st; sgarbf := sgarbf st; epresf := epresf st;
     vtrow := vtrow st; vtcol := vtcol st; tthue := tthue st;
     ttcol := ttcol st; tttop := tttop st; ttbot := ttbot st;
     lbound := lbound st; linenos := linenos st; colnos := colnos st;
     timesh := x; wheadp := wheadp st; curwp := curwp st; tty := tty st |}.

Definition set_curwp (x : nat) (st : display) : display :=
  {| vscreen := vscreen st; pscreen := pscreen st; blanks := blanks st;
     scores := scores st; sgarbf := sgarbf st; epresf := epresf st;
     vtrow := vtrow st; vtcol := vtcol st; tthue := tthue st;
     ttcol := ttcol st; tttop := tttop st; ttbot := ttbot st;
     lbound := lbound st; linenos := linenos st; colnos := colnos st;
     timesh := timesh st; wheadp := wheadp st; curwp := x; tty := tty st |}.

(** ** Assignments to the dot and the mark of a window *)

Definition set_w_dotp (x : nat) (wp : mgwin) : mgwin :=
  {| w_bufp := w_bufp wp; w_linep := w_linep wp; w_dotp := x;
     w_markp := w_markp wp; w_doto := w_doto wp; w_marko := w_marko wp;
     w_dotline := w_dotline wp; w_markline := w_markline wp;
     w_toprow := w_toprow wp; w_ntrows := w_ntrows wp; w_rflag := w_rflag wp;
     w_frame := w_frame wp |}.

Definition set_w_doto (x : Z) (wp : mgwin) : mgwin :=
  {| w_bufp := w_bufp wp; w_linep := w_linep wp; w_dotp := w_dotp wp;
     w_markp := w_markp wp; w_doto := x; w_marko := w_marko wp;
     w_dotline := w_dotline wp; w_markline := w_markline wp;
     w_toprow := w_toprow wp; w_ntrows := w_ntrows wp; w_rflag := w_rflag wp;
     w_frame := w_frame wp |}.

Definition set_w_dotline (x : Z) (wp : mgwin) : mgwin :=
  {| w_bufp := w_bufp wp; w_linep := w_linep wp; w_dotp := w_dotp wp;
     w_markp := w_markp wp; w_doto := w_doto wp; w_marko := w_marko wp;
     w_dotline := x; w_markline := w_markline wp; w_toprow := w_toprow wp;
     w_ntrows := w_ntrows wp; w_rflag := w_rflag wp; w_frame := w_frame wp |}.

Definition set_w_markp (x : option nat) (wp : mgwin) : mgwin :=
  {| w_bufp := w_bufp wp; w_linep := w_linep wp; w_dotp := w_dotp wp;
     w_markp := x; w_doto := w_doto wp; w_marko := w_marko wp;
     w_dotline := w_dotline wp; w_markline := w_markline wp;
     w_toprow := w_toprow wp; w_ntrows := w_ntrows wp; w_rflag := w_rflag wp;
     w_frame := w_frame wp |}.

Definition set_w_marko (x : Z) (wp : mgwin) : mgwin :=
  {| w_bufp := w_bufp wp; w_linep := w_linep wp; w_dotp := w_dotp wp;
     w_markp := w_markp wp; w_doto := w_doto wp; w_marko := x;
     w_dotline := w_dotline wp; w_markline := w_markline wp;
     w_toprow := w_toprow wp; w_ntrows := w_ntrows wp; w_rflag := w_rflag wp;
     w_frame := w_frame wp |}.

Definition set_w_markline (x : Z) (wp : mgwin) : mgwin :=
  {| w_bufp := w_bufp wp; w_linep := w_linep wp; w_dotp := w_dotp wp;
     w_markp := w_markp wp; w_doto := w_doto wp; w_marko := w_marko wp;
     w_dotline := w_dotline wp; w_markline := x; w_toprow := w_toprow wp;
     w_ntrows := w_ntrows wp; w_rflag := w_rflag wp; w_frame := w_frame wp |}.

(** ** Assignments to the globals of mouse.c *)

Definition set_curbp (x : buffer) (m : mouse) : mouse :=
  {| curbp := x; mouse_enabled := mouse_enabled m; mouse_down := mouse_down
     m; drag_start_x := drag_start_x m; drag_start_y := drag_start_y m;
     last_click_time := last_click_time m; last_click_x := last_click_x m;
     last_click_y := last_click_y m; sent := sent m |}.

Definition set_mouse_enabled (x : Z) (m : mouse) : mouse :=
  {| curbp := curbp m; mouse_enabled := x; mouse_down := mouse_down m;
     drag_start_x := drag_start_x m; drag_start_y := drag_start_y m;
     last_click_time := last_click_time m; last_click_x := last_click_x m;
     last_click_y := last_click_y m; sent := sent m |}.

Definition set_mouse_down (x : Z) (m : mouse) : mouse :=
  {| curbp := curbp m; mouse_enabled := mouse_enabled m; mouse_down := x;
     drag_start_x := drag_start_x m; drag_start_y := drag_start_y m;
     last_click_time := last_click_time m; last_click_x := last_click_x m;
     last_click_y := last_click_y m; sent := sent m |}.

Definition set_drag_start_x (x : Z) (m : mouse) : mouse :=
  {| curbp := curbp m; mouse_enabled := mouse_enabled m; mouse_down :=
     mouse_down m; drag_start_x := x; drag_start_y := drag_start_y m;
     last_click_time := last_click_time m; last_click_x := last_click_x m;
     last_click_y := last_click_y m; sent := sent m |}.

Definition set_drag_start_y (x : Z) (m : mouse) : mouse :=
  {| curbp := curbp m; mouse_enabled := mouse_enabled m; mouse_down :=
     mouse_down m; drag_start_x := drag_start_x m; drag_start_y := x;
     last_click_time := last_click_time m; last_click_x := last_click_x m;
     last_click_y := last_click_y m; sent := sent m |}.

Definition set_last_click_time (x : Z * Z) (m : mouse) : mouse :=
  {| curbp := curbp m; mouse_enabled := mouse_enabled m; mouse_down :=
     mouse_down m; drag_start_x := drag_start_x m; drag_start_y :=
     drag_start_y m; last_click_time := x; last_click_x := last_click_x m;
     last_click_y := last_click_y m; sent := sent m |}.

Definition set_last_click_x (x : Z) (m : mouse) : mouse :=
  {| curbp := curbp m; mouse_enabled := mouse_enabled m; mouse_down :=
     mouse_down m; drag_start_x := drag_start_x m; drag_start_y :=
     drag_start_y m; last_click_time := last_click_time m; last_click_x :=
     x; last_click_y := last_click_y m; sent := sent m |}.

Definition set_last_click_y (x : Z) (m : mouse) : mouse :=
  {| curbp := curbp m; mouse_enabled := mouse_enabled m; mouse_down :=
     mouse_down m; drag_start_x := drag_start_x m; drag_start_y :=
     drag_start_y m; last_click_time := last_click_time m; last_click_x :=
     last_click_x m; last_click_y := x; sent := sent m |}.

Definition set_sent (x : list Z) (m : mouse) : mouse :=
  {| curbp := curbp m; mouse_enabled := mouse_enabled m; mouse_down :=
     mouse_down m; drag_start_x := drag_start_x m; drag_start_y :=
     drag_start_y m; last_click_time := last_click_time m; last_click_x :=
     last_click_x m; last_click_y := last_click_y m; sent := x |}.
(** ** Assignments to one member of a window *)

Definition set_w_rflag (x : Z) (wp : mgwin) : mgwin :=
  {| w_bufp := w_bufp wp; w_linep := w_linep wp; w_dotp := w_dotp wp;
     w_markp := w_markp wp; w_doto := w_doto wp; w_marko := w_marko wp;
     w_dotline := w_dotline wp; w_markline := w_markline wp;
     w_toprow := w_toprow wp; w_ntrows := w_ntrows wp; w_rflag := x;
     w_frame := w_frame wp |}.

Definition set_w_frame (x : Z) (wp : mgwin) : mgwin :=
  {| w_bufp := w_bufp wp; w_linep := w_linep wp; w_dotp := w_dotp wp;
     w_markp := w_markp wp; w_doto := w_doto wp; w_marko := w_marko wp;
     w_dotline := w_dotline wp; w_markline := w_markline wp;
     w_toprow := w_toprow wp; w_ntrows := w_ntrows wp; w_rflag := w_rflag wp;
     w_frame := x |}.

Definition set_w_linep (x : nat) (wp : mgwin) : mgwin :=
  {| w_bufp := w_bufp wp; w_linep := x; w_dotp := w_dotp wp;
     w_markp := w_markp wp; w_doto := w_doto wp; w_marko := w_marko wp;
     w_dotline := w_dotline wp; w_markline := w_markline wp;
     w_toprow := w_toprow wp; w_ntrows := w_ntrows wp; w_rflag := w_rflag wp;
     w_frame := w_frame wp |}.

(** The window with the places of mark and dot exchanged. *)
Definition swap_mark_dot (wp : mgwin) : mgwin :=
  {| w_bufp := w_bufp wp; w_linep := w_linep wp; w_dotp := w_dotp wp;
     w_markp := w_markp wp; w_doto := w_marko wp; w_marko := w_doto wp;
     w_dotline := w_markline wp; w_markline := w_dotline wp;
     w_toprow := w_toprow wp; w_ntrows := w_ntrows wp; w_rflag := w_rflag wp;
     w_frame := w_frame wp |}.

Definition buffer0 : buffer :=
  {| b_lines := []; b_flag := 0; b_bname := []; b_tabw := 8; b_modes := [];
     b_nmodes := 0 |}.

Definition mgwin0 : mgwin :=
  {| w_bufp := buffer0; w_linep := 0%nat; w_dotp := 0%nat; w_markp := None;
     w_doto := 0; w_marko := 0; w_dotline := 0; w_markline := 0;
     w_toprow := 0; w_ntrows := 0; w_rflag := 0; w_frame := 0 |}.

(** ** The line list of a buffer *)

(** Modelled from the spec: the line macros of def.h (lforw, lback, llength,
    lgetc) and the buffer's header line are not among the sources; the
    window/buffer model offers "line enumeration (character sequence, length,
    next/previous line)".  The lines form a ring closed by the header. *)
Definition b_headp (bp : buffer) : nat := length (b_lines bp).

Definition lforw (bp : buffer) (lp : nat) : nat :=
  if (lp <? b_headp bp)%nat then S lp else 0%nat.

Definition lback (bp : buffer) (lp : nat) : nat :=
  match lp with
  | O => b_headp bp
  | S p => p
  end.

Definition ltext (bp : buffer) (lp : nat) : list Z := nth lp (b_lines bp) [].

Definition llength (bp : buffer) (lp : nat) : Z := Z.of_nat (length (ltext bp lp)).

Definition lgetc (bp : buffer) (lp : nat) (n : Z) : Z := chr (ltext bp lp) n.

(** Modelled from the spec: the macro ntabstop of def.h is not among the
    sources; "a tab at column C with tab width W advances the column to the
    next multiple of W".  The division is C's, which truncates. *)
Definition ntabstop (col tabw : Z) : Z := Z.quot (col + tabw) tabw * tabw.

(** ** Formatting done by snprintf *)

(** The digits of [n] in base [base], least significant first. *)
Fixpoint digits_rev (base : Z) (fuel : nat) (n : Z) : list Z :=
  match fuel with
  | O => []
  | S k =>
      (48 + n mod base)
        :: (if n / base =? 0 then [] else digits_rev base k (n / base))
  end.

Definition fmt_unsigned (base n : Z) : list Z := rev (digits_rev base 32 n).

(** "%d" *)
Definition fmt_int (n : Z) : list Z :=
  if n <? 0 then 45 :: fmt_unsigned 10 (- n) else fmt_unsigned 10 n.

(** The string [snprintf(bf, sizeof(bf), "\\%o", c)] leaves in [char bf[5]]. *)
Definition bf_octal (c : Z) : list Z := take 4 (92 :: fmt_unsigned 8 c).

(** ** Loops *)

(** [for (col = lo; col < hi; col++) body], the body not assigning [col]. *)
Fixpoint for_lt {S : Type} (n : nat) (col hi : Z) (body : Z -> S -> S) (s : S) : S :=
  match n with
  | O => s
  | S n' => if col <? hi then for_lt n' (col + 1) hi body (body col s) else s
  end.

Definition for_range {S : Type} (lo hi : Z) (body : Z -> S -> S) (s : S) : S :=
  for_lt (Z.to_nat (hi - lo)) lo hi body s.

(** [do body while (cond)]; [None] when [n] rounds do not end it. *)
Fixpoint do_while {S : Type} (body : S -> option S) (cond : S -> bool)
    (n : nat) (s : S) : option S :=
  match n with
  | O => None
  | S n' =>
      s' ← body s;
      if cond s' then do_while body cond n' s' else Some s'
  end.

(** ** mouse.c *)

(** [while ((c = ttgetc()) >= '0' && c <= '9') v = v * 10 + (c - '0');]
    over the pending input: the number read, the character that ended it and
    the input left.  [None] when the input ends first (ttgetc waits). *)
Fixpoint read_number (v : Z) (input : list Z) : option (Z * Z * list Z) :=
  match input with
  | [] => None
  | c :: rest =>
      if (48 <=? c) && (c <=? 57)
      then read_number (to_int (v * 10 + (c - 48))) rest
      else Some (v, c, rest)
  end.

(** mouse_parse: the value returned, the event behind [mep] and the input
    left. *)
Definition mouse_parse (startc : Z) (mep : mouse_event) (input : list Z)
    : option (Z * mouse_event * list Z) :=
  if negb (startc =? 60) then Some (0, mep, input)
  else
    '(button, c, input) ← read_number 0 input;
    if negb (c =? 59) then Some (0, mep, input)
    else
      '(x, c, input) ← read_number 0 input;
      if negb (c =? 59) then Some (0, mep, input)
      else
        '(y, c, input) ← read_number 0 input;
        if negb (c =? 109) && negb (c =? 77) then Some (0, mep, input)
        else
          let released := c =? 109 in
          let x := to_int (x - 1) in
          let y := to_int (y - 1) in
          let '(ty, b) :=
            if negb (Z.land button 32 =? 0)
            then (MOUSE_DRAG, Z.land button (Z.lnot 32))
            else if released then (MOUSE_RELEASE, button)
            else (MOUSE_PRESS, button) in
          Some (1, {| me_type := ty; me_button := b; me_x := x; me_y := y |}, input).

(** The value of a string of decimal digits. *)
Definition digits_value (ds : list Z) : Z :=
  fold_left (fun v d => v * 10 + (d - 48)) ds 0.

Definition is_digit (c : Z) : Prop := 48 <= c <= 57.

(** ** display.c: selection *)

Definition in_selection (wp : mgwin) (line_num offset : Z) : Z :=
  match w_markp wp with
  | None => 0
  | Some _ =>
      let mark_line := w_markline wp in
      let dot_line := w_dotline wp in
      let mark_off := w_marko wp in
      let dot_off := w_doto wp in
      if (mark_line =? dot_line) && (mark_off =? dot_off) then 0
      else
        let '(start_line, start_off, end_line, end_off) :=
          if (mark_line <? dot_line)
             || ((mark_line =? dot_line) && (mark_off <? dot_off))
          then (mark_line, mark_off, dot_line, dot_off)
          else (dot_line, dot_off, mark_line, mark_off) in
        if (line_num <? start_line) || (line_num >? end_line) then 0
        else if (line_num =? start_line) && (offset <? start_off) then 0
        else if (line_num =? end_line) && (offset >=? end_off) then 0
        else 1
  end.

(** Document order on positions (line, offset). *)
Definition pos_lt (p q : Z * Z) : Prop :=
  p.1 < q.1 \/ (p.1 = q.1 /\ p.2 < q.2).

Definition pos_le (p q : Z * Z) : Prop :=
  p.1 < q.1 \/ (p.1 = q.1 /\ p.2 <= q.2).

Definition pos_ltb (p q : Z * Z) : bool :=
  (p.1 <? q.1) || ((p.1 =? q.1) && (p.2 <? q.2)).

(** The earlier and the later of two positions. *)
Definition sel_start (p q : Z * Z) : Z * Z := if pos_ltb q p then q else p.
Definition sel_end (p q : Z * Z) : Z * Z := if pos_ltb q p then p else q.

Definition w_mark (wp : mgwin) : Z * Z := (w_markline wp, w_marko wp).
Definition w_dot (wp : mgwin) : Z * Z := (w_dotline wp, w_doto wp).

(** ** The current window

    [curwp] is the place of the current window in the list of windows;
    an assignment through it changes the window in the list. *)
Definition cur_window (st : display) : mgwin :=
  nth (curwp st) (wheadp st) mgwin0.

Definition set_cur_window (wp : mgwin) (st : display) : display :=
  set_wheadp (<[curwp st := wp]> (wheadp st)) st.

(** The current window with the mark put where dot is. *)
Definition mark_at_dot (st : display) : display :=
  let wp := cur_window st in
  set_cur_window
    (set_w_markline (w_dotline wp)
       (set_w_marko (w_doto wp) (set_w_markp (Some (w_dotp wp)) wp))) st.
(** ** A sample configuration

    The values def.h and chrdef.h give the constants and character classes
    in mg, on a terminal of three rows and eight columns; the statements
    below are tried on it. *)

Definition sample_env : Env :=
  {| ncol := 8; nrow := 3;
     tceeol := 3; tcinsl := 5; tcdell := 5;
     HUGE := 1000;
     CNONE := 0; CTEXT := 1; CMODE := 2; CSELECT := 3;
     WFFRAME := 1; WFEDIT := 4; WFFULL := 8; WFMODE := 16;
     BFREADONLY := 16; BFCHG := 1;
     ISCTRL := fun c => (c <? 32) || (c =? 127);
     CCHR := fun c => Z.lxor c 64;
     isprint := fun c => (32 <=? c) && (c <=? 126);
     toupper := fun c => if (97 <=? c) && (c <=? 122) then c - 32 else c;
     getcolpos := fun wp => w_doto wp + 1;
     charswaiting := false;
     macrodef := false;
     globalwd := false;
     clock := [32; 32; 49; 50; 58; 51; 48] |}.

(** A buffer of one line, "ab", shown in a window of one row. *)
Definition sample_buffer : buffer :=
  {| b_lines := [[97; 98]]; b_flag := 0; b_bname := [109]; b_tabw := 8;
     b_modes := [[102]]; b_nmodes := 0 |}.

Definition sample_window : mgwin :=
  {| w_bufp := sample_buffer; w_linep := 0%nat; w_dotp := 0%nat; w_markp := None;
     w_doto := 0; w_marko := 0; w_dotline := 1; w_markline := 0;
     w_toprow := 0; w_ntrows := 1; w_rflag := 0; w_frame := 0 |}.

Definition blank_row (color : Z) : video :=
  {| v_hash := 0; v_flag := 0; v_color := color; v_cost := 0;
     v_text := replicate 8 32; v_attr := replicate 8 0 |}.

(** The display as vtinit leaves it: the screen is garbage. *)
Definition sample_display : display :=
  {| vscreen := [blank_row 0; blank_row 0];
     pscreen := [blank_row 0; blank_row 0];
     blanks := blank_row 1;
     scores := replicate 9 score0;
     sgarbf := true; epresf := false;
     vtrow := 1000; vtcol := 1000;
     tthue := 0; ttcol := 1000; tttop := 1000; ttbot := 1000;
     lbound := 0;
     linenos := true; colnos := true; timesh := false;
     wheadp := [sample_window]; curwp := 0%nat;
     tty := [] |}.

(** The sample display with the line and column numbers off. *)
Definition sample_plain : display :=
  {| vscreen := vscreen sample_display; pscreen := pscreen sample_display;
     blanks := blanks sample_display; scores := scores sample_display;
     sgarbf := true; epresf := false; vtrow := 1000; vtcol := 1000;
     tthue := 0; ttcol := 1000; tttop := 1000; ttbot := 1000; lbound := 0;
     linenos := false; colnos := false; timesh := false;
     wheadp := [sample_window]; curwp := 0%nat; tty := [] |}.

(** Two screens after a line was deleted above them: the physical rows are
    A and B, the virtual rows B and C (hashes 7, 9 and 11). *)
Definition sample_row (hash cost : Z) : video :=
  {| v_hash := hash; v_flag := 0; v_color := 1; v_cost := cost;
     v_text := replicate 8 32; v_attr := replicate 8 0 |}.

Definition sample_shifted : display :=
  {| vscreen := [sample_row 9 4; sample_row 11 6];
     pscreen := [sample_row 7 3; sample_row 9 4];
     blanks := blank_row 1; scores := replicate 9 score0;
     sgarbf := false; epresf := false; vtrow := 0; vtcol := 0;
     tthue := 0; ttcol := 0; tttop := 1000; ttbot := 1000; lbound := 0;
     linenos := false; colnos := false; timesh := false;
     wheadp := [sample_window]; curwp := 0%nat; tty := [] |}.

(** A row that reads "ab" and whose hash is stale. *)
Definition sample_stale : video :=
  {| v_hash := 0; v_flag := 2; v_color := 1; v_cost := 0;
     v_text := [97; 98; 32; 32; 32; 32; 32; 32]; v_attr := replicate 8 0 |}.

(** A window on a buffer with tab stops every three columns. *)
Definition sample_tabs : mgwin :=
  {| w_bufp := {| b_lines := [[9]]; b_flag := 0; b_bname := [109]; b_tabw := 3;
                  b_modes := [[102]]; b_nmodes := 0 |};
     w_linep := 0%nat; w_dotp := 0%nat; w_markp := None;
     w_doto := 0; w_marko := 0; w_dotline := 1; w_markline := 0;
     w_toprow := 0; w_ntrows := 1; w_rflag := 0; w_frame := 0 |}.

(** A window whose selection runs from (line 2, column 3) to (line 5,
    column 1), the mark being the later end, with an edit pending. *)
Definition sample_selecting : mgwin :=
  {| w_bufp := sample_buffer; w_linep := 0%nat; w_dotp := 0%nat;
     w_markp := Some 0%nat;
     w_doto := 3; w_marko := 1; w_dotline := 2; w_markline := 5;
     w_toprow := 0; w_ntrows := 1; w_rflag := 4; w_frame := 0 |}.


(** A window on the line tab, "a", with tab stops every three columns and
    dot after the "a". *)
Definition sample_tabbed : mgwin :=
  {| w_bufp := {| b_lines := [[9; 97]]; b_flag := 0; b_bname := [109]; b_tabw := 3;
                  b_modes := [[102]]; b_nmodes := 0 |};
     w_linep := 0%nat; w_dotp := 0%nat; w_markp := None;
     w_doto := 2; w_marko := 0; w_dotline := 1; w_markline := 0;
     w_toprow := 0; w_ntrows := 1; w_rflag := 0; w_frame := 0 |}.

(** The values def.h and mouse.h give the constants in mg; isetmark puts
    the mark where dot is, and copying the region to the clipboard changes
    neither the windows nor the current buffer. *)
Definition sample_defs : Defs :=
  {| TRUE := 1; FALSE := 0; FFARG := 7; WFMOVE := 2; WFSAVE := 32;
     ISWORD := fun c => ((48 <=? c) && (c <=? 57)) || ((65 <=? c) && (c <=? 90))
                        || ((97 <=? c) && (c <=? 122));
     MOUSE_BUTTON_LEFT := 0; MOUSE_WHEEL_UP := 64; MOUSE_WHEEL_DOWN := 65;
     isetmark := fun st bp => (mark_at_dot st, bp);
     region_to_clipboard := fun st bp => (st, bp) |}.

(** A buffer of three lines, "ab cd", tab "x" and "e", with tab stops every
    four columns, in a window of one row with dot at the start. *)
Definition sample_text : buffer :=
  {| b_lines := [[97; 98; 32; 99; 100]; [9; 120]; [101]]; b_flag := 0;
     b_bname := [116]; b_tabw := 4; b_modes := [[102]]; b_nmodes := 0 |}.

Definition sample_lines : mgwin :=
  {| w_bufp := sample_text; w_linep := 0%nat; w_dotp := 0%nat; w_markp := None;
     w_doto := 0; w_marko := 0; w_dotline := 1; w_markline := 0;
     w_toprow := 0; w_ntrows := 1; w_rflag := 0; w_frame := 0 |}.

Definition sample_click : display := set_wheadp [sample_lines] sample_plain.

(** The globals of mouse.c as they are when mg starts, [curbp] being the
    buffer of three lines. *)
Definition sample_mouse : mouse :=
  {| curbp := sample_text; mouse_enabled := 0; mouse_down := 0;
     drag_start_x := -1; drag_start_y := -1; last_click_time := (0, 0);
     last_click_x := -1; last_click_y := -1; sent := [] |}.

(** A line wider than the sample terminal, "abcdefghij", with dot on
    the "j". *)
Definition sample_wide : display :=
  set_wheadp
    [{| w_bufp := {| b_lines := [[97; 98; 99; 100; 101; 102; 103; 104; 105; 106]];
                     b_flag := 0; b_bname := [119]; b_tabw := 8; b_modes := [[102]];
                     b_nmodes := 0 |};
        w_linep := 0%nat; w_dotp := 0%nat; w_markp := None;
        w_doto := 9; w_marko := 0; w_dotline := 1; w_markline := 0;
        w_toprow := 0; w_ntrows := 1; w_rflag := 0; w_frame := 0 |}]
    sample_plain.
Section Display.
Context {E : Env}.

(** ** Rows of the two screens, and the driver *)

Definition vrow (st : display) (i : Z) : video := rd video0 (vscreen st) i.
Definition prow (st : display) (i : Z) : video := rd video0 (pscreen st) i.

Definition set_vrow (i : Z) (vp : video) (st : display) : display :=
  set_vscreen (zset (vscreen st) i vp) st.

Definition set_prow (i : Z) (vp : video) (st : display) : display :=
  set_pscreen (zset (pscreen st) i vp) st.

(** The row a [struct video *pvp] argument points at: a row of the physical
    screen, or the blank line image. *)
Inductive pvp_ref :=
| PScreen (i : Z)
| Blanks.

Definition pvp_get (r : pvp_ref) (st : display) : video :=
  match r with
  | PScreen i => prow st i
  | Blanks => blanks st
  end.

Definition pvp_set (r : pvp_ref) (vp : video) (st : display) : display :=
  match r with
  | PScreen i => set_prow i vp st
  | Blanks => set_blanks vp st
  end.

Definition emit (op : ttyop) (st : display) : display :=
  set_tty (tty st ++ [op]) st.

Definition ttmove (row col : Z) : display -> display := emit (TtMove row col).
Definition ttcolor (color : Z) : display -> display := emit (TtColor color).
Definition tteeol : display -> display := emit TtEeol.
Definition tteeop : display -> display := emit TtEeop.
Definition ttflush : display -> display := emit TtFlush.
Definition ttinsl (row bot nchunk : Z) : display -> display := emit (TtInsl row bot nchunk).
Definition ttdell (row bot nchunk : Z) : display -> display := emit (TtDell row bot nchunk).

(** [ttputc(c); ++ttcol;] *)
Definition ttputc (c : Z) (st : display) : display :=
  set_ttcol (ttcol st + 1) (emit (TtPutc c) st).

(** ** hash *)

(** [for (i = ncol; i != 0; --i, --s) if (s[0] != ' ') break;] *)
Fixpoint hash_scan (n : nat) (text : list Z) (i s : Z) : Z * Z :=
  match n with
  | O => (i, s)
  | S n' =>
      if i =? 0 then (i, s)
      else if negb (chr text s =? 32) then (i, s)
      else hash_scan n' text (i - 1) (s - 1)
  end.

(** [for (n = 0; i != 0; --i, --s) n = (n << 5) + n + s[0];] *)
Fixpoint hash_fold (k : nat) (text : list Z) (i s n : Z) : Z :=
  match k with
  | O => n
  | S k' =>
      if i =? 0 then n
      else hash_fold k' text (i - 1) (s - 1) (to_int (Z.shiftl n 5 + n + chr text s))
  end.

Definition hash (vp : video) : video :=
  if negb (Z.land (v_flag vp) VFHBAD =? 0) then
    let '(i, s) := hash_scan (Z.to_nat ncol) (v_text vp) ncol (ncol - 1) in
    let n := ncol - i in
    let n := if n >? tceeol then tceeol else n in
    let vp := set_v_cost (i + n) vp in
    let n := hash_fold (Z.to_nat ncol) (v_text vp) i s 0 in
    let vp := set_v_hash (to_short n) vp in
    set_v_flag (Z.land (v_flag vp) (Z.lnot VFHBAD)) vp
  else vp.

(** A row without its trailing blanks: the cells up to and including the
    last non-blank. *)
Fixpoint drop_blanks (l : list Z) : list Z :=
  match l with
  | c :: l' => if c =? 32 then drop_blanks l' else l
  | [] => []
  end.

Definition significant (text : list Z) : list Z :=
  reverse (drop_blanks (reverse text)).

(** The rolling hash of a run of cells, the first cell folded first. *)
Definition rolling_hash (cells : list Z) : Z :=
  fold_left (fun n c => to_int (Z.shiftl n 5 + n + c)) cells 0.

(** ** ucopy *)

(** The two rows after [ucopy(vvp, pvp)]. *)
Definition ucopy (vvp pvp : video) : video * video :=
  let vvp := set_v_flag (Z.land (v_flag vvp) (Z.lnot VFCHG)) vvp in
  let pvp := set_v_flag (v_flag vvp) pvp in
  let pvp := set_v_hash (v_hash vvp) pvp in
  let pvp := set_v_cost (v_cost vvp) pvp in
  let pvp := set_v_color (v_color vvp) pvp in
  let pvp := set_v_text (bcopy ncol (v_text vvp) (v_text pvp)) pvp in
  let pvp := set_v_attr (bcopy ncol (v_attr vvp) (v_attr pvp)) pvp in
  (vvp, pvp).

(** [ucopy(vscreen[i], pscreen[i])] *)
Definition ucopy_row (i : Z) (st : display) : display :=
  let '(vvp, pvp) := ucopy (vrow st i) (prow st i) in
  set_prow i pvp (set_vrow i vvp st).

(** ** uline *)

(** The first loop of uline: some column below [ncol] has a non-zero
    attribute. *)
Definition has_selection (vvp : video) : bool :=
  for_range 0 ncol
    (fun col found => found || negb (chr (v_attr vvp) col =? 0)) false.

(** [for (col = lo; col < hi; col++) { ttputc(vvp->v_text[col]); ++ttcol; }] *)
Definition put_cells (vvp : video) (lo hi : Z) (st : display) : display :=
  for_range lo hi (fun col st => ttputc (chr (v_text vvp) col) st) st.

(** The text-line loop of the full redraw: the color is switched where the
    attribute changes. *)
Definition put_cells_attr (vvp : video) (st : display) : display :=
  snd (for_range 0 ncol
         (fun col '(cur_attr, st) =>
            let attr := chr (v_attr vvp) col in
            let '(cur_attr, st) :=
              if negb (attr =? cur_attr)
              then (attr, ttcolor (if negb (attr =? 0) then CSELECT else CTEXT) st)
              else (cur_attr, st) in
            (cur_attr, ttputc (chr (v_text vvp) col) st))
         (-1, st)).

(** [while (start < ncol && vvp->v_text[start] == pvp->v_text[start]) start++;] *)
Fixpoint left_match (n : nat) (vvp pvp : video) (start : Z) : Z :=
  match n with
  | O => start
  | S n' =>
      if (start <? ncol) && (chr (v_text vvp) start =? chr (v_text pvp) start)
      then left_match n' vvp pvp (start + 1)
      else start
  end.

(** The right match: [end] and [nbflag] after the second while loop. *)
Fixpoint right_match (n : nat) (vvp pvp : video) (start end_ : Z) (nbflag : bool)
    : Z * bool :=
  match n with
  | O => (end_, nbflag)
  | S n' =>
      if (end_ >? start)
         && (chr (v_text vvp) (end_ - 1) =? chr (v_text pvp) (end_ - 1))
      then
        let end_ := end_ - 1 in
        let nbflag := if negb (chr (v_text vvp) end_ =? 32) then true else nbflag in
        right_match n' vvp pvp start end_ nbflag
      else (end_, nbflag)
  end.

(** [while (eol_start > start && vvp->v_text[eol_start - 1] == ' ') eol_start--;] *)
Fixpoint blank_run (n : nat) (vvp : video) (start eol_start : Z) : Z :=
  match n with
  | O => eol_start
  | S n' =>
      if (eol_start >? start) && (chr (v_text vvp) (eol_start - 1) =? 32)
      then blank_run n' vvp start (eol_start - 1)
      else eol_start
  end.

(** [uline(row, vvp, pvp)], [vvp] a row of the virtual screen (only read)
    and [pvp] the row the reference points at.  STANDOUT_GLITCH is not
    defined. *)
Definition uline (row : Z) (vvp : video) (pvp : pvp_ref) (st : display) : display :=
  let pv := pvp_get pvp st in
  if (v_color vvp =? CMODE) || has_selection vvp
     || negb (v_color vvp =? v_color pv)
     || memdiff ncol (v_attr vvp) (v_attr pv)
  then
    let st := ttmove row 0 st in
    let st :=
      if v_color vvp =? CMODE
      then ttcolor CTEXT (put_cells vvp 0 ncol (ttcolor CMODE st))
      else ttcolor CTEXT (put_cells_attr vvp st) in
    pvp_set pvp (set_v_attr (bcopy ncol (v_attr vvp) (v_attr (pvp_get pvp st)))
                   (pvp_get pvp st)) st
  else
    let start := left_match (Z.to_nat ncol) vvp pv 0 in
    if start =? ncol then st
    else
      let '(end_, nbflag) := right_match (Z.to_nat ncol) vvp pv start ncol false in
      if negb nbflag && (v_color vvp =? CTEXT) then
        let eol_start := blank_run (Z.to_nat ncol) vvp start end_ in
        let eol_start := if end_ - eol_start <=? tceeol then end_ else eol_start in
        let st := ttmove row start st in
        let st := ttcolor CTEXT st in
        let st := put_cells vvp start eol_start st in
        if negb (eol_start =? end_) then tteeol st else st
      else
        let st := ttmove row start st in
        let st := ttcolor (v_color vvp) st in
        put_cells vvp start end_ st.

(** ** The virtual screen builder *)

Definition vtmove (row col : Z) (st : display) : display :=
  set_vtcol col (set_vtrow row st).

(** [vscreen[vtrow]->v_text[col] = c] *)
Definition vt_text (col c : Z) (st : display) : display :=
  let vp := vrow st (vtrow st) in
  set_vrow (vtrow st) (set_v_text (zset (v_text vp) col c) vp) st.

(** [vscreen[vtrow]->v_attr[col] = a] *)
Definition vt_attr (col a : Z) (st : display) : display :=
  let vp := vrow st (vtrow st) in
  set_vrow (vtrow st) (set_v_attr (zset (v_attr vp) col a) vp) st.

(** The loop of vtputs over a string, [put] writing one character. *)
Fixpoint vtputs_loop (put : Z -> display -> option display) (s : list Z)
    (n : Z) (st : display) : option (Z * display) :=
  match s with
  | [] => Some (n, st)
  | c :: s' =>
      if c =? 0 then Some (n, st)
      else st' ← put c st; vtputs_loop put s' (n + 1) st'
  end.

(** vtputc.  The function calls itself for the blanks of a tab, for the two
    columns of a control character and (through vtputs) for an octal escape;
    [fuel] bounds the depth of these calls and the rounds of the tab loop,
    [None] meaning that it did not suffice. *)
Fixpoint vtputc (fuel : nat) (c : Z) (wp : mgwin) (st : display) : option display :=
  match fuel with
  | O => None
  | S k =>
      let c := Z.land c 255 in
      if vtcol st >=? ncol then Some (vt_text (ncol - 1) 36 st)
      else if c =? 9 then
        let target := ntabstop (vtcol st) (b_tabw (w_bufp wp)) in
        do_while (vtputc k 32 wp)
          (fun st => (vtcol st <? ncol) && (vtcol st <? target)) k st
      else if ISCTRL c then
        st' ← vtputc k 94 wp st; vtputc k (CCHR c) wp st'
      else if isprint c then
        Some (set_vtcol (vtcol st + 1) (vt_text (vtcol st) c st))
      else
        snd <$> vtputs_loop (fun c' => vtputc k c' wp) (bf_octal c) 0 st
  end.

(** Fuel that suffices for every character when the blank, the caret, the
    characters of an escape and the folded control letters are printable. *)
Definition vt_fuel : nat := S (S (Z.to_nat ncol)).

Definition vtputs (s : list Z) (wp : mgwin) (st : display) : option (Z * display) :=
  vtputs_loop (fun c => vtputc vt_fuel c wp) s 0 st.

(** vtpute: vtputc for an extended line, columns left of the screen being
    counted but not written. *)
Fixpoint vtpute (fuel : nat) (c : Z) (wp : mgwin) (st : display) : option display :=
  match fuel with
  | O => None
  | S k =>
      let c := Z.land c 255 in
      if vtcol st >=? ncol then Some (vt_text (ncol - 1) 36 st)
      else if c =? 9 then
        let target := ntabstop (vtcol st + lbound st) (b_tabw (w_bufp wp)) in
        do_while (vtpute k 32 wp)
          (fun st => (vtcol st + lbound st <? target) && (vtcol st <? ncol)) k st
      else if ISCTRL c then
        st' ← vtpute k 94 wp st; vtpute k (CCHR c) wp st'
      else if isprint c then
        let st := if vtcol st >=? 0 then vt_text (vtcol st) c st else st in
        Some (set_vtcol (vtcol st + 1) st)
      else
        snd <$> vtputs_loop (fun c' => vtpute k c' wp) (bf_octal c) 0 st
  end.

(** vteeol *)
Fixpoint vteeol_loop (n : nat) (st : display) : display :=
  match n with
  | O => st
  | S n' =>
      if vtcol st <? ncol
      then vteeol_loop n'
             (set_vtcol (vtcol st + 1) (vt_attr (vtcol st) 0 (vt_text (vtcol st) 32 st)))
      else st
  end.

Definition vteeol (st : display) : display :=
  vteeol_loop (Z.to_nat (ncol - vtcol st)) st.

(** ** setscores *)

(** [score[p]], and the assignment of one member of it. *)
Definition cell (sc : list score) (p : Z) : score := rd score0 sc p.

Definition set_itrace (p x : Z) (sc : list score) : list score :=
  zset sc p {| s_itrace := x; s_jtrace := s_jtrace (cell sc p); s_cost := s_cost (cell sc p) |}.

Definition set_jtrace (p x : Z) (sc : list score) : list score :=
  zset sc p {| s_itrace := s_itrace (cell sc p); s_jtrace := x; s_cost := s_cost (cell sc p) |}.

Definition set_cost (p x : Z) (sc : list score) : list score :=
  zset sc p {| s_itrace := s_itrace (cell sc p); s_jtrace := s_jtrace (cell sc p); s_cost := x |}.

(** Row 0, inserts: [for (j = 1; j <= size; ++j)], with the pointers [sp] into
    the matrix and [vp] into the virtual screen. *)
Fixpoint setscores_row0 (n : nat) (st : display) (j sp vp tempcost : Z)
    (sc : list score) : list score :=
  match n with
  | O => sc
  | S n' =>
      let sc := set_itrace sp 0 sc in
      let sc := set_jtrace sp (j - 1) sc in
      let tempcost := iadd tempcost tcinsl in
      let tempcost := iadd tempcost (v_cost (vrow st vp)) in
      let sc := set_cost sp tempcost sc in
      setscores_row0 n' st (j + 1) (sp + 1) (vp + 1) tempcost sc
  end.

(** Column 0, deletes: [for (i = 1; i <= size; ++i)]. *)
Fixpoint setscores_col0 (n : nat) (i sp tempcost : Z) (sc : list score) : list score :=
  match n with
  | O => sc
  | S n' =>
      let sc := set_itrace sp (i - 1) sc in
      let sc := set_jtrace sp 0 sc in
      let tempcost := iadd tempcost tcdell in
      let sc := set_cost sp tempcost sc in
      setscores_col0 n' (i + 1) (sp + nrow) tempcost sc
  end.

(** The body of the inner loop at [sp], for the cell [i, j]. *)
Definition setscores_cell (st : display) (size i j sp vp pp : Z) (sc : list score)
    : list score :=
  let sc := set_itrace sp (i - 1) sc in
  let sc := set_jtrace sp j sc in
  let bestcost := s_cost (cell sc (sp - nrow)) in
  let bestcost := if negb (j =? size) then iadd bestcost tcdell else bestcost in
  let tempcost := s_cost (cell sc (sp - 1)) in
  let tempcost := iadd tempcost (v_cost (vrow st vp)) in
  let tempcost := if negb (i =? size) then iadd tempcost tcinsl else tempcost in
  let '(sc, bestcost) :=
    if tempcost <? bestcost
    then (set_jtrace sp (j - 1) (set_itrace sp i sc), tempcost)
    else (sc, bestcost) in
  let tempcost := s_cost (cell sc (sp - nrow - 1)) in
  let tempcost :=
    if negb (v_color (prow st pp) =? v_color (vrow st vp))
       || negb (v_hash (prow st pp) =? v_hash (vrow st vp))
    then iadd tempcost (v_cost (vrow st vp))
    else tempcost in
  let '(sc, bestcost) :=
    if tempcost <? bestcost
    then (set_jtrace sp (j - 1) (set_itrace sp (i - 1) sc), tempcost)
    else (sc, bestcost) in
  set_cost sp bestcost sc.

(** The inner loop: [for (j = 1; j <= size; ++j)]. *)
Fixpoint setscores_inner (n : nat) (st : display) (size i j sp vp pp : Z)
    (sc : list score) : list score :=
  match n with
  | O => sc
  | S n' =>
      setscores_inner n' st size i (j + 1) (sp + 1) (vp + 1) pp
        (setscores_cell st size i j sp vp pp sc)
  end.

(** The outer loop: [for (i = 1; i <= size; ++i)]. *)
Fixpoint setscores_outer (n : nat) (st : display) (size i sp1 pp vbase : Z)
    (sc : list score) : list score :=
  match n with
  | O => sc
  | S n' =>
      setscores_outer n' st size (i + 1) (sp1 + nrow) (pp + 1) vbase
        (setscores_inner (Z.to_nat size) st size i 1 sp1 (vbase + 1) pp sc)
  end.

Definition setscores (offs size : Z) (st : display) : display :=
  let vbase := offs - 1 in
  let pbase := offs - 1 in
  let sc := scores st in
  let sc := set_cost 0 0 (set_jtrace 0 0 (set_itrace 0 0 sc)) in
  let sc := setscores_row0 (Z.to_nat size) st 1 1 (vbase + 1) 0 sc in
  let sc := setscores_col0 (Z.to_nat size) 1 nrow 0 sc in
  let sc := setscores_outer (Z.to_nat size) st size 1 (nrow + 1) (pbase + 1) vbase sc in
  set_scores sc st.

(** The three candidates of the recurrence at a cell, from the costs of the
    cells above, left and above-left: the best in the order delete, insert
    (if strictly cheaper), match (if strictly cheaper). *)
Definition best_of (i j : Z) (del ins mat : Z) : score :=
  if mat <? (if ins <? del then ins else del)
  then {| s_itrace := i - 1; s_jtrace := j - 1; s_cost := mat |}
  else if ins <? del
  then {| s_itrace := i; s_jtrace := j - 1; s_cost := ins |}
  else {| s_itrace := i - 1; s_jtrace := j; s_cost := del |}.

(** The costs of the three candidates. *)
Definition cost_delete (size j above : Z) : Z :=
  if j =? size then above else iadd above tcdell.

Definition cost_insert (size i left vcost : Z) : Z :=
  if i =? size then iadd left vcost else iadd (iadd left vcost) tcinsl.

Definition cost_match (differ : bool) (diag vcost : Z) : Z :=
  if differ then iadd diag vcost else diag.

(** The test of the trimming loops of update and of the match candidate. *)
Definition rows_differ (vp1 vp2 : video) : bool :=
  negb (v_color vp1 =? v_color vp2) || negb (v_hash vp1 =? v_hash vp2).

(** Cell [i, j] of the matrix [sc] holds the best of the three candidates
    that its neighbours in [sc] give, for the band of [size] rows at [offs]:
    virtual row [j] of the band is row [offs + j - 1] of the virtual screen,
    physical row [i] is row [offs + i - 1] of the physical screen. *)
Definition cell_ok (st : display) (offs size : Z) (sc : list score) (i j : Z) : Prop :=
  let vcost := v_cost (vrow st (offs + j - 1)) in
  cell sc (nrow * i + j)
  = best_of i j
      (cost_delete size j (s_cost (cell sc (nrow * (i - 1) + j))))
      (cost_insert size i (s_cost (cell sc (nrow * i + (j - 1)))) vcost)
      (cost_match (rows_differ (prow st (offs + i - 1)) (vrow st (offs + j - 1)))
         (s_cost (cell sc (nrow * (i - 1) + (j - 1)))) vcost).

(** ** traceback *)

(** Collect inserts: the while loop that follows a run of cells traced to
    their left neighbour. *)
Fixpoint collect_inserts (n : nat) (sc : list score) (size i itrace jtrace ninsl ndraw : Z)
    : option (Z * Z * Z) :=
  match n with
  | O => None
  | S n' =>
      if negb (itrace =? 0) || negb (jtrace =? 0) then
        if negb (s_itrace (cell sc (nrow * itrace + jtrace)) =? itrace)
        then Some (jtrace, ninsl, ndraw)
        else
          let jtrace := s_jtrace (cell sc (nrow * itrace + jtrace)) in
          let ninsl := if negb (i =? size) then ninsl + 1 else ninsl in
          collect_inserts n' sc size i itrace jtrace ninsl (ndraw + 1)
      else Some (jtrace, ninsl, ndraw)
  end.

(** Collect deletes. *)
Fixpoint collect_deletes (n : nat) (sc : list score) (size j itrace jtrace ndell : Z)
    : option (Z * Z) :=
  match n with
  | O => None
  | S n' =>
      if negb (itrace =? 0) || negb (jtrace =? 0) then
        if negb (s_jtrace (cell sc (nrow * itrace + jtrace)) =? jtrace)
        then Some (itrace, ndell)
        else
          let itrace := s_itrace (cell sc (nrow * itrace + jtrace)) in
          let ndell := if negb (j =? size) then ndell + 1 else ndell in
          collect_deletes n' sc size j itrace jtrace ndell
      else Some (itrace, ndell)
  end.

(** [do { k = offs + j - ndraw; uline(k, vscreen[k], &blanks); } while (--ndraw);] *)
Fixpoint draw_inserted (n : nat) (offs j ndraw : Z) (st : display) : option display :=
  match n with
  | O => None
  | S n' =>
      let k := offs + j - ndraw in
      let st := uline k (vrow st k) Blanks st in
      let ndraw := ndraw - 1 in
      if negb (ndraw =? 0) then draw_inserted n' offs j ndraw st else Some st
  end.

(** traceback; [fuel] bounds the depth of the recursion and the rounds of
    its loops, [None] meaning that it did not suffice. *)
Fixpoint traceback (fuel : nat) (offs size i j : Z) (st : display) : option display :=
  match fuel with
  | O => None
  | S k =>
      if (i =? 0) && (j =? 0) then Some st
      else
        let itrace := s_itrace (cell (scores st) (nrow * i + j)) in
        let jtrace := s_jtrace (cell (scores st) (nrow * i + j)) in
        if itrace =? i then
          let ninsl := if negb (i =? size) then 1 else 0 in
          let ndraw := 1 in
          '(jtrace, ninsl, ndraw) ←
            collect_inserts k (scores st) size i itrace jtrace ninsl ndraw;
          st ← traceback k offs size itrace jtrace st;
          let st :=
            if negb (ninsl =? 0)
            then ttinsl (offs + j - ninsl) (offs + size - 1) ninsl (ttcolor CTEXT st)
            else st in
          draw_inserted (Z.to_nat ndraw) offs j ndraw st
        else if jtrace =? j then
          let ndell := if negb (j =? size) then 1 else 0 in
          '(itrace, ndell) ←
            collect_deletes k (scores st) size j itrace jtrace ndell;
          let st :=
            if negb (ndell =? 0)
            then ttdell (offs + i - ndell) (offs + size - 1) ndell (ttcolor CTEXT st)
            else st in
          traceback k offs size itrace jtrace st
        else
          st ← traceback k offs size itrace jtrace st;
          let k := offs + j - 1 in
          Some (uline k (vrow st k) (PScreen (offs + i - 1)) st)
  end.

(** ** Rendering a buffer line into the virtual screen *)

(** [vscreen[i]->v_flag |= bits] *)
Definition or_vflag (i bits : Z) (st : display) : display :=
  set_vrow i (set_v_flag (Z.lor (v_flag (vrow st i)) bits) (vrow st i)) st.

(** [vscreen[i]->v_color = color] *)
Definition set_vcolor (i color : Z) (st : display) : display :=
  set_vrow i (set_v_color color (vrow st i)) st.

(** [while (old_vtcol < vtcol && old_vtcol < ncol)
       vscreen[vtrow]->v_attr[old_vtcol++] = sel;] *)
Fixpoint attr_fill (n : nat) (old_vtcol sel : Z) (st : display) : display :=
  match n with
  | O => st
  | S n' =>
      if (old_vtcol <? vtcol st) && (old_vtcol <? ncol)
      then attr_fill n' (old_vtcol + 1) sel (vt_attr old_vtcol sel st)
      else st
  end.

(** The loop that update repeats for the edited row, for every row of a
    full window and for a row that stops being extended:
    [for (j = 0; j < llength(lp); ++j)], each character put with vtputc and
    its columns given the selection attribute of its position. *)
Fixpoint put_line (n : nat) (wp : mgwin) (lp : nat) (line_num j : Z)
    (st : display) : option display :=
  match n with
  | O => Some st
  | S n' =>
      let old_vtcol := vtcol st in
      let sel := in_selection wp line_num j in
      st ← vtputc vt_fuel (lgetc (w_bufp wp) lp j) wp st;
      let st := attr_fill (Z.to_nat (vtcol st - old_vtcol)) old_vtcol sel st in
      put_line n' wp lp line_num (j + 1) st
  end.

(** The same loop in updext, with vtpute:
    [while (old_vtcol < vtcol) { if (old_vtcol >= 0 && old_vtcol < ncol) ...; old_vtcol++; }] *)
Fixpoint attr_fill_ext (n : nat) (old_vtcol sel : Z) (st : display) : display :=
  match n with
  | O => st
  | S n' =>
      if old_vtcol <? vtcol st
      then attr_fill_ext n' (old_vtcol + 1) sel
             (if (old_vtcol >=? 0) && (old_vtcol <? ncol)
              then vt_attr old_vtcol sel st else st)
      else st
  end.

Fixpoint put_line_ext (n : nat) (wp : mgwin) (lp : nat) (line_num j : Z)
    (st : display) : option display :=
  match n with
  | O => Some st
  | S n' =>
      let old_vtcol := vtcol st in
      let sel := in_selection wp line_num j in
      st ← vtpute vt_fuel (lgetc (w_bufp wp) lp j) wp st;
      let st := attr_fill_ext (Z.to_nat (vtcol st - old_vtcol)) old_vtcol sel st in
      put_line_ext n' wp lp line_num (j + 1) st
  end.

Definition line_len (wp : mgwin) (lp : nat) : nat := length (ltext (w_bufp wp) lp).

(** ** modeline *)

(** [while (n < limit) { vtputc(' ', wp); ++n; }] *)
Fixpoint pad_to (k : nat) (limit : Z) (wp : mgwin) (n : Z) (st : display)
    : option (Z * display) :=
  match k with
  | O => Some (n, st)
  | S k' =>
      if n <? limit
      then st ← vtputc vt_fuel 32 wp st; pad_to k' limit wp (n + 1) st
      else Some (n, st)
  end.

(** The loop over the modes of the buffer, [md] from 0 up to [b_nmodes]. *)
Fixpoint put_modes (k : nat) (wp : mgwin) (md n : Z) (st : display)
    : option (Z * display) :=
  match k with
  | O => None
  | S k' =>
      let p_name := rd [] (b_modes (w_bufp wp)) md in
      st ← vtputc vt_fuel (toupper (chr p_name 0)) wp st;
      '(m, st) ← vtputs (drop 1 p_name) wp st;
      let n := n + (m + 1) in
      let md := md + 1 in
      if md >? b_nmodes (w_bufp wp) then Some (n, st)
      else
        st ← vtputc vt_fuel 32 wp st;
        put_modes k' wp md (n + 1) st
  end.

(** The line and column indicator with the value snprintf returns for it. *)
Definition position_text (wp : mgwin) (st : display) : list Z * Z :=
  let sl :=
    if linenos st && colnos st
    then [40] ++ fmt_int (w_dotline wp) ++ [44] ++ fmt_int (getcolpos wp) ++ [41; 32; 32]
    else if linenos st then [76] ++ fmt_int (w_dotline wp) ++ [32; 32]
    else if colnos st then [67] ++ fmt_int (getcolpos wp) ++ [32; 32]
    else [] in
  (take 20 sl, Z.of_nat (length sl)).

Definition modeline (wp : mgwin) (modelinecolor : Z) (st : display) : option display :=
  let bp := w_bufp wp in
  let n := w_toprow wp + w_ntrows wp in
  let st := set_vcolor n modelinecolor st in
  let st := or_vflag n (Z.lor VFCHG VFHBAD) st in
  let st := vtmove n 0 st in
  st ← vtputc vt_fuel 45 wp st;
  st ← vtputc vt_fuel 58 wp st;
  st ← (if negb (Z.land (b_flag bp) BFREADONLY =? 0) then
          st ← vtputc vt_fuel 37 wp st;
          if negb (Z.land (b_flag bp) BFCHG =? 0)
          then vtputc vt_fuel 42 wp st
          else vtputc vt_fuel 37 wp st
        else if negb (Z.land (b_flag bp) BFCHG =? 0) then
          st ← vtputc vt_fuel 42 wp st; vtputc vt_fuel 42 wp st
        else
          st ← vtputc vt_fuel 45 wp st; vtputc vt_fuel 45 wp st);
  st ← vtputc vt_fuel 45 wp st;
  st ← vtputc vt_fuel 32 wp st;
  let n := 6 in
  '(n, st) ← (if negb (chr (b_bname bp) 0 =? 0) then
                '(m, st) ← vtputs (b_bname bp) wp st;
                '(m', st) ← vtputs [32; 32] wp st;
                Some (n + m + m', st)
              else Some (n, st));
  '(n, st) ← pad_to (Z.to_nat (27 - n)) 27 wp n st;
  let '(sl, len) := position_text wp st in
  '(n, st) ← (if (linenos st || colnos st) && (len <? 21) && negb (len =? -1) then
                '(m, st) ← vtputs sl wp st; Some (n + m, st)
              else Some (n, st));
  '(n, st) ← pad_to (Z.to_nat (35 - n)) 35 wp n st;
  st ← vtputc vt_fuel 40 wp st;
  let n := n + 1 in
  '(n, st) ← put_modes (S (Z.to_nat (b_nmodes bp))) wp 0 n st;
  '(n, st) ← (if macrodef then
                '(m, st) ← vtputs [32; 100; 101; 102] wp st; Some (n + m, st)
              else Some (n, st));
  '(n, st) ← (if globalwd then
                '(m, st) ← vtputs [32; 103; 119; 100] wp st; Some (n + m, st)
              else Some (n, st));
  st ← vtputc vt_fuel 41 wp st;
  let n := n + 1 in
  '(n, st) ← (if timesh st then
                '(m, st) ← vtputs clock wp st; Some (n + m, st)
              else Some (n, st));
  '(n, st) ← pad_to (Z.to_nat (ncol - n)) ncol wp n st;
  Some st.

(** ** updext *)

Definition updext (currow curcol : Z) (st : display) : option display :=
  if ncol <? 2 then Some st
  else
    let st := set_lbound
                (curcol - Z.rem curcol (Z.shiftr ncol 1) - Z.shiftr ncol 2) st in
    let st := vtmove currow (- lbound st) st in
    let cw := nth (curwp st) (wheadp st) mgwin0 in
    let lp := w_dotp cw in
    let line_num := w_dotline cw in
    st ← put_line_ext (line_len cw lp) cw lp line_num 0 st;
    let st := vteeol st in
    Some (set_vrow currow
            (set_v_text (zset (v_text (vrow st currow)) 0 36) (vrow st currow)) st).

(** ** update *)

Definition or_rflag (bits : Z) (wp : mgwin) : mgwin :=
  set_w_rflag (Z.lor (w_rflag wp) bits) wp.

Definition mark_set (wp : mgwin) : bool :=
  match w_markp wp with
  | Some _ => true
  | None => false
  end.

(** "Force full redraw if there's an active selection": the body of the
    third loop over the windows. *)
Definition escalate_selection (wp : mgwin) : mgwin :=
  if mark_set wp && negb (w_rflag wp =? 0) then or_rflag WFFULL wp else wp.

(** The three loops over the windows that open update: everything must be
    updated when the screen is garbage, the mode lines when the line or the
    column number is shown, and a window with a mark in full. *)
Definition update_flags (st : display) : display :=
  let ws := wheadp st in
  let ws := if sgarbf st then map (or_rflag (Z.lor WFMODE WFFULL)) ws else ws in
  let ws := if linenos st || colnos st then map (or_rflag WFMODE) ws else ws in
  let ws := map escalate_selection ws in
  set_wheadp ws st.

(** The search for dot among the lines shown, from the top line. *)
Fixpoint dot_scan (n : nat) (wp : mgwin) (lp : nat) : bool :=
  match n with
  | O => false
  | S n' =>
      if (lp =? w_dotp wp)%nat then true
      else if (lp =? b_headp (w_bufp wp))%nat then false
      else dot_scan n' wp (lforw (w_bufp wp) lp)
  end.

(** The window needs no reframing: control reaches the label [out] by the
    goto. *)
Definition dot_framed (wp : mgwin) : bool :=
  (Z.land (w_rflag wp) WFFRAME =? 0)
  && dot_scan (Z.to_nat (w_ntrows wp)) wp (w_linep wp).

(** [while (i != 0 && lback(lp) != wp->w_bufp->b_headp) { --i; lp = lback(lp); }] *)
Fixpoint walk_back (n : nat) (bp : buffer) (i : Z) (lp : nat) : nat :=
  match n with
  | O => lp
  | S n' =>
      if negb (i =? 0) && negb (lback bp lp =? b_headp bp)%nat
      then walk_back n' bp (i - 1) (lback bp lp)
      else lp
  end.

(** "Put the middle-line in place", "Find the line", and force full. *)
Definition reframe (wp : mgwin) : mgwin :=
  let i := w_frame wp in
  let i :=
    if i >? 0 then
      let i := i - 1 in
      if i >=? w_ntrows wp then w_ntrows wp - 1 else i
    else if i <? 0 then
      let i := i + w_ntrows wp in
      if i <? 0 then 0 else i
    else Z.quot (w_ntrows wp) 2 in
  let lp := walk_back (S (w_dotp wp)) (w_bufp wp) i (w_dotp wp) in
  or_rflag WFFULL (set_w_linep lp wp).

(** The window as it stands at the label [out]. *)
Definition frame_window (wp : mgwin) : mgwin :=
  if dot_framed wp then wp else reframe wp.

(** "Calculate line number of first visible line": walk back from dot to
    the top line. *)
Fixpoint line_num_back (n : nat) (wp : mgwin) (tlp : nat) (line_num : Z) : Z :=
  match n with
  | O => line_num
  | S n' =>
      if negb (tlp =? w_linep wp)%nat
         && negb (lback (w_bufp wp) tlp =? b_headp (w_bufp wp))%nat
      then line_num_back n' wp (lback (w_bufp wp) tlp) (line_num - 1)
      else line_num
  end.

Definition top_line_num (wp : mgwin) : Z :=
  line_num_back (S (w_dotp wp)) wp (w_dotp wp) (w_dotline wp).

(** [while (lp != wp->w_dotp) { ++i; ++line_num; lp = lforw(lp); }] *)
Fixpoint seek_dot (n : nat) (wp : mgwin) (lp : nat) (i line_num : Z)
    : option (nat * Z * Z) :=
  match n with
  | O => None
  | S n' =>
      if negb (lp =? w_dotp wp)%nat
      then seek_dot n' wp (lforw (w_bufp wp) lp) (i + 1) (line_num + 1)
      else Some (lp, i, line_num)
  end.

(** Rounds after which a walk along the ring of lines has met every line. *)
Definition ring_fuel (wp : mgwin) : nat := S (S (S (b_headp (w_bufp wp)))).

(** The test of the single-row path: only WFEDIT is pending, WFMODE apart. *)
Definition edit_only (wp : mgwin) : bool :=
  Z.land (w_rflag wp) (Z.lnot WFMODE) =? WFEDIT.

(** The rows of a window updated in full:
    [while (i < wp->w_toprow + wp->w_ntrows)]. *)
Fixpoint full_rows (n : nat) (wp : mgwin) (lp : nat) (i line_num : Z)
    (st : display) : option display :=
  match n with
  | O => Some st
  | S n' =>
      let st := set_vcolor i CTEXT st in
      let st := or_vflag i (Z.lor VFCHG VFHBAD) st in
      let st := vtmove i 0 st in
      '(lp, line_num, st) ←
        (if negb (lp =? b_headp (w_bufp wp))%nat then
           st ← put_line (line_len wp lp) wp lp line_num 0 st;
           Some (lforw (w_bufp wp) lp, line_num + 1, st)
         else Some (lp, line_num, st));
      let st := vteeol st in
      full_rows n' wp lp (i + 1) line_num st
  end.

(** The body of the loop over the windows: the window and [hflag] after it. *)
Definition update_window (modelinecolor : Z) (wp : mgwin) (hflag : bool)
    (st : display) : option (mgwin * bool * display) :=
  if w_rflag wp =? 0 then Some (wp, hflag, st)
  else
    let wp := frame_window wp in
    let lp := w_linep wp in
    let i := w_toprow wp in
    let line_num := top_line_num wp in
    '(hflag, st) ←
      (if edit_only wp then
         '(lp, i, line_num) ← seek_dot (ring_fuel wp) wp lp i line_num;
         let st := set_vcolor i CTEXT st in
         let st := or_vflag i (Z.lor VFCHG VFHBAD) st in
         let st := vtmove i 0 st in
         st ← put_line (line_len wp lp) wp lp line_num 0 st;
         Some (hflag, vteeol st)
       else if negb (Z.land (w_rflag wp) (Z.lor WFEDIT WFFULL) =? 0) then
         st ← full_rows (Z.to_nat (w_ntrows wp)) wp lp i line_num st;
         Some (true, st)
       else Some (hflag, st));
    st ← (if negb (Z.land (w_rflag wp) WFMODE =? 0)
          then modeline wp modelinecolor st else Some st);
    Some (set_w_frame 0 (set_w_rflag 0 wp), hflag, st).

Fixpoint update_windows (modelinecolor : Z) (ws : list mgwin) (hflag : bool)
    (st : display) : option (list mgwin * bool * display) :=
  match ws with
  | [] => Some ([], hflag, st)
  | wp :: ws' =>
      '(wp, hflag, st) ← update_window modelinecolor wp hflag st;
      '(ws', hflag, st) ← update_windows modelinecolor ws' hflag st;
      Some (wp :: ws', hflag, st)
  end.

(** "Cursor location": [while (lp != curwp->w_dotp) { ++currow; lp = lforw(lp); }] *)
Fixpoint cursor_row (n : nat) (cw : mgwin) (lp : nat) (currow : Z) : option (nat * Z) :=
  match n with
  | O => None
  | S n' =>
      if negb (lp =? w_dotp cw)%nat
      then cursor_row n' cw (lforw (w_bufp cw) lp) (currow + 1)
      else Some (lp, currow)
  end.

(** [while (i < curwp->w_doto)]: the column of dot. *)
Fixpoint cursor_col (n : nat) (cw : mgwin) (lp : nat) (i curcol : Z) : Z :=
  match n with
  | O => curcol
  | S n' =>
      if i <? w_doto cw then
        let c := lgetc (w_bufp cw) lp i in
        let curcol :=
          if c =? 9 then ntabstop curcol (b_tabw (w_bufp cw))
          else if ISCTRL c then curcol + 2
          else if isprint c then curcol + 1
          else curcol + Z.of_nat (length (bf_octal c)) in
        cursor_col n' cw lp (i + 1) curcol
      else curcol
  end.

(** [vscreen[i]->v_flag &= ~bits] *)
Definition clear_vflag (i bits : Z) (st : display) : display :=
  set_vrow i (set_v_flag (Z.land (v_flag (vrow st i)) (Z.lnot bits)) (vrow st i)) st.

(** The rows of window number [k] in the sweep that takes lines out of
    extended mode. *)
Fixpoint deext_rows (n : nat) (k : nat) (wp : mgwin) (curcol : Z) (lp : nat)
    (i line_num : Z) (st : display) : option (Z * display) :=
  match n with
  | O => Some (i, st)
  | S n' =>
      st ←
        (if negb (Z.land (v_flag (vrow st i)) VFEXT =? 0) then
           let st := or_vflag i VFCHG st in
           if negb (k =? curwp st)%nat || negb (lp =? w_dotp wp)%nat
              || (curcol <? ncol - 1)
           then
             let st := vtmove i 0 st in
             st ← put_line (line_len wp lp) wp lp line_num 0 st;
             let st := vteeol st in
             Some (clear_vflag i VFEXT st)
           else Some st
         else Some st);
      deext_rows n' k wp curcol (lforw (w_bufp wp) lp) (i + 1) (line_num + 1) st
  end.

Fixpoint deext_windows (ws : list mgwin) (k : nat) (curcol : Z) (st : display)
    : option display :=
  match ws with
  | [] => Some st
  | wp :: ws' =>
      '(i, st) ← deext_rows (Z.to_nat (w_ntrows wp)) k wp curcol (w_linep wp)
                   (w_toprow wp) (top_line_num wp) st;
      let st := if sgarbf st then or_vflag i VFCHG st else st in
      deext_windows ws' (S k) curcol st
  end.

(** "Cursor location": the row and the column of dot in the current
    window, [None] when the walk from the top line never meets dot. *)
Definition cursor_place (st : display) : option (Z * Z) :=
  let cw := nth (curwp st) (wheadp st) mgwin0 in
  '(lp, currow) ← cursor_row (ring_fuel cw) cw (w_linep cw) (w_toprow cw);
  Some (currow, cursor_col (Z.to_nat (w_doto cw)) cw lp 0 0).

(** The part of update that renders the windows and places the cursor:
    [hflag], [currow], [curcol] and the globals as they stand before the
    screens are made the same. *)
Definition update_build (modelinecolor : Z) (st : display)
    : option (bool * Z * Z * display) :=
  let st := update_flags st in
  '(ws, hflag, st) ← update_windows modelinecolor (wheadp st) false st;
  let st := set_wheadp ws st in
  '(currow, curcol) ← cursor_place st;
  st ← (if curcol >=? ncol - 1 then
          updext currow curcol (or_vflag currow (Z.lor VFEXT VFCHG) st)
        else Some (set_lbound 0 st));
  st ← deext_windows (wheadp st) 0 curcol st;
  Some (hflag, currow, curcol, st).

(** "Screen is garbage": erase the page and repaint every row. *)
Definition update_garbage (currow curcol : Z) (st : display) : display :=
  let st := set_sgarbf false st in
  let st := set_epresf false st in
  let st := set_tttop HUGE st in
  let st := set_ttbot HUGE st in
  let st := set_tthue CNONE st in
  let st := ttmove 0 0 st in
  let st := tteeop st in
  let st := for_range 0 (nrow - 1)
              (fun i st => ucopy_row i (uline i (vrow st i) Blanks st)) st in
  ttflush (ttmove currow (curcol - lbound st) st).

(** "Compute hash data." *)
Definition hash_rows (st : display) : display :=
  for_range 0 (nrow - 1)
    (fun i st => set_prow i (hash (prow st i)) (set_vrow i (hash (vrow st i)) st)) st.

(** "Get top match": [offs] after the loop. *)
Fixpoint top_match (n : nat) (offs : Z) (st : display) : Z * display :=
  match n with
  | O => (offs, st)
  | S n' =>
      if negb (offs =? nrow - 1) then
        if rows_differ (vrow st offs) (prow st offs) then (offs, st)
        else top_match n' (offs + 1)
               (ucopy_row offs (uline offs (vrow st offs) (PScreen offs) st))
      else (offs, st)
  end.

(** "Get bottom match": [size] after the loop. *)
Fixpoint bottom_match (n : nat) (offs size : Z) (st : display) : Z * display :=
  match n with
  | O => (size, st)
  | S n' =>
      if negb (size =? offs) then
        if rows_differ (vrow st (size - 1)) (prow st (size - 1)) then (size, st)
        else bottom_match n' offs (size - 1)
               (ucopy_row (size - 1)
                  (uline (size - 1) (vrow st (size - 1)) (PScreen (size - 1)) st))
      else (size, st)
  end.

(** Fuel for traceback over a band of [size] rows. *)
Definition tb_fuel (size : Z) : nat := Z.to_nat (2 * size + 2).

(** The hard update from "Get screen size" on, [size] being what the bottom
    match left. *)
Definition hard_band (offs size currow curcol : Z) (st : display) : outcome :=
  let size := size - offs in
  if size =? 0 then Panic "Illegal screen size in update"
  else
    let st := setscores offs size st in
    match traceback (tb_fuel size) offs size size size st with
    | None => Diverges
    | Some st =>
        let st := for_range 0 size (fun i st => ucopy_row (offs + i) st) st in
        Returned (ttflush (ttmove currow (curcol - lbound st) st))
    end.

Definition update_hard (currow curcol : Z) (st : display) : outcome :=
  let st := hash_rows st in
  let '(offs, st) := top_match (Z.to_nat (nrow - 1)) 0 st in
  if offs =? nrow - 1 then Returned (ttflush (ttmove currow (curcol - lbound st) st))
  else
    let '(size, st) := bottom_match (Z.to_nat (nrow - 1)) offs (nrow - 1) st in
    hard_band offs size currow curcol st.

(** "Easy update." *)
Definition update_easy (currow curcol : Z) (st : display) : display :=
  let st := for_range 0 (nrow - 1)
              (fun i st =>
                 if negb (Z.land (v_flag (vrow st i)) VFCHG =? 0)
                 then ucopy_row i (uline i (vrow st i) (PScreen i) st)
                 else st) st in
  ttflush (ttmove currow (curcol - lbound st) st).

(** The third part of update: make the virtual and physical screens the
    same. *)
Definition reconcile (hflag : bool) (currow curcol : Z) (st : display) : outcome :=
  if sgarbf st then Returned (update_garbage currow curcol st)
  else if hflag then update_hard currow curcol st
  else Returned (update_easy currow curcol st).

Definition update (modelinecolor : Z) (st : display) : outcome :=
  if charswaiting then Returned st
  else
    match update_build modelinecolor st with
    | None => Diverges
    | Some (hflag, currow, curcol, st) => reconcile hflag currow curcol st
    end.

(** The driver calls a cycle adds to those made before it. *)
Definition emitted (before after : display) : list ttyop :=
  drop (length (tty before)) (tty after).

(** A call that puts something on the terminal: a character, an erase, or
    an insert or delete of lines. *)
Definition is_output (op : ttyop) : bool :=
  match op with
  | TtPutc _ | TtEeol | TtEeop | TtInsl _ _ _ | TtDell _ _ _ => true
  | TtMove _ _ | TtColor _ | TtFlush => false
  end.

(** ** Properties of rows used in the statements below *)

(** The physical row holds what the virtual row holds. *)
Definition synced (vvp pvp : video) : Prop :=
  take (Z.to_nat ncol) (v_text pvp) = take (Z.to_nat ncol) (v_text vvp)
  /\ take (Z.to_nat ncol) (v_attr pvp) = take (Z.to_nat ncol) (v_attr vvp)
  /\ v_color pvp = v_color vvp
  /\ v_hash pvp = v_hash vvp
  /\ v_cost pvp = v_cost vvp.

Definition flag_clear (bits : Z) (vp : video) : Prop :=
  Z.land (v_flag vp) bits = 0.

(** What the code that makes the screens the same never assigns: the
    virtual cursor, the left bound, the mode flags and the windows. *)
Definition window_part (st : display)
    : Z * Z * Z * bool * bool * bool * list mgwin * nat :=
  (vtrow st, vtcol st, lbound st, linenos st, colnos st, timesh st,
   wheadp st, curwp st).

(** What the screen builder never assigns: everything but the virtual
    screen, the virtual cursor and the left bound. *)
Definition beyond_builder (st : display) :=
  (pscreen st, blanks st, scores st, sgarbf st, epresf st, tthue st, ttcol st,
   tttop st, ttbot st, linenos st, colnos st, timesh st, wheadp st, curwp st,
   tty st).

(** The screens have the rows and the matrix the cells that vtresize
    allocates for the geometry, and every virtual row its [ncol] columns. *)
Definition screens_ok (st : display) : Prop :=
  1 <= nrow /\ 0 <= ncol
  /\ Z.of_nat (length (vscreen st)) = nrow - 1
  /\ Z.of_nat (length (pscreen st)) = nrow - 1
  /\ Z.of_nat (length (scores st)) = nrow * nrow
  /\ forall i, 0 <= i < nrow - 1 ->
       length (v_text (vrow st i)) = Z.to_nat ncol
       /\ length (v_attr (vrow st i)) = Z.to_nat ncol.

(** Row [i] has been brought up to date: the physical row holds what the
    virtual row holds and the virtual row is not flagged changed. *)
Definition row_done (st : display) (i : Z) : Prop :=
  synced (vrow st i) (prow st i) /\ flag_clear VFCHG (vrow st i).

(** A function on the display that at most adds driver calls (and moves
    the driver's column). *)
Definition tty_only (f : display -> display) : Prop :=
  forall st,
    vscreen (f st) = vscreen st /\ pscreen (f st) = pscreen st
    /\ blanks (f st) = blanks st /\ scores (f st) = scores st
    /\ sgarbf (f st) = sgarbf st /\ window_part (f st) = window_part st.

(** The trace of cell [i, j] leads to the cell above, to the cell on the
    left, or to the cell above on the left. *)
Definition trace_ok (sc : list score) (i j : Z) : Prop :=
  let c := cell sc (nrow * i + j) in
  (s_itrace c = i - 1 /\ s_jtrace c = j /\ 1 <= i)
  \/ (s_itrace c = i /\ s_jtrace c = j - 1 /\ 1 <= j)
  \/ (s_itrace c = i - 1 /\ s_jtrace c = j - 1 /\ 1 <= i /\ 1 <= j).

Definition traces_ok (size : Z) (sc : list score) : Prop :=
  forall i j, 0 <= i <= size -> 0 <= j <= size -> ~ (i = 0 /\ j = 0) ->
    trace_ok sc i j.

(** What traceback over the band of [size] rows at [offs] may change: the
    driver, the blank line image, and rows of the physical screen inside
    the band. *)
Definition band_frame (offs size : Z) (st st' : display) : Prop :=
  vscreen st' = vscreen st /\ scores st' = scores st
  /\ sgarbf st' = sgarbf st /\ window_part st' = window_part st
  /\ length (pscreen st') = length (pscreen st)
  /\ forall q, ~ (offs <= q < offs + size) -> prow st' q = prow st q.

(** [st'] comes from [st] by steps of the screen builder: what the builder
    never assigns is as in [st], and the virtual screen has its rows and
    every row its columns. *)
Definition built (st st' : display) : Prop :=
  beyond_builder st' = beyond_builder st
  /\ length (vscreen st') = length (vscreen st)
  /\ forall i,
       length (v_text (vrow st' i)) = length (v_text (vrow st i))
       /\ length (v_attr (vrow st' i)) = length (v_attr (vrow st i)).

(** ** What the builder writes for one character *)

(** A byte that vtputc and vtpute draw as itself, in one column. *)
Definition plain_char (c : Z) : bool :=
  (0 <=? c) && (c <? 256) && negb (c =? 9) && negb (ISCTRL c) && isprint c.

(** The classes are those of a terminal: the blank, the caret, the
    backslash and the octal digits are drawn as themselves, and so is the
    letter that CCHR makes of a control character. *)
Definition chars_ok : bool :=
  plain_char 32 && plain_char 94 && plain_char 92
  && forallb plain_char (seqZ 48 8)
  && forallb (fun c => negb (ISCTRL c) || (c =? 9)
                       || plain_char (Z.land (CCHR c) 255)) (seqZ 0 256).

(** vtputc on a byte drawn as itself: the byte is stored at the virtual
    cursor, which moves right, or a dollar sign goes in the last column when
    the cursor is at the margin. *)
Definition put_plain (c : Z) (st : display) : display :=
  if vtcol st >=? ncol then vt_text (ncol - 1) 36 st
  else set_vtcol (vtcol st + 1) (vt_text (vtcol st) c st).

Definition put_glyphs (s : list Z) (st : display) : display :=
  fold_left (fun st c => put_plain c st) s st.

(** The columns vtputc fills for the character [c] at column [col]: the
    blanks of a tab up to the stop or the margin, caret and letter for a
    control character, the byte itself when it prints, its octal escape
    otherwise. *)
Definition glyphs (c col tabw : Z) : list Z :=
  let c := Z.land c 255 in
  if c =? 9
  then replicate (Z.to_nat (Z.max 1 (Z.min (ntabstop col tabw) ncol - col))) 32
  else if ISCTRL c then [94; Z.land (CCHR c) 255]
  else if isprint c then [c]
  else bf_octal c.

(** The column the cursor loop of update adds for [c] at column [col]. *)
Definition next_col (c col tabw : Z) : Z :=
  if c =? 9 then ntabstop col tabw
  else if ISCTRL c then col + 2
  else if isprint c then col + 1
  else col + Z.of_nat (length (bf_octal c)).

(** The value of a string of octal digits. *)
Definition octal_value (ds : list Z) : Z :=
  fold_left (fun v d => v * 8 + (d - 48)) ds 0.

(** [st'] differs from [st] at most in the cells of the row of the virtual
    cursor and in the column of that cursor. *)
Definition row_only (st st' : display) : Prop :=
  vtrow st' = vtrow st /\ lbound st' = lbound st
  /\ length (vscreen st') = length (vscreen st)
  /\ beyond_builder st' = beyond_builder st
  /\ (forall i, i <> vtrow st -> vrow st' i = vrow st i)
  /\ length (v_text (vrow st' (vtrow st))) = length (v_text (vrow st (vtrow st)))
  /\ length (v_attr (vrow st' (vtrow st))) = length (v_attr (vrow st (vtrow st)))
  /\ v_color (vrow st' (vtrow st)) = v_color (vrow st (vtrow st))
  /\ v_flag (vrow st' (vtrow st)) = v_flag (vrow st (vtrow st))
  /\ v_hash (vrow st' (vtrow st)) = v_hash (vrow st (vtrow st))
  /\ v_cost (vrow st' (vtrow st)) = v_cost (vrow st (vtrow st)).

(** ** What uline sends *)

(** The condition under which uline repaints the whole row: a mode line, a
    row with a selected column, a change of color, or attributes that
    differ from the physical row's. *)
Definition full_redraw (vvp pv : video) : Prop :=
  v_color vvp = CMODE
  \/ (exists col, 0 <= col < ncol /\ chr (v_attr vvp) col <> 0)
  \/ v_color vvp <> v_color pv
  \/ take (Z.to_nat ncol) (v_attr vvp) <> take (Z.to_nat ncol) (v_attr pv).

(** The color in force after a run of driver calls, [hue] being the color
    before it. *)
Definition hue_after (hue : Z) (ops : list ttyop) : Z :=
  fold_left (fun h op => match op with TtColor c => c | _ => h end) ops hue.

(** The characters a run of driver calls sends, each with the color set by
    the last ttcolor before it. *)
Fixpoint painted (hue : Z) (ops : list ttyop) : list (Z * Z) :=
  match ops with
  | [] => []
  | TtColor c :: ops' => painted c ops'
  | TtPutc ch :: ops' => (ch, hue) :: painted hue ops'
  | _ :: ops' => painted hue ops'
  end.

(** The cells of a row from column [lo] up to column [hi], as ttputc
    calls. *)
Definition cells_put (vvp : video) (lo hi : Z) : list ttyop :=
  map (fun col => TtPutc (chr (v_text vvp) col)) (seqZ lo (hi - lo)).

(** The color a cell of a text row is sent in. *)
Definition attr_color (attr : Z) : Z := if negb (attr =? 0) then CSELECT else CTEXT.

(** ** The cost of redrawing a band in place *)

(** The redraw costs of those of the first [k] rows of the band at [offs]
    whose virtual row differs, by color or hash, from the physical row in
    the same place. *)
Fixpoint inplace_cost (st : display) (offs : Z) (k : nat) : Z :=
  match k with
  | O => 0
  | S k' =>
      inplace_cost st offs k'
      + (if rows_differ (prow st (offs + Z.of_nat k')) (vrow st (offs + Z.of_nat k'))
         then v_cost (vrow st (offs + Z.of_nat k')) else 0)
  end.

(** ** Windows update can render *)

(** Dot is a line of the window's buffer (the header line at most). *)
Definition window_ok (wp : mgwin) : Prop :=
  (w_dotp wp <= b_headp (w_bufp wp))%nat.

(** The members of a window that update leaves alone: everything but the
    top line, the flags and the framing request. *)
Definition window_place (wp : mgwin) :=
  (w_bufp wp, w_dotp wp, w_doto wp, w_dotline wp, w_markp wp, w_marko wp,
   w_markline wp, w_toprow wp, w_ntrows wp).

(** The steps along the ring of lines from [lp] round to dot. *)
Definition ring_dist (wp : mgwin) (lp : nat) : nat :=
  if (lp <=? w_dotp wp)%nat then w_dotp wp - lp
  else if (lp <=? b_headp (w_bufp wp))%nat
  then b_headp (w_bufp wp) - lp + 1 + w_dotp wp
  else 1 + w_dotp wp.

(** vtpute on a byte drawn as itself: left of the screen the byte is
    counted but not stored. *)
Definition put_plain_ext (c : Z) (st : display) : display :=
  if vtcol st >=? ncol then vt_text (ncol - 1) 36 st
  else set_vtcol (vtcol st + 1)
         (if vtcol st >=? 0 then vt_text (vtcol st) c st else st).

(** ** Driver calls of a stretch of code *)

(** From [st] to [st'] driver calls were added, each of them one of [Q]. *)
Definition sends (Q : ttyop -> Prop) (st st' : display) : Prop :=
  exists ops, tty st' = tty st ++ ops /\ Forall Q ops.

(** The calls uline makes for the row [row]: a move on that row, colors,
    characters and the erase to the end of the line. *)
Definition uline_op (row : Z) (op : ttyop) : Prop :=
  match op with
  | TtMove r _ => r = row
  | TtPutc _ | TtColor _ | TtEeol => True
  | TtEeop | TtInsl _ _ _ | TtDell _ _ _ | TtFlush => False
  end.

(** The calls traceback may make for the band of [size] rows at [offs]:
    inserts and deletes of lines that begin in the band, end at its last
    row and move at least one line, no more than fit; moves on rows of
    the band; colors, characters and erases to the end of a line. *)
Definition band_op (offs size : Z) (op : ttyop) : Prop :=
  match op with
  | TtInsl row bot n | TtDell row bot n =>
      bot = offs + size - 1 /\ offs <= row /\ 1 <= n /\ row + n - 1 <= bot
  | TtMove row _ => offs <= row < offs + size
  | TtPutc _ | TtColor _ | TtEeol => True
  | TtEeop | TtFlush => False
  end.

(** ** The toggles of the mode line *)

Section Toggles.
Context {D : Defs}.

(** The value a toggle gives its flag: [n > 0] with an argument, the
    opposite of the flag without. *)
Definition toggled (f n : Z) (flag : bool) : bool :=
  if negb (Z.land f FFARG =? 0) then n >? 0 else negb flag.

Definition linenotoggle (f n : Z) (st : display) : Z * display :=
  let st := set_linenos (toggled f n (linenos st)) st in
  let st := set_sgarbf true st in
  (TRUE, st).

Definition colnotoggle (f n : Z) (st : display) : Z * display :=
  let st := set_colnos (toggled f n (colnos st)) st in
  let st := set_sgarbf true st in
  (TRUE, st).

Definition timetoggle (f n : Z) (st : display) : Z * display :=
  let st := set_timesh (toggled f n (timesh st)) st in
  let st := set_sgarbf true st in
  (TRUE, st).

End Toggles.

(** ** mouse.c

    The functions work on the windows of the display and on the globals
    of mouse.c.  A line pointer is the place of the line in the buffer of
    the window it is taken from, so lforw, lback, llength and lgetc are
    those of that buffer; [curbp->b_headp] is the header of [curbp], which
    mg keeps the buffer of the current window. *)

Section Mouse.
Context {D : Defs}.

(** [for (i = 0; i < n; i++) { if (lforw(lp) == curbp->b_headp) break; lp = lforw(lp); }] *)
Fixpoint scroll_forw (n : nat) (bp : buffer) (headp : nat) (lp : nat) : nat :=
  match n with
  | O => lp
  | S n' =>
      if (lforw bp lp =? headp)%nat then lp
      else scroll_forw n' bp headp (lforw bp lp)
  end.

(** [for (i = 0; i > n; i--) { if (lback(lp) == curbp->b_headp) break; lp = lback(lp); }] *)
Fixpoint scroll_back (n : nat) (bp : buffer) (headp : nat) (lp : nat) : nat :=
  match n with
  | O => lp
  | S n' =>
      if (lback bp lp =? headp)%nat then lp
      else scroll_back n' bp headp (lback bp lp)
  end.

Definition scroll_view_only (n : Z) (st : display) (m : mouse) : Z * display :=
  if n =? 0 then (TRUE, st)
  else
    let wp := cur_window st in
    let lp := w_linep wp in
    let lp :=
      if n >? 0
      then scroll_forw (Z.to_nat n) (w_bufp wp) (b_headp (curbp m)) lp
      else scroll_back (Z.to_nat (- n)) (w_bufp wp) (b_headp (curbp m)) lp in
    if negb (lp =? w_linep wp)%nat
    then (TRUE, set_cur_window
                  (or_rflag (Z.lor WFFULL WFSAVE) (set_w_linep lp wp)) st)
    else (TRUE, st).

Definition mouse_init (m : mouse) : mouse :=
  let m := set_sent (sent m ++ MOUSE_SGR_ON) m in
  let m := set_mouse_enabled 1 m in
  set_mouse_down 0 m.

Definition mouse_close (m : mouse) : mouse :=
  if negb (mouse_enabled m =? 0) then
    let m := set_sent (sent m ++ MOUSE_SGR_OFF) m in
    set_mouse_enabled 0 m
  else m.

(** The place in the list of windows of the first window with [row] among
    its text rows, counted from [k]; nothing when there is none. *)
Fixpoint window_from (k : nat) (row : Z) (ws : list mgwin) : option nat :=
  match ws with
  | [] => None
  | wp :: ws' =>
      if (row >=? w_toprow wp) && (row <? w_toprow wp + w_ntrows wp)
      then Some k
      else window_from (S k) row ws'
  end.

Definition window_at_row (row : Z) (st : display) : option nat :=
  window_from 0 row (wheadp st).

(** [row] is one of the text rows of the window. *)
Definition on_window (row : Z) (wp : mgwin) : Prop :=
  w_toprow wp <= row < w_toprow wp + w_ntrows wp.

(** The loop of col_to_offset from offset [i] and column [col]; [n] counts
    the characters left. *)
Fixpoint offset_loop (n : nat) (bp : buffer) (lp : nat) (targetcol tabw i col : Z)
    : Z :=
  match n with
  | O => llength bp lp
  | S n' =>
      if i <? llength bp lp then
        let c := lgetc bp lp i in
        if col >=? targetcol then i
        else
          let col :=
            if c =? 9 then ntabstop col tabw
            else if ISCTRL c then col + 2
            else col + 1 in
          offset_loop n' bp lp targetcol tabw (i + 1) col
      else llength bp lp
  end.

(** The column the loop has reached at the offset [n]. *)
Fixpoint offset_col (bp : buffer) (lp : nat) (tabw : Z) (n : nat) : Z :=
  match n with
  | O => 0
  | S n' =>
      let c := lgetc bp lp (Z.of_nat n') in
      let col := offset_col bp lp tabw n' in
      if c =? 9 then ntabstop col tabw
      else if ISCTRL c then col + 2
      else col + 1
  end.

(** The column update computes for the cursor when dot is at the offset
    [k] of the line [lp] of the window. *)
Definition dot_col (wp : mgwin) (lp : nat) (k : Z) : Z :=
  cursor_col (Z.to_nat k) (set_w_doto k wp) lp 0 0.

Definition col_to_offset (bp : buffer) (lp : nat) (targetcol tabw : Z) : Z :=
  offset_loop (Z.to_nat (llength bp lp)) bp lp targetcol tabw 0 0.

(** The line a click on the row [y] of the window goes to: the line shown
    on that row, or the last line of the buffer. *)
Definition click_line (wp : mgwin) (y : Z) : nat :=
  Nat.min (w_linep wp + Z.to_nat (y - w_toprow wp)) (b_headp (w_bufp wp) - 1).

(** The window with dot moved to the click at column [x] of row [y]. *)
Definition click_window (wp : mgwin) (x y : Z) : mgwin :=
  or_rflag WFMOVE
    (set_w_doto (col_to_offset (w_bufp wp) (click_line wp y) x (b_tabw (w_bufp wp)))
       (set_w_dotp (click_line wp y)
          (set_w_dotline (Z.of_nat (click_line wp y) + 1) wp))).

(** [while (line_count < row && lp != curbp->b_headp) { lp = lforw(lp); line_count++; }] *)
Fixpoint walk_down (n : nat) (bp : buffer) (headp : nat) (lp : nat) : nat :=
  match n with
  | O => lp
  | S n' =>
      if negb (lp =? headp)%nat then walk_down n' bp headp (lforw bp lp)
      else lp
  end.

(** [while (tlp != lp && tlp != curbp->b_headp) { tlp = lforw(tlp); lineno++; }] *)
Fixpoint count_lines (n : nat) (bp : buffer) (lp tlp : nat) (lineno : Z)
    : option Z :=
  match n with
  | O => None
  | S n' =>
      if negb (tlp =? lp)%nat && negb (tlp =? b_headp bp)%nat
      then count_lines n' bp lp (lforw bp tlp) (lineno + 1)
      else Some lineno
  end.

(** Nothing is returned when the loop that counts the lines does not
    end. *)
Definition mouse_move_to (x y : Z) (st : display) (m : mouse)
    : option (Z * (display * mouse)) :=
  match window_at_row y st with
  | None => Some (FALSE, (st, m))
  | Some k =>
      let wp := nth k (wheadp st) mgwin0 in
      let '(st, m) :=
        if negb (k =? curwp st)%nat
        then (set_curwp k st, set_curbp (w_bufp wp) m)
        else (st, m) in
      let row := y - w_toprow wp in
      let lp := walk_down (Z.to_nat row) (w_bufp wp) (b_headp (curbp m)) (w_linep wp) in
      let lp := if (lp =? b_headp (curbp m))%nat then lback (w_bufp wp) lp else lp in
      lineno ← count_lines (S (S (b_headp (curbp m)))) (curbp m) lp
                 (lforw (curbp m) (b_headp (curbp m))) 1;
      let cw := set_w_dotline lineno (cur_window st) in
      let cw := set_w_dotp lp cw in
      let cw := set_w_doto (col_to_offset (w_bufp wp) lp x (b_tabw (curbp m))) cw in
      let cw := or_rflag WFMOVE cw in
      Some (TRUE, (set_cur_window cw st, m))
  end.

(** [while (offset > 0 && ISWORD(lgetc(lp, offset - 1))) offset--;] *)
Fixpoint word_start (n : nat) (bp : buffer) (lp : nat) (offset : Z) : Z :=
  match n with
  | O => offset
  | S n' =>
      if (offset >? 0) && ISWORD (lgetc bp lp (offset - 1))
      then word_start n' bp lp (offset - 1)
      else offset
  end.

(** [while (offset < llength(lp) && ISWORD(lgetc(lp, offset))) offset++;] *)
Fixpoint word_end (n : nat) (bp : buffer) (lp : nat) (offset : Z) : Z :=
  match n with
  | O => offset
  | S n' =>
      if (offset <? llength bp lp) && ISWORD (lgetc bp lp offset)
      then word_end n' bp lp (offset + 1)
      else offset
  end.

Definition select_word (st : display) (m : mouse) : Z * (display * mouse) :=
  let bp := w_bufp (cur_window st) in
  let lp := w_dotp (cur_window st) in
  let offset := w_doto (cur_window st) in
  if (offset >=? llength bp lp) || negb (ISWORD (lgetc bp lp offset))
  then (FALSE, (st, m))
  else
    let offset := word_start (Z.to_nat offset) bp lp offset in
    let st := set_cur_window (set_w_doto offset (cur_window st)) st in
    let '(st, bp') := isetmark st (curbp m) in
    let m := set_curbp bp' m in
    let offset := word_end (Z.to_nat (llength bp lp - offset)) bp lp offset in
    let st := set_cur_window (set_w_doto offset (cur_window st)) st in
    let st := set_cur_window (or_rflag WFFULL (cur_window st)) st in
    (TRUE, (st, m)).

(** [elapsed_ms], computed in [long]; the division is C's. *)
Definition elapsed_ms (now last : Z * Z) : Z :=
  to_long (to_long (to_long (now.1 - last.1) * 1000)
           + Z.quot (to_long (now.2 - last.2)) 1000).

(** A time of day as gettimeofday gives it: microseconds below a second,
    seconds far from the ends of [long]. *)
Definition timeval_ok (t : Z * Z) : Prop :=
  0 <= t.1 < 2 ^ 50 /\ 0 <= t.2 < 1000000.

(** The microseconds from [last] to [now]. *)
Definition usec_between (now last : Z * Z) : Z :=
  (now.1 - last.1) * 1000000 + (now.2 - last.2).

(** "Clear any existing mark and force redraw" *)
Definition clear_mark (wp : mgwin) : mgwin :=
  match w_markp wp with
  | Some _ =>
      or_rflag WFFULL (set_w_markline 0 (set_w_marko 0 (set_w_markp None wp)))
  | None => wp
  end.

(** The globals after a left press has been recorded. *)
Definition press_recorded (x y : Z) (now : Z * Z) (m : mouse) : mouse :=
  set_drag_start_y y
    (set_drag_start_x x
       (set_mouse_down 1
          (set_last_click_y y (set_last_click_x x (set_last_click_time now m))))).

(** The test for a double click. *)
Definition is_double_click (x y : Z) (now : Z * Z) (m : mouse) : bool :=
  (elapsed_ms now (last_click_time m) <=? DOUBLE_CLICK_MS)
  && (elapsed_ms now (last_click_time m) >=? 0)
  && (x =? last_click_x m) && (y =? last_click_y m).

(** [now] is the time gettimeofday gives. *)
Definition mouse_handle (mep : mouse_event) (now : Z * Z) (st : display) (m : mouse)
    : option (Z * (display * mouse)) :=
  match me_type mep with
  | MOUSE_PRESS =>
      if me_button mep =? MOUSE_BUTTON_LEFT then
        let elapsed := elapsed_ms now (last_click_time m) in
        let is_double_click :=
          (elapsed <=? DOUBLE_CLICK_MS) && (elapsed >=? 0)
          && (me_x mep =? last_click_x m) && (me_y mep =? last_click_y m) in
        let m := set_last_click_time now m in
        let m := set_last_click_x (me_x mep) m in
        let m := set_last_click_y (me_y mep) m in
        let m := set_mouse_down 1 m in
        let m := set_drag_start_x (me_x mep) m in
        let m := set_drag_start_y (me_y mep) m in
        let st := set_cur_window (clear_mark (cur_window st)) st in
        '(r, (st, m)) ← mouse_move_to (me_x mep) (me_y mep) st m;
        if r =? FALSE then Some (FALSE, (st, m))
        else
          let '(st, m) := if is_double_click then (select_word st m).2 else (st, m) in
          Some (TRUE, (st, m))
      else if me_button mep =? MOUSE_WHEEL_UP then
        let '(r, st) := scroll_view_only (-3) st m in Some (r, (st, m))
      else if me_button mep =? MOUSE_WHEEL_DOWN then
        let '(r, st) := scroll_view_only 3 st m in Some (r, (st, m))
      else Some (FALSE, (st, m))
  | MOUSE_DRAG =>
      if negb (mouse_down m =? 0) && (me_button mep =? MOUSE_BUTTON_LEFT) then
        let '(st, m) :=
          match w_markp (cur_window st) with
          | None => let '(st, bp) := isetmark st (curbp m) in (st, set_curbp bp m)
          | Some _ => (st, m)
          end in
        mouse_move_to (me_x mep) (me_y mep) st m
      else Some (FALSE, (st, m))
  | MOUSE_RELEASE =>
      if me_button mep =? MOUSE_BUTTON_LEFT then
        let m := set_mouse_down 0 m in
        let '(st, m) :=
          match w_markp (cur_window st) with
          | Some _ =>
              let '(st, bp) := region_to_clipboard st (curbp m) in
              (st, set_curbp bp m)
          | None => (st, m)
          end in
        Some (TRUE, (st, m))
      else Some (FALSE, (st, m))
  end.

End Mouse.
(** * Proofs *)

(** ** C integers and arrays *)

Lemma to_int_id (z : Z) : -2147483648 <= z <= INT_MAX -> to_int z = z.
Proof.
  unfold to_int, INT_MAX. intros H.
  rewrite Z.mod_small; lia.
Qed.

Lemma length_zset {A : Type} (l : list A) (i : Z) (x : A) :
  length (zset l i x) = length l.
Proof.
  unfold zset. destruct (i <? 0); [reflexivity | apply length_insert].
Qed.

Lemma rd_zset_eq {A : Type} (d : A) (l : list A) (i : Z) (x : A) :
  0 <= i < Z.of_nat (length l) -> rd d (zset l i x) i = x.
Proof.
  intros H. unfold rd, zget, zset.
  destruct (Z.ltb_spec i 0); [lia |].
  rewrite list_lookup_insert_eq; [reflexivity | lia].
Qed.

Lemma rd_zset_ne {A : Type} (d : A) (l : list A) (i j : Z) (x : A) :
  i <> j -> rd d (zset l i x) j = rd d l j.
Proof.
  intros H. unfold rd, zget, zset.
  destruct (Z.ltb_spec i 0); [reflexivity |].
  destruct (Z.ltb_spec j 0); [reflexivity |].
  rewrite list_lookup_insert_ne; [reflexivity | lia].
Qed.

Lemma rd_zset (d : Z) (l : list Z) (i j x : Z) :
  0 <= i < Z.of_nat (length l) ->
  rd d (zset l i x) j = if j =? i then x else rd d l j.
Proof.
  intros H. destruct (Z.eqb_spec j i) as [-> | Hne].
  - apply rd_zset_eq, H.
  - apply rd_zset_ne. congruence.
Qed.

Lemma rd_lookup {A : Type} (d : A) (l : list A) (i : nat) (x : A) :
  l !! i = Some x -> rd d l (Z.of_nat i) = x.
Proof.
  intros H. unfold rd, zget.
  destruct (Z.ltb_spec (Z.of_nat i) 0); [lia |].
  rewrite Nat2Z.id, H. reflexivity.
Qed.

(** ** mouse.c: the decoder *)

Lemma digits_acc_ge (ds : list Z) (v : Z) :
  Forall is_digit ds -> 0 <= v ->
  v <= fold_left (fun v d => v * 10 + (d - 48)) ds v.
Proof.
  intros Hd. revert v. induction Hd as [| d ds Hd _ IH]; intros v Hv; simpl.
  - lia.
  - unfold is_digit in Hd. etransitivity; [| apply IH]; lia.
Qed.

Lemma read_number_digits (ds : list Z) (v c : Z) (rest : list Z) :
  Forall is_digit ds -> ~ is_digit c -> 0 <= v ->
  fold_left (fun v d => v * 10 + (d - 48)) ds v <= INT_MAX ->
  read_number v (ds ++ c :: rest)
  = Some (fold_left (fun v d => v * 10 + (d - 48)) ds v, c, rest).
Proof.
  intros Hd Hc. revert v.
  induction Hd as [| d ds Hd Hds IH]; intros v Hv Hmax; simpl.
  - unfold is_digit in Hc.
    destruct (Z.leb_spec 48 c), (Z.leb_spec c 57); simpl; try reflexivity; lia.
  - simpl in Hmax. unfold is_digit in Hd.
    destruct (Z.leb_spec 48 d), (Z.leb_spec d 57); try lia. simpl.
    assert (Hstep : 0 <= v * 10 + (d - 48)) by lia.
    pose proof (digits_acc_ge ds _ Hds Hstep) as Hge.
    rewrite to_int_id by (unfold INT_MAX in *; lia).
    apply IH; assumption.
Qed.

Lemma land_32_testbit (b : Z) : (Z.land b 32 =? 0) = negb (Z.testbit b 5).
Proof.
  destruct (Z.testbit b 5) eqn:Hb; simpl.
  - apply Z.eqb_neq. intros H0.
    assert (Ht : Z.testbit (Z.land b 32) 5 = true).
    { rewrite Z.land_spec, Hb. reflexivity. }
    rewrite H0 in Ht. rewrite Z.bits_0 in Ht. discriminate.
  - apply Z.eqb_eq. apply Z.bits_inj'. intros n Hn.
    rewrite Z.land_spec, Z.bits_0.
    change 32 with (2 ^ 5). rewrite Z.pow2_bits_eqb by lia.
    destruct (Z.eqb_spec 5 n) as [<- | Hne].
    + rewrite Hb. reflexivity.
    + apply andb_false_r.
Qed.

Lemma land_lnot_32 (b : Z) : Z.land b (Z.lnot 32) = Z.clearbit b 5.
Proof.
  unfold Z.clearbit. rewrite Z.ldiff_land. reflexivity.
Qed.

(** C8.  A well-formed SGR report, the digits of B, X and Y (each at most
    INT_MAX) separated by semicolons after the '<' and closed by 'M' or 'm',
    is parsed (the function returns 1) and consumed whole; the event has the
    coordinates X - 1 and Y - 1; it is a drag with bit 5 of B cleared when
    that bit is set, and otherwise a release for 'm' and a press for 'M',
    with the button B. *)
Theorem mouse_parse_sgr (bs xs ys : list Z) (term : Z) (mep : mouse_event)
    (rest : list Z) :
  Forall is_digit bs -> Forall is_digit xs -> Forall is_digit ys ->
  digits_value bs <= INT_MAX ->
  digits_value xs <= INT_MAX ->
  digits_value ys <= INT_MAX ->
  term = 77 \/ term = 109 ->
  mouse_parse 60 mep (bs ++ 59 :: xs ++ 59 :: ys ++ term :: rest)
  = Some (1,
          {| me_type :=
               if Z.testbit (digits_value bs) 5 then MOUSE_DRAG
               else if term =? 109 then MOUSE_RELEASE else MOUSE_PRESS;
             me_button :=
               if Z.testbit (digits_value bs) 5
               then Z.clearbit (digits_value bs) 5 else digits_value bs;
             me_x := digits_value xs - 1;
             me_y := digits_value ys - 1 |},
          rest).
Proof.
  intros Hb Hx Hy Mb Mx My Hterm. unfold mouse_parse, digits_value in *.
  assert (N59 : ~ is_digit 59) by (unfold is_digit; lia).
  assert (Nt : ~ is_digit term) by (unfold is_digit; lia).
  pose proof (digits_acc_ge bs 0 Hb ltac:(lia)) as Gb.
  pose proof (digits_acc_ge xs 0 Hx ltac:(lia)) as Gx.
  pose proof (digits_acc_ge ys 0 Hy ltac:(lia)) as Gy.
  cbn [negb Z.eqb Pos.eqb].
  rewrite (read_number_digits bs 0 59 _ Hb N59) by (assumption || lia).
  cbn [mbind option_bind negb Z.eqb Pos.eqb].
  rewrite (read_number_digits xs 0 59 _ Hx N59) by (assumption || lia).
  cbn [mbind option_bind negb Z.eqb Pos.eqb].
  rewrite (read_number_digits ys 0 term _ Hy Nt) by (assumption || lia).
  cbn [mbind option_bind].
  set (B := fold_left _ bs 0) in *.
  set (X := fold_left _ xs 0) in *.
  set (Y := fold_left _ ys 0) in *.
  rewrite land_32_testbit, negb_involutive, land_lnot_32.
  rewrite !to_int_id by (unfold INT_MAX in *; lia).
  destruct Hterm as [-> | ->]; cbn [negb Z.eqb Pos.eqb andb];
    destruct (Z.testbit B 5); reflexivity.
Qed.

(** ** display.c: in_selection *)

Ltac zbool :=
  repeat match goal with
    | |- context [?a <? ?b] => destruct (Z.ltb_spec a b)
    | |- context [?a =? ?b] => destruct (Z.eqb_spec a b)
    | |- context [?a >? ?b] => rewrite (Z.gtb_ltb a b)
    | |- context [?a >=? ?b] => rewrite (Z.geb_leb a b)
    | |- context [?a <=? ?b] => destruct (Z.leb_spec a b)
    end.

Lemma sel_start_comm (p q : Z * Z) : sel_start p q = sel_start q p.
Proof.
  destruct p as [pl po], q as [ql qo]. unfold sel_start, pos_ltb. cbn [fst snd].
  zbool; cbn [orb andb]; zbool; try reflexivity; try lia; f_equal; lia.
Qed.

Lemma sel_end_comm (p q : Z * Z) : sel_end p q = sel_end q p.
Proof.
  destruct p as [pl po], q as [ql qo]. unfold sel_end, pos_ltb. cbn [fst snd].
  zbool; cbn [orb andb]; zbool; try reflexivity; try lia; f_equal; lia.
Qed.

(** The normalization of in_selection yields the earlier and the later of
    mark and dot. *)
Lemma normalize_span (ml mo dl do_ : Z) :
  (if (ml <? dl) || ((ml =? dl) && (mo <? do_))
   then (ml, mo, dl, do_) else (dl, do_, ml, mo))
  = ((sel_start (ml, mo) (dl, do_)).1, (sel_start (ml, mo) (dl, do_)).2,
     (sel_end (ml, mo) (dl, do_)).1, (sel_end (ml, mo) (dl, do_)).2).
Proof.
  unfold sel_start, sel_end, pos_ltb. cbn [fst snd].
  zbool; cbn [orb andb fst snd]; zbool; cbn [fst snd]; try reflexivity; try lia;
    repeat f_equal; lia.
Qed.

(** The three tests that follow the normalization. *)
Lemma span_tests (sl so el eo l o : Z) :
  (if (l <? sl) || (l >? el) then 0
   else if (l =? sl) && (o <? so) then 0
   else if (l =? el) && (o >=? eo) then 0
   else 1) = 1
  <-> pos_le (sl, so) (l, o) /\ pos_lt (l, o) (el, eo).
Proof.
  unfold pos_le, pos_lt. cbn [fst snd].
  zbool; cbn [orb andb]; zbool; split; intros; try discriminate; try reflexivity;
    lia.
Qed.

Lemma span_tests_01 (sl so el eo l o : Z) :
  let r := if (l <? sl) || (l >? el) then 0
           else if (l =? sl) && (o <? so) then 0
           else if (l =? el) && (o >=? eo) then 0
           else 1 in
  r = 0 \/ r = 1.
Proof.
  cbv zeta. destruct ((l <? sl) || (l >? el)); [auto |].
  destruct ((l =? sl) && (o <? so)); [auto |].
  destruct ((l =? el) && (o >=? eo)); auto.
Qed.

Lemma in_selection_marked (wp : mgwin) (l o : Z) :
  w_markp wp <> None ->
  in_selection wp l o
  = if (w_markline wp =? w_dotline wp) && (w_marko wp =? w_doto wp) then 0
    else
      let s := sel_start (w_mark wp) (w_dot wp) in
      let e := sel_end (w_mark wp) (w_dot wp) in
      if (l <? s.1) || (l >? e.1) then 0
      else if (l =? s.1) && (o <? s.2) then 0
      else if (l =? e.1) && (o >=? e.2) then 0
      else 1.
Proof.
  intros Hm. unfold in_selection, w_mark, w_dot.
  destruct (w_markp wp); [| congruence].
  rewrite normalize_span. reflexivity.
Qed.

(** C4.  With the mark set, a position (line, offset) is reported selected
    exactly when it lies in the half-open interval, in document order, from
    the earlier of mark and dot to the later: from the start column on the
    start line, before the end column on the end line, every column of a
    line strictly between them.  The answer is 0 or 1 and is the same when
    mark and dot exchange their places. *)
Theorem in_selection_interval (wp : mgwin) (line_num offset : Z) :
  w_markp wp <> None ->
  (in_selection wp line_num offset = 1 <->
     pos_le (sel_start (w_mark wp) (w_dot wp)) (line_num, offset)
     /\ pos_lt (line_num, offset) (sel_end (w_mark wp) (w_dot wp)))
  /\ (in_selection wp line_num offset = 0 \/ in_selection wp line_num offset = 1)
  /\ in_selection (swap_mark_dot wp) line_num offset
     = in_selection wp line_num offset
  /\ ((sel_start (w_mark wp) (w_dot wp)).1 < line_num
        < (sel_end (w_mark wp) (w_dot wp)).1 ->
      in_selection wp line_num offset = 1).
Proof.
  intros Hm.
  assert (Hm' : w_markp (swap_mark_dot wp) <> None) by exact Hm.
  rewrite (in_selection_marked (swap_mark_dot wp)) by exact Hm'.
  rewrite (in_selection_marked wp) by exact Hm.
  change (w_mark (swap_mark_dot wp)) with (w_dot wp).
  change (w_dot (swap_mark_dot wp)) with (w_mark wp).
  cbn [swap_mark_dot w_markline w_dotline w_marko w_doto].
  rewrite (sel_start_comm (w_dot wp)), (sel_end_comm (w_dot wp)).
  cbv zeta.
  set (s := sel_start (w_mark wp) (w_dot wp)).
  set (e := sel_end (w_mark wp) (w_dot wp)).
  assert (Hse : (w_markline wp = w_dotline wp /\ w_marko wp = w_doto wp) -> s = e).
  { intros [Hl Ho]. unfold s, e, sel_start, sel_end, w_mark, w_dot.
    rewrite Hl, Ho. destruct (pos_ltb _ _); reflexivity. }
  assert (Hord : pos_le s e).
  { unfold s, e, sel_start, sel_end, pos_ltb, pos_le, w_mark, w_dot.
    cbn [fst snd]. zbool; cbn [orb andb fst snd]; zbool; cbn [fst snd]; lia. }
  assert (Hne : ~ (w_markline wp = w_dotline wp /\ w_marko wp = w_doto wp) ->
                pos_lt s e).
  { unfold s, e, sel_start, sel_end, pos_ltb, pos_lt, w_mark, w_dot.
    cbn [fst snd]. zbool; cbn [orb andb fst snd]; zbool; cbn [fst snd]; lia. }
  destruct s as [sl so], e as [el eo]. cbn [fst snd] in *.
  pose proof (span_tests sl so el eo line_num offset) as Hspan.
  pose proof (span_tests_01 sl so el eo line_num offset) as H01.
  cbv zeta in H01.
  destruct (Z.eqb_spec (w_markline wp) (w_dotline wp)) as [Hl | Hl];
    destruct (Z.eqb_spec (w_marko wp) (w_doto wp)) as [Ho | Ho];
    cbn [andb].
  - (* mark and dot coincide: the interval is empty *)
    specialize (Hse (conj Hl Ho)). injection Hse as -> ->.
    unfold pos_le, pos_lt in *. cbn [fst snd] in *.
    split; [split; [discriminate | lia] |].
    split; [auto |]. split; [rewrite Hl, Ho, !Z.eqb_refl; reflexivity |]. lia.
  - split; [exact Hspan |]. split; [exact H01 |].
    split.
    + rewrite Hl, Z.eqb_refl. cbn [andb].
      destruct (Z.eqb_spec (w_doto wp) (w_marko wp)); [congruence | reflexivity].
    + intros Hin. apply Hspan. unfold pos_le, pos_lt. cbn [fst snd]. lia.
  - split; [exact Hspan |]. split; [exact H01 |].
    split.
    + destruct (Z.eqb_spec (w_dotline wp) (w_markline wp)); [congruence | reflexivity].
    + intros Hin. apply Hspan. unfold pos_le, pos_lt. cbn [fst snd]. lia.
  - split; [exact Hspan |]. split; [exact H01 |].
    split.
    + destruct (Z.eqb_spec (w_dotline wp) (w_markline wp)); [congruence | reflexivity].
    + intros Hin. apply Hspan. unfold pos_le, pos_lt. cbn [fst snd]. lia.
Qed.

(** ** display.c: hash *)

Lemma drop_blanks_split (l : list Z) :
  exists n : nat,
    l = replicate n 32 ++ drop_blanks l /\ list.head (drop_blanks l) <> Some 32.
Proof.
  induction l as [| c l [n [IH1 IH2]]]; simpl.
  - exists 0%nat. split; [reflexivity | discriminate].
  - destruct (Z.eqb_spec c 32) as [-> | Hc].
    + exists (S n). split; [simpl; congruence | exact IH2].
    + exists 0%nat. split; [reflexivity |]. simpl. congruence.
Qed.

(** A row is its significant cells followed by blanks only, and the last
    significant cell is not a blank. *)
Lemma significant_split (text : list Z) :
  text = significant text
         ++ replicate (length text - length (significant text))%nat 32
  /\ list.last (significant text) <> Some 32.
Proof.
  unfold significant.
  destruct (drop_blanks_split (reverse text)) as [n [H1 H2]].
  assert (Ht : text = reverse (drop_blanks (reverse text)) ++ replicate n 32).
  { rewrite <- (reverse_involutive text) at 1. rewrite H1 at 1.
    rewrite reverse_app, reverse_replicate. reflexivity. }
  split.
  - rewrite Ht at 1. f_equal. f_equal.
    rewrite Ht at 1. rewrite length_app, length_replicate. lia.
  - rewrite last_reverse. exact H2.
Qed.

Lemma significant_take (text : list Z) :
  take (length (significant text)) text = significant text.
Proof.
  destruct (significant_split text) as [H _].
  rewrite H at 2. rewrite take_app_length. reflexivity.
Qed.

Lemma hash_scan_spec (text : list Z) (k n : nat) :
  (k <= length text)%nat -> (k <= n)%nat ->
  hash_scan n text (Z.of_nat k) (Z.of_nat k - 1)
  = (Z.of_nat (length (drop_blanks (reverse (take k text)))),
     Z.of_nat (length (drop_blanks (reverse (take k text)))) - 1).
Proof.
  revert n. induction k as [| k IH]; intros n Hk Hn.
  - destruct n; reflexivity.
  - destruct n as [| n]; [lia |].
    destruct (lookup_lt_is_Some_2 text k ltac:(lia)) as [x Hx].
    rewrite (take_S_r _ _ _ Hx), reverse_snoc.
    cbn [hash_scan drop_blanks].
    destruct (Z.eqb_spec (Z.of_nat (S k)) 0); [lia |].
    replace (Z.of_nat (S k) - 1) with (Z.of_nat k) by lia.
    unfold chr. rewrite (rd_lookup _ _ _ _ Hx).
    destruct (Z.eqb_spec x 32) as [-> | Hne]; cbn [negb].
    + apply IH; lia.
    + cbn [length]. rewrite length_reverse, length_take.
      replace (k `min` length text)%nat with k by lia.
      replace (Z.of_nat (S k) - 1) with (Z.of_nat k) by lia. reflexivity.
Qed.

Lemma hash_fold_spec (text : list Z) (k n : nat) (acc : Z) :
  (k <= length text)%nat -> (k <= n)%nat ->
  hash_fold n text (Z.of_nat k) (Z.of_nat k - 1) acc
  = fold_left (fun n c => to_int (Z.shiftl n 5 + n + c)) (reverse (take k text)) acc.
Proof.
  revert n acc. induction k as [| k IH]; intros n acc Hk Hn.
  - destruct n; reflexivity.
  - destruct n as [| n]; [lia |].
    destruct (lookup_lt_is_Some_2 text k ltac:(lia)) as [x Hx].
    rewrite (take_S_r _ _ _ Hx), reverse_snoc.
    cbn [hash_fold fold_left].
    destruct (Z.eqb_spec (Z.of_nat (S k)) 0); [lia |].
    replace (Z.of_nat (S k) - 1) with (Z.of_nat k) by lia.
    unfold chr. rewrite (rd_lookup _ _ _ _ Hx).
    apply IH; lia.
Qed.


(** ** display.c: vtputc and the tab *)

Lemma ntabstop_next (col tabw : Z) :
  0 <= col -> 0 < tabw ->
  col < ntabstop col tabw <= col + tabw /\ ntabstop col tabw mod tabw = 0.
Proof.
  intros Hc Hw. unfold ntabstop.
  rewrite Z.quot_div_nonneg by lia.
  pose proof (Z.div_mod (col + tabw) tabw ltac:(lia)) as Hdm.
  pose proof (Z.mod_pos_bound (col + tabw) tabw Hw) as Hb.
  split; [nia |]. apply Z.mod_mul. lia.
Qed.

Lemma length_vscreen_vt_text (col c : Z) (st : display) :
  length (vscreen (vt_text col c st)) = length (vscreen st).
Proof. unfold vt_text, set_vrow. cbn [vscreen set_vscreen]. apply length_zset. Qed.

Lemma vrow_vt_text (col c : Z) (st : display) :
  0 <= vtrow st < Z.of_nat (length (vscreen st)) ->
  vrow (vt_text col c st) (vtrow st)
  = set_v_text (zset (v_text (vrow st (vtrow st))) col c) (vrow st (vtrow st)).
Proof.
  intros Hr. unfold vt_text, set_vrow, vrow. cbn [vscreen set_vscreen].
  apply rd_zset_eq, Hr.
Qed.

(** A blank is put at the virtual cursor, which moves one column on. *)
Lemma vtputc_blank (k : nat) (wp : mgwin) (st : display) :
  ISCTRL 32 = false -> isprint 32 = true -> vtcol st < ncol ->
  vtputc (S k) 32 wp st
  = Some (set_vtcol (vtcol st + 1) (vt_text (vtcol st) 32 st)).
Proof.
  intros Hctl Hprt Hcol. cbn [vtputc].
  change (Z.land 32 255) with 32.
  rewrite Z.geb_leb. destruct (Z.leb_spec ncol (vtcol st)); [lia |].
  change (32 =? 9) with false. cbv iota. rewrite Hctl, Hprt. reflexivity.
Qed.

(** The tab loop from a column left of the margin: it ends, at the target
    or at the margin, and every column it passed holds a blank. *)
Lemma tab_loop_spec (k : nat) (wp : mgwin) (target : Z) (r : Z) (c0 : Z) :
  ISCTRL 32 = false -> isprint 32 = true ->
  forall (n : nat) (st : display),
    0 <= c0 <= vtcol st -> vtcol st < ncol -> vtrow st = r ->
    (Z.to_nat (ncol - vtcol st) <= n)%nat ->
    exists st',
      do_while (vtputc (S k) 32 wp)
        (fun st => (vtcol st <? ncol) && (vtcol st <? target)) n st = Some st'
      /\ vtcol st' = Z.max (vtcol st + 1) (Z.min target ncol)
      /\ vtrow st' = r
      /\ length (vscreen st') = length (vscreen st)
      /\ (0 <= r < Z.of_nat (length (vscreen st)) ->
          length (v_text (vrow st r)) = Z.to_nat ncol ->
          (forall col, c0 <= col < vtcol st -> chr (v_text (vrow st r)) col = 32) ->
          length (v_text (vrow st' r)) = Z.to_nat ncol
          /\ forall col, c0 <= col < vtcol st' -> chr (v_text (vrow st' r)) col = 32).
Proof.
  intros Hctl Hprt. induction n as [| n IH]; intros st Hc0 Hcol Hrow Hn.
  - lia.
  - cbn [do_while]. rewrite vtputc_blank by assumption.
    cbn [mbind option_bind].
    set (st1 := set_vtcol (vtcol st + 1) (vt_text (vtcol st) 32 st)).
    assert (Hv1 : vtcol st1 = vtcol st + 1) by reflexivity.
    assert (Hr1 : vtrow st1 = r) by exact Hrow.
    assert (Hl1 : length (vscreen st1) = length (vscreen st)).
    { unfold st1. cbn [vscreen set_vtcol]. apply length_vscreen_vt_text. }
    assert (Ht1 : 0 <= r < Z.of_nat (length (vscreen st)) ->
                  length (v_text (vrow st r)) = Z.to_nat ncol ->
                  (forall col, c0 <= col < vtcol st -> chr (v_text (vrow st r)) col = 32) ->
                  length (v_text (vrow st1 r)) = Z.to_nat ncol
                  /\ forall col, c0 <= col < vtcol st1 ->
                       chr (v_text (vrow st1 r)) col = 32).
    { intros Hr Hlen Hbl.
      assert (Hrow1 : vrow st1 r
                = set_v_text (zset (v_text (vrow st r)) (vtcol st) 32) (vrow st r)).
      { unfold st1. rewrite <- Hrow. apply vrow_vt_text. lia. }
      rewrite Hrow1. cbn [v_text set_v_text]. split.
      - rewrite length_zset. exact Hlen.
      - intros col Hcl. unfold chr. rewrite rd_zset by lia.
        destruct (Z.eqb_spec col (vtcol st)); [reflexivity |].
        apply Hbl. lia. }
    rewrite Hv1.
    destruct (Z.ltb_spec (vtcol st + 1) ncol) as [Hlt | Hge];
      [destruct (Z.ltb_spec (vtcol st + 1) target) as [Htg | Htg] |];
      cbn [andb].
    + destruct (IH st1) as (st' & Hrun & Hcol' & Hrow' & Hlen' & Htext');
        try (rewrite ?Hv1; lia); try assumption.
      exists st'. split; [exact Hrun |]. split; [rewrite Hcol', Hv1; lia |].
      split; [exact Hrow' |]. split; [congruence |].
      intros Hr Hlen Hbl. destruct (Ht1 Hr Hlen Hbl) as [Hlen1 Hbl1].
      apply Htext'; [lia | exact Hlen1 | exact Hbl1].
    + exists st1. split; [reflexivity |]. split; [lia |].
      split; [exact Hr1 |]. split; [exact Hl1 |]. exact Ht1.
    + exists st1. split; [reflexivity |]. split; [lia |].
      split; [exact Hr1 |]. split; [exact Hl1 |]. exact Ht1.
Qed.

(** C3.  A tab written at column C left of the margin, the tab width W being
    positive: with enough fuel (more than the columns left on the row)
    vtputc returns, and the virtual cursor ends at the next tab stop after C
    (the next multiple of W) or at the row width, whichever is smaller; it
    has moved right, by at least the one blank written, and is not beyond
    the row width; the columns passed hold blanks. *)
Theorem vtputc_tab_advance (fuel : nat) (wp : mgwin) (st : display) :
  ISCTRL 32 = false -> isprint 32 = true ->
  0 < b_tabw (w_bufp wp) ->
  0 <= vtcol st < ncol ->
  (Z.to_nat (ncol - vtcol st) < fuel)%nat ->
  let stop := ntabstop (vtcol st) (b_tabw (w_bufp wp)) in
  (vtcol st < stop <= vtcol st + b_tabw (w_bufp wp)
   /\ stop mod b_tabw (w_bufp wp) = 0)
  /\ exists st',
       vtputc fuel 9 wp st = Some st'
       /\ vtcol st' = Z.min stop ncol
       /\ vtcol st < vtcol st' <= ncol
       /\ vtrow st' = vtrow st
       /\ (0 <= vtrow st < Z.of_nat (length (vscreen st)) ->
           length (v_text (vrow st (vtrow st))) = Z.to_nat ncol ->
           forall col, vtcol st <= col < vtcol st' ->
             chr (v_text (vrow st' (vtrow st))) col = 32).
Proof.
  intros Hctl Hprt Hw Hcol Hfuel stop.
  pose proof (ntabstop_next (vtcol st) _ ltac:(lia) Hw) as Hstop.
  fold stop in Hstop. split; [exact Hstop |].
  destruct fuel as [| k]; [lia |].
  destruct k as [| k]; [lia |].
  destruct (tab_loop_spec k wp stop (vtrow st) (vtcol st) Hctl Hprt (S k) st)
    as (st' & Hrun & Hcol' & Hrow' & _ & Htext); try lia.
  exists st'. split.
  - cbn [vtputc]. change (Z.land 9 255) with 9.
    rewrite Z.geb_leb. destruct (Z.leb_spec ncol (vtcol st)); [lia |].
    change (9 =? 9) with true. cbv iota. exact Hrun.
  - split; [lia |]. split; [lia |]. split; [exact Hrow' |].
    intros Hr Hlen col Hc. apply Htext; try assumption. intros; lia.
Qed.

(** The fuel update passes to vtputc is enough for a tab. *)
Lemma vt_fuel_tab (st : display) :
  0 <= vtcol st -> (Z.to_nat (ncol - vtcol st) < vt_fuel)%nat.
Proof. unfold vt_fuel. lia. Qed.

(** ** display.c: setscores *)

Lemma length_set_itrace (p x : Z) (sc : list score) :
  length (set_itrace p x sc) = length sc.
Proof. apply length_zset. Qed.

Lemma length_set_jtrace (p x : Z) (sc : list score) :
  length (set_jtrace p x sc) = length sc.
Proof. apply length_zset. Qed.

Lemma length_set_cost (p x : Z) (sc : list score) :
  length (set_cost p x sc) = length sc.
Proof. apply length_zset. Qed.

Lemma cell_set_itrace_ne (p q x : Z) (sc : list score) :
  q <> p -> cell (set_itrace p x sc) q = cell sc q.
Proof. intros H. apply rd_zset_ne. congruence. Qed.

Lemma cell_set_jtrace_ne (p q x : Z) (sc : list score) :
  q <> p -> cell (set_jtrace p x sc) q = cell sc q.
Proof. intros H. apply rd_zset_ne. congruence. Qed.

Lemma cell_set_cost_ne (p q x : Z) (sc : list score) :
  q <> p -> cell (set_cost p x sc) q = cell sc q.
Proof. intros H. apply rd_zset_ne. congruence. Qed.

Lemma cell_set_itrace_eq (p x : Z) (sc : list score) :
  0 <= p < Z.of_nat (length sc) ->
  cell (set_itrace p x sc) p
  = {| s_itrace := x; s_jtrace := s_jtrace (cell sc p); s_cost := s_cost (cell sc p) |}.
Proof. intros H. apply rd_zset_eq, H. Qed.

Lemma cell_set_jtrace_eq (p x : Z) (sc : list score) :
  0 <= p < Z.of_nat (length sc) ->
  cell (set_jtrace p x sc) p
  = {| s_itrace := s_itrace (cell sc p); s_jtrace := x; s_cost := s_cost (cell sc p) |}.
Proof. intros H. apply rd_zset_eq, H. Qed.

Lemma cell_set_cost_eq (p x : Z) (sc : list score) :
  0 <= p < Z.of_nat (length sc) ->
  cell (set_cost p x sc) p
  = {| s_itrace := s_itrace (cell sc p); s_jtrace := s_jtrace (cell sc p); s_cost := x |}.
Proof. intros H. apply rd_zset_eq, H. Qed.

(** Rewriting with the lemmas above, side conditions by linear arithmetic. *)
Ltac cells :=
  repeat first
    [ rewrite length_set_itrace | rewrite length_set_jtrace | rewrite length_set_cost
    | rewrite cell_set_itrace_ne by lia | rewrite cell_set_jtrace_ne by lia
    | rewrite cell_set_cost_ne by lia
    | rewrite cell_set_itrace_eq by (cells; lia)
    | rewrite cell_set_jtrace_eq by (cells; lia)
    | rewrite cell_set_cost_eq by (cells; lia) ];
  cbn [s_itrace s_jtrace s_cost].

(** One cell of the inner loop: the cell written holds the best of the
    three candidates, computed from the cells above, left and above-left as
    they stood; no other cell changes. *)
Lemma setscores_cell_spec (st : display) (size i j sp vp pp : Z) (sc : list score) :
  0 <= sp < Z.of_nat (length sc) -> 1 < nrow ->
  let sc' := setscores_cell st size i j sp vp pp sc in
  length sc' = length sc
  /\ (forall q, q <> sp -> cell sc' q = cell sc q)
  /\ cell sc' sp
     = best_of i j
         (cost_delete size j (s_cost (cell sc (sp - nrow))))
         (cost_insert size i (s_cost (cell sc (sp - 1))) (v_cost (vrow st vp)))
         (cost_match (rows_differ (prow st pp) (vrow st vp))
            (s_cost (cell sc (sp - nrow - 1))) (v_cost (vrow st vp))).
Proof.
  intros Hsp Hnrow sc'. subst sc'.
  unfold setscores_cell, best_of, cost_delete, cost_insert, cost_match, rows_differ.
  cells.
  set (del := if negb (j =? size) then iadd _ tcdell else _).
  set (ins := if negb (i =? size) then iadd _ tcinsl else _).
  set (dif := negb _ || negb _).
  replace (if j =? size then s_cost (cell sc (sp - nrow))
           else iadd (s_cost (cell sc (sp - nrow))) tcdell) with del
    by (unfold del; destruct (j =? size); reflexivity).
  replace (if i =? size then iadd (s_cost (cell sc (sp - 1))) (v_cost (vrow st vp))
           else iadd (iadd (s_cost (cell sc (sp - 1))) (v_cost (vrow st vp))) tcinsl)
    with ins by (unfold ins; destruct (i =? size); reflexivity).
  destruct (ins <? del) eqn:Hid; cells.
  - set (mat := if dif then _ else _).
    destruct (mat <? ins) eqn:Hmi.
    + repeat split; intros; cells; reflexivity.
    + repeat split; intros; cells; reflexivity.
  - set (mat := if dif then _ else _).
    destruct (mat <? del) eqn:Hmd.
    + repeat split; intros; cells; reflexivity.
    + repeat split; intros; cells; reflexivity.
Qed.

(** Two cells of the matrix at the same place of the array are the same
    cell: the columns stay below the row length [nrow]. *)
Lemma row_of_index (n i i' a b j' : Z) :
  0 <= a -> b < n -> 0 <= j' < n ->
  n * i + a <= n * i' + j' <= n * i + b -> i' = i.
Proof.
  intros Ha Hb Hj [H1 H2].
  destruct (Z.lt_trichotomy i' i) as [Hlt | [Heq | Hgt]]; [| exact Heq |].
  - assert (n * i' <= n * (i - 1)) by (apply Z.mul_le_mono_nonneg_l; lia). lia.
  - assert (n * (i + 1) <= n * i') by (apply Z.mul_le_mono_nonneg_l; lia). lia.
Qed.

Lemma setscores_inner_spec (st : display) (offs size i : Z) :
  1 <= i <= size -> size < nrow ->
  forall (n : nat) (j sp vp pp : Z) (sc : list score),
    1 <= j -> Z.of_nat n = size - j + 1 ->
    sp = nrow * i + j -> vp = offs + j - 1 -> pp = offs + i - 1 ->
    Z.of_nat (length sc) = nrow * nrow ->
    let sc' := setscores_inner n st size i j sp vp pp sc in
    length sc' = length sc
    /\ (forall q, ~ (nrow * i + j <= q <= nrow * i + size) -> cell sc' q = cell sc q)
    /\ (forall j', j <= j' <= size -> cell_ok st offs size sc' i j').
Proof.
  intros Hi Hsize. induction n as [| n IH]; intros j sp vp pp sc Hj Hn Hsp Hvp Hpp Hlen.
  - cbn [setscores_inner]. split; [reflexivity |]. split; [reflexivity |].
    intros j' Hj'. lia.
  - cbn [setscores_inner].
    assert (Hin : 0 <= sp < Z.of_nat (length sc)) by (subst sp; nia).
    destruct (setscores_cell_spec st size i j sp vp pp sc Hin ltac:(lia))
      as (Hl1 & Hf1 & Hc1).
    set (sc1 := setscores_cell st size i j sp vp pp sc) in *.
    destruct (IH (j + 1) (sp + 1) (vp + 1) pp sc1) as (Hl2 & Hf2 & Hc2);
      try lia.
    split; [lia |]. split.
    + intros q Hq. rewrite Hf2 by lia. apply Hf1. lia.
    + intros j' Hj'. destruct (Z.eq_dec j' j) as [-> | Hne].
      * unfold cell_ok. rewrite !Hf2 by nia.
        replace (nrow * i + j) with sp by lia.
        rewrite Hc1.
        rewrite !Hf1 by nia.
        subst vp pp.
        replace (nrow * (i - 1) + j) with (sp - nrow) by lia.
        replace (nrow * i + (j - 1)) with (sp - 1) by lia.
        replace (nrow * (i - 1) + (j - 1)) with (sp - nrow - 1) by lia.
        reflexivity.
      * apply Hc2. lia.
Qed.

Lemma setscores_outer_spec (st : display) (offs size : Z) :
  size < nrow ->
  forall (n : nat) (i sp1 pp : Z) (sc : list score),
    1 <= i -> Z.of_nat n = size - i + 1 ->
    sp1 = nrow * i + 1 -> pp = offs + i - 1 ->
    Z.of_nat (length sc) = nrow * nrow ->
    let sc' := setscores_outer n st size i sp1 pp (offs - 1) sc in
    length sc' = length sc
    /\ (forall i' j', ~ (i <= i' <= size /\ 1 <= j' <= size) ->
        0 <= j' < nrow -> cell sc' (nrow * i' + j') = cell sc (nrow * i' + j'))
    /\ (forall i' j', i <= i' <= size -> 1 <= j' <= size ->
        cell_ok st offs size sc' i' j').
Proof.
  intros Hsize. induction n as [| n IH]; intros i sp1 pp sc Hi Hn Hsp Hpp Hlen.
  - cbn [setscores_outer]. split; [reflexivity |]. split; [reflexivity |].
    intros i' j' Hi'. lia.
  - cbn [setscores_outer].
    assert (Hrow : 1 <= i <= size) by lia.
    destruct (setscores_inner_spec st offs size i Hrow Hsize
                (Z.to_nat size) 1 sp1 (offs - 1 + 1) pp sc)
      as (Hl1 & Hf1 & Hc1); try lia.
    set (sc1 := setscores_inner (Z.to_nat size) st size i 1 sp1 (offs - 1 + 1) pp sc) in *.
    destruct (IH (i + 1) (sp1 + nrow) (pp + 1) sc1) as (Hl2 & Hf2 & Hc2);
      try lia.
    split; [lia |]. split.
    + intros i' j' Hout Hj'. rewrite Hf2 by lia. apply Hf1. intros Hin.
      assert (i' = i) by (eapply (row_of_index nrow i i' 1 size j'); lia).
      subst i'. lia.
    + intros i' j' Hi' Hj'. destruct (Z.eq_dec i' i) as [-> | Hne].
      * specialize (Hc1 j' Hj'). unfold cell_ok in *.
        rewrite !Hf2 by lia. exact Hc1.
      * apply Hc2; lia.
Qed.

Lemma setscores_row0_spec (st : display) (offs size : Z) :
  0 <= size < nrow ->
  forall (n : nat) (j sp vp tempcost : Z) (sc : list score),
    1 <= j -> Z.of_nat n = size - j + 1 ->
    sp = j -> vp = offs + j - 1 ->
    tempcost = s_cost (cell sc (j - 1)) ->
    Z.of_nat (length sc) = nrow * nrow ->
    let sc' := setscores_row0 n st j sp vp tempcost sc in
    length sc' = length sc
    /\ (forall q, ~ (j <= q <= size) -> cell sc' q = cell sc q)
    /\ (forall j', j <= j' <= size ->
        cell sc' j'
        = {| s_itrace := 0; s_jtrace := j' - 1;
             s_cost := iadd (iadd (s_cost (cell sc' (j' - 1))) tcinsl)
                            (v_cost (vrow st (offs + j' - 1))) |}).
Proof.
  intros Hsize. induction n as [| n IH]; intros j sp vp tc sc Hj Hn Hsp Hvp Htc Hlen.
  - cbn [setscores_row0]. split; [reflexivity |]. split; [reflexivity |].
    intros j' Hj'. lia.
  - cbn [setscores_row0].
    assert (Hin : 0 <= sp < Z.of_nat (length sc)) by nia.
    set (tc1 := iadd (iadd tc tcinsl) (v_cost (vrow st vp))).
    set (sc1 := set_cost sp tc1 (set_jtrace sp (j - 1) (set_itrace sp 0 sc))).
    assert (Hl1 : length sc1 = length sc) by (unfold sc1; cells; reflexivity).
    assert (Hf1 : forall q, q <> sp -> cell sc1 q = cell sc q).
    { intros q Hq. unfold sc1. cells. reflexivity. }
    assert (Hc1 : cell sc1 sp = {| s_itrace := 0; s_jtrace := j - 1; s_cost := tc1 |}).
    { unfold sc1. cells. reflexivity. }
    destruct (IH (j + 1) (sp + 1) (vp + 1) tc1 sc1) as (Hl2 & Hf2 & Hc2); try lia.
    { replace (j + 1 - 1) with sp by lia. rewrite Hc1. reflexivity. }
    split; [lia |]. split.
    + intros q Hq. rewrite Hf2 by lia. apply Hf1. lia.
    + intros j' Hj'. destruct (Z.eq_dec j' j) as [-> | Hne].
      * rewrite !Hf2 by lia. rewrite (Hf1 (j - 1)) by lia.
        replace j with sp at 1 by lia. rewrite Hc1. unfold tc1.
        subst tc vp. reflexivity.
      * apply Hc2. lia.
Qed.

Lemma setscores_col0_spec (size : Z) :
  0 <= size < nrow ->
  forall (n : nat) (i sp tempcost : Z) (sc : list score),
    1 <= i -> Z.of_nat n = size - i + 1 ->
    sp = nrow * i ->
    tempcost = s_cost (cell sc (nrow * (i - 1))) ->
    Z.of_nat (length sc) = nrow * nrow ->
    let sc' := setscores_col0 n i sp tempcost sc in
    length sc' = length sc
    /\ (forall q, ~ (exists i', i <= i' <= size /\ q = nrow * i') ->
        cell sc' q = cell sc q)
    /\ (forall i', i <= i' <= size ->
        cell sc' (nrow * i')
        = {| s_itrace := i' - 1; s_jtrace := 0;
             s_cost := iadd (s_cost (cell sc' (nrow * (i' - 1)))) tcdell |}).
Proof.
  intros Hsize. induction n as [| n IH]; intros i sp tc sc Hi Hn Hsp Htc Hlen.
  - cbn [setscores_col0]. split; [reflexivity |]. split; [reflexivity |].
    intros i' Hi'. lia.
  - cbn [setscores_col0].
    assert (Hin : 0 <= sp < Z.of_nat (length sc)) by nia.
    set (tc1 := iadd tc tcdell).
    set (sc1 := set_cost sp tc1 (set_jtrace sp 0 (set_itrace sp (i - 1) sc))).
    assert (Hl1 : length sc1 = length sc) by (unfold sc1; cells; reflexivity).
    assert (Hf1 : forall q, q <> sp -> cell sc1 q = cell sc q).
    { intros q Hq. unfold sc1. cells. reflexivity. }
    assert (Hc1 : cell sc1 sp = {| s_itrace := i - 1; s_jtrace := 0; s_cost := tc1 |}).
    { unfold sc1. cells. reflexivity. }
    destruct (IH (i + 1) (sp + nrow) tc1 sc1) as (Hl2 & Hf2 & Hc2); try lia.
    { replace (nrow * (i + 1 - 1)) with sp by lia. rewrite Hc1. reflexivity. }
    split; [lia |]. split.
    + intros q Hq. rewrite Hf2.
      * apply Hf1. intros ->. apply Hq. exists i. split; lia.
      * intros (i' & Hi' & ->). apply Hq. exists i'. split; lia.
    + intros i' Hi'. destruct (Z.eq_dec i' i) as [-> | Hne].
      * assert (Hno : forall k, k = i \/ k = i - 1 ->
                  ~ (exists i', i + 1 <= i' <= size /\ nrow * k = nrow * i')).
        { intros k Hk (i' & Hi'' & Heq). nia. }
        rewrite !Hf2 by (apply Hno; lia).
        rewrite (Hf1 (nrow * (i - 1))) by nia.
        replace (nrow * i) with sp by lia. rewrite Hc1. unfold tc1.
        subst tc. reflexivity.
      * apply Hc2. lia.
Qed.

(** The matrix setscores leaves, cell by cell. *)
Lemma setscores_matrix (offs size : Z) (st : display) :
  0 <= size < nrow ->
  Z.of_nat (length (scores st)) = nrow * nrow ->
  let M i j := cell (scores (setscores offs size st)) (nrow * i + j) in
  M 0 0 = score0
  /\ (forall j, 1 <= j <= size ->
      M 0 j = {| s_itrace := 0; s_jtrace := j - 1;
                 s_cost := iadd (iadd (s_cost (M 0 (j - 1))) tcinsl)
                                (v_cost (vrow st (offs + j - 1))) |})
  /\ (forall i, 1 <= i <= size ->
      M i 0 = {| s_itrace := i - 1; s_jtrace := 0;
                 s_cost := iadd (s_cost (M (i - 1) 0)) tcdell |})
  /\ (forall i j, 1 <= i <= size -> 1 <= j <= size ->
      M i j
      = best_of i j
          (cost_delete size j (s_cost (M (i - 1) j)))
          (cost_insert size i (s_cost (M i (j - 1)))
             (v_cost (vrow st (offs + j - 1))))
          (cost_match
             (rows_differ (prow st (offs + i - 1)) (vrow st (offs + j - 1)))
             (s_cost (M (i - 1) (j - 1))) (v_cost (vrow st (offs + j - 1)))))
  /\ length (scores (setscores offs size st)) = length (scores st)
  /\ vscreen (setscores offs size st) = vscreen st
  /\ pscreen (setscores offs size st) = pscreen st.
Proof.
  intros Hsize Hlen M. subst M. unfold setscores. cbn [scores set_scores vscreen pscreen].
  set (sc0 := set_cost 0 0 (set_jtrace 0 0 (set_itrace 0 0 (scores st)))).
  assert (Hpos : 0 < Z.of_nat (length (scores st))) by nia.
  assert (Hl0 : length sc0 = length (scores st)) by (unfold sc0; cells; reflexivity).
  assert (Hc0 : cell sc0 0 = score0) by (unfold sc0; cells; reflexivity).
  destruct (setscores_row0_spec st offs size Hsize (Z.to_nat size) 1 1
              (offs - 1 + 1) 0 sc0) as (Hl1 & Hf1 & Hc1); try lia.
  { change (1 - 1) with 0. rewrite Hc0. reflexivity. }
  set (sc1 := setscores_row0 (Z.to_nat size) st 1 1 (offs - 1 + 1) 0 sc0) in *.
  assert (Hc10 : cell sc1 0 = score0) by (rewrite Hf1 by lia; exact Hc0).
  destruct (setscores_col0_spec size Hsize (Z.to_nat size) 1 nrow 0 sc1)
    as (Hl2 & Hf2 & Hc2); try lia.
  { change (1 - 1) with 0. rewrite Z.mul_0_r, Hc10. reflexivity. }
  set (sc2 := setscores_col0 (Z.to_nat size) 1 nrow 0 sc1) in *.
  destruct (setscores_outer_spec st offs size ltac:(lia) (Z.to_nat size) 1
              (nrow + 1) (offs - 1 + 1) sc2) as (Hl3 & Hf3 & Hc3); try lia.
  set (sc3 := setscores_outer (Z.to_nat size) st size 1 (nrow + 1) (offs - 1 + 1)
                (offs - 1) sc2) in *.
  (* row 0 of the final matrix is row 0 after the first loop *)
  assert (Hrow0 : forall j, 0 <= j <= size -> cell sc3 (nrow * 0 + j) = cell sc1 j).
  { intros j Hj. rewrite Hf3 by lia. rewrite Z.mul_0_r, Z.add_0_l.
    apply Hf2. intros (i' & Hi' & ->). nia. }
  (* column 0 of the final matrix is column 0 after the second loop *)
  assert (Hcol0 : forall i, 0 <= i <= size -> cell sc3 (nrow * i + 0) = cell sc2 (nrow * i)).
  { intros i Hi. rewrite Hf3 by lia. rewrite Z.add_0_r. reflexivity. }
  split.
  { rewrite Hrow0 by lia. exact Hc10. }
  split.
  { intros j Hj. rewrite !Hrow0 by lia. apply Hc1. lia. }
  split.
  { intros i Hi. rewrite !Hcol0 by lia. apply Hc2. lia. }
  split.
  { intros i j Hi Hj. apply (Hc3 i j); lia. }
  split; [lia |]. split; reflexivity.
Qed.


(** C1.  The matrix setscores leaves for a band of [size] rows (the rows of
    the matrix being [nrow] cells long, [size < nrow]): cell [0, 0] is zero;
    row 0 is a chain of inserts, each cell traced to its left neighbour and
    costing that neighbour's cost plus the insert-line cost plus the redraw
    cost of its virtual row; column 0 is a chain of deletes, each traced to
    the cell above at that cell's cost plus the delete-line cost; and every
    other cell [i, j] holds the best of, in this order, the delete (the cost
    of [i-1, j], plus the delete-line cost except in the last column), the
    insert (the cost of [i, j-1] plus the redraw cost of virtual row [j],
    plus the insert-line cost except in the last row) if strictly cheaper,
    and the match (the cost of [i-1, j-1], plus the redraw cost of virtual
    row [j] when its color or hash differs from physical row [i]) if
    strictly cheaper than the best so far, with the trace of the winner.
    The screens are not changed. *)
Theorem setscores_recurrence (offs size : Z) (st : display) :
  0 <= size < nrow ->
  Z.of_nat (length (scores st)) = nrow * nrow ->
  let M i j := cell (scores (setscores offs size st)) (nrow * i + j) in
  M 0 0 = score0
  /\ (forall j, 1 <= j <= size ->
      M 0 j = {| s_itrace := 0; s_jtrace := j - 1;
                 s_cost := iadd (iadd (s_cost (M 0 (j - 1))) tcinsl)
                                (v_cost (vrow st (offs + j - 1))) |})
  /\ (forall i, 1 <= i <= size ->
      M i 0 = {| s_itrace := i - 1; s_jtrace := 0;
                 s_cost := iadd (s_cost (M (i - 1) 0)) tcdell |})
  /\ (forall i j, 1 <= i <= size -> 1 <= j <= size ->
      M i j
      = best_of i j
          (cost_delete size j (s_cost (M (i - 1) j)))
          (cost_insert size i (s_cost (M i (j - 1)))
             (v_cost (vrow st (offs + j - 1))))
          (cost_match
             (rows_differ (prow st (offs + i - 1)) (vrow st (offs + j - 1)))
             (s_cost (M (i - 1) (j - 1))) (v_cost (vrow st (offs + j - 1)))))
  /\ length (scores (setscores offs size st)) = length (scores st)
  /\ vscreen (setscores offs size st) = vscreen st
  /\ pscreen (setscores offs size st) = pscreen st.
Proof. exact (setscores_matrix offs size st). Qed.

(** ** Frames: what the driver calls, uline and ucopy leave alone *)

Lemma for_lt_inv {S : Type} (P : S -> Prop) (body : Z -> S -> S) :
  (forall col s, P s -> P (body col s)) ->
  forall (n : nat) (col hi : Z) (s : S), P s -> P (for_lt n col hi body s).
Proof.
  intros Hbody. induction n as [| n IH]; intros col hi s Hs; cbn [for_lt].
  - exact Hs.
  - destruct (col <? hi); [apply IH, Hbody, Hs | exact Hs].
Qed.

Lemma tty_only_emit (op : ttyop) : tty_only (emit op).
Proof. intros st. repeat split. Qed.

Lemma tty_only_ttputc (c : Z) : tty_only (ttputc c).
Proof. intros st. repeat split. Qed.

Lemma tty_only_comp (f g : display -> display) :
  tty_only f -> tty_only g -> tty_only (fun st => g (f st)).
Proof.
  intros Hf Hg st. destruct (Hf st) as (a & b & c & d & e & w).
  destruct (Hg (f st)) as (a' & b' & c' & d' & e' & w').
  repeat split; congruence.
Qed.

Lemma tty_only_id : tty_only (fun st => st).
Proof. intros st. repeat split. Qed.

Lemma tty_only_for (lo hi : Z) (body : Z -> display -> display) :
  (forall col, tty_only (body col)) -> tty_only (for_range lo hi body).
Proof.
  intros Hbody st. unfold for_range.
  apply (for_lt_inv (fun s =>
    vscreen s = vscreen st /\ pscreen s = pscreen st
    /\ blanks s = blanks st /\ scores s = scores st
    /\ sgarbf s = sgarbf st /\ window_part s = window_part st)).
  - intros col s (a & b & c & d & e & w).
    destruct (Hbody col s) as (a' & b' & c' & d' & e' & w').
    repeat split; congruence.
  - repeat split.
Qed.

Lemma tty_only_put_cells (vvp : video) (lo hi : Z) : tty_only (put_cells vvp lo hi).
Proof. apply tty_only_for. intros col. apply tty_only_ttputc. Qed.

Lemma tty_only_put_cells_attr (vvp : video) : tty_only (put_cells_attr vvp).
Proof.
  intros st. unfold put_cells_attr, for_range.
  apply (for_lt_inv (fun p : Z * display =>
    vscreen p.2 = vscreen st /\ pscreen p.2 = pscreen st
    /\ blanks p.2 = blanks st /\ scores p.2 = scores st
    /\ sgarbf p.2 = sgarbf st /\ window_part p.2 = window_part st)).
  - intros col [cur s] H. cbn [snd] in *.
    destruct (negb (chr (v_attr vvp) col =? cur)); cbn [snd]; exact H.
  - repeat split.
Qed.

(** uline sends to the terminal and, when it redraws the row in full,
    copies the attributes of the virtual row into the row [pvp] points at;
    it changes nothing else. *)
Lemma uline_effect (row : Z) (vvp : video) (pvp : pvp_ref) (st : display) :
  exists st1,
    (vscreen st1 = vscreen st /\ pscreen st1 = pscreen st
     /\ blanks st1 = blanks st /\ scores st1 = scores st
     /\ sgarbf st1 = sgarbf st /\ window_part st1 = window_part st)
    /\ (uline row vvp pvp st = st1
        \/ uline row vvp pvp st
           = pvp_set pvp (set_v_attr (bcopy ncol (v_attr vvp) (v_attr (pvp_get pvp st)))
                            (pvp_get pvp st)) st1).
Proof.
  unfold uline.
  destruct ((v_color vvp =? CMODE) || has_selection vvp
            || negb (v_color vvp =? v_color (pvp_get pvp st))
            || memdiff ncol (v_attr vvp) (v_attr (pvp_get pvp st))).
  - set (st1 := if v_color vvp =? CMODE
                then ttcolor CTEXT (put_cells vvp 0 ncol (ttcolor CMODE (ttmove row 0 st)))
                else ttcolor CTEXT (put_cells_attr vvp (ttmove row 0 st))).
    assert (H1 : vscreen st1 = vscreen st /\ pscreen st1 = pscreen st
                 /\ blanks st1 = blanks st /\ scores st1 = scores st
                 /\ sgarbf st1 = sgarbf st /\ window_part st1 = window_part st).
    { unfold st1. destruct (v_color vvp =? CMODE).
      - apply (tty_only_comp _ _
                 (tty_only_comp _ _
                    (tty_only_comp _ _ (tty_only_emit (TtMove row 0))
                       (tty_only_emit (TtColor CMODE)))
                    (tty_only_put_cells vvp 0 ncol))
                 (tty_only_emit (TtColor CTEXT))).
      - apply (tty_only_comp _ _
                 (tty_only_comp _ _ (tty_only_emit (TtMove row 0))
                    (tty_only_put_cells_attr vvp))
                 (tty_only_emit (TtColor CTEXT))). }
    exists st1. split; [exact H1 |]. right.
    destruct H1 as (a & b & c & _).
    assert (Hget : pvp_get pvp st1 = pvp_get pvp st).
    { destruct pvp; unfold pvp_get, prow; congruence. }
    rewrite Hget. reflexivity.
  - destruct (left_match (Z.to_nat ncol) vvp (pvp_get pvp st) 0 =? ncol).
    + exists st. split; [repeat split | left; reflexivity].
    + destruct (right_match _ _ _ _ _ _) as [end_ nbflag].
      destruct (negb nbflag && (v_color vvp =? CTEXT)).
      * eexists. split; [| left; reflexivity].
        set (es := if _ <=? tceeol then end_ else _).
        destruct (negb (es =? end_)).
        -- apply (tty_only_comp _ _
                    (tty_only_comp _ _
                       (tty_only_comp _ _ (tty_only_emit (TtMove row _))
                          (tty_only_emit (TtColor CTEXT)))
                       (tty_only_put_cells vvp _ es))
                    (tty_only_emit TtEeol)).
        -- apply (tty_only_comp _ _
                    (tty_only_comp _ _ (tty_only_emit (TtMove row _))
                       (tty_only_emit (TtColor CTEXT)))
                    (tty_only_put_cells vvp _ es)).
      * eexists. split; [| left; reflexivity].
        apply (tty_only_comp _ _
                 (tty_only_comp _ _ (tty_only_emit (TtMove row _))
                    (tty_only_emit (TtColor (v_color vvp))))
                 (tty_only_put_cells vvp _ end_)).
Qed.

Lemma uline_vscreen (row : Z) (vvp : video) (pvp : pvp_ref) (st : display) :
  vscreen (uline row vvp pvp st) = vscreen st.
Proof.
  destruct (uline_effect row vvp pvp st) as (st1 & (a & _) & [-> | ->]);
    [exact a |]. destruct pvp; exact a.
Qed.

Lemma uline_scores (row : Z) (vvp : video) (pvp : pvp_ref) (st : display) :
  scores (uline row vvp pvp st) = scores st.
Proof.
  destruct (uline_effect row vvp pvp st) as (st1 & (_ & _ & _ & d & _) & [-> | ->]);
    [exact d |]. destruct pvp; exact d.
Qed.

Lemma uline_sgarbf (row : Z) (vvp : video) (pvp : pvp_ref) (st : display) :
  sgarbf (uline row vvp pvp st) = sgarbf st.
Proof.
  destruct (uline_effect row vvp pvp st) as (st1 & (_ & _ & _ & _ & e & _) & [-> | ->]);
    [exact e |]. destruct pvp; exact e.
Qed.

Lemma uline_window_part (row : Z) (vvp : video) (pvp : pvp_ref) (st : display) :
  window_part (uline row vvp pvp st) = window_part st.
Proof.
  destruct (uline_effect row vvp pvp st) as (st1 & (_ & _ & _ & _ & _ & w) & [-> | ->]);
    [exact w |]. destruct pvp; exact w.
Qed.

Lemma uline_length_pscreen (row : Z) (vvp : video) (pvp : pvp_ref) (st : display) :
  length (pscreen (uline row vvp pvp st)) = length (pscreen st).
Proof.
  destruct (uline_effect row vvp pvp st) as (st1 & (_ & b & _) & [-> | ->]);
    [congruence |].
  destruct pvp; unfold pvp_set, set_prow, set_blanks; cbn [pscreen set_pscreen];
    rewrite ?length_zset; congruence.
Qed.

(** uline leaves the rows of the physical screen it was not pointed at. *)
Lemma uline_prow_other (row : Z) (vvp : video) (pvp : pvp_ref) (st : display) (i : Z) :
  pvp <> PScreen i -> prow (uline row vvp pvp st) i = prow st i.
Proof.
  intros Hne.
  destruct (uline_effect row vvp pvp st) as (st1 & (_ & b & _) & [-> | ->]).
  - unfold prow. congruence.
  - destruct pvp as [k |]; unfold pvp_set, set_prow, set_blanks, prow;
      cbn [pscreen set_pscreen].
    + rewrite rd_zset_ne by congruence. congruence.
    + congruence.
Qed.

(** The row uline was pointed at keeps all but its attributes. *)
Lemma uline_prow_same (row : Z) (vvp : video) (k : Z) (st : display) :
  v_color (prow (uline row vvp (PScreen k) st) k) = v_color (prow st k)
  /\ v_hash (prow (uline row vvp (PScreen k) st) k) = v_hash (prow st k).
Proof.
  destruct (uline_effect row vvp (PScreen k) st) as (st1 & (_ & b & _) & [-> | ->]).
  - unfold prow. rewrite b. split; reflexivity.
  - unfold pvp_set, pvp_get, set_prow, prow. cbn [pscreen set_pscreen].
    unfold rd, zget, zset. destruct (k <? 0); [split; reflexivity |].
    destruct (decide (Z.to_nat k < length (pscreen st1))%nat) as [Hin | Hout].
    + rewrite list_lookup_insert_eq by exact Hin. cbn [default]. split; reflexivity.
    + rewrite list_insert_ge by lia. rewrite b. split; reflexivity.
Qed.

Lemma ucopy_row_other (k i : Z) (st : display) :
  i <> k ->
  vrow (ucopy_row k st) i = vrow st i /\ prow (ucopy_row k st) i = prow st i.
Proof.
  intros Hne. unfold ucopy_row. destruct (ucopy _ _) as [v p].
  unfold vrow, prow, set_prow, set_vrow. cbn [vscreen pscreen set_pscreen set_vscreen].
  rewrite !rd_zset_ne by congruence. split; reflexivity.
Qed.

Lemma ucopy_row_frame (k : Z) (st : display) :
  blanks (ucopy_row k st) = blanks st /\ scores (ucopy_row k st) = scores st
  /\ sgarbf (ucopy_row k st) = sgarbf st
  /\ window_part (ucopy_row k st) = window_part st
  /\ tty (ucopy_row k st) = tty st
  /\ length (vscreen (ucopy_row k st)) = length (vscreen st)
  /\ length (pscreen (ucopy_row k st)) = length (pscreen st).
Proof.
  unfold ucopy_row. destruct (ucopy _ _) as [v p].
  unfold set_prow, set_vrow. cbn [vscreen pscreen set_pscreen set_vscreen].
  rewrite !length_zset. repeat split.
Qed.

(** What ucopy leaves on the two rows it is given. *)
Lemma ucopy_post (vvp pvp : video) :
  (Z.to_nat ncol <= length (v_text vvp))%nat ->
  (Z.to_nat ncol <= length (v_attr vvp))%nat ->
  synced (ucopy vvp pvp).1 (ucopy vvp pvp).2
  /\ flag_clear VFCHG (ucopy vvp pvp).1
  /\ (ucopy vvp pvp).1 = set_v_flag (Z.land (v_flag vvp) (Z.lnot VFCHG)) vvp
  /\ v_flag (ucopy vvp pvp).2 = v_flag (ucopy vvp pvp).1.
Proof.
  intros Ht Ha. unfold ucopy, synced, flag_clear, bcopy.
  cbn [fst snd set_v_flag set_v_hash set_v_cost set_v_color set_v_text set_v_attr
       v_text v_attr v_color v_hash v_cost v_flag].
  repeat split.
  - rewrite take_app_le by (rewrite length_take; lia).
    rewrite take_take, Nat.min_id. reflexivity.
  - rewrite take_app_le by (rewrite length_take; lia).
    rewrite take_take, Nat.min_id. reflexivity.
  - rewrite <- Z.land_assoc, (Z.land_comm (Z.lnot VFCHG)), Z.land_lnot_diag.
    apply Z.land_0_r.
Qed.

(** After [ucopy(vscreen[k], pscreen[k])] row [k] is up to date, and the
    virtual row has lost at most its changed flag. *)
Lemma ucopy_row_done (k : Z) (st : display) :
  0 <= k < Z.of_nat (length (vscreen st)) ->
  0 <= k < Z.of_nat (length (pscreen st)) ->
  (Z.to_nat ncol <= length (v_text (vrow st k)))%nat ->
  (Z.to_nat ncol <= length (v_attr (vrow st k)))%nat ->
  row_done (ucopy_row k st) k
  /\ vrow (ucopy_row k st) k
     = set_v_flag (Z.land (v_flag (vrow st k)) (Z.lnot VFCHG)) (vrow st k).
Proof.
  intros Hv Hp Ht Ha.
  destruct (ucopy_post (vrow st k) (prow st k) Ht Ha) as (Hs & Hc & Hv1 & _).
  unfold row_done, ucopy_row.
  destruct (ucopy (vrow st k) (prow st k)) as [v p]. cbn [fst snd] in *.
  assert (Hvr : vrow (set_prow k p (set_vrow k v st)) k = v).
  { unfold vrow, set_prow, set_vrow. cbn [vscreen set_pscreen set_vscreen].
    apply rd_zset_eq, Hv. }
  assert (Hpr : prow (set_prow k p (set_vrow k v st)) k = p).
  { unfold prow, set_prow, set_vrow. cbn [pscreen set_pscreen set_vscreen].
    apply rd_zset_eq, Hp. }
  rewrite Hvr, Hpr. split; [split; assumption | assumption].
Qed.

(** ** The hard update: trimming and the empty band *)

(** One round of a trimming loop, on row [k], leaves every other row of
    both screens as it was. *)
Lemma trim_step_other (k i : Z) (vvp : video) (st : display) :
  i <> k ->
  vrow (ucopy_row k (uline k vvp (PScreen k) st)) i = vrow st i
  /\ prow (ucopy_row k (uline k vvp (PScreen k) st)) i = prow st i.
Proof.
  intros Hne.
  destruct (ucopy_row_other k i (uline k vvp (PScreen k) st) Hne) as [Hv Hp].
  rewrite Hv, Hp. split.
  - unfold vrow. rewrite uline_vscreen. reflexivity.
  - apply uline_prow_other. congruence.
Qed.

(** The top match stops at the last row or at a row whose color or hash
    differs. *)
Lemma top_match_spec (n : nat) (offs : Z) (st : display) :
  0 <= offs -> Z.of_nat n = nrow - 1 - offs ->
  offs <= (top_match n offs st).1 <= nrow - 1
  /\ ((top_match n offs st).1 <> nrow - 1 ->
      rows_differ (vrow (top_match n offs st).2 (top_match n offs st).1)
        (prow (top_match n offs st).2 (top_match n offs st).1) = true).
Proof.
  revert offs st. induction n as [| n IH]; intros offs st Ho Hn; cbn [top_match].
  - cbn [fst snd]. split; lia.
  - destruct (Z.eqb_spec offs (nrow - 1)) as [He | Hne]; cbn [negb]; [lia |].
    destruct (rows_differ (vrow st offs) (prow st offs)) eqn:Hd.
    + cbn [fst snd]. split; [lia | intros _; exact Hd].
    + destruct (IH (offs + 1)
                  (ucopy_row offs (uline offs (vrow st offs) (PScreen offs) st)))
        as [H1 H2]; try lia.
      split; [lia | exact H2].
Qed.

(** The bottom match stops above a row that differs. *)
Lemma bottom_match_spec (n : nat) (offs size : Z) (st : display) :
  offs < size ->
  rows_differ (vrow st offs) (prow st offs) = true ->
  offs < (bottom_match n offs size st).1 <= size
  /\ rows_differ (vrow (bottom_match n offs size st).2 offs)
       (prow (bottom_match n offs size st).2 offs) = true.
Proof.
  revert size st. induction n as [| n IH]; intros size st Hlt Hd; cbn [bottom_match].
  - cbn [fst snd]. split; [lia | exact Hd].
  - destruct (Z.eqb_spec size offs) as [He | Hne]; cbn [negb]; [lia |].
    destruct (rows_differ (vrow st (size - 1)) (prow st (size - 1))) eqn:Hd'.
    + cbn [fst snd]. split; [lia | exact Hd].
    + assert (Hk : offs <> size - 1) by (intros ->; congruence).
      destruct (trim_step_other (size - 1) offs (vrow st (size - 1)) st Hk)
        as [Hv Hp].
      destruct (IH (size - 1)
                  (ucopy_row (size - 1)
                     (uline (size - 1) (vrow st (size - 1)) (PScreen (size - 1)) st)))
        as [H1 H2]; [lia | rewrite Hv, Hp; exact Hd |].
      split; [lia | exact H2].
Qed.

(** The exit of hard_band, and update_hard as the two trims followed by
    hard_band. *)
Lemma hard_band_exit (offs size currow curcol : Z) (st : display) :
  (size - offs = 0 ->
   hard_band offs size currow curcol st = Panic "Illegal screen size in update")
  /\ (size - offs <> 0 ->
      forall msg, hard_band offs size currow curcol st <> Panic msg).
Proof.
  unfold hard_band. split.
  - intros ->. reflexivity.
  - intros Hne msg. destruct (Z.eqb_spec (size - offs) 0); [contradiction |].
    destruct (traceback _ _ _ _ _ _); discriminate.
Qed.

Lemma update_hard_eq (currow curcol : Z) (st : display) :
  update_hard currow curcol st
  = (let st1 := hash_rows st in
     let top := top_match (Z.to_nat (nrow - 1)) 0 st1 in
     if top.1 =? nrow - 1
     then Returned (ttflush (ttmove currow (curcol - lbound top.2) top.2))
     else
       let bot := bottom_match (Z.to_nat (nrow - 1)) top.1 (nrow - 1) top.2 in
       hard_band top.1 bot.1 currow curcol bot.2).
Proof.
  unfold update_hard. destruct (top_match _ _ _) as [o s]. cbn [fst snd].
  destruct (o =? nrow - 1); [reflexivity |].
  destruct (bottom_match _ _ _ _) as [z s']. reflexivity.
Qed.

(** C9.  In the hard update, when the band left by the two trims is empty
    ([size - offs] is zero at "Get screen size") update panics with the
    diagnostic "Illegal screen size in update" and goes no further; a band
    that is not empty does not take this exit. *)
Theorem hard_band_empty_panics (offs size currow curcol : Z) (st : display) :
  (size - offs = 0 ->
   hard_band offs size currow curcol st = Panic "Illegal screen size in update")
  /\ (size - offs <> 0 ->
      forall msg, hard_band offs size currow curcol st <> Panic msg)
  /\ update_hard currow curcol st
     = (let st1 := hash_rows st in
        let top := top_match (Z.to_nat (nrow - 1)) 0 st1 in
        if top.1 =? nrow - 1
        then Returned (ttflush (ttmove currow (curcol - lbound top.2) top.2))
        else
          let bot := bottom_match (Z.to_nat (nrow - 1)) top.1 (nrow - 1) top.2 in
          hard_band top.1 bot.1 currow curcol bot.2).
Proof.
  destruct (hard_band_exit offs size currow curcol st) as [H1 H2].
  split; [exact H1 | split; [exact H2 | apply update_hard_eq]].
Qed.

(** C10.  The panic of the hard update is never reached.  When the top
    match stops before the last row, it stops at a row whose color or hash
    differs between the two screens; the bottom match, coming up from the
    last row, leaves that row as it is and stops above it, so the band has
    at least one row; update_hard never panics. *)
Theorem update_hard_band_nonempty (currow curcol : Z) (st : display) :
  1 <= nrow ->
  let top := top_match (Z.to_nat (nrow - 1)) 0 (hash_rows st) in
  let bot := bottom_match (Z.to_nat (nrow - 1)) top.1 (nrow - 1) top.2 in
  (top.1 <> nrow - 1 ->
     0 <= top.1 < nrow - 1
     /\ rows_differ (vrow top.2 top.1) (prow top.2 top.1) = true
     /\ rows_differ (vrow bot.2 top.1) (prow bot.2 top.1) = true
     /\ top.1 < bot.1 <= nrow - 1)
  /\ forall msg, update_hard currow curcol st <> Panic msg.
Proof.
  intros Hnrow top bot.
  destruct (top_match_spec (Z.to_nat (nrow - 1)) 0 (hash_rows st)) as [Hr Hd];
    try lia.
  fold top in Hr, Hd.
  assert (Hband : top.1 <> nrow - 1 ->
     0 <= top.1 < nrow - 1
     /\ rows_differ (vrow top.2 top.1) (prow top.2 top.1) = true
     /\ rows_differ (vrow bot.2 top.1) (prow bot.2 top.1) = true
     /\ top.1 < bot.1 <= nrow - 1).
  { intros Hne. specialize (Hd Hne).
    destruct (bottom_match_spec (Z.to_nat (nrow - 1)) top.1 (nrow - 1) top.2)
      as [H1 H2]; [lia | exact Hd |].
    fold bot in H1, H2. repeat split; try assumption; lia. }
  split; [exact Hband |].
  intros msg.
  rewrite update_hard_eq. cbv zeta. fold top. destruct (Z.eqb_spec top.1 (nrow - 1)) as [He | Hne];
    [discriminate |].
  fold bot. destruct (Hband Hne) as (_ & _ & _ & Hlt).
  destruct (hard_band_exit top.1 bot.1 currow curcol bot.2) as [_ Hnp].
  apply Hnp. lia.
Qed.

(** ** traceback ends, and stays inside the band *)

Lemma setscores_traces_ok (offs size : Z) (st : display) :
  0 <= size < nrow ->
  Z.of_nat (length (scores st)) = nrow * nrow ->
  traces_ok size (scores (setscores offs size st)).
Proof.
  intros Hsize Hlen.
  destruct (setscores_matrix offs size st Hsize Hlen) as (_ & Hr & Hc & Hm & _).
  intros i j Hi Hj Hne. unfold trace_ok. cbv zeta.
  destruct (Z.eq_dec i 0) as [-> | Hi0].
  - right. left. rewrite (Hr j) by lia. cbn [s_itrace s_jtrace]. lia.
  - destruct (Z.eq_dec j 0) as [-> | Hj0].
    + left. rewrite (Hc i) by lia. cbn [s_itrace s_jtrace]. lia.
    + rewrite (Hm i j) by lia. unfold best_of.
      destruct (_ <? _); [| destruct (_ <? _)]; cbn [s_itrace s_jtrace]; lia.
Qed.

Lemma band_frame_refl (offs size : Z) (st : display) : band_frame offs size st st.
Proof. unfold band_frame. repeat split. Qed.

Lemma band_frame_trans (offs size : Z) (st1 st2 st3 : display) :
  band_frame offs size st1 st2 -> band_frame offs size st2 st3 ->
  band_frame offs size st1 st3.
Proof.
  intros (a & b & c & d & e & f) (a' & b' & c' & d' & e' & f').
  unfold band_frame. repeat split; try congruence.
  intros q Hq. rewrite f', f by exact Hq. reflexivity.
Qed.

Lemma band_frame_emit (offs size : Z) (op : ttyop) (st : display) :
  band_frame offs size st (emit op st).
Proof. unfold band_frame. repeat split. Qed.

Lemma band_frame_uline (offs size row : Z) (vvp : video) (pvp : pvp_ref) (st : display) :
  (forall p, pvp = PScreen p -> offs <= p < offs + size) ->
  band_frame offs size st (uline row vvp pvp st).
Proof.
  intros Hin. unfold band_frame.
  rewrite uline_vscreen, uline_scores, uline_sgarbf, uline_window_part,
    uline_length_pscreen.
  repeat split. intros q Hq. apply uline_prow_other.
  intros ->. apply Hq, Hin. reflexivity.
Qed.

Lemma collect_inserts_ends (sc : list score) (size i itrace : Z) :
  traces_ok size sc -> 0 <= itrace <= size ->
  forall (n : nat) (jtrace ninsl ndraw : Z),
    0 <= jtrace <= size -> (Z.to_nat jtrace < n)%nat -> 1 <= ndraw ->
    exists jt ni nd,
      collect_inserts n sc size i itrace jtrace ninsl ndraw = Some (jt, ni, nd)
      /\ 0 <= jt <= jtrace /\ 1 <= nd.
Proof.
  intros Hok Hi. induction n as [| n IH]; intros jtrace ninsl ndraw Hj Hn Hd.
  - lia.
  - cbn [collect_inserts].
    destruct (negb (itrace =? 0) || negb (jtrace =? 0)) eqn:Hnz.
    + destruct (Z.eqb_spec (s_itrace (cell sc (nrow * itrace + jtrace))) itrace)
        as [He | Hne]; cbn [negb].
      * assert (H00 : ~ (itrace = 0 /\ jtrace = 0)).
        { intros [-> ->]. discriminate Hnz. }
        destruct (Hok itrace jtrace Hi Hj H00) as [H | [H | H]]; cbv zeta in H;
          try lia.
        destruct H as (_ & Hjt & Hj1). rewrite Hjt.
        destruct (IH (jtrace - 1)
                    (if negb (i =? size) then ninsl + 1 else ninsl) (ndraw + 1))
          as (jt & ni & nd & Hrun & Hjt' & Hnd); try lia.
        exists jt, ni, nd. split; [exact Hrun | lia].
      * exists jtrace, ninsl, ndraw. split; [reflexivity | lia].
    + exists jtrace, ninsl, ndraw. split; [reflexivity | lia].
Qed.

Lemma collect_deletes_ends (sc : list score) (size j jtrace : Z) :
  traces_ok size sc -> 0 <= jtrace <= size ->
  forall (n : nat) (itrace ndell : Z),
    0 <= itrace <= size -> (Z.to_nat itrace < n)%nat ->
    exists it nd,
      collect_deletes n sc size j itrace jtrace ndell = Some (it, nd)
      /\ 0 <= it <= itrace.
Proof.
  intros Hok Hj. induction n as [| n IH]; intros itrace ndell Hi Hn.
  - lia.
  - cbn [collect_deletes].
    destruct (negb (itrace =? 0) || negb (jtrace =? 0)) eqn:Hnz.
    + destruct (Z.eqb_spec (s_jtrace (cell sc (nrow * itrace + jtrace))) jtrace)
        as [He | Hne]; cbn [negb].
      * assert (H00 : ~ (itrace = 0 /\ jtrace = 0)).
        { intros [-> ->]. discriminate Hnz. }
        destruct (Hok itrace jtrace Hi Hj H00) as [H | [H | H]]; cbv zeta in H;
          try lia.
        destruct H as (Hit & _ & Hi1). rewrite Hit.
        destruct (IH (itrace - 1) (if negb (j =? size) then ndell + 1 else ndell))
          as (it & nd & Hrun & Hit'); try lia.
        exists it, nd. split; [exact Hrun | lia].
      * exists itrace, ndell. split; [reflexivity | lia].
    + exists itrace, ndell. split; [reflexivity | lia].
Qed.

Lemma draw_inserted_ends (offs size j : Z) :
  forall (n : nat) (ndraw : Z) (st : display),
    1 <= ndraw -> Z.of_nat n = ndraw ->
    exists st',
      draw_inserted n offs j ndraw st = Some st' /\ band_frame offs size st st'.
Proof.
  induction n as [| n IH]; intros ndraw st Hd Hn.
  - lia.
  - cbn [draw_inserted].
    set (st1 := uline (offs + j - ndraw) (vrow st (offs + j - ndraw)) Blanks st).
    assert (H1 : band_frame offs size st st1).
    { apply band_frame_uline. intros p Hp. discriminate Hp. }
    destruct (Z.eqb_spec (ndraw - 1) 0) as [He | Hne]; cbn [negb].
    + exists st1. split; [reflexivity | exact H1].
    + destruct (IH (ndraw - 1) st1) as (st' & Hrun & H2); try lia.
      exists st'. split; [exact Hrun |].
      eapply band_frame_trans; eassumption.
Qed.

(** With traces that lead up and left, traceback from [i, j] ends when the
    fuel exceeds [i + j], and changes nothing outside the band. *)
Lemma traceback_ends (offs size : Z) :
  forall (fuel : nat) (i j : Z) (st : display),
    traces_ok size (scores st) ->
    0 <= i <= size -> 0 <= j <= size -> (Z.to_nat (i + j) < fuel)%nat ->
    exists st',
      traceback fuel offs size i j st = Some st' /\ band_frame offs size st st'.
Proof.
  induction fuel as [| k IH]; intros i j st Hok Hi Hj Hfuel.
  - lia.
  - cbn [traceback].
    destruct ((i =? 0) && (j =? 0)) eqn:H0.
    { exists st. split; [reflexivity | apply band_frame_refl]. }
    assert (H00 : ~ (i = 0 /\ j = 0)).
    { intros [-> ->]. discriminate H0. }
    pose proof (Hok i j Hi Hj H00) as Htr. unfold trace_ok in Htr. cbv zeta in Htr.
    set (c := cell (scores st) (nrow * i + j)) in *.
    destruct (Z.eqb_spec (s_itrace c) i) as [Hit | Hit].
    + (* inserts *)
      destruct Htr as [H | [H | H]]; try lia.
      destruct H as (_ & Hjt & Hj1). rewrite Hit, Hjt.
      destruct (collect_inserts_ends (scores st) size i i Hok Hi k (j - 1)
                  (if negb (i =? size) then 1 else 0) 1)
        as (jt & ni & nd & Hrun & Hjt' & Hnd); try lia.
      rewrite Hrun. cbn [mbind option_bind].
      destruct (IH i jt st Hok Hi) as (st1 & Hrec & Hf1); try lia.
      rewrite Hrec. cbn [mbind option_bind].
      set (st2 := if negb (ni =? 0) then _ else st1).
      assert (Hf2 : band_frame offs size st1 st2).
      { unfold st2. destruct (negb (ni =? 0)); [| apply band_frame_refl].
        eapply band_frame_trans; apply band_frame_emit. }
      destruct (draw_inserted_ends offs size j (Z.to_nat nd) nd st2)
        as (st3 & Hdraw & Hf3); try lia.
      exists st3. split; [exact Hdraw |].
      eapply band_frame_trans; [| exact Hf3].
      eapply band_frame_trans; eassumption.
    + destruct (Z.eqb_spec (s_jtrace c) j) as [Hjt | Hjt].
      * (* deletes *)
        destruct Htr as [H | [H | H]]; try lia.
        destruct H as (Hit' & _ & Hi1). rewrite Hit', Hjt.
        destruct (collect_deletes_ends (scores st) size j j Hok Hj k (i - 1)
                    (if negb (j =? size) then 1 else 0))
          as (it & nd & Hrun & Hit''); try lia.
        rewrite Hrun. cbn [mbind option_bind].
        set (st1 := if negb (nd =? 0) then _ else st).
        assert (Hf1 : band_frame offs size st st1).
        { unfold st1. destruct (negb (nd =? 0)); [| apply band_frame_refl].
          eapply band_frame_trans; apply band_frame_emit. }
        assert (Hok1 : traces_ok size (scores st1)).
        { destruct Hf1 as (_ & -> & _). exact Hok. }
        destruct (IH it j st1 Hok1) as (st2 & Hrec & Hf2); try lia.
        exists st2. split; [exact Hrec |].
        eapply band_frame_trans; eassumption.
      * (* the diagonal *)
        destruct Htr as [H | [H | H]]; try lia.
        destruct H as (Hit' & Hjt' & Hi1 & Hj1). rewrite Hit', Hjt'.
        destruct (IH (i - 1) (j - 1) st Hok) as (st1 & Hrec & Hf1); try lia.
        rewrite Hrec. cbn [mbind option_bind].
        eexists. split; [reflexivity |].
        eapply band_frame_trans; [exact Hf1 |].
        apply band_frame_uline. intros p Hp. injection Hp as <-. lia.
Qed.

(** ** Every path of the reconciliation brings its rows up to date *)

Lemma for_lt_index {S : Type} (P : Z -> S -> Prop) (body : Z -> S -> S) (hi : Z) :
  (forall col s, col < hi -> P col s -> P (col + 1) (body col s)) ->
  forall (n : nat) (col : Z) (s : S),
    col <= hi -> Z.of_nat n = hi - col -> P col s -> P hi (for_lt n col hi body s).
Proof.
  intros Hbody. induction n as [| n IH]; intros col s Hle Hn Hs; cbn [for_lt].
  - replace hi with col by lia. exact Hs.
  - destruct (Z.ltb_spec col hi); [| lia].
    apply IH; [lia | lia |]. apply Hbody; assumption.
Qed.

Lemma for_range_index {S : Type} (P : Z -> S -> Prop) (body : Z -> S -> S) (lo hi : Z) :
  lo <= hi ->
  (forall col s, lo <= col < hi -> P col s -> P (col + 1) (body col s)) ->
  forall s, P lo s -> P hi (for_range lo hi body s).
Proof.
  intros Hle Hbody s Hs. unfold for_range.
  apply (for_lt_index (fun col s => lo <= col /\ P col s) body hi) with (col := lo);
    try lia; [| split; [lia | exact Hs]].
  intros col s' Hc [Hlo Hp]. split; [lia |]. apply Hbody; [lia | exact Hp].
Qed.

Lemma row_done_eq (st st' : display) (i : Z) :
  vrow st' i = vrow st i -> prow st' i = prow st i ->
  row_done st i -> row_done st' i.
Proof. unfold row_done. intros -> ->. exact id. Qed.

Lemma screens_ok_eq (st st' : display) :
  vscreen st' = vscreen st -> length (pscreen st') = length (pscreen st) ->
  length (scores st') = length (scores st) ->
  screens_ok st -> screens_ok st'.
Proof.
  unfold screens_ok, vrow. intros -> -> ->. exact id.
Qed.

(** A row redrawn with uline and then copied with ucopy is up to date; the
    other rows of the two screens are as before. *)
Lemma row_step (k : Z) (pvp : pvp_ref) (st : display) :
  screens_ok st -> 0 <= k < nrow - 1 -> pvp = PScreen k \/ pvp = Blanks ->
  let st' := ucopy_row k (uline k (vrow st k) pvp st) in
  screens_ok st' /\ row_done st' k
  /\ (forall i, i <> k -> vrow st' i = vrow st i /\ prow st' i = prow st i)
  /\ window_part st' = window_part st /\ sgarbf st' = sgarbf st
  /\ scores st' = scores st.
Proof.
  intros Hok Hk Hpvp st'.
  set (st1 := uline k (vrow st k) pvp st) in *.
  assert (Hv1 : vscreen st1 = vscreen st) by apply uline_vscreen.
  assert (Hp1 : length (pscreen st1) = length (pscreen st)) by apply uline_length_pscreen.
  assert (Hs1 : scores st1 = scores st) by apply uline_scores.
  assert (Hok1 : screens_ok st1).
  { apply (screens_ok_eq st); [exact Hv1 | exact Hp1 | congruence | exact Hok]. }
  destruct Hok1 as (Hnrow & Hncol & Hlv & Hlp & Hls & Hrows).
  destruct (Hrows k Hk) as [Ht Ha].
  destruct (ucopy_row_done k st1) as [Hdone Hvk]; try lia.
  destruct (ucopy_row_frame k st1) as (_ & Hsc & Hsg & Hwp & _ & Hlv' & Hlp').
  fold st' in Hdone, Hvk, Hsc, Hsg, Hwp, Hlv', Hlp'.
  assert (Hother : forall i, i <> k ->
            vrow st' i = vrow st i /\ prow st' i = prow st i).
  { intros i Hi. destruct (ucopy_row_other k i st1 Hi) as [Hv Hp].
    fold st' in Hv, Hp. rewrite Hv, Hp. split.
    - unfold vrow. rewrite Hv1. reflexivity.
    - apply uline_prow_other. destruct Hpvp as [-> | ->]; congruence. }
  split; [| split; [exact Hdone | split; [exact Hother |]]].
  - unfold screens_ok. split; [lia |]. split; [lia |]. split; [lia |].
    split; [lia |]. split; [rewrite Hsc; exact Hls |]. intros i Hi. split.
    + destruct (Z.eq_dec i k) as [-> | Hne].
      * rewrite Hvk. cbn [v_text set_v_flag]. exact Ht.
      * destruct (Hother i Hne) as [-> _]. unfold vrow. rewrite <- Hv1.
        apply Hrows. lia.
    + destruct (Z.eq_dec i k) as [-> | Hne].
      * rewrite Hvk. cbn [v_attr set_v_flag]. exact Ha.
      * destruct (Hother i Hne) as [-> _]. unfold vrow. rewrite <- Hv1.
        apply Hrows. lia.
  - rewrite Hwp, Hsg, Hsc. unfold st1.
    rewrite uline_window_part, uline_sgarbf, uline_scores. repeat split.
Qed.

(** The garbage repaint brings every row up to date. *)
Lemma update_garbage_done (currow curcol : Z) (st : display) :
  screens_ok st ->
  let st' := update_garbage currow curcol st in
  screens_ok st' /\ window_part st' = window_part st /\ sgarbf st' = false
  /\ forall i, 0 <= i < nrow - 1 -> row_done st' i.
Proof.
  intros Hok st'. unfold update_garbage in st'.
  set (st0 := tteeop _) in *.
  assert (Hok0 : screens_ok st0) by exact Hok.
  set (P := fun (col : Z) (s : display) =>
              screens_ok s /\ window_part s = window_part st /\ sgarbf s = false
              /\ forall i, 0 <= i < col -> row_done s i).
  assert (Hloop : P (nrow - 1)
            (for_range 0 (nrow - 1)
               (fun i s => ucopy_row i (uline i (vrow s i) Blanks s)) st0)).
  { apply for_range_index.
    - destruct Hok as (H & _). lia.
    - intros col s Hc (Hs & Hw & Hg & Hd).
      destruct (row_step col Blanks s Hs Hc ltac:(right; reflexivity))
        as (Hs' & Hdone & Hother & Hw' & Hg' & _).
      unfold P. split; [exact Hs' |]. split; [congruence |]. split; [congruence |].
      intros i Hi. destruct (Z.eq_dec i col) as [-> | Hne]; [exact Hdone |].
      destruct (Hother i Hne) as [Hv Hp].
      apply (row_done_eq s); [exact Hv | exact Hp | apply Hd; lia].
    - unfold P. split; [exact Hok0 |]. split; [reflexivity |].
      split; [reflexivity |]. intros i Hi. lia. }
  destruct Hloop as (H1 & H2 & H3 & H4).
  split; [exact H1 |]. split; [exact H2 |]. split; [exact H3 | exact H4].
Qed.

(** The easy update brings every row flagged changed up to date and
    leaves no row flagged. *)
Lemma update_easy_done (currow curcol : Z) (st : display) :
  screens_ok st ->
  let st' := update_easy currow curcol st in
  screens_ok st' /\ window_part st' = window_part st /\ sgarbf st' = sgarbf st
  /\ forall i, 0 <= i < nrow - 1 ->
       flag_clear VFCHG (vrow st' i)
       /\ (Z.land (v_flag (vrow st i)) VFCHG <> 0 -> row_done st' i).
Proof.
  intros Hok st'. unfold update_easy in st'.
  set (P := fun (col : Z) (s : display) =>
              screens_ok s /\ window_part s = window_part st /\ sgarbf s = sgarbf st
              /\ (forall i, col <= i -> vrow s i = vrow st i)
              /\ forall i, 0 <= i < col ->
                   flag_clear VFCHG (vrow s i)
                   /\ (Z.land (v_flag (vrow st i)) VFCHG <> 0 -> row_done s i)).
  assert (Hloop : P (nrow - 1)
            (for_range 0 (nrow - 1)
               (fun i s =>
                  if negb (Z.land (v_flag (vrow s i)) VFCHG =? 0)
                  then ucopy_row i (uline i (vrow s i) (PScreen i) s)
                  else s) st)).
  { apply for_range_index.
    - destruct Hok as (H & _). lia.
    - intros col s Hc (Hs & Hw & Hg & Hrest & Hd). unfold P.
      destruct (Z.eqb_spec (Z.land (v_flag (vrow s col)) VFCHG) 0) as [Hz | Hnz];
        cbn [negb].
      + split; [exact Hs |]. split; [exact Hw |]. split; [exact Hg |].
        split; [intros i Hi; apply Hrest; lia |].
        intros i Hi. destruct (Z.eq_dec i col) as [-> | Hne]; [| apply Hd; lia].
        split; [exact Hz |]. intros Hch. exfalso. apply Hch.
        rewrite <- (Hrest col) by lia. exact Hz.
      + destruct (row_step col (PScreen col) s Hs Hc ltac:(left; reflexivity))
          as (Hs' & Hdone & Hother & Hw' & Hg' & _).
        split; [exact Hs' |]. split; [congruence |]. split; [congruence |].
        split.
        * intros i Hi. destruct (Hother i ltac:(lia)) as [-> _]. apply Hrest. lia.
        * intros i Hi. destruct (Z.eq_dec i col) as [-> | Hne].
          -- split; [apply Hdone | intros _; exact Hdone].
          -- destruct (Hother i Hne) as [Hv Hp].
             destruct (Hd i ltac:(lia)) as [Hc1 Hc2].
             split; [unfold flag_clear; rewrite Hv; exact Hc1 |].
             intros Hch. apply (row_done_eq s); [exact Hv | exact Hp | exact (Hc2 Hch)].
    - unfold P. split; [exact Hok |]. split; [reflexivity |]. split; [reflexivity |].
      split; [reflexivity |]. intros i Hi. lia. }
  destruct Hloop as (H1 & H2 & H3 & _ & H5).
  split; [exact H1 |]. split; [exact H2 |]. split; [exact H3 | exact H5].
Qed.

Lemma hash_keeps (vp : video) :
  v_text (hash vp) = v_text vp /\ v_attr (hash vp) = v_attr vp
  /\ v_color (hash vp) = v_color vp.
Proof.
  unfold hash. destruct (negb _); [| repeat split].
  destruct (hash_scan _ _ _ _) as [i s]. repeat split.
Qed.

Lemma hash_rows_ok (st : display) :
  screens_ok st ->
  screens_ok (hash_rows st) /\ window_part (hash_rows st) = window_part st
  /\ sgarbf (hash_rows st) = sgarbf st.
Proof.
  intros Hok. unfold hash_rows.
  apply (for_range_index
           (fun (_ : Z) (s : display) =>
              screens_ok s /\ window_part s = window_part st
              /\ sgarbf s = sgarbf st)).
  - destruct Hok as (H & _). lia.
  - intros col s Hc (Hs & Hw & Hg). split; [| split; [exact Hw | exact Hg]].
    destruct Hs as (Hnrow & Hncol & Hlv & Hlp & Hls & Hrows).
    unfold screens_ok, set_prow, set_vrow, vrow.
    cbn [vscreen pscreen scores set_pscreen set_vscreen].
    rewrite !length_zset. repeat split; try lia.
    + destruct (Z.eq_dec i col) as [-> | Hne].
      * rewrite rd_zset_eq by lia. destruct (hash_keeps (rd video0 (vscreen s) col))
          as (-> & _). apply Hrows. lia.
      * rewrite rd_zset_ne by congruence. apply Hrows. lia.
    + destruct (Z.eq_dec i col) as [-> | Hne].
      * rewrite rd_zset_eq by lia. destruct (hash_keeps (rd video0 (vscreen s) col))
          as (_ & -> & _). apply Hrows. lia.
      * rewrite rd_zset_ne by congruence. apply Hrows. lia.
  - split; [exact Hok | split; reflexivity].
Qed.

Lemma top_match_done (st0 : display) (n : nat) (offs : Z) (st : display) :
  screens_ok st -> 0 <= offs -> Z.of_nat n = nrow - 1 - offs ->
  window_part st = window_part st0 -> sgarbf st = sgarbf st0 ->
  (forall i, 0 <= i < offs -> row_done st i) ->
  let r := top_match n offs st in
  screens_ok r.2 /\ window_part r.2 = window_part st0 /\ sgarbf r.2 = sgarbf st0
  /\ forall i, 0 <= i < r.1 -> row_done r.2 i.
Proof.
  revert offs st. induction n as [| n IH]; intros offs st Hok Ho Hn Hw Hg Hd;
    cbn [top_match].
  - cbn [fst snd]. split; [exact Hok | split; [exact Hw | split; [exact Hg | exact Hd]]].
  - destruct (Z.eqb_spec offs (nrow - 1)) as [He | Hne]; cbn [negb]; [lia |].
    destruct (rows_differ (vrow st offs) (prow st offs)).
    + cbn [fst snd]. split; [exact Hok | split; [exact Hw | split; [exact Hg | exact Hd]]].
    + destruct (row_step offs (PScreen offs) st Hok ltac:(lia) ltac:(left; reflexivity))
        as (Hs' & Hdone & Hother & Hw' & Hg' & _).
      apply IH; [exact Hs' | lia | lia | congruence | congruence |].
      intros i Hi. destruct (Z.eq_dec i offs) as [-> | Hne']; [exact Hdone |].
      destruct (Hother i Hne') as [Hv Hp].
      apply (row_done_eq st); [exact Hv | exact Hp | apply Hd; lia].
Qed.

Lemma bottom_match_done (st0 : display) (n : nat) (offs size : Z) (st : display) :
  screens_ok st -> 0 <= offs <= size -> size <= nrow - 1 ->
  window_part st = window_part st0 -> sgarbf st = sgarbf st0 ->
  (forall i, 0 <= i < nrow - 1 -> i < offs \/ size <= i -> row_done st i) ->
  let r := bottom_match n offs size st in
  screens_ok r.2 /\ window_part r.2 = window_part st0 /\ sgarbf r.2 = sgarbf st0
  /\ forall i, 0 <= i < nrow - 1 -> i < offs \/ r.1 <= i -> row_done r.2 i.
Proof.
  revert size st. induction n as [| n IH]; intros size st Hok Ho Hsz Hw Hg Hd;
    cbn [bottom_match].
  - cbn [fst snd]. split; [exact Hok | split; [exact Hw | split; [exact Hg | exact Hd]]].
  - destruct (Z.eqb_spec size offs) as [He | Hne]; cbn [negb].
    { cbn [fst snd]. split; [exact Hok | split; [exact Hw | split; [exact Hg | exact Hd]]]. }
    destruct (rows_differ (vrow st (size - 1)) (prow st (size - 1))).
    + cbn [fst snd]. split; [exact Hok | split; [exact Hw | split; [exact Hg | exact Hd]]].
    + destruct (row_step (size - 1) (PScreen (size - 1)) st Hok ltac:(lia)
                  ltac:(left; reflexivity))
        as (Hs' & Hdone & Hother & Hw' & Hg' & _).
      apply IH; [exact Hs' | lia | lia | congruence | congruence |].
      intros i Hi Hout. destruct (Z.eq_dec i (size - 1)) as [-> | Hne'];
        [exact Hdone |].
      destruct (Hother i Hne') as [Hv Hp].
      apply (row_done_eq st); [exact Hv | exact Hp | apply Hd; lia].
Qed.

(** The rows of the band copied by ucopy after traceback. *)
Lemma ucopy_band_done (offs size : Z) (st : display) :
  screens_ok st -> 0 <= offs -> 0 <= size -> offs + size <= nrow - 1 ->
  (forall i, 0 <= i < nrow - 1 -> i < offs \/ offs + size <= i -> row_done st i) ->
  let st' := for_range 0 size (fun i s => ucopy_row (offs + i) s) st in
  screens_ok st' /\ window_part st' = window_part st /\ sgarbf st' = sgarbf st
  /\ forall i, 0 <= i < nrow - 1 -> row_done st' i.
Proof.
  intros Hok Ho Hsz Hin Hd st'. subst st'.
  set (P := fun (col : Z) (s : display) =>
              screens_ok s /\ window_part s = window_part st /\ sgarbf s = sgarbf st
              /\ forall i, 0 <= i < nrow - 1 ->
                   i < offs + col \/ offs + size <= i -> row_done s i).
  assert (Hloop : P size (for_range 0 size (fun i s => ucopy_row (offs + i) s) st)).
  { apply for_range_index; [lia | |].
    - intros col s Hc (Hs & Hw & Hg & Hdone). unfold P.
      destruct Hs as (Hnrow & Hncol & Hlv & Hlp & Hls & Hrows).
      destruct (Hrows (offs + col) ltac:(lia)) as [Ht Ha].
      destruct (ucopy_row_done (offs + col) s) as [Hk Hvk]; try lia.
      destruct (ucopy_row_frame (offs + col) s) as (_ & Hsc & Hsg & Hwp & _ & Hlv' & Hlp').
      split; [| split; [congruence | split; [congruence |]]].
      + unfold screens_ok. split; [lia |]. split; [lia |]. split; [lia |].
        split; [lia |]. split; [rewrite Hsc; exact Hls |]. intros i Hi.
        destruct (Z.eq_dec i (offs + col)) as [-> | Hne].
        * rewrite Hvk. cbn [v_text v_attr set_v_flag]. split; assumption.
        * destruct (ucopy_row_other (offs + col) i s Hne) as [-> _].
          apply Hrows. lia.
      + intros i Hi Hout. destruct (Z.eq_dec i (offs + col)) as [-> | Hne];
          [exact Hk |].
        destruct (ucopy_row_other (offs + col) i s Hne) as [Hv Hp].
        apply (row_done_eq s); [exact Hv | exact Hp | apply Hdone; lia].
    - unfold P. split; [exact Hok |]. split; [reflexivity |]. split; [reflexivity |].
      intros i Hi Hout. apply Hd; lia. }
  destruct Hloop as (H1 & H2 & H3 & H4).
  split; [exact H1 |]. split; [exact H2 |]. split; [exact H3 |].
  intros i Hi. apply H4; lia.
Qed.

(** The hard update returns, with every row up to date. *)
Lemma update_hard_done (currow curcol : Z) (st : display) :
  screens_ok st ->
  exists st',
    update_hard currow curcol st = Returned st'
    /\ screens_ok st' /\ window_part st' = window_part st
    /\ sgarbf st' = sgarbf st
    /\ forall i, 0 <= i < nrow - 1 -> row_done st' i.
Proof.
  intros Hok. rewrite update_hard_eq. cbv zeta.
  destruct (hash_rows_ok st Hok) as (Hok1 & Hw1 & Hg1).
  pose proof Hok as (Hnrow & _).
  destruct (top_match_spec (Z.to_nat (nrow - 1)) 0 (hash_rows st)) as [Hr Hdif];
    try lia.
  destruct (top_match_done st (Z.to_nat (nrow - 1)) 0 (hash_rows st))
    as (Hok2 & Hw2 & Hg2 & Hd2); try assumption; try lia.
  set (top := top_match (Z.to_nat (nrow - 1)) 0 (hash_rows st)) in *.
  destruct (Z.eqb_spec top.1 (nrow - 1)) as [He | Hne].
  - eexists. split; [reflexivity |].
    split; [exact Hok2 |]. split; [exact Hw2 |]. split; [exact Hg2 |].
    intros i Hi. apply Hd2. lia.
  - specialize (Hdif Hne).
    destruct (bottom_match_spec (Z.to_nat (nrow - 1)) top.1 (nrow - 1) top.2)
      as [Hb1 Hb2]; [lia | exact Hdif |].
    destruct (bottom_match_done st (Z.to_nat (nrow - 1)) top.1 (nrow - 1) top.2)
      as (Hok3 & Hw3 & Hg3 & Hd3); try assumption; try lia.
    { intros i Hi [Hlt | Hge]; [apply Hd2; lia | lia]. }
    set (bot := bottom_match (Z.to_nat (nrow - 1)) top.1 (nrow - 1) top.2) in *.
    unfold hard_band.
    destruct (Z.eqb_spec (bot.1 - top.1) 0) as [Hz | Hnz]; [lia |].
    set (size := bot.1 - top.1).
    set (offs := top.1) in *.
    pose proof Hok3 as (_ & _ & _ & _ & Hls3 & _).
    destruct (setscores_matrix offs size bot.2 ltac:(lia) Hls3)
      as (_ & _ & _ & _ & Hlen_s & Hvs & Hps).
    pose proof (setscores_traces_ok offs size bot.2 ltac:(lia) Hls3) as Htr.
    set (st_s := setscores offs size bot.2) in *.
    destruct (traceback_ends offs size (tb_fuel size) size size st_s Htr)
      as (st_t & Hrun & Hfr); try lia.
    { unfold tb_fuel. lia. }
    rewrite Hrun.
    destruct Hfr as (Hvt & Hst & Hgt & Hwt & Hlt & Hpt).
    assert (Hok_t : screens_ok st_t).
    { apply (screens_ok_eq bot.2); [congruence | congruence | congruence | exact Hok3]. }
    assert (Hd_t : forall i, 0 <= i < nrow - 1 ->
              i < offs \/ offs + size <= i -> row_done st_t i).
    { intros i Hi Hout. apply (row_done_eq bot.2).
      - unfold vrow. congruence.
      - rewrite Hpt by lia. unfold prow. congruence.
      - apply Hd3; [lia |]. unfold size in Hout. lia. }
    destruct (ucopy_band_done offs size st_t Hok_t) as (Hok4 & Hw4 & Hg4 & Hd4);
      try lia; [exact Hd_t |].
    eexists. split; [reflexivity |].
    split; [exact Hok4 |].
    split; [change (window_part (for_range 0 size
                       (fun i s => ucopy_row (offs + i) s) st_t) = window_part st);
            rewrite Hw4, Hwt; exact Hw3 |].
    split; [change (sgarbf (for_range 0 size
                       (fun i s => ucopy_row (offs + i) s) st_t) = sgarbf st);
            rewrite Hg4, Hgt; exact Hg3 |].
    exact Hd4.
Qed.

(** The third part of update returns on every path; it leaves no row
    flagged changed and every row it worked on up to date. *)
Lemma reconcile_returns (hflag : bool) (currow curcol : Z) (st : display) :
  screens_ok st ->
  exists st',
    reconcile hflag currow curcol st = Returned st'
    /\ screens_ok st' /\ window_part st' = window_part st /\ sgarbf st' = false
    /\ forall i, 0 <= i < nrow - 1 ->
         flag_clear VFCHG (vrow st' i)
         /\ (sgarbf st = true \/ hflag = true
             \/ Z.land (v_flag (vrow st i)) VFCHG <> 0 ->
             row_done st' i).
Proof.
  intros Hok. unfold reconcile. destruct (sgarbf st) eqn:Hg.
  - destruct (update_garbage_done currow curcol st Hok) as (H1 & H2 & H3 & H4).
    eexists. split; [reflexivity |]. split; [exact H1 |]. split; [exact H2 |].
    split; [exact H3 |]. intros i Hi. split; [apply H4, Hi | intros _; apply H4, Hi].
  - destruct hflag.
    + destruct (update_hard_done currow curcol st Hok) as (st' & Hr & H1 & H2 & H3 & H4).
      exists st'. split; [exact Hr |]. split; [exact H1 |]. split; [exact H2 |].
      split; [congruence |].
      intros i Hi. split; [apply H4, Hi | intros _; apply H4, Hi].
    + destruct (update_easy_done currow curcol st Hok) as (H1 & H2 & H3 & H4).
      eexists. split; [reflexivity |]. split; [exact H1 |]. split; [exact H2 |].
      split; [congruence |].
      intros i Hi. destruct (H4 i Hi) as [Hc Hd]. split; [exact Hc |].
      intros [Hf | [Hf | Hf]]; [discriminate | discriminate | exact (Hd Hf)].
Qed.


(** ** update: a window with a selection is updated in full *)

Lemma or_rflag_has (bits : Z) (wp : mgwin) :
  Z.land (w_rflag (or_rflag bits wp)) bits = bits.
Proof.
  cbn [or_rflag set_w_rflag w_rflag].
  apply Z.bits_inj'. intros n Hn. rewrite Z.land_spec, Z.lor_spec.
  destruct (Z.testbit (w_rflag wp) n), (Z.testbit bits n); reflexivity.
Qed.

Lemma or_rflag_nonzero (bits : Z) (wp : mgwin) :
  w_rflag wp <> 0 -> w_rflag (or_rflag bits wp) <> 0.
Proof.
  cbn [or_rflag set_w_rflag w_rflag]. intros Hne H0.
  apply Z.lor_eq_0_iff in H0. tauto.
Qed.

(** A flag word that holds WFFULL does not pass the test of the single-row
    path, WFFULL having a bit that is neither of WFMODE nor of WFEDIT. *)
Lemma full_not_edit_only (wp : mgwin) :
  Z.land (Z.land WFFULL (Z.lnot WFMODE)) (Z.lnot WFEDIT) <> 0 ->
  Z.land (w_rflag wp) WFFULL = WFFULL ->
  edit_only wp = false.
Proof.
  intros Hbit Hfull. unfold edit_only. apply Z.eqb_neq. intros Hedit.
  apply Hbit. apply Z.bits_inj'. intros n Hn.
  pose proof (f_equal (fun z => Z.testbit z n) Hfull) as Hf.
  pose proof (f_equal (fun z => Z.testbit z n) Hedit) as He.
  cbv beta in Hf, He.
  rewrite !Z.land_spec, ?Z.lnot_spec in * by lia. rewrite Z.bits_0.
  destruct (Z.testbit (w_rflag wp) n), (Z.testbit WFFULL n),
    (Z.testbit WFMODE n), (Z.testbit WFEDIT n); cbn in *; congruence.
Qed.

Lemma frame_window_full (wp : mgwin) :
  Z.land (w_rflag wp) WFFULL = WFFULL ->
  Z.land (w_rflag (frame_window wp)) WFFULL = WFFULL.
Proof.
  intros H. unfold frame_window. destruct (dot_framed wp); [exact H |].
  unfold reframe. apply or_rflag_has.
Qed.

Lemma frame_window_mark (wp : mgwin) : mark_set (frame_window wp) = mark_set wp.
Proof.
  unfold frame_window. destruct (dot_framed wp); reflexivity.
Qed.

(** The windows after the three opening loops, one by one. *)
Lemma update_flags_lookup (st : display) (k : nat) :
  wheadp (update_flags st) !! k
  = (fun wp =>
       escalate_selection
         ((if linenos st || colnos st then or_rflag WFMODE else fun wp => wp)
            ((if sgarbf st then or_rflag (Z.lor WFMODE WFFULL) else fun wp => wp) wp)))
    <$> wheadp st !! k.
Proof.
  unfold update_flags. cbn [wheadp set_wheadp].
  rewrite list_lookup_fmap.
  destruct (linenos st || colnos st), (sgarbf st);
    rewrite ?list_lookup_fmap; destruct (wheadp st !! k); reflexivity.
Qed.

(** C6.  After the loops that open update, before any window is rendered:
    a window that has its mark set and any flag pending holds WFFULL, and,
    WFFULL having a bit of its own beside WFMODE and WFEDIT, such a window
    does not pass the test of the single-row (edit only) path, neither as
    it stands nor after the framing code; it is rendered in full.  This
    covers every window that had a flag pending when update was called. *)
Theorem selection_forces_full (st : display) :
  Z.land (Z.land WFFULL (Z.lnot WFMODE)) (Z.lnot WFEDIT) <> 0 ->
  (forall wp, wp ∈ wheadp (update_flags st) ->
     mark_set wp = true -> w_rflag wp <> 0 ->
     Z.land (w_rflag wp) WFFULL = WFFULL
     /\ edit_only wp = false
     /\ edit_only (frame_window wp) = false
     /\ Z.land (w_rflag (frame_window wp)) (Z.lor WFEDIT WFFULL) <> 0)
  /\ (forall k wp, wheadp st !! k = Some wp ->
        mark_set wp = true -> w_rflag wp <> 0 ->
        exists wp', wheadp (update_flags st) !! k = Some wp'
                    /\ mark_set wp' = true /\ w_rflag wp' <> 0).
Proof.
  intros Hbit. split.
  - intros wp Hin Hmark Hflag.
    apply list_elem_of_lookup in Hin. destruct Hin as [k Hk].
    rewrite update_flags_lookup in Hk.
    destruct (wheadp st !! k) as [wp0 |]; [| discriminate].
    cbn [fmap option_fmap option_map] in Hk. injection Hk as Hk.
    set (wp1 := (if linenos st || colnos st then or_rflag WFMODE else fun wp => wp)
                  ((if sgarbf st then or_rflag (Z.lor WFMODE WFFULL) else fun wp => wp) wp0))
      in *.
    assert (Hfull : Z.land (w_rflag wp) WFFULL = WFFULL).
    { subst wp. unfold escalate_selection in *.
      destruct (mark_set wp1 && negb (w_rflag wp1 =? 0)) eqn:Hc.
      - apply or_rflag_has.
      - exfalso. apply andb_false_iff in Hc. destruct Hc as [Hc | Hc].
        + congruence.
        + apply negb_false_iff, Z.eqb_eq in Hc. contradiction. }
    pose proof (frame_window_full wp Hfull) as Hfull'.
    split; [exact Hfull |].
    split; [apply full_not_edit_only; assumption |].
    split; [apply full_not_edit_only; assumption |].
    intros H0.
    assert (HF : WFFULL = 0).
    { rewrite <- Hfull'. apply Z.bits_inj'. intros n Hn.
      pose proof (f_equal (fun z => Z.testbit z n) H0) as Hb. cbv beta in Hb.
      rewrite Z.land_spec, Z.lor_spec, Z.bits_0 in Hb.
      rewrite Z.land_spec, Z.bits_0.
      destruct (Z.testbit (w_rflag (frame_window wp)) n), (Z.testbit WFFULL n),
        (Z.testbit WFEDIT n); cbn in *; congruence. }
    apply Hbit. rewrite HF. reflexivity.
  - intros k wp Hk Hmark Hflag. rewrite update_flags_lookup, Hk.
    cbn [fmap option_fmap option_map]. eexists. split; [reflexivity |].
    set (wp1 := (if linenos st || colnos st then or_rflag WFMODE else fun wp => wp)
                  ((if sgarbf st then or_rflag (Z.lor WFMODE WFFULL) else fun wp => wp) wp)).
    assert (H1 : mark_set wp1 = true /\ w_rflag wp1 <> 0).
    { unfold wp1. destruct (linenos st || colnos st), (sgarbf st);
        (split; [exact Hmark |]); repeat apply or_rflag_nonzero; exact Hflag. }
    destruct H1 as [Hm1 Hf1]. unfold escalate_selection.
    rewrite Hm1. destruct (Z.eqb_spec (w_rflag wp1) 0); [contradiction |].
    cbn [andb negb]. split; [exact Hm1 | apply or_rflag_nonzero, Hf1].
Qed.

(** ** The screen builder keeps to the virtual screen *)

Lemma built_refl (st : display) : built st st.
Proof. unfold built. repeat split. Qed.

Lemma built_trans (st1 st2 st3 : display) :
  built st1 st2 -> built st2 st3 -> built st1 st3.
Proof.
  intros (a & b & c) (a' & b' & c'). unfold built.
  split; [congruence |]. split; [congruence |]. intros i.
  destruct (c i) as [c1 c2], (c' i) as [c1' c2']. split; congruence.
Qed.

Lemma rd_zset_cases {A : Type} (d : A) (l : list A) (k i : Z) (x : A) :
  rd d (zset l k x) i = rd d l i \/ (i = k /\ rd d (zset l k x) i = x).
Proof.
  destruct (Z.eq_dec i k) as [-> | Hne].
  - destruct (Z.ltb_spec k 0) as [Hneg | Hpos].
    + left. unfold zset. destruct (Z.ltb_spec k 0); [reflexivity | lia].
    + destruct (Z.ltb_spec k (Z.of_nat (length l))) as [Hin | Hout].
      * right. split; [reflexivity |]. apply rd_zset_eq. lia.
      * left. unfold zset. destruct (Z.ltb_spec k 0); [lia |].
        rewrite list_insert_ge by lia. reflexivity.
  - left. apply rd_zset_ne. congruence.
Qed.

(** Replacing a virtual row by one with as many columns is a builder step. *)
Lemma built_set_vrow (k : Z) (vp : video) (st : display) :
  length (v_text vp) = length (v_text (vrow st k)) ->
  length (v_attr vp) = length (v_attr (vrow st k)) ->
  built st (set_vrow k vp st).
Proof.
  intros Ht Ha. unfold built, set_vrow, vrow.
  cbn [vscreen set_vscreen beyond_builder].
  split; [reflexivity |]. split; [apply length_zset |]. intros i.
  destruct (rd_zset_cases video0 (vscreen st) k i vp) as [-> | [-> ->]].
  - split; reflexivity.
  - split; assumption.
Qed.

Lemma built_vt_text (col c : Z) (st : display) : built st (vt_text col c st).
Proof.
  unfold vt_text. apply built_set_vrow; cbn [v_text v_attr set_v_text];
    [apply length_zset | reflexivity].
Qed.

Lemma built_vt_attr (col a : Z) (st : display) : built st (vt_attr col a st).
Proof.
  unfold vt_attr. apply built_set_vrow; cbn [v_text v_attr set_v_attr];
    [reflexivity | apply length_zset].
Qed.

Lemma built_or_vflag (i bits : Z) (st : display) : built st (or_vflag i bits st).
Proof. unfold or_vflag. apply built_set_vrow; reflexivity. Qed.

Lemma built_clear_vflag (i bits : Z) (st : display) : built st (clear_vflag i bits st).
Proof. unfold clear_vflag. apply built_set_vrow; reflexivity. Qed.

Lemma built_set_vcolor (i color : Z) (st : display) : built st (set_vcolor i color st).
Proof. unfold set_vcolor. apply built_set_vrow; reflexivity. Qed.

Lemma built_set_vtcol (x : Z) (st : display) : built st (set_vtcol x st).
Proof. unfold built. repeat split. Qed.

Lemma built_vtmove (row col : Z) (st : display) : built st (vtmove row col st).
Proof. unfold built. repeat split. Qed.

Lemma built_set_lbound (x : Z) (st : display) : built st (set_lbound x st).
Proof. unfold built. repeat split. Qed.

(** Taking one bind off an equation [m ≫= k = Some _]. *)
Ltac bind_step H :=
  match type of H with
  | mbind _ ?m = Some _ =>
      let E := fresh "E" in
      destruct m eqn:E; cbn [mbind option_bind] in H; [| discriminate H]
  end.

Lemma do_while_built (body : display -> option display) (cond : display -> bool) :
  (forall s s', body s = Some s' -> built s s') ->
  forall (n : nat) (s s' : display),
    do_while body cond n s = Some s' -> built s s'.
Proof.
  intros Hbody. induction n as [| n IH]; intros s s' H; cbn [do_while] in H.
  - discriminate.
  - bind_step H. destruct (cond d).
    + eapply built_trans; [eapply Hbody; eassumption | apply IH, H].
    + injection H as <-. apply Hbody, E0.
Qed.

Lemma vtputs_loop_built (put : Z -> display -> option display) :
  (forall c s s', put c s = Some s' -> built s s') ->
  forall (str : list Z) (n : Z) (s : display) (r : Z * display),
    vtputs_loop put str n s = Some r -> built s r.2.
Proof.
  intros Hput. induction str as [| c str IH]; intros n s r H; cbn [vtputs_loop] in H.
  - injection H as <-. apply built_refl.
  - destruct (c =? 0).
    + injection H as <-. apply built_refl.
    + bind_step H.
      eapply built_trans; [eapply Hput; eassumption | eapply IH, H].
Qed.

Lemma vtputc_built (fuel : nat) :
  forall (c : Z) (wp : mgwin) (st st' : display),
    vtputc fuel c wp st = Some st' -> built st st'.
Proof.
  induction fuel as [| k IH]; intros c wp st st' H; cbn [vtputc] in H.
  - discriminate.
  - destruct (vtcol st >=? ncol).
    { injection H as <-. apply built_vt_text. }
    destruct (Z.land c 255 =? 9).
    { eapply do_while_built; [| exact H]. intros s s' Hs. eapply IH, Hs. }
    destruct (ISCTRL (Z.land c 255)).
    { bind_step H. eapply built_trans; eapply IH; eassumption. }
    destruct (isprint (Z.land c 255)).
    { injection H as <-.
      eapply built_trans; [apply built_vt_text | apply built_set_vtcol]. }
    destruct (vtputs_loop _ _ _ _) as [r |] eqn:Hl; [| discriminate].
    cbn [fmap option_fmap option_map] in H. injection H as <-.
    eapply vtputs_loop_built; [| exact Hl]. intros c' s s' Hs. eapply IH, Hs.
Qed.

Lemma vtpute_built (fuel : nat) :
  forall (c : Z) (wp : mgwin) (st st' : display),
    vtpute fuel c wp st = Some st' -> built st st'.
Proof.
  induction fuel as [| k IH]; intros c wp st st' H; cbn [vtpute] in H.
  - discriminate.
  - destruct (vtcol st >=? ncol).
    { injection H as <-. apply built_vt_text. }
    destruct (Z.land c 255 =? 9).
    { eapply do_while_built; [| exact H]. intros s s' Hs. eapply IH, Hs. }
    destruct (ISCTRL (Z.land c 255)).
    { bind_step H. eapply built_trans; eapply IH; eassumption. }
    destruct (isprint (Z.land c 255)).
    { injection H as <-. destruct (vtcol st >=? 0).
      - eapply built_trans; [apply built_vt_text | apply built_set_vtcol].
      - apply built_set_vtcol. }
    destruct (vtputs_loop _ _ _ _) as [r |] eqn:Hl; [| discriminate].
    cbn [fmap option_fmap option_map] in H. injection H as <-.
    eapply vtputs_loop_built; [| exact Hl]. intros c' s s' Hs. eapply IH, Hs.
Qed.

Lemma vtputs_built (s : list Z) (wp : mgwin) (st : display) (r : Z * display) :
  vtputs s wp st = Some r -> built st r.2.
Proof.
  unfold vtputs. apply vtputs_loop_built. intros c s0 s' Hs. eapply vtputc_built, Hs.
Qed.

Lemma vteeol_built (st : display) : built st (vteeol st).
Proof.
  unfold vteeol. generalize (Z.to_nat (ncol - vtcol st)). intros n. revert st.
  induction n as [| n IH]; intros st; cbn [vteeol_loop].
  - apply built_refl.
  - destruct (vtcol st <? ncol); [| apply built_refl].
    eapply built_trans; [| apply IH].
    eapply built_trans; [apply built_vt_text |].
    eapply built_trans; [apply built_vt_attr | apply built_set_vtcol].
Qed.

Lemma attr_fill_built (n : nat) :
  forall (old sel : Z) (st : display), built st (attr_fill n old sel st).
Proof.
  induction n as [| n IH]; intros old sel st; cbn [attr_fill].
  - apply built_refl.
  - destruct ((old <? vtcol st) && (old <? ncol)); [| apply built_refl].
    eapply built_trans; [apply built_vt_attr | apply IH].
Qed.

Lemma attr_fill_ext_built (n : nat) :
  forall (old sel : Z) (st : display), built st (attr_fill_ext n old sel st).
Proof.
  induction n as [| n IH]; intros old sel st; cbn [attr_fill_ext].
  - apply built_refl.
  - destruct (old <? vtcol st); [| apply built_refl].
    eapply built_trans; [| apply IH].
    destruct ((old >=? 0) && (old <? ncol)); [apply built_vt_attr | apply built_refl].
Qed.

Lemma put_line_built (n : nat) :
  forall (wp : mgwin) (lp : nat) (line_num j : Z) (st st' : display),
    put_line n wp lp line_num j st = Some st' -> built st st'.
Proof.
  induction n as [| n IH]; intros wp lp line_num j st st' H; cbn [put_line] in H.
  - injection H as <-. apply built_refl.
  - bind_step H.
    eapply built_trans; [eapply vtputc_built; eassumption |].
    eapply built_trans; [apply attr_fill_built | eapply IH, H].
Qed.

Lemma put_line_ext_built (n : nat) :
  forall (wp : mgwin) (lp : nat) (line_num j : Z) (st st' : display),
    put_line_ext n wp lp line_num j st = Some st' -> built st st'.
Proof.
  induction n as [| n IH]; intros wp lp line_num j st st' H; cbn [put_line_ext] in H.
  - injection H as <-. apply built_refl.
  - bind_step H.
    eapply built_trans; [eapply vtpute_built; eassumption |].
    eapply built_trans; [apply attr_fill_ext_built | eapply IH, H].
Qed.

Lemma pad_to_built (k : nat) :
  forall (limit : Z) (wp : mgwin) (n : Z) (st : display) (r : Z * display),
    pad_to k limit wp n st = Some r -> built st r.2.
Proof.
  induction k as [| k IH]; intros limit wp n st r H; cbn [pad_to] in H.
  - injection H as <-. apply built_refl.
  - destruct (n <? limit).
    + bind_step H.
      eapply built_trans; [eapply vtputc_built; eassumption | eapply IH, H].
    + injection H as <-. apply built_refl.
Qed.

Lemma put_modes_built (k : nat) :
  forall (wp : mgwin) (md n : Z) (st : display) (r : Z * display),
    put_modes k wp md n st = Some r -> built st r.2.
Proof.
  induction k as [| k IH]; intros wp md n st r H; cbn [put_modes] in H.
  - discriminate.
  - bind_step H. bind_step H. destruct p as [m s1].
    pose proof (vtputc_built _ _ _ _ _ E0) as B1.
    pose proof (vtputs_built _ _ _ _ E1) as B2. cbn [snd] in B2.
    destruct (md + 1 >? b_nmodes (w_bufp wp)).
    + injection H as <-. eapply built_trans; eassumption.
    + bind_step H.
      pose proof (vtputc_built _ _ _ _ _ E2) as B3.
      eapply built_trans; [exact B1 |]. eapply built_trans; [exact B2 |].
      eapply built_trans; [exact B3 | eapply IH, H].
Qed.

Lemma modeline_built (wp : mgwin) (modelinecolor : Z) (st st' : display) :
  modeline wp modelinecolor st = Some st' -> built st st'.
Proof.
  unfold modeline. intros H.
  set (s0 := vtmove _ 0 _) in H.
  assert (B0 : built st s0).
  { unfold s0. eapply built_trans; [apply built_set_vcolor |].
    eapply built_trans; [apply built_or_vflag | apply built_vtmove]. }
  bind_step H. pose proof (vtputc_built _ _ _ _ _ E0) as B1.
  bind_step H. pose proof (vtputc_built _ _ _ _ _ E1) as B2.
  bind_step H.
  assert (B3 : built d0 d1).
  { destruct (negb (Z.land (b_flag (w_bufp wp)) BFREADONLY =? 0)).
    - bind_step E2. pose proof (vtputc_built _ _ _ _ _ E3) as Ba.
      destruct (negb (Z.land (b_flag (w_bufp wp)) BFCHG =? 0));
        (eapply built_trans; [exact Ba | eapply vtputc_built, E2]).
    - destruct (negb (Z.land (b_flag (w_bufp wp)) BFCHG =? 0));
        bind_step E2;
        (eapply built_trans; [eapply vtputc_built, E3 | eapply vtputc_built, E2]). }
  bind_step H. pose proof (vtputc_built _ _ _ _ _ E3) as B4.
  bind_step H. pose proof (vtputc_built _ _ _ _ _ E4) as B5.
  bind_step H. destruct p as [n1 s1].
  assert (B6 : built d3 s1).
  { destruct (negb (chr (b_bname (w_bufp wp)) 0 =? 0)).
    - bind_step E5. destruct p as [m sa]. bind_step E5. destruct p as [m' sb].
      injection E5 as _ <-.
      pose proof (vtputs_built _ _ _ _ E6) as Ba.
      pose proof (vtputs_built _ _ _ _ E7) as Bb.
      eapply built_trans; [exact Ba | exact Bb].
    - injection E5 as _ <-. apply built_refl. }
  bind_step H. destruct p as [n2 s2].
  pose proof (pad_to_built _ _ _ _ _ _ E6) as B7. cbn [snd] in B7.
  destruct (position_text wp s2) as [sl len].
  bind_step H. destruct p as [n3 s3].
  assert (B8 : built s2 s3).
  { destruct ((linenos s2 || colnos s2) && (len <? 21) && negb (len =? -1)).
    - bind_step E7. destruct p as [m sa]. injection E7 as _ <-.
      exact (vtputs_built _ _ _ _ E8).
    - injection E7 as _ <-. apply built_refl. }
  bind_step H. destruct p as [n4 s4].
  pose proof (pad_to_built _ _ _ _ _ _ E8) as B9. cbn [snd] in B9.
  bind_step H. pose proof (vtputc_built _ _ _ _ _ E9) as B10.
  bind_step H. destruct p as [n5 s5].
  pose proof (put_modes_built _ _ _ _ _ _ E10) as B11. cbn [snd] in B11.
  bind_step H. destruct p as [n6 s6].
  assert (B12 : built s5 s6).
  { destruct macrodef.
    - bind_step E11. destruct p as [m sa]. injection E11 as _ <-.
      exact (vtputs_built _ _ _ _ E12).
    - injection E11 as _ <-. apply built_refl. }
  bind_step H. destruct p as [n7 s7].
  assert (B13 : built s6 s7).
  { destruct globalwd.
    - bind_step E12. destruct p as [m sa]. injection E12 as _ <-.
      exact (vtputs_built _ _ _ _ E13).
    - injection E12 as _ <-. apply built_refl. }
  bind_step H. pose proof (vtputc_built _ _ _ _ _ E13) as B14.
  bind_step H. destruct p as [n8 s8].
  assert (B15 : built d5 s8).
  { destruct (timesh d5).
    - bind_step E14. destruct p as [m sa]. injection E14 as _ <-.
      exact (vtputs_built _ _ _ _ E15).
    - injection E14 as _ <-. apply built_refl. }
  bind_step H. destruct p as [n9 s9].
  pose proof (pad_to_built _ _ _ _ _ _ E15) as B16. cbn [snd] in B16.
  injection H as <-.
  repeat (eapply built_trans; [eassumption |]). apply built_refl.
Qed.

Lemma updext_built (currow curcol : Z) (st st' : display) :
  updext currow curcol st = Some st' -> built st st'.
Proof.
  unfold updext. intros H. destruct (ncol <? 2).
  { injection H as <-. apply built_refl. }
  set (s0 := vtmove currow _ _) in H.
  assert (B0 : built st s0).
  { unfold s0. eapply built_trans; [apply built_set_lbound | apply built_vtmove]. }
  bind_step H. pose proof (put_line_ext_built _ _ _ _ _ _ _ E0) as B1.
  injection H as <-.
  eapply built_trans; [exact B0 |]. eapply built_trans; [exact B1 |].
  eapply built_trans; [apply vteeol_built |].
  apply built_set_vrow; cbn [v_text v_attr set_v_text];
    [apply length_zset | reflexivity].
Qed.

Lemma full_rows_built (n : nat) :
  forall (wp : mgwin) (lp : nat) (i line_num : Z) (st st' : display),
    full_rows n wp lp i line_num st = Some st' -> built st st'.
Proof.
  induction n as [| n IH]; intros wp lp i line_num st st' H; cbn [full_rows] in H.
  - injection H as <-. apply built_refl.
  - set (s0 := vtmove i 0 _) in H.
    assert (B0 : built st s0).
    { unfold s0. eapply built_trans; [apply built_set_vcolor |].
      eapply built_trans; [apply built_or_vflag | apply built_vtmove]. }
    bind_step H. destruct p as [[lp' ln'] s1].
    assert (B1 : built s0 s1).
    { destruct (negb (lp =? b_headp (w_bufp wp))%nat).
      - bind_step E0. injection E0 as _ _ <-.
        eapply put_line_built; eassumption.
      - injection E0 as _ _ <-. apply built_refl. }
    eapply built_trans; [exact B0 |]. eapply built_trans; [exact B1 |].
    eapply built_trans; [apply vteeol_built | eapply IH, H].
Qed.

(** The body of the loop over the windows is a builder step, and leaves
    the window without pending flags. *)
Lemma update_window_built (mc : Z) (wp : mgwin) (hflag : bool) (st : display)
    (r : mgwin * bool * display) :
  update_window mc wp hflag st = Some r ->
  built st r.2 /\ w_rflag r.1.1 = 0.
Proof.
  unfold update_window. intros H.
  destruct (Z.eqb_spec (w_rflag wp) 0) as [Hz | Hnz].
  { injection H as <-. split; [apply built_refl | exact Hz]. }
  set (wp1 := frame_window wp) in H.
  bind_step H. destruct p as [h1 s1].
  assert (B1 : built st s1).
  { destruct (edit_only wp1).
    - bind_step E0. destruct p as [[lp i] ln].
      bind_step E0. injection E0 as _ <-.
      eapply built_trans; [| apply vteeol_built].
      eapply built_trans; [| eapply put_line_built; eassumption].
      eapply built_trans; [apply built_set_vcolor |].
      eapply built_trans; [apply built_or_vflag | apply built_vtmove].
    - destruct (negb (Z.land (w_rflag wp1) (Z.lor WFEDIT WFFULL) =? 0)).
      + bind_step E0. injection E0 as _ <-.
        eapply full_rows_built; eassumption.
      + injection E0 as _ <-. apply built_refl. }
  bind_step H. injection H as <-. cbn [fst snd]. split; [| reflexivity].
  eapply built_trans; [exact B1 |].
  destruct (negb (Z.land (w_rflag wp1) WFMODE =? 0)).
  - eapply modeline_built; eassumption.
  - injection E1 as <-. apply built_refl.
Qed.

Lemma update_windows_built (mc : Z) (ws : list mgwin) :
  forall (hflag : bool) (st : display) (r : list mgwin * bool * display),
    update_windows mc ws hflag st = Some r ->
    built st r.2 /\ Forall (fun wp => w_rflag wp = 0) r.1.1
    /\ length r.1.1 = length ws.
Proof.
  induction ws as [| wp ws IH]; intros hflag st r H; cbn [update_windows] in H.
  - injection H as <-. split; [apply built_refl |]. split; [constructor | reflexivity].
  - bind_step H. destruct p as [[wp1 h1] s1].
    destruct (update_window_built _ _ _ _ _ E0) as [B1 Hf1]. cbn [fst snd] in *.
    bind_step H. destruct p as [[ws2 h2] s2].
    destruct (IH _ _ _ E1) as (B2 & Hf2 & Hl2). cbn [fst snd] in *.
    injection H as <-. cbn [fst snd]. split; [eapply built_trans; eassumption |].
    split; [constructor; assumption | cbn [length]; congruence].
Qed.

Lemma deext_rows_built (n : nat) :
  forall (k : nat) (wp : mgwin) (curcol : Z) (lp : nat) (i line_num : Z)
         (st : display) (r : Z * display),
    deext_rows n k wp curcol lp i line_num st = Some r -> built st r.2.
Proof.
  induction n as [| n IH]; intros k wp curcol lp i line_num st r H;
    cbn [deext_rows] in H.
  - injection H as <-. apply built_refl.
  - bind_step H.
    assert (B1 : built st d).
    { destruct (negb (Z.land (v_flag (vrow st i)) VFEXT =? 0)).
      - destruct (negb (k =? curwp (or_vflag i VFCHG st))%nat
                  || negb (lp =? w_dotp wp)%nat || (curcol <? ncol - 1)).
        + bind_step E0. injection E0 as <-.
          eapply built_trans; [apply built_or_vflag |].
          eapply built_trans; [apply built_vtmove |].
          eapply built_trans; [eapply put_line_built; eassumption |].
          eapply built_trans; [apply vteeol_built | apply built_clear_vflag].
        + injection E0 as <-. apply built_or_vflag.
      - injection E0 as <-. apply built_refl. }
    eapply built_trans; [exact B1 | eapply IH, H].
Qed.

Lemma deext_windows_built (ws : list mgwin) :
  forall (k : nat) (curcol : Z) (st st' : display),
    deext_windows ws k curcol st = Some st' -> built st st'.
Proof.
  induction ws as [| wp ws IH]; intros k curcol st st' H; cbn [deext_windows] in H.
  - injection H as <-. apply built_refl.
  - bind_step H. destruct p as [i s1].
    pose proof (deext_rows_built _ _ _ _ _ _ _ _ _ E0) as B1. cbn [snd] in B1.
    eapply built_trans; [exact B1 |].
    eapply built_trans; [| eapply IH, H].
    destruct (sgarbf s1); [apply built_or_vflag | apply built_refl].
Qed.

(** What a builder step keeps, member by member. *)
Lemma built_fields (st st' : display) :
  built st st' ->
  pscreen st' = pscreen st /\ scores st' = scores st /\ sgarbf st' = sgarbf st
  /\ linenos st' = linenos st /\ colnos st' = colnos st
  /\ wheadp st' = wheadp st /\ curwp st' = curwp st /\ tty st' = tty st.
Proof.
  intros (Hb & _). unfold beyond_builder in Hb.
  injection Hb as H1 H2 H3 H4 H5 H6 H7 H8 H9 H10 H11 H12 H13 H14 H15.
  repeat split; assumption.
Qed.

Lemma built_screens_ok (st st' : display) :
  built st st' -> screens_ok st -> screens_ok st'.
Proof.
  intros Hb (Hnrow & Hncol & Hlv & Hlp & Hls & Hrows).
  destruct (built_fields st st' Hb) as (Hp & Hs & _).
  destruct Hb as (_ & Hl & Hr).
  unfold screens_ok. rewrite Hp, Hs, Hl.
  split; [lia |]. split; [lia |]. split; [lia |]. split; [lia |]. split; [lia |].
  intros i Hi. destruct (Hr i) as [-> ->]. apply Hrows, Hi.
Qed.

Lemma cursor_place_ext (st st' : display) :
  wheadp st' = wheadp st -> curwp st' = curwp st ->
  cursor_place st' = cursor_place st.
Proof. unfold cursor_place. intros -> ->. reflexivity. Qed.

(** The first two parts of update: what they hand to the third. *)
Lemma update_build_frame (mc : Z) (st : display) (hflag : bool)
    (currow curcol : Z) (st' : display) :
  update_build mc st = Some (hflag, currow, curcol, st') ->
  (screens_ok st -> screens_ok st')
  /\ sgarbf st' = sgarbf st /\ linenos st' = linenos st /\ colnos st' = colnos st
  /\ tty st' = tty st
  /\ Forall (fun wp => w_rflag wp = 0) (wheadp st')
  /\ cursor_place st' = Some (currow, curcol).
Proof.
  unfold update_build. intros H.
  set (s0 := update_flags st) in H.
  bind_step H. destruct p as [[ws h] s1].
  destruct (update_windows_built _ _ _ _ _ E0) as (B1 & Hws & _). cbn [fst snd] in *.
  set (s2 := set_wheadp ws s1) in H.
  bind_step H. destruct p as [r c].
  bind_step H.
  assert (B3 : built s2 d).
  { destruct (c >=? ncol - 1).
    - eapply built_trans; [apply built_or_vflag | eapply updext_built, E2].
    - injection E2 as <-. apply built_set_lbound. }
  bind_step H. pose proof (deext_windows_built _ _ _ _ _ E3) as B4.
  injection H as <- <- <- <-.
  pose proof (built_trans _ _ _ B3 B4) as B34.
  destruct (built_fields _ _ B1) as (Hp1 & Hs1 & Hg1 & Hl1 & Hc1 & Hw1 & Hcw1 & Ht1).
  destruct (built_fields _ _ B34) as (Hp2 & Hs2 & Hg2 & Hl2 & Hc2 & Hw2 & Hcw2 & Ht2).
  split; [| split; [| split; [| split; [| split; [| split]]]]].
  - intros Hok. apply (built_screens_ok s2); [exact B34 |].
    assert (Hok1 : screens_ok s1) by (apply (built_screens_ok s0); [exact B1 | exact Hok]).
    exact Hok1.
  - rewrite Hg2. change (sgarbf s2) with (sgarbf s1). rewrite Hg1. reflexivity.
  - rewrite Hl2. change (linenos s2) with (linenos s1). rewrite Hl1. reflexivity.
  - rewrite Hc2. change (colnos s2) with (colnos s1). rewrite Hc1. reflexivity.
  - rewrite Ht2. change (tty s2) with (tty s1). rewrite Ht1. reflexivity.
  - rewrite Hw2. exact Hws.
  - rewrite (cursor_place_ext s2 d0 Hw2 Hcw2). exact E1.
Qed.

(** ** A cycle with nothing pending *)

Lemma set_wheadp_same (st : display) : set_wheadp (wheadp st) st = st.
Proof. destruct st. reflexivity. Qed.

Lemma escalate_idle (wp : mgwin) : w_rflag wp = 0 -> escalate_selection wp = wp.
Proof.
  intros H. unfold escalate_selection. rewrite H.
  destruct (mark_set wp); reflexivity.
Qed.

Lemma update_flags_idle (st : display) :
  sgarbf st = false -> linenos st = false -> colnos st = false ->
  Forall (fun wp => w_rflag wp = 0) (wheadp st) ->
  update_flags st = st.
Proof.
  intros Hg Hl Hc Hw. unfold update_flags. rewrite Hg, Hl, Hc. cbn [orb].
  replace (map escalate_selection (wheadp st)) with (wheadp st);
    [apply set_wheadp_same |].
  induction Hw as [| wp ws Hwp _ IH]; cbn [map]; [reflexivity |].
  rewrite escalate_idle by exact Hwp. f_equal. exact IH.
Qed.

Lemma update_windows_idle (mc : Z) (ws : list mgwin) (hflag : bool) (st : display) :
  Forall (fun wp => w_rflag wp = 0) ws ->
  update_windows mc ws hflag st = Some (ws, hflag, st).
Proof.
  intros Hw. induction Hw as [| wp ws Hwp _ IH]; cbn [update_windows];
    [reflexivity |].
  unfold update_window. rewrite Hwp. cbn [Z.eqb mbind option_bind].
  rewrite IH. reflexivity.
Qed.

Lemma deext_rows_idle (n : nat) :
  forall (k : nat) (wp : mgwin) (curcol : Z) (lp : nat) (i line_num : Z)
         (st : display),
    (forall i, Z.land (v_flag (vrow st i)) VFEXT = 0) ->
    exists i', deext_rows n k wp curcol lp i line_num st = Some (i', st).
Proof.
  induction n as [| n IH]; intros k wp curcol lp i line_num st Hext;
    cbn [deext_rows].
  - eexists. reflexivity.
  - rewrite Hext. cbn [Z.eqb negb mbind option_bind]. apply IH, Hext.
Qed.

Lemma deext_windows_idle (ws : list mgwin) :
  forall (k : nat) (curcol : Z) (st : display),
    (forall i, Z.land (v_flag (vrow st i)) VFEXT = 0) -> sgarbf st = false ->
    deext_windows ws k curcol st = Some st.
Proof.
  induction ws as [| wp ws IH]; intros k curcol st Hext Hg; cbn [deext_windows].
  - reflexivity.
  - destruct (deext_rows_idle (Z.to_nat (w_ntrows wp)) k wp curcol (w_linep wp)
                (w_toprow wp) (top_line_num wp) st Hext) as [i' ->].
    cbn [mbind option_bind]. rewrite Hg. apply IH; assumption.
Qed.

Lemma update_easy_idle (currow curcol : Z) (st : display) :
  1 <= nrow ->
  (forall i, 0 <= i < nrow - 1 -> flag_clear VFCHG (vrow st i)) ->
  update_easy currow curcol st = ttflush (ttmove currow (curcol - lbound st) st).
Proof.
  intros Hnrow Hclr. unfold update_easy.
  assert (Hloop : for_range 0 (nrow - 1)
            (fun i s =>
               if negb (Z.land (v_flag (vrow s i)) VFCHG =? 0)
               then ucopy_row i (uline i (vrow s i) (PScreen i) s)
               else s) st = st).
  { apply (for_range_index (fun (_ : Z) (s : display) => s = st)); [lia | | reflexivity].
    intros col s Hc ->. rewrite (Hclr col Hc). reflexivity. }
  rewrite Hloop. reflexivity.
Qed.

(** A cycle entered with no flag pending in any window, the screen not
    garbage, the line and column numbers off, no row flagged changed or
    extended and the cursor left of the last column: it moves the cursor,
    flushes, and sends nothing else. *)
Lemma update_idle (mc currow curcol : Z) (st : display) :
  charswaiting = false -> 1 <= nrow ->
  sgarbf st = false -> linenos st = false -> colnos st = false ->
  Forall (fun wp => w_rflag wp = 0) (wheadp st) ->
  (forall i, 0 <= i < nrow - 1 -> flag_clear VFCHG (vrow st i)) ->
  (forall i, Z.land (v_flag (vrow st i)) VFEXT = 0) ->
  cursor_place st = Some (currow, curcol) -> curcol < ncol - 1 ->
  update mc st
  = Returned (ttflush (ttmove currow curcol (set_lbound 0 st))).
Proof.
  intros Hcw Hnrow Hg Hl Hc Hw Hchg Hext Hcur Hcol.
  unfold update. rewrite Hcw. unfold update_build.
  rewrite update_flags_idle by assumption.
  rewrite update_windows_idle by assumption. cbn [mbind option_bind].
  rewrite set_wheadp_same, Hcur. cbn [mbind option_bind].
  rewrite Z.geb_leb. destruct (Z.leb_spec (ncol - 1) curcol); [lia |].
  cbn [mbind option_bind].
  change (wheadp (set_lbound 0 st)) with (wheadp st).
  rewrite deext_windows_idle by assumption. cbn [mbind option_bind].
  unfold reconcile. change (sgarbf (set_lbound 0 st)) with (sgarbf st).
  rewrite Hg. rewrite update_easy_idle by assumption.
  change (lbound (set_lbound 0 st)) with 0. rewrite Z.sub_0_r. reflexivity.
Qed.

Lemma emitted_app (st st' : display) (ops : list ttyop) :
  tty st' = tty st ++ ops -> emitted st st' = ops.
Proof. unfold emitted. intros ->. apply drop_app_length. Qed.


(** ** The builder, character by character *)

Lemma plain_char_spec (c : Z) :
  plain_char c = true ->
  Z.land c 255 = c /\ (c =? 9) = false /\ ISCTRL c = false /\ isprint c = true.
Proof.
  unfold plain_char. intros H.
  repeat (apply andb_prop in H; destruct H as [H ?]).
  apply Z.leb_le in H. apply Z.ltb_lt in H3.
  apply negb_true_iff in H2. apply negb_true_iff in H1.
  split; [| auto].
  change 255 with (Z.ones 8). rewrite Z.land_ones by lia.
  apply Z.mod_small. lia.
Qed.

Lemma chars_ok_spec :
  chars_ok = true ->
  plain_char 32 = true /\ plain_char 94 = true /\ plain_char 92 = true
  /\ (forall d, 48 <= d < 56 -> plain_char d = true)
  /\ (forall c, 0 <= c < 256 -> c <> 9 -> ISCTRL c = true ->
        plain_char (Z.land (CCHR c) 255) = true).
Proof.
  unfold chars_ok. intros H.
  apply andb_prop in H. destruct H as [H H0].
  apply andb_prop in H. destruct H as [H H1].
  apply andb_prop in H. destruct H as [H H2].
  apply andb_prop in H. destruct H as [H H3].
  split; [exact H |]. split; [exact H3 |]. split; [exact H2 |]. split.
  - intros d Hd. rewrite forallb_forall in H1. apply H1.
    apply list_elem_of_In, elem_of_seqZ. lia.
  - intros c Hc H9 Hctl. rewrite forallb_forall in H0.
    specialize (H0 c). rewrite Hctl in H0.
    destruct (Z.eqb_spec c 9); [contradiction |]. cbn in H0.
    apply H0. apply list_elem_of_In, elem_of_seqZ. lia.
Qed.

Lemma land_255_range (c : Z) : 0 <= Z.land c 255 < 256.
Proof.
  change 255 with (Z.ones 8). rewrite Z.land_ones by lia.
  apply Z.mod_pos_bound. lia.
Qed.

(** vtputc on a character whose low byte is drawn as itself. *)
Lemma vtputc_plain (k : nat) (c : Z) (wp : mgwin) (st : display) :
  plain_char (Z.land c 255) = true ->
  vtputc (S k) c wp st = Some (put_plain (Z.land c 255) st).
Proof.
  intros Hp. destruct (plain_char_spec _ Hp) as (_ & H9 & Hctl & Hprt).
  cbn [vtputc]. rewrite H9, Hctl, Hprt. unfold put_plain.
  destruct (vtcol st >=? ncol); reflexivity.
Qed.

Lemma vtputc_plain_byte (k : nat) (c : Z) (wp : mgwin) (st : display) :
  plain_char c = true ->
  vtputc (S k) c wp st = Some (put_plain c st).
Proof.
  intros Hp. destruct (plain_char_spec _ Hp) as (Hm & _).
  rewrite vtputc_plain; rewrite Hm; [reflexivity | exact Hp].
Qed.

Lemma vtcol_put_plain (c : Z) (st : display) :
  vtcol (put_plain c st) = if vtcol st >=? ncol then vtcol st else vtcol st + 1.
Proof. unfold put_plain. destruct (vtcol st >=? ncol); reflexivity. Qed.

Lemma put_glyphs_cons (c : Z) (s : list Z) (st : display) :
  put_glyphs (c :: s) st = put_glyphs s (put_plain c st).
Proof. reflexivity. Qed.

Lemma put_glyphs_app (s t : list Z) (st : display) :
  put_glyphs (s ++ t) st = put_glyphs t (put_glyphs s st).
Proof. unfold put_glyphs. apply fold_left_app. Qed.

(** The loop of a tab writes the blanks up to the stop or the margin, one
    at least. *)
Lemma tab_loop_glyphs (k : nat) (wp : mgwin) (target : Z) :
  plain_char 32 = true ->
  forall (n : nat) (st : display),
    vtcol st < ncol -> (Z.to_nat (ncol - vtcol st) <= n)%nat ->
    do_while (vtputc (S k) 32 wp)
      (fun st => (vtcol st <? ncol) && (vtcol st <? target)) n st
    = Some (put_glyphs
              (replicate (Z.to_nat (Z.max 1 (Z.min target ncol - vtcol st))) 32) st).
Proof.
  intros Hb. induction n as [| n IH]; intros st Hlt Hn; [lia |].
  cbn [do_while]. rewrite (vtputc_plain_byte k 32 wp st Hb).
  cbn [mbind option_bind].
  assert (Hv : vtcol (put_plain 32 st) = vtcol st + 1).
  { rewrite vtcol_put_plain, Z.geb_leb.
    destruct (Z.leb_spec ncol (vtcol st)); [lia | reflexivity]. }
  rewrite Hv.
  destruct (Z.ltb_spec (vtcol st + 1) ncol) as [H1 | H1];
    [destruct (Z.ltb_spec (vtcol st + 1) target) as [H2 | H2] |]; cbn [andb].
  - rewrite IH by (rewrite ?Hv; lia). rewrite Hv.
    replace (Z.to_nat (Z.max 1 (Z.min target ncol - vtcol st)))
      with (S (Z.to_nat (Z.max 1 (Z.min target ncol - (vtcol st + 1))))) by lia.
    reflexivity.
  - replace (Z.to_nat (Z.max 1 (Z.min target ncol - vtcol st))) with 1%nat by lia.
    reflexivity.
  - replace (Z.to_nat (Z.max 1 (Z.min target ncol - vtcol st))) with 1%nat by lia.
    reflexivity.
Qed.

(** A string of bytes drawn as themselves, none of them the terminator. *)
Lemma vtputs_loop_glyphs (k : nat) (wp : mgwin) :
  forall (s : list Z) (n : Z) (st : display),
    Forall (fun d => plain_char d = true /\ d <> 0) s ->
    vtputs_loop (fun c => vtputc (S k) c wp) s n st
    = Some (n + Z.of_nat (length s), put_glyphs s st).
Proof.
  induction s as [| d s IH]; intros n st Hs.
  - cbn. f_equal. f_equal. lia.
  - inversion Hs as [| ? ? [Hd H0] Hs']; subst.
    cbn [vtputs_loop]. destruct (Z.eqb_spec d 0); [contradiction |].
    rewrite (vtputc_plain_byte k d wp st Hd). cbn [mbind option_bind].
    rewrite IH by exact Hs'. rewrite put_glyphs_cons.
    f_equal. f_equal. cbn [length]. lia.
Qed.

(** The octal escape of a byte: a backslash and octal digits. *)
Lemma bf_octal_chars (c : Z) :
  0 <= c < 256 ->
  Forall (fun d => d = 92 \/ 48 <= d < 56) (bf_octal c)
  /\ (2 <= length (bf_octal c) <= 4)%nat.
Proof.
  intros Hc.
  assert (Hall : forallb
            (fun c => forallb (fun d => (d =? 92) || ((48 <=? d) && (d <? 56)))
                        (bf_octal c)
                      && (2 <=? length (bf_octal c))%nat
                      && (length (bf_octal c) <=? 4)%nat)
            (seqZ 0 256) = true) by (vm_compute; reflexivity).
  rewrite forallb_forall in Hall.
  specialize (Hall c ltac:(apply list_elem_of_In, elem_of_seqZ; lia)).
  apply andb_prop in Hall. destruct Hall as [Hall H4].
  apply andb_prop in Hall. destruct Hall as [Hall H2].
  apply Nat.leb_le in H2, H4. split; [| lia].
  apply Forall_forall. intros d Hd. rewrite forallb_forall in Hall.
  specialize (Hall d Hd). apply orb_prop in Hall.
  destruct Hall as [Hall | Hall].
  - left. apply Z.eqb_eq. exact Hall.
  - right. apply andb_prop in Hall. destruct Hall as [Ha Hb].
    apply Z.leb_le in Ha. apply Z.ltb_lt in Hb. lia.
Qed.

Lemma bf_octal_plain (c : Z) :
  chars_ok = true -> 0 <= c < 256 ->
  Forall (fun d => plain_char d = true /\ d <> 0) (bf_octal c).
Proof.
  intros Hok Hc. destruct (chars_ok_spec Hok) as (_ & _ & Hbs & Hdig & _).
  destruct (bf_octal_chars c Hc) as [Hall _].
  eapply Forall_impl; [| exact Hall]. cbn. intros d [-> | Hd].
  - split; [exact Hbs | lia].
  - split; [apply Hdig; exact Hd | lia].
Qed.

Lemma vtputc_S (k : nat) (c : Z) (wp : mgwin) (st : display) :
  vtputc (S k) c wp st
  = (let c := Z.land c 255 in
     if vtcol st >=? ncol then Some (vt_text (ncol - 1) 36 st)
     else if c =? 9 then
       let target := ntabstop (vtcol st) (b_tabw (w_bufp wp)) in
       do_while (vtputc k 32 wp)
         (fun st => (vtcol st <? ncol) && (vtcol st <? target)) k st
     else if ISCTRL c then
       st' ← vtputc k 94 wp st; vtputc k (CCHR c) wp st'
     else if isprint c then
       Some (set_vtcol (vtcol st + 1) (vt_text (vtcol st) c st))
     else
       snd <$> vtputs_loop (fun c' => vtputc k c' wp) (bf_octal c) 0 st).
Proof. reflexivity. Qed.

(** What vtputc does for any character left of the margin: it writes the
    columns of the character, each by the rule of a plain byte. *)
Lemma vtputc_glyphs (k : nat) (c : Z) (wp : mgwin) (st : display) :
  chars_ok = true -> vtcol st < ncol ->
  (Z.to_nat (ncol - vtcol st) <= S k)%nat ->
  vtputc (S (S k)) c wp st
  = Some (put_glyphs (glyphs c (vtcol st) (b_tabw (w_bufp wp))) st).
Proof.
  intros Hok Hlt Hk.
  destruct (chars_ok_spec Hok) as (Hb & Hcar & _ & _ & Hfold).
  pose proof (land_255_range c) as Hr.
  rewrite vtputc_S. unfold glyphs. cbv zeta.
  rewrite Z.geb_leb. destruct (Z.leb_spec ncol (vtcol st)); [lia |].
  destruct (Z.eqb_spec (Z.land c 255) 9) as [H9 | H9].
  - apply tab_loop_glyphs; assumption.
  - destruct (ISCTRL (Z.land c 255)) eqn:Hctl.
    + rewrite (vtputc_plain_byte k 94 wp st Hcar). cbn [mbind option_bind].
      rewrite vtputc_plain by (apply Hfold; assumption). reflexivity.
    + destruct (isprint (Z.land c 255)) eqn:Hprt.
      * unfold put_glyphs. cbn [fold_left]. unfold put_plain.
        rewrite Z.geb_leb. destruct (Z.leb_spec ncol (vtcol st)); [lia |].
        reflexivity.
      * rewrite vtputs_loop_glyphs by (apply bf_octal_plain; assumption).
        reflexivity.
Qed.

(** *** The cells a run of plain bytes fills *)

Lemma vrow_vt_text_other (col c i : Z) (st : display) :
  i <> vtrow st -> vrow (vt_text col c st) i = vrow st i.
Proof.
  intros Hi. unfold vt_text, set_vrow, vrow. cbn [vscreen set_vscreen].
  apply rd_zset_ne. congruence.
Qed.

Lemma put_plain_frame (c : Z) (st : display) :
  vtrow (put_plain c st) = vtrow st
  /\ lbound (put_plain c st) = lbound st
  /\ length (vscreen (put_plain c st)) = length (vscreen st)
  /\ beyond_builder (put_plain c st) = beyond_builder st
  /\ forall i, i <> vtrow st -> vrow (put_plain c st) i = vrow st i.
Proof.
  unfold put_plain. destruct (vtcol st >=? ncol).
  - split; [reflexivity |]. split; [reflexivity |].
    split; [apply length_vscreen_vt_text |]. split; [reflexivity |].
    intros i Hi. apply vrow_vt_text_other. exact Hi.
  - split; [reflexivity |]. split; [reflexivity |].
    split; [apply length_vscreen_vt_text |]. split; [reflexivity |].
    intros i Hi. apply (vrow_vt_text_other (vtcol st) c i st Hi).
Qed.

Lemma put_glyphs_frame (s : list Z) :
  forall st : display,
    vtrow (put_glyphs s st) = vtrow st
    /\ lbound (put_glyphs s st) = lbound st
    /\ length (vscreen (put_glyphs s st)) = length (vscreen st)
    /\ beyond_builder (put_glyphs s st) = beyond_builder st
    /\ forall i, i <> vtrow st -> vrow (put_glyphs s st) i = vrow st i.
Proof.
  induction s as [| c s IH]; intros st.
  - cbn. auto.
  - rewrite put_glyphs_cons.
    destruct (put_plain_frame c st) as (H1 & H2 & H3 & H4 & H5).
    destruct (IH (put_plain c st)) as (I1 & I2 & I3 & I4 & I5).
    split; [congruence |]. split; [congruence |]. split; [congruence |].
    split; [congruence |].
    intros i Hi. rewrite I5 by congruence. apply H5. exact Hi.
Qed.

(** The cursor after a run of plain bytes: it stops at the margin. *)
Lemma vtcol_put_glyphs (s : list Z) :
  forall st : display,
    vtcol (put_glyphs s st)
    = if vtcol st >=? ncol then vtcol st
      else Z.min (vtcol st + Z.of_nat (length s)) ncol.
Proof.
  induction s as [| c s IH]; intros st.
  - cbn. rewrite Z.geb_leb. destruct (Z.leb_spec ncol (vtcol st)); lia.
  - rewrite put_glyphs_cons, IH, vtcol_put_plain. cbn [length].
    rewrite !Z.geb_leb.
    destruct (Z.leb_spec ncol (vtcol st)) as [H | H].
    + destruct (Z.leb_spec ncol (vtcol st)); [reflexivity | lia].
    + destruct (Z.leb_spec ncol (vtcol st + 1)); lia.
Qed.

(** The row of the cursor after a plain byte written left of the margin. *)
Lemma put_plain_row (c : Z) (st : display) :
  0 <= vtrow st < Z.of_nat (length (vscreen st)) ->
  vtcol st < ncol ->
  vrow (put_plain c st) (vtrow st)
  = set_v_text (zset (v_text (vrow st (vtrow st))) (vtcol st) c)
      (vrow st (vtrow st)).
Proof.
  intros Hr Hlt. unfold put_plain. rewrite Z.geb_leb.
  destruct (Z.leb_spec ncol (vtcol st)); [lia |].
  apply (vrow_vt_text (vtcol st) c st Hr).
Qed.

(** A run of plain bytes that fits on the row fills the columns from the
    cursor on, in order, and nothing else. *)
Lemma put_glyphs_cells (s : list Z) :
  forall st : display,
    0 <= vtrow st < Z.of_nat (length (vscreen st)) ->
    0 <= vtcol st ->
    vtcol st + Z.of_nat (length s) <= ncol ->
    vtcol st + Z.of_nat (length s)
      <= Z.of_nat (length (v_text (vrow st (vtrow st)))) ->
    let vp := vrow st (vtrow st) in
    let vp' := vrow (put_glyphs s st) (vtrow st) in
    vtcol (put_glyphs s st) = vtcol st + Z.of_nat (length s)
    /\ length (v_text vp') = length (v_text vp)
    /\ v_attr vp' = v_attr vp /\ v_color vp' = v_color vp
    /\ v_flag vp' = v_flag vp /\ v_hash vp' = v_hash vp
    /\ v_cost vp' = v_cost vp
    /\ forall col,
         chr (v_text vp') col
         = if (vtcol st <=? col) && (col <? vtcol st + Z.of_nat (length s))
           then nth (Z.to_nat (col - vtcol st)) s 0
           else chr (v_text vp) col.
Proof.
  induction s as [| c s IH]; intros st Hr Hc Hfit Hlen vp vp'.
  - subst vp vp'. cbn [put_glyphs fold_left length].
    split; [lia |]. repeat (split; [reflexivity |]).
    intros col. destruct (Z.leb_spec (vtcol st) col);
      destruct (Z.ltb_spec col (vtcol st + Z.of_nat 0)); cbn [andb];
      try reflexivity; lia.
  - cbn [length] in Hfit, Hlen.
    destruct (put_plain_frame c st) as (F1 & _ & F3 & _ & _).
    pose proof (put_plain_row c st Hr ltac:(lia)) as Hrow.
    assert (Hv : vtcol (put_plain c st) = vtcol st + 1).
    { rewrite vtcol_put_plain, Z.geb_leb.
      destruct (Z.leb_spec ncol (vtcol st)); lia. }
    specialize (IH (put_plain c st)).
    rewrite F1, F3, Hv, Hrow in IH. cbn [v_text set_v_text] in IH.
    rewrite length_zset in IH.
    destruct IH as (I1 & I2 & I3 & I4 & I5 & I6 & I7 & I8); try lia.
    subst vp vp'. rewrite put_glyphs_cons. cbn [length].
    split; [lia |]. split; [exact I2 |]. split; [exact I3 |].
    split; [exact I4 |]. split; [exact I5 |]. split; [exact I6 |].
    split; [exact I7 |].
    intros col. rewrite I8. unfold chr. rewrite rd_zset by lia.
    destruct (Z.leb_spec (vtcol st + 1) col);
      destruct (Z.ltb_spec col (vtcol st + 1 + Z.of_nat (length s)));
      destruct (Z.leb_spec (vtcol st) col);
      destruct (Z.ltb_spec col (vtcol st + Z.of_nat (S (length s))));
      destruct (Z.eqb_spec col (vtcol st)); cbn [andb]; try lia; try reflexivity.
    + replace (Z.to_nat (col - vtcol st)) with (S (Z.to_nat (col - (vtcol st + 1))))
        by lia. reflexivity.
    + subst col. replace (vtcol st - vtcol st) with 0 by lia. reflexivity.
Qed.

Lemma glyphs_length (c col tabw : Z) :
  (1 <= length (glyphs c col tabw))%nat.
Proof.
  unfold glyphs. cbv zeta.
  destruct (Z.land c 255 =? 9); [rewrite length_replicate; lia |].
  destruct (ISCTRL (Z.land c 255)); [cbn; lia |].
  destruct (isprint (Z.land c 255)); [cbn; lia |].
  destruct (bf_octal_chars (Z.land c 255) (land_255_range c)) as [_ H]. lia.
Qed.


(** X2.  A control character other than the tab takes two columns: the
    caret and the letter CCHR folds it to.  When both fit, they stand at
    the cursor and to its right, the cursor moves two columns and the rest
    of the row is untouched; when the cursor is in the last column, the
    caret written there is replaced by the dollar sign and the cursor stops
    at the margin. *)
Theorem vtputc_control_two_columns (c : Z) (wp : mgwin) (st : display) :
  chars_ok = true ->
  Z.land c 255 <> 9 -> ISCTRL (Z.land c 255) = true ->
  0 <= vtrow st < Z.of_nat (length (vscreen st)) ->
  ncol <= Z.of_nat (length (v_text (vrow st (vtrow st)))) ->
  0 <= vtcol st < ncol ->
  exists st',
    vtputc vt_fuel c wp st = Some st'
    /\ (vtcol st + 2 <= ncol ->
        vtcol st' = vtcol st + 2
        /\ forall col,
             chr (v_text (vrow st' (vtrow st))) col
             = if col =? vtcol st then 94
               else if col =? vtcol st + 1 then Z.land (CCHR (Z.land c 255)) 255
               else chr (v_text (vrow st (vtrow st))) col)
    /\ (vtcol st = ncol - 1 ->
        vtcol st' = ncol
        /\ forall col,
             chr (v_text (vrow st' (vtrow st))) col
             = if col =? ncol - 1 then 36
               else chr (v_text (vrow st (vtrow st))) col).
Proof.
  intros Hok H9 Hctl Hr Hlen Hc.
  exists (put_glyphs (glyphs c (vtcol st) (b_tabw (w_bufp wp))) st).
  split; [apply vtputc_glyphs; [exact Hok | lia | unfold vt_fuel; lia] |].
  unfold glyphs. cbv zeta.
  destruct (Z.eqb_spec (Z.land c 255) 9); [contradiction |]. rewrite Hctl.
  split.
  - intros Hfit.
    destruct (put_glyphs_cells [94; Z.land (CCHR (Z.land c 255)) 255] st Hr)
      as (Hv & _ & _ & _ & _ & _ & _ & Hcells); cbn [length]; try lia.
    split; [rewrite Hv; cbn [length]; lia |].
    intros col. rewrite Hcells. cbn [length].
    destruct (Z.leb_spec (vtcol st) col);
      destruct (Z.ltb_spec col (vtcol st + Z.of_nat 2));
      destruct (Z.eqb_spec col (vtcol st));
      destruct (Z.eqb_spec col (vtcol st + 1)); cbn [andb]; try lia;
      try reflexivity.
    + subst col. replace (vtcol st - vtcol st) with 0 by lia. reflexivity.
    + subst col. replace (vtcol st + 1 - vtcol st) with 1 by lia. reflexivity.
  - intros Hlast. rewrite !put_glyphs_cons. cbn [put_glyphs fold_left].
    set (st1 := put_plain 94 st).
    assert (Hv1 : vtcol st1 = ncol).
    { unfold st1. rewrite vtcol_put_plain, Z.geb_leb.
      destruct (Z.leb_spec ncol (vtcol st)); lia. }
    destruct (put_plain_frame 94 st) as (F1 & _ & F3 & _ & _). fold st1 in F1, F3.
    pose proof (put_plain_row 94 st Hr ltac:(lia)) as Hrow1. fold st1 in Hrow1.
    unfold put_plain. rewrite Z.geb_leb.
    destruct (Z.leb_spec ncol (vtcol st1)); [| lia].
    split; [exact Hv1 |].
    intros col. rewrite <- F1. rewrite vrow_vt_text by (rewrite F1, F3; exact Hr).
    rewrite F1, Hrow1. cbn [v_text set_v_text]. unfold chr.
    rewrite rd_zset by (rewrite length_zset; lia).
    destruct (Z.eqb_spec col (ncol - 1)); [reflexivity |].
    rewrite rd_zset by lia.
    destruct (Z.eqb_spec col (vtcol st)); [lia | reflexivity].
Qed.

(** The escape snprintf writes for a byte: the backslash and the octal
    digits of its value, three of them from 64 on. *)
Lemma bf_octal_value (c : Z) :
  0 <= c < 256 ->
  exists ds, bf_octal c = 92 :: ds
             /\ Forall (fun d => 48 <= d < 56) ds
             /\ octal_value ds = c
             /\ (64 <= c -> length ds = 3%nat).
Proof.
  intros Hc. exists (drop 1 (bf_octal c)).
  assert (Hall : forallb
            (fun c => bool_decide (bf_octal c = 92 :: drop 1 (bf_octal c))
                      && forallb (fun d => (48 <=? d) && (d <? 56))
                           (drop 1 (bf_octal c))
                      && (octal_value (drop 1 (bf_octal c)) =? c)
                      && ((c <? 64)
                          || (length (drop 1 (bf_octal c)) =? 3)%nat))
            (seqZ 0 256) = true) by (vm_compute; reflexivity).
  rewrite forallb_forall in Hall.
  specialize (Hall c ltac:(apply list_elem_of_In, elem_of_seqZ; lia)).
  apply andb_prop in Hall. destruct Hall as [Hall H4].
  apply andb_prop in Hall. destruct Hall as [Hall H3].
  apply andb_prop in Hall. destruct Hall as [H1 H2].
  apply bool_decide_eq_true in H1. apply Z.eqb_eq in H3.
  split; [exact H1 |]. split; [| split; [exact H3 |]].
  - apply Forall_forall. intros d Hd. rewrite forallb_forall in H2.
    specialize (H2 d Hd). apply andb_prop in H2. destruct H2 as [Ha Hb].
    apply Z.leb_le in Ha. apply Z.ltb_lt in Hb. lia.
  - intros H64. apply orb_prop in H4. destruct H4 as [H4 | H4].
    + apply Z.ltb_lt in H4. lia.
    + apply Nat.eqb_eq in H4. exact H4.
Qed.

(** X3.  A byte that is neither the tab, nor a control character, nor
    printable is drawn as its octal escape: a backslash followed by the
    octal digits of the byte, which read back as its value (three digits
    from 64 on, so four columns for every byte from 128 up).  When the
    escape fits on the row its characters fill the columns from the cursor
    on, the cursor moves past them and the rest of the row is untouched. *)
Theorem vtputc_octal_escape (c : Z) (wp : mgwin) (st : display) :
  chars_ok = true ->
  Z.land c 255 <> 9 -> ISCTRL (Z.land c 255) = false ->
  isprint (Z.land c 255) = false ->
  0 <= vtrow st < Z.of_nat (length (vscreen st)) ->
  ncol <= Z.of_nat (length (v_text (vrow st (vtrow st)))) ->
  0 <= vtcol st -> vtcol st + 4 <= ncol ->
  exists st' ds,
    vtputc vt_fuel c wp st = Some st'
    /\ Forall (fun d => 48 <= d < 56) ds
    /\ octal_value ds = Z.land c 255
    /\ (1 <= length ds <= 3)%nat
    /\ (64 <= Z.land c 255 -> length ds = 3%nat)
    /\ vtcol st' = vtcol st + 1 + Z.of_nat (length ds)
    /\ forall col,
         chr (v_text (vrow st' (vtrow st))) col
         = if col =? vtcol st then 92
           else if (vtcol st <? col) && (col <=? vtcol st + Z.of_nat (length ds))
           then nth (Z.to_nat (col - vtcol st - 1)) ds 0
           else chr (v_text (vrow st (vtrow st))) col.
Proof.
  intros Hok H9 Hctl Hprt Hr Hlen Hc Hfit.
  pose proof (land_255_range c) as Hb.
  destruct (bf_octal_value _ Hb) as (ds & Hbf & Hds & Hval & H3).
  destruct (bf_octal_chars _ Hb) as [_ Hl]. rewrite Hbf in Hl. cbn [length] in Hl.
  exists (put_glyphs (glyphs c (vtcol st) (b_tabw (w_bufp wp))) st), ds.
  split; [apply vtputc_glyphs; [exact Hok | lia | unfold vt_fuel; lia] |].
  split; [exact Hds |]. split; [exact Hval |]. split; [lia |].
  split; [exact H3 |].
  unfold glyphs. cbv zeta.
  destruct (Z.eqb_spec (Z.land c 255) 9); [contradiction |].
  rewrite Hctl, Hprt, Hbf.
  destruct (put_glyphs_cells (92 :: ds) st Hr)
    as (Hv & _ & _ & _ & _ & _ & _ & Hcells); cbn [length]; try lia.
  split; [rewrite Hv; cbn [length]; lia |].
  intros col. rewrite Hcells. cbn [length].
  destruct (Z.leb_spec (vtcol st) col);
    destruct (Z.ltb_spec col (vtcol st + Z.of_nat (S (length ds))));
    destruct (Z.eqb_spec col (vtcol st));
    destruct (Z.ltb_spec (vtcol st) col);
    destruct (Z.leb_spec col (vtcol st + Z.of_nat (length ds)));
    cbn [andb]; try lia; try reflexivity.
  - subst col. replace (vtcol st - vtcol st) with 0 by lia. reflexivity.
  - replace (Z.to_nat (col - vtcol st)) with (S (Z.to_nat (col - vtcol st - 1)))
      by lia. reflexivity.
Qed.
(** ** Rows of the virtual screen as the builder leaves them *)

Lemma row_only_refl (st : display) : row_only st st.
Proof. unfold row_only. repeat (split; [reflexivity |]). auto. Qed.

Lemma row_only_trans (st1 st2 st3 : display) :
  row_only st1 st2 -> row_only st2 st3 -> row_only st1 st3.
Proof.
  unfold row_only.
  intros (A1 & A2 & A3 & A4 & A5 & A6 & A7 & A8 & A9 & A10 & A11)
         (B1 & B2 & B3 & B4 & B5 & B6 & B7 & B8 & B9 & B10 & B11).
  rewrite A1 in B5, B6, B7, B8, B9, B10, B11.
  split; [congruence |]. split; [congruence |]. split; [congruence |].
  split; [congruence |].
  split; [intros i Hi; rewrite B5 by exact Hi; apply A5; exact Hi |].
  repeat (split; [congruence |]). congruence.
Qed.

Lemma row_only_set_vtcol (x : Z) (st : display) : row_only st (set_vtcol x st).
Proof. unfold row_only. repeat (split; [reflexivity |]). auto. Qed.

Lemma row_only_vt_text (col c : Z) (st : display) : row_only st (vt_text col c st).
Proof.
  unfold row_only.
  split; [reflexivity |]. split; [reflexivity |].
  split; [apply length_vscreen_vt_text |]. split; [reflexivity |].
  split; [intros i Hi; apply vrow_vt_text_other; exact Hi |].
  unfold vt_text, set_vrow, vrow. cbn [vscreen set_vscreen].
  destruct (rd_zset_cases video0 (vscreen st) (vtrow st) (vtrow st)
              (set_v_text (zset (v_text (rd video0 (vscreen st) (vtrow st))) col c)
                 (rd video0 (vscreen st) (vtrow st)))) as [-> | [_ ->]].
  - repeat (split; [reflexivity |]). reflexivity.
  - cbn [v_text v_attr v_color v_flag v_hash v_cost set_v_text].
    rewrite length_zset. repeat (split; [reflexivity |]). reflexivity.
Qed.

Lemma row_only_vt_attr (col a : Z) (st : display) : row_only st (vt_attr col a st).
Proof.
  unfold row_only.
  split; [reflexivity |]. split; [reflexivity |].
  split; [unfold vt_attr, set_vrow; cbn [vscreen set_vscreen]; apply length_zset |].
  split; [reflexivity |].
  split.
  { intros i Hi. unfold vt_attr, set_vrow, vrow. cbn [vscreen set_vscreen].
    apply rd_zset_ne. congruence. }
  unfold vt_attr, set_vrow, vrow. cbn [vscreen set_vscreen].
  destruct (rd_zset_cases video0 (vscreen st) (vtrow st) (vtrow st)
              (set_v_attr (zset (v_attr (rd video0 (vscreen st) (vtrow st))) col a)
                 (rd video0 (vscreen st) (vtrow st)))) as [-> | [_ ->]].
  - repeat (split; [reflexivity |]). reflexivity.
  - cbn [v_text v_attr v_color v_flag v_hash v_cost set_v_attr].
    rewrite length_zset. repeat (split; [reflexivity |]). reflexivity.
Qed.

Lemma vrow_vt_attr (col a : Z) (st : display) :
  0 <= vtrow st < Z.of_nat (length (vscreen st)) ->
  vrow (vt_attr col a st) (vtrow st)
  = set_v_attr (zset (v_attr (vrow st (vtrow st))) col a) (vrow st (vtrow st)).
Proof.
  intros Hr. unfold vt_attr, set_vrow, vrow. cbn [vscreen set_vscreen].
  apply rd_zset_eq. exact Hr.
Qed.

Lemma row_only_put_plain (c : Z) (st : display) : row_only st (put_plain c st).
Proof.
  unfold put_plain. destruct (vtcol st >=? ncol).
  - apply row_only_vt_text.
  - eapply row_only_trans; [apply row_only_vt_text | apply row_only_set_vtcol].
Qed.

Lemma row_only_put_glyphs (s : list Z) :
  forall st : display, row_only st (put_glyphs s st).
Proof.
  induction s as [| c s IH]; intros st; [apply row_only_refl |].
  rewrite put_glyphs_cons.
  eapply row_only_trans; [apply row_only_put_plain | apply IH].
Qed.

(** vteeol, cell by cell. *)
Lemma vteeol_loop_cells :
  forall (n : nat) (st : display),
    0 <= vtrow st < Z.of_nat (length (vscreen st)) ->
    0 <= vtcol st -> Z.of_nat n = ncol - vtcol st ->
    ncol <= Z.of_nat (length (v_text (vrow st (vtrow st)))) ->
    ncol <= Z.of_nat (length (v_attr (vrow st (vtrow st)))) ->
    let st' := vteeol_loop n st in
    vtcol st' = ncol /\ row_only st st'
    /\ forall col,
         chr (v_text (vrow st' (vtrow st))) col
         = (if (vtcol st <=? col) && (col <? ncol) then 32
            else chr (v_text (vrow st (vtrow st))) col)
         /\ chr (v_attr (vrow st' (vtrow st))) col
            = (if (vtcol st <=? col) && (col <? ncol) then 0
               else chr (v_attr (vrow st (vtrow st))) col).
Proof.
  induction n as [| n IH]; intros st Hr Hc Hn Ht Ha st'; subst st'.
  - cbn [vteeol_loop]. split; [lia |]. split; [apply row_only_refl |].
    intros col. destruct (Z.leb_spec (vtcol st) col);
      destruct (Z.ltb_spec col ncol); cbn [andb]; try lia; auto.
  - cbn [vteeol_loop]. destruct (Z.ltb_spec (vtcol st) ncol); [| lia].
    set (st1 := set_vtcol (vtcol st + 1)
                  (vt_attr (vtcol st) 0 (vt_text (vtcol st) 32 st))).
    assert (Hro : row_only st st1).
    { unfold st1. eapply row_only_trans; [apply row_only_vt_text |].
      eapply row_only_trans; [apply row_only_vt_attr | apply row_only_set_vtcol]. }
    assert (Hrow : vrow st1 (vtrow st)
              = set_v_attr (zset (v_attr (vrow st (vtrow st))) (vtcol st) 0)
                  (set_v_text (zset (v_text (vrow st (vtrow st))) (vtcol st) 32)
                     (vrow st (vtrow st)))).
    { assert (E1 : vrow st1 (vtrow st)
                = vrow (vt_attr (vtcol st) 0 (vt_text (vtcol st) 32 st))
                    (vtrow (vt_text (vtcol st) 32 st))) by reflexivity.
      rewrite E1.
      rewrite vrow_vt_attr by (rewrite length_vscreen_vt_text; exact Hr).
      change (vtrow (vt_text (vtcol st) 32 st)) with (vtrow st).
      rewrite vrow_vt_text by exact Hr. reflexivity. }
    assert (Hr1 : vtrow st1 = vtrow st) by reflexivity.
    assert (Hv1 : vtcol st1 = vtcol st + 1) by reflexivity.
    destruct Hro as (R1 & R2 & R3 & R4 & R5 & R6 & R7 & R8) eqn:Ero. clear Ero.
    specialize (IH st1). rewrite Hr1, Hv1, R3, R6, R7 in IH.
    destruct IH as (I1 & I2 & I3); try lia.
    split; [exact I1 |]. split.
    { eapply row_only_trans; [| exact I2]. unfold row_only. tauto. }
    intros col. destruct (I3 col) as [-> ->]. rewrite Hrow.
    cbn [v_text v_attr set_v_text set_v_attr]. unfold chr.
    rewrite !rd_zset by lia.
    destruct (Z.leb_spec (vtcol st + 1) col);
      destruct (Z.leb_spec (vtcol st) col);
      destruct (Z.ltb_spec col ncol);
      destruct (Z.eqb_spec col (vtcol st)); cbn [andb]; try lia; auto.
Qed.

(** X4.  vteeol blanks the row of the virtual cursor from the cursor to the
    margin and clears the attributes of those columns; the columns left of
    the cursor, the rest of the row's record and every other row are
    untouched, and the cursor ends at the margin.  With the cursor at or
    beyond the margin it does nothing. *)
Theorem vteeol_blanks_rest (st : display) :
  0 <= vtrow st < Z.of_nat (length (vscreen st)) ->
  0 <= vtcol st ->
  ncol <= Z.of_nat (length (v_text (vrow st (vtrow st)))) ->
  ncol <= Z.of_nat (length (v_attr (vrow st (vtrow st)))) ->
  (ncol <= vtcol st -> vteeol st = st)
  /\ (vtcol st <= ncol -> vtcol (vteeol st) = ncol)
  /\ row_only st (vteeol st)
  /\ forall col,
       chr (v_text (vrow (vteeol st) (vtrow st))) col
       = (if (vtcol st <=? col) && (col <? ncol) then 32
          else chr (v_text (vrow st (vtrow st))) col)
       /\ chr (v_attr (vrow (vteeol st) (vtrow st))) col
          = (if (vtcol st <=? col) && (col <? ncol) then 0
             else chr (v_attr (vrow st (vtrow st))) col).
Proof.
  intros Hr Hc Ht Ha. unfold vteeol.
  destruct (Z.le_gt_cases ncol (vtcol st)) as [Hge | Hlt].
  - replace (Z.to_nat (ncol - vtcol st)) with 0%nat by lia.
    cbn [vteeol_loop]. split; [reflexivity |]. split; [lia |].
    split; [apply row_only_refl |].
    intros col. destruct (Z.leb_spec (vtcol st) col);
      destruct (Z.ltb_spec col ncol); cbn [andb]; try lia; auto.
  - destruct (vteeol_loop_cells (Z.to_nat (ncol - vtcol st)) st Hr Hc)
      as (H1 & H2 & H3); try lia.
    split; [lia |]. split; [intros _; exact H1 |]. split; [exact H2 | exact H3].
Qed.

(** Two buffers of the same length that agree cell by cell are equal. *)
Lemma chr_ext (l1 l2 : list Z) :
  length l1 = length l2 ->
  (forall col, 0 <= col < Z.of_nat (length l1) -> chr l1 col = chr l2 col) ->
  l1 = l2.
Proof.
  intros Hlen Hc. apply list_eq_same_length with (length l1); try lia.
  intros i x y Hi H1 H2.
  specialize (Hc (Z.of_nat i) ltac:(lia)). unfold chr in Hc.
  rewrite (rd_lookup 0 l1 i x H1), (rd_lookup 0 l2 i y H2) in Hc. exact Hc.
Qed.

Lemma chr_app_l (l1 l2 : list Z) (col : Z) :
  0 <= col < Z.of_nat (length l1) -> chr (l1 ++ l2) col = chr l1 col.
Proof.
  intros Hc. unfold chr, rd, zget.
  destruct (Z.ltb_spec col 0); [lia |].
  rewrite lookup_app_l by lia. reflexivity.
Qed.

Lemma chr_app_r (l1 l2 : list Z) (col : Z) :
  Z.of_nat (length l1) <= col ->
  chr (l1 ++ l2) col = chr l2 (col - Z.of_nat (length l1)).
Proof.
  intros Hc. unfold chr, rd, zget.
  destruct (Z.ltb_spec col 0); [lia |].
  destruct (Z.ltb_spec (col - Z.of_nat (length l1)) 0); [lia |].
  rewrite lookup_app_r by lia. do 2 f_equal. lia.
Qed.

Lemma chr_replicate (n : nat) (x col : Z) :
  0 <= col < Z.of_nat n -> chr (replicate n x) col = x.
Proof.
  intros Hc. unfold chr, rd, zget.
  destruct (Z.ltb_spec col 0); [lia |].
  rewrite lookup_replicate_2 by lia. reflexivity.
Qed.

Lemma chr_nth (l : list Z) (col : Z) :
  0 <= col -> chr l col = nth (Z.to_nat col) l 0.
Proof.
  intros Hc. unfold chr, rd, zget.
  destruct (Z.ltb_spec col 0); [lia |].
  rewrite nth_lookup. reflexivity.
Qed.

Lemma chr_take (n : nat) (l : list Z) (col : Z) :
  col < Z.of_nat n -> chr (take n l) col = chr l col.
Proof.
  intros Hc. unfold chr, rd, zget.
  destruct (Z.ltb_spec col 0); [reflexivity |].
  rewrite lookup_take_lt by lia. reflexivity.
Qed.

Lemma chr_map_seqZ (f : Z -> Z) (len col : Z) :
  0 <= col < len -> chr (map f (seqZ 0 len)) col = f col.
Proof.
  intros Hc. unfold chr, rd, zget.
  destruct (Z.ltb_spec col 0); [lia |].
  change (map f (seqZ 0 len)) with (f <$> seqZ 0 len).
  rewrite list_lookup_fmap, lookup_seqZ_lt by lia. cbn. f_equal. lia.
Qed.

(** The loop over a line whose characters are drawn as themselves and fit
    on the row. *)
Lemma put_line_plain (wp : mgwin) (lp : nat) (line_num : Z) :
  forall (n : nat) (j : Z) (st : display),
    (forall k, j <= k < j + Z.of_nat n ->
       plain_char (lgetc (w_bufp wp) lp k) = true) ->
    vtcol st = j -> 0 <= j -> j + Z.of_nat n <= ncol ->
    0 <= vtrow st < Z.of_nat (length (vscreen st)) ->
    ncol <= Z.of_nat (length (v_text (vrow st (vtrow st)))) ->
    ncol <= Z.of_nat (length (v_attr (vrow st (vtrow st)))) ->
    exists st',
      put_line n wp lp line_num j st = Some st'
      /\ vtcol st' = j + Z.of_nat n /\ row_only st st'
      /\ forall col,
           chr (v_text (vrow st' (vtrow st))) col
           = (if (j <=? col) && (col <? j + Z.of_nat n)
              then lgetc (w_bufp wp) lp col
              else chr (v_text (vrow st (vtrow st))) col)
           /\ chr (v_attr (vrow st' (vtrow st))) col
              = (if (j <=? col) && (col <? j + Z.of_nat n)
                 then in_selection wp line_num col
                 else chr (v_attr (vrow st (vtrow st))) col).
Proof.
  induction n as [| n IH]; intros j st Hp Hv Hj Hfit Hr Ht Ha.
  - exists st. split; [reflexivity |]. split; [lia |].
    split; [apply row_only_refl |].
    intros col. destruct (Z.leb_spec j col);
      destruct (Z.ltb_spec col (j + Z.of_nat 0)); cbn [andb]; try lia; auto.
  - cbn [put_line]. unfold vt_fuel.
    rewrite vtputc_plain_byte by (apply Hp; lia).
    cbn [mbind option_bind].
    set (c := lgetc (w_bufp wp) lp j).
    set (sel := in_selection wp line_num j).
    assert (Hv1 : vtcol (put_plain c st) = j + 1).
    { rewrite vtcol_put_plain, Z.geb_leb.
      destruct (Z.leb_spec ncol (vtcol st)); lia. }
    rewrite Hv1, Hv. replace (Z.to_nat (j + 1 - j)) with 1%nat by lia.
    cbn [attr_fill]. rewrite Hv1.
    destruct (Z.ltb_spec j (j + 1)); [| lia].
    destruct (Z.ltb_spec j ncol); [| lia]. cbn [andb].
    set (st1 := vt_attr j sel (put_plain c st)).
    pose proof (row_only_put_plain c st) as Hro0.
    assert (Hro : row_only st st1).
    { eapply row_only_trans; [exact Hro0 | apply row_only_vt_attr]. }
    destruct (put_plain_frame c st) as (F1 & _ & F3 & _ & _).
    assert (Hrow : vrow st1 (vtrow st)
              = set_v_attr (zset (v_attr (vrow st (vtrow st))) j sel)
                  (set_v_text (zset (v_text (vrow st (vtrow st))) j c)
                     (vrow st (vtrow st)))).
    { unfold st1. rewrite <- F1 at 1.
      rewrite vrow_vt_attr by (rewrite F1, F3; exact Hr).
      rewrite F1, put_plain_row by (try exact Hr; lia).
      rewrite Hv. reflexivity. }
    assert (Hr1 : vtrow st1 = vtrow st) by exact F1.
    assert (Hvv : vtcol st1 = j + 1) by exact Hv1.
    destruct Hro as (R1 & R2 & R3 & R4 & R5 & R6 & R7 & R8) eqn:Ero. clear Ero.
    destruct (IH (j + 1) st1) as (st' & Hrun & Hcol & Hro' & Hcells);
      try (rewrite ?Hr1, ?R3, ?R6, ?R7; lia); try exact Hvv.
    { intros k Hk. apply Hp. lia. }
    exists st'. split; [exact Hrun |]. split; [lia |]. split.
    { eapply row_only_trans; [| exact Hro']. unfold row_only. tauto. }
    intros col. rewrite Hr1 in Hcells. destruct (Hcells col) as [-> ->].
    rewrite Hrow. cbn [v_text v_attr set_v_text set_v_attr]. unfold chr.
    rewrite !rd_zset by lia.
    destruct (Z.leb_spec (j + 1) col);
      destruct (Z.leb_spec j col);
      destruct (Z.ltb_spec col (j + 1 + Z.of_nat n));
      destruct (Z.ltb_spec col (j + Z.of_nat (S n)));
      destruct (Z.eqb_spec col j); cbn [andb]; try lia; auto.
    subst col. auto.
Qed.

(** X5.  A line of bytes that are drawn as themselves and that fits on the
    row is rendered as it is: after the loop update runs over the line and
    the vteeol that follows, the row holds the text of the line and then
    blanks up to the margin, each column of the text carries the selection
    attribute of its place in the document, and the padding carries none.
    Nothing else of the virtual screen changes. *)
Theorem render_plain_line (wp : mgwin) (lp : nat) (line_num r : Z) (st : display) :
  0 <= r < Z.of_nat (length (vscreen st)) ->
  length (v_text (vrow st r)) = Z.to_nat ncol ->
  length (v_attr (vrow st r)) = Z.to_nat ncol ->
  forallb plain_char (ltext (w_bufp wp) lp) = true ->
  llength (w_bufp wp) lp <= ncol ->
  exists st1,
    put_line (line_len wp lp) wp lp line_num 0 (vtmove r 0 st) = Some st1
    /\ v_text (vrow (vteeol st1) r)
       = ltext (w_bufp wp) lp
         ++ replicate (Z.to_nat (ncol - llength (w_bufp wp) lp)) 32
    /\ v_attr (vrow (vteeol st1) r)
       = map (in_selection wp line_num) (seqZ 0 (llength (w_bufp wp) lp))
         ++ replicate (Z.to_nat (ncol - llength (w_bufp wp) lp)) 0
    /\ vtcol (vteeol st1) = ncol
    /\ row_only (vtmove r 0 st) (vteeol st1).
Proof.
  intros Hr Ht Ha Hplain Hfit.
  set (l := ltext (w_bufp wp) lp) in *.
  assert (Hll : llength (w_bufp wp) lp = Z.of_nat (length l)) by reflexivity.
  rewrite Hll in *.
  set (st0 := vtmove r 0 st).
  assert (Hr0 : vtrow st0 = r) by reflexivity.
  assert (Hrow0 : vrow st0 r = vrow st r) by reflexivity.
  destruct (put_line_plain wp lp line_num (length l) 0 st0)
    as (st1 & Hrun & Hcol & Hro & Hcells);
    try (rewrite ?Hr0, ?Hrow0; first [reflexivity | lia | exact Hr]).
  { intros k Hk. rewrite forallb_forall in Hplain. apply Hplain.
    unfold lgetc. fold l. rewrite chr_nth by lia.
    apply nth_In. lia. }
  exists st1. split; [exact Hrun |].
  rewrite Hr0, Hrow0 in Hcells.
  destruct Hro as (R1 & R2 & R3 & R4 & R5 & R6 & R7 & R8) eqn:Ero. clear Ero.
  rewrite Hr0, Hrow0 in R6, R7.
  destruct (vteeol_loop_cells (Z.to_nat (ncol - vtcol st1)) st1)
    as (E2 & E3 & E4);
    try (rewrite ?R1, ?Hr0, ?R3, ?R6, ?R7; first [exact Hr | lia]).
  fold (vteeol st1) in E2, E3, E4.
  rewrite R1, Hr0 in E4.
  destruct E3 as (S1 & S2 & S3 & S4 & S5 & S6 & S7 & S8) eqn:Ero. clear Ero.
  rewrite R1, Hr0 in S6, S7.
  split; [| split; [| split; [exact E2 |]]].
  - apply chr_ext.
    + rewrite length_app, length_replicate. lia.
    + intros col Hc. destruct (E4 col) as [-> _].
      destruct (Hcells col) as [-> _]. rewrite Hcol.
      destruct (Z.ltb_spec col (Z.of_nat (length l))).
      * rewrite chr_app_l by lia.
        destruct (Z.leb_spec (0 + Z.of_nat (length l)) col); [lia |].
        cbn [andb]. destruct (Z.leb_spec 0 col); [| lia].
        destruct (Z.ltb_spec col (0 + Z.of_nat (length l))); [| lia].
        reflexivity.
      * rewrite chr_app_r by lia. rewrite chr_replicate by lia.
        destruct (Z.leb_spec (0 + Z.of_nat (length l)) col); [| lia].
        destruct (Z.ltb_spec col ncol); [reflexivity | lia].
  - apply chr_ext.
    + rewrite length_app, length_replicate, length_map, length_seqZ. lia.
    + intros col Hc. destruct (E4 col) as [_ ->].
      destruct (Hcells col) as [_ ->]. rewrite Hcol.
      assert (Hlm : length (map (in_selection wp line_num)
                              (seqZ 0 (Z.of_nat (length l)))) = length l).
      { rewrite length_map, length_seqZ. lia. }
      destruct (Z.ltb_spec col (Z.of_nat (length l))).
      * rewrite chr_app_l by lia. rewrite chr_map_seqZ by lia.
        destruct (Z.leb_spec (0 + Z.of_nat (length l)) col); [lia |].
        cbn [andb]. destruct (Z.leb_spec 0 col); [| lia].
        destruct (Z.ltb_spec col (0 + Z.of_nat (length l))); [| lia].
        reflexivity.
      * rewrite chr_app_r by lia. rewrite Hlm, chr_replicate by lia.
        destruct (Z.leb_spec (0 + Z.of_nat (length l)) col); [| lia].
        destruct (Z.ltb_spec col ncol); [reflexivity | lia].
  - eapply row_only_trans; [| exact E3]. unfold row_only. tauto.
Qed.

(** *** The column of the cursor *)

Lemma attr_fill_vtcol (n : nat) :
  forall (old sel : Z) (st : display), vtcol (attr_fill n old sel st) = vtcol st.
Proof.
  induction n as [| n IH]; intros old sel st; [reflexivity |].
  cbn [attr_fill].
  destruct ((old <? vtcol st) && (old <? ncol)); [| reflexivity].
  rewrite IH. reflexivity.
Qed.

(** The column after the columns of a character, up to the margin, is the
    column the cursor loop computes, up to the margin. *)
Lemma glyphs_next_col (c col tabw : Z) :
  0 <= c < 256 -> 0 < tabw -> 0 <= col < ncol ->
  Z.min (col + Z.of_nat (length (glyphs c col tabw))) ncol
  = Z.min (next_col c col tabw) ncol
  /\ col < next_col c col tabw.
Proof.
  intros Hc Hw Hcol. unfold glyphs, next_col. cbv zeta.
  assert (Hm : Z.land c 255 = c).
  { change 255 with (Z.ones 8). rewrite Z.land_ones by lia.
    apply Z.mod_small. lia. }
  rewrite Hm.
  pose proof (ntabstop_next col tabw ltac:(lia) Hw) as [Ht _].
  destruct (c =? 9); [rewrite length_replicate; lia |].
  destruct (ISCTRL c); [cbn [length]; lia |].
  destruct (isprint c); [cbn [length]; lia |].
  destruct (bf_octal_chars c Hc) as [_ Hl]. lia.
Qed.

Lemma next_col_grows (c col tabw : Z) :
  0 <= c < 256 -> 0 < tabw -> 0 <= col -> col < next_col c col tabw.
Proof.
  intros Hc Hw Hcol. unfold next_col.
  pose proof (ntabstop_next col tabw Hcol Hw) as [Ht _].
  destruct (c =? 9); [lia |].
  destruct (ISCTRL c); [lia |].
  destruct (isprint c); [lia |].
  destruct (bf_octal_chars c Hc) as [_ Hl]. lia.
Qed.

Lemma cursor_col_S (n : nat) (cw : mgwin) (lp : nat) (i curcol : Z) :
  i < w_doto cw ->
  cursor_col (S n) cw lp i curcol
  = cursor_col n cw lp (i + 1)
      (next_col (lgetc (w_bufp cw) lp i) curcol (b_tabw (w_bufp cw))).
Proof.
  intros Hi. cbn [cursor_col]. destruct (Z.ltb_spec i (w_doto cw)); [| lia].
  reflexivity.
Qed.

Lemma put_line_cursor (cw : mgwin) (lp : nat) (line_num : Z) :
  chars_ok = true -> 0 < b_tabw (w_bufp cw) ->
  (forall k, 0 <= lgetc (w_bufp cw) lp k < 256) ->
  forall (n : nat) (j cc : Z) (st : display),
    j + Z.of_nat n <= w_doto cw -> 0 <= cc ->
    vtcol st = Z.min cc ncol ->
    exists st',
      put_line n cw lp line_num j st = Some st'
      /\ vtcol st' = Z.min (cursor_col n cw lp j cc) ncol
      /\ 0 <= cursor_col n cw lp j cc.
Proof.
  intros Hok Hw Hbytes.
  induction n as [| n IH]; intros j cc st Hj Hcc Hv.
  - exists st. cbn. auto.
  - rewrite cursor_col_S by lia. cbn [put_line].
    set (c := lgetc (w_bufp cw) lp j).
    pose proof (next_col_grows c cc _ (Hbytes j) Hw Hcc) as Hgrow.
    destruct (Z.lt_ge_cases (vtcol st) ncol) as [Hlt | Hge].
    + unfold vt_fuel. rewrite vtputc_glyphs by (try assumption; lia).
      cbn [mbind option_bind].
      destruct (glyphs_next_col c (vtcol st) (b_tabw (w_bufp cw)) (Hbytes j) Hw)
        as [Hg _]; [lia |].
      apply IH; [lia | lia |].
      rewrite attr_fill_vtcol, vtcol_put_glyphs, Z.geb_leb.
      destruct (Z.leb_spec ncol (vtcol st)); [lia |].
      rewrite Hg. replace (vtcol st) with cc by lia. reflexivity.
    + unfold vt_fuel. rewrite vtputc_S. cbv zeta. rewrite Z.geb_leb.
      destruct (Z.leb_spec ncol (vtcol st)); [| lia].
      cbn [mbind option_bind].
      apply IH; [lia | lia |].
      rewrite attr_fill_vtcol.
      change (vtcol (vt_text (ncol - 1) 36 st)) with (vtcol st). lia.
Qed.

(** X6.  The column update computes for the terminal cursor is the column
    the builder reaches: drawing the characters of the line before dot from
    column 0 brings the virtual cursor to the column the cursor loop
    computes for dot, or to the margin when that column is beyond it.  Tabs,
    control characters and octal escapes are counted as they are drawn. *)
Theorem cursor_col_is_render_col (cw : mgwin) (lp : nat) (line_num : Z)
    (st : display) :
  chars_ok = true -> 0 < b_tabw (w_bufp cw) -> 0 <= ncol ->
  (forall k, 0 <= lgetc (w_bufp cw) lp k < 256) ->
  vtcol st = 0 ->
  exists st',
    put_line (Z.to_nat (w_doto cw)) cw lp line_num 0 st = Some st'
    /\ vtcol st'
       = Z.min (cursor_col (Z.to_nat (w_doto cw)) cw lp 0 0) ncol.
Proof.
  intros Hok Hw Hn Hbytes Hv.
  destruct (Z.lt_ge_cases (w_doto cw) 0) as [Hneg | Hpos].
  - replace (Z.to_nat (w_doto cw)) with 0%nat by lia.
    exists st. split; [reflexivity |]. cbn [cursor_col]. lia.
  - destruct (put_line_cursor cw lp line_num Hok Hw Hbytes
                (Z.to_nat (w_doto cw)) 0 0 st) as (st' & H1 & H2 & _);
      try lia.
    exists st'. split; assumption.
Qed.
(** ** uline *)

Lemma seqZ_snoc (lo col : Z) :
  lo <= col -> seqZ lo (col + 1 - lo) = seqZ lo (col - lo) ++ [col].
Proof.
  intros H. replace (col + 1 - lo) with ((col - lo) + 1) by lia.
  rewrite seqZ_app by lia. f_equal.
  replace (lo + (col - lo)) with col by lia. reflexivity.
Qed.

Lemma put_cells_tty (vvp : video) (lo hi : Z) (st : display) :
  lo <= hi ->
  tty (put_cells vvp lo hi st) = tty st ++ cells_put vvp lo hi
  /\ ttcol (put_cells vvp lo hi st) = ttcol st + (hi - lo).
Proof.
  intros Hle. unfold put_cells, cells_put.
  apply (for_range_index
           (fun col s =>
              tty s = tty st
                      ++ map (fun col => TtPutc (chr (v_text vvp) col))
                           (seqZ lo (col - lo))
              /\ ttcol s = ttcol st + (col - lo))); [exact Hle | |].
  - intros col s Hc [Ht Hcol]. split.
    + cbn [tty ttputc emit set_ttcol set_tty]. rewrite Ht, seqZ_snoc by lia.
      rewrite map_app, <- app_assoc. reflexivity.
    + cbn [ttcol ttputc set_ttcol]. lia.
  - replace (lo - lo) with 0 by lia. cbn. rewrite app_nil_r. split; [reflexivity | lia].
Qed.

Lemma has_selection_spec (vvp : video) :
  has_selection vvp = true
  <-> exists col, 0 <= col < ncol /\ chr (v_attr vvp) col <> 0.
Proof.
  unfold has_selection.
  destruct (Z.le_gt_cases 0 ncol) as [Hn | Hn].
  - apply (for_range_index
             (fun hi found =>
                found = true
                <-> exists col, 0 <= col < hi /\ chr (v_attr vvp) col <> 0));
      [exact Hn | |].
    + intros col found Hc IH. split.
      * intros H. apply orb_prop in H. destruct H as [H | H].
        -- apply IH in H. destruct H as (c & Hc1 & Hc2). exists c. split; [lia | exact Hc2].
        -- exists col. split; [lia |]. apply negb_true_iff, Z.eqb_neq in H. exact H.
      * intros (c & Hc1 & Hc2).
        destruct (Z.eq_dec c col) as [-> | Hne].
        -- apply orb_true_intro. right. apply negb_true_iff, Z.eqb_neq. exact Hc2.
        -- apply orb_true_intro. left. apply IH. exists c. split; [lia | exact Hc2].
    + split; [discriminate |]. intros (c & Hc1 & _). lia.
  - unfold for_range. replace (Z.to_nat (ncol - 0)) with 0%nat by lia.
    cbn [for_lt]. split; [discriminate |]. intros (c & Hc1 & _). lia.
Qed.

(** The test that opens uline. *)
Lemma uline_test (vvp pv : video) :
  ((v_color vvp =? CMODE) || has_selection vvp
   || negb (v_color vvp =? v_color pv)
   || memdiff ncol (v_attr vvp) (v_attr pv)) = true
  <-> full_redraw vvp pv.
Proof.
  unfold full_redraw, memdiff. rewrite !orb_true_iff.
  rewrite Z.eqb_eq, has_selection_spec, negb_true_iff, Z.eqb_neq.
  rewrite negb_true_iff, bool_decide_eq_false. tauto.
Qed.

Lemma left_match_spec (vvp pv : video) :
  forall (n : nat) (start : Z),
    0 <= start <= ncol -> (Z.to_nat (ncol - start) <= n)%nat ->
    (forall col, 0 <= col < start -> chr (v_text vvp) col = chr (v_text pv) col) ->
    let s := left_match n vvp pv start in
    start <= s <= ncol
    /\ (forall col, 0 <= col < s -> chr (v_text vvp) col = chr (v_text pv) col)
    /\ (s < ncol -> chr (v_text vvp) s <> chr (v_text pv) s).
Proof.
  induction n as [| n IH]; intros start Hs Hn Heq s; subst s.
  - cbn [left_match]. split; [lia |]. split; [exact Heq |]. lia.
  - cbn [left_match].
    destruct (Z.ltb_spec start ncol) as [Hlt | Hge]; cbn [andb].
    + destruct (Z.eqb_spec (chr (v_text vvp) start) (chr (v_text pv) start)) as [He | Hne].
      * destruct (IH (start + 1)) as (I1 & I2 & I3); [lia | lia | |].
        { intros col Hc. destruct (Z.eq_dec col start) as [-> | Hd];
            [exact He | apply Heq; lia]. }
        split; [lia |]. split; [exact I2 | exact I3].
      * split; [lia |]. split; [exact Heq |]. intros _. exact Hne.
    + split; [lia |]. split; [exact Heq |]. lia.
Qed.

Lemma right_match_spec (vvp pv : video) (start : Z) :
  forall (n : nat) (end_ : Z) (nbflag : bool),
    start <= end_ <= ncol -> (Z.to_nat (end_ - start) <= n)%nat ->
    (forall col, end_ <= col < ncol -> chr (v_text vvp) col = chr (v_text pv) col) ->
    (nbflag = false -> forall col, end_ <= col < ncol -> chr (v_text vvp) col = 32) ->
    let r := right_match n vvp pv start end_ nbflag in
    start <= r.1 <= end_
    /\ (forall col, r.1 <= col < ncol -> chr (v_text vvp) col = chr (v_text pv) col)
    /\ (r.2 = false -> forall col, r.1 <= col < ncol -> chr (v_text vvp) col = 32)
    /\ (start < r.1 -> chr (v_text vvp) (r.1 - 1) <> chr (v_text pv) (r.1 - 1))
    /\ (start < end_ -> chr (v_text vvp) start <> chr (v_text pv) start ->
        start < r.1).
Proof.
  induction n as [| n IH]; intros end_ nbflag He Hn Heq Hbl r; subst r.
  - cbn [right_match fst snd]. split; [lia |]. split; [exact Heq |].
    split; [exact Hbl |]. split; lia.
  - cbn [right_match]. rewrite Z.gtb_ltb.
    destruct (Z.ltb_spec start end_) as [Hlt | Hge]; cbn [andb].
    + destruct (Z.eqb_spec (chr (v_text vvp) (end_ - 1)) (chr (v_text pv) (end_ - 1)))
        as [Hsame | Hne].
      * destruct (IH (end_ - 1)
                    (if negb (chr (v_text vvp) (end_ - 1) =? 32) then true else nbflag))
          as (I1 & I2 & I3 & I4 & I5); [lia | lia | | |].
        { intros col Hc. destruct (Z.eq_dec col (end_ - 1)) as [-> | Hd];
            [exact Hsame | apply Heq; lia]. }
        { intros Hf col Hc.
          destruct (Z.eqb_spec (chr (v_text vvp) (end_ - 1)) 32) as [H32 | H32];
            cbn [negb] in Hf; [| discriminate].
          destruct (Z.eq_dec col (end_ - 1)) as [-> | Hd];
            [exact H32 | apply Hbl; [exact Hf | lia]]. }
        split; [lia |]. split; [exact I2 |]. split; [exact I3 |].
        split; [exact I4 |]. intros _ Hd.
        destruct (Z.eq_dec (end_ - 1) start) as [Hes | Hes];
          [rewrite Hes in Hsame; contradiction | apply I5; [lia | exact Hd]].
      * cbn [fst snd]. split; [lia |]. split; [exact Heq |].
        split; [exact Hbl |]. split; [intros _; exact Hne | intros; lia].
    + cbn [fst snd]. split; [lia |]. split; [exact Heq |].
      split; [exact Hbl |]. split; lia.
Qed.

Lemma blank_run_spec (vvp : video) (start : Z) :
  forall (n : nat) (eol_start end_ : Z),
    start <= eol_start <= end_ -> (Z.to_nat (eol_start - start) <= n)%nat ->
    (forall col, eol_start <= col < end_ -> chr (v_text vvp) col = 32) ->
    let e := blank_run n vvp start eol_start in
    start <= e <= eol_start
    /\ forall col, e <= col < end_ -> chr (v_text vvp) col = 32.
Proof.
  induction n as [| n IH]; intros eol_start end_ He Hn Hbl e; subst e.
  - cbn [blank_run]. split; [lia | exact Hbl].
  - cbn [blank_run]. rewrite Z.gtb_ltb.
    destruct (Z.ltb_spec start eol_start) as [Hlt | Hge]; cbn [andb].
    + destruct (Z.eqb_spec (chr (v_text vvp) (eol_start - 1)) 32) as [H32 | H32].
      * destruct (IH (eol_start - 1) end_) as (I1 & I2); [lia | lia | |].
        { intros col Hc. destruct (Z.eq_dec col (eol_start - 1)) as [-> | Hd];
            [exact H32 | apply Hbl; lia]. }
        split; [lia | exact I2].
      * split; [lia | exact Hbl].
    + split; [lia | exact Hbl].
Qed.

Lemma uline_test_false (vvp pv : video) :
  ~ full_redraw vvp pv ->
  ((v_color vvp =? CMODE) || has_selection vvp
   || negb (v_color vvp =? v_color pv)
   || memdiff ncol (v_attr vvp) (v_attr pv)) = false.
Proof.
  intros Hn. apply not_true_is_false. intros H. apply Hn, uline_test, H.
Qed.

(** uline on a row that needs no repaint in full and whose text is that of
    the physical row. *)
Lemma uline_silent (row : Z) (vvp : video) (pvp : pvp_ref) (st : display) :
  0 <= ncol ->
  ~ full_redraw vvp (pvp_get pvp st) ->
  (forall col, 0 <= col < ncol ->
     chr (v_text vvp) col = chr (v_text (pvp_get pvp st)) col) ->
  uline row vvp pvp st = st.
Proof.
  intros Hn Hplain Heq. unfold uline. cbv zeta.
  rewrite (uline_test_false _ _ Hplain).
  destruct (left_match_spec vvp (pvp_get pvp st) (Z.to_nat ncol) 0)
    as (L1 & L2 & L3); [lia | lia | intros; lia |].
  destruct (Z.eqb_spec (left_match (Z.to_nat ncol) vvp (pvp_get pvp st) 0) ncol)
    as [_ | Hne]; [reflexivity |].
  exfalso. apply L3; [lia |]. apply Heq. lia.
Qed.

(** X7.  A row that is no mode line, has no selected column, and has the
    color, the attributes and the text of the physical row it is compared
    with is passed over: uline makes no driver call and changes nothing. *)
Theorem uline_equal_rows_silent (row : Z) (vvp : video) (pvp : pvp_ref)
    (st : display) :
  0 <= ncol ->
  ~ full_redraw vvp (pvp_get pvp st) ->
  (forall col, 0 <= col < ncol ->
     chr (v_text vvp) col = chr (v_text (pvp_get pvp st)) col) ->
  uline row vvp pvp st = st /\ emitted st (uline row vvp pvp st) = [].
Proof.
  intros Hn Hplain Heq. rewrite (uline_silent row vvp pvp st Hn Hplain Heq).
  split; [reflexivity |]. unfold emitted. apply drop_all.
Qed.

(** X8.  On a row that is not repainted in full and whose text differs from
    the physical row's, uline moves to the first column that differs, sets
    the color of the row and sends the cells from there to a stop column,
    in order; it may then erase to the end of the line.  Every column left
    of the start holds on the physical row what the virtual row holds.
    Without the erase the cells sent end with the last column that differs,
    and every column from the stop on agrees already.  The erase is used
    only on a row of text color, only when it spares more columns than it
    costs, and then every column of the virtual row from the stop to the
    margin is a blank.  The screens themselves are not touched. *)
Theorem uline_sends_the_difference (row : Z) (vvp : video) (pvp : pvp_ref)
    (st : display) :
  0 <= ncol ->
  ~ full_redraw vvp (pvp_get pvp st) ->
  (exists col, 0 <= col < ncol
               /\ chr (v_text vvp) col <> chr (v_text (pvp_get pvp st)) col) ->
  let pv := pvp_get pvp st in
  let st' := uline row vvp pvp st in
  exists (start stop : Z) (erase : bool),
    0 <= start < ncol /\ start <= stop <= ncol
    /\ emitted st st'
       = TtMove row start :: TtColor (v_color vvp)
           :: cells_put vvp start stop ++ (if erase then [TtEeol] else [])
    /\ ttcol st' = ttcol st + (stop - start)
    /\ (forall col, 0 <= col < start -> chr (v_text vvp) col = chr (v_text pv) col)
    /\ chr (v_text vvp) start <> chr (v_text pv) start
    /\ (if erase
        then v_color vvp = CTEXT /\ stop + tceeol < ncol
             /\ forall col, stop <= col < ncol -> chr (v_text vvp) col = 32
        else start < stop
             /\ chr (v_text vvp) (stop - 1) <> chr (v_text pv) (stop - 1)
             /\ forall col, stop <= col < ncol ->
                  chr (v_text vvp) col = chr (v_text pv) col)
    /\ vscreen st' = vscreen st /\ pscreen st' = pscreen st
    /\ blanks st' = blanks st.
Proof.
  intros Hn Hplain (d & Hd & Hdiff) pv st'. subst st' pv.
  set (pv := pvp_get pvp st) in *.
  unfold uline. cbv zeta. fold pv.
  rewrite (uline_test_false _ _ Hplain).
  destruct (left_match_spec vvp pv (Z.to_nat ncol) 0)
    as (L1 & L2 & L3); [lia | lia | intros; lia |].
  set (start := left_match (Z.to_nat ncol) vvp pv 0) in *.
  assert (Hs : start < ncol).
  { destruct (Z.lt_ge_cases d start) as [Hlt | Hge]; [| lia].
    exfalso. apply Hdiff, L2. lia. }
  destruct (Z.eqb_spec start ncol) as [Heq | _]; [lia |].
  specialize (L3 Hs).
  destruct (right_match_spec vvp pv start (Z.to_nat ncol) ncol false)
    as (R1 & R2 & R3 & R4 & R5); [lia | lia | intros; lia | intros; lia |].
  destruct (right_match (Z.to_nat ncol) vvp pv start ncol false)
    as [end_ nbflag] eqn:Er.
  cbn [fst snd] in R1, R2, R3, R4, R5.
  specialize (R5 Hs L3). specialize (R4 R5).
  set (s0 := ttmove row start st).
  destruct (negb nbflag && (v_color vvp =? CTEXT)) eqn:Eb.
  - apply andb_prop in Eb. destruct Eb as [Enb Ect].
    apply negb_true_iff in Enb. apply Z.eqb_eq in Ect. specialize (R3 Enb).
    destruct (blank_run_spec vvp start (Z.to_nat ncol) end_ end_)
      as (B1 & B2); [lia | lia | intros; lia |].
    set (e0 := blank_run (Z.to_nat ncol) vvp start end_) in *.
    set (stop := if end_ - e0 <=? tceeol then end_ else e0).
    assert (Hstop : start <= stop <= end_).
    { unfold stop. destruct (end_ - e0 <=? tceeol); lia. }
    set (s1 := put_cells vvp start stop (ttcolor CTEXT s0)).
    destruct (put_cells_tty vvp start stop (ttcolor CTEXT s0)) as [Ht Hc]; [lia |].
    destruct (tty_only_put_cells vvp start stop (ttcolor CTEXT s0))
      as (T1 & T2 & T3 & _).
    fold s1 in Ht, Hc, T1, T2, T3.
    exists start, stop, (negb (stop =? end_)).
    split; [lia |]. split; [lia |]. split.
    { apply emitted_app. rewrite Ect.
      destruct (negb (stop =? end_)).
      - cbn [tty tteeol emit set_tty]. rewrite Ht.
        cbn [tty ttcolor ttmove emit set_tty s0].
        rewrite <- !app_assoc. reflexivity.
      - rewrite Ht. cbn [tty ttcolor ttmove emit set_tty s0].
        rewrite <- !app_assoc, app_nil_r. reflexivity. }
    split.
    { destruct (negb (stop =? end_)); [cbn [ttcol tteeol emit set_tty] |];
        rewrite Hc; reflexivity. }
    split; [exact L2 |]. split; [exact L3 |]. split.
    { unfold stop. destruct (Z.leb_spec (end_ - e0) tceeol) as [Hle | Hgt].
      - rewrite Z.eqb_refl. cbn [negb].
        split; [exact R5 |]. split; [exact R4 | exact R2].
      - destruct (Z.eqb_spec e0 end_) as [He | He]; cbn [negb].
        { rewrite He. split; [exact R5 |]. split; [exact R4 | exact R2]. }
        split; [exact Ect |]. split; [lia |].
        intros col Hcol. destruct (Z.lt_ge_cases col end_);
          [apply B2; lia | apply R3; lia]. }
    destruct (negb (stop =? end_)); cbn [vscreen pscreen blanks tteeol emit set_tty];
      rewrite T1, T2, T3; auto.
  - set (s1 := put_cells vvp start end_ (ttcolor (v_color vvp) s0)).
    destruct (put_cells_tty vvp start end_ (ttcolor (v_color vvp) s0))
      as [Ht Hc]; [lia |].
    destruct (tty_only_put_cells vvp start end_ (ttcolor (v_color vvp) s0))
      as (T1 & T2 & T3 & _).
    fold s1 in Ht, Hc, T1, T2, T3.
    exists start, end_, false.
    split; [lia |]. split; [lia |]. split.
    { apply emitted_app. rewrite Ht. cbn [tty ttcolor ttmove emit set_tty s0].
      rewrite <- !app_assoc, app_nil_r. reflexivity. }
    split; [rewrite Hc; reflexivity |].
    split; [exact L2 |]. split; [exact L3 |].
    split; [split; [exact R5 |]; split; [exact R4 | exact R2] |].
    rewrite T1, T2, T3. auto.
Qed.

(** *** The repaint in full *)

Lemma hue_after_app (h : Z) (a b : list ttyop) :
  hue_after h (a ++ b) = hue_after (hue_after h a) b.
Proof. unfold hue_after. apply fold_left_app. Qed.

Lemma painted_app (a b : list ttyop) :
  forall h, painted h (a ++ b) = painted h a ++ painted (hue_after h a) b.
Proof.
  induction a as [| op a IH]; intros h; [reflexivity |].
  destruct op; cbn [painted app]; rewrite IH; reflexivity.
Qed.

Lemma cells_put_snoc (vvp : video) (lo col : Z) :
  lo <= col ->
  cells_put vvp lo (col + 1) = cells_put vvp lo col ++ [TtPutc (chr (v_text vvp) col)].
Proof.
  intros H. unfold cells_put. rewrite seqZ_snoc by exact H.
  rewrite map_app. reflexivity.
Qed.

Lemma cells_put_facts (vvp : video) (lo : Z) (h : Z) :
  forall (n : nat),
    let ops := cells_put vvp lo (lo + Z.of_nat n) in
    painted h ops = map (fun col => (chr (v_text vvp) col, h)) (seqZ lo (Z.of_nat n))
    /\ hue_after h ops = h
    /\ List.filter is_output ops = ops.
Proof.
  induction n as [| n IH]; intros ops; subst ops.
  - replace (lo + Z.of_nat 0) with lo by lia. unfold cells_put.
    replace (lo - lo) with 0 by lia. cbn. auto.
  - destruct IH as (I1 & I2 & I3).
    replace (lo + Z.of_nat (S n)) with (lo + Z.of_nat n + 1) by lia.
    rewrite cells_put_snoc by lia.
    rewrite painted_app, hue_after_app, List.filter_app, I1, I2, I3.
    rewrite seqZ_S, map_app. cbn. auto.
Qed.

(** The loop of the repaint of a text row. *)
Lemma put_cells_attr_spec (vvp : video) (h0 : Z) (st : display) :
  0 <= ncol ->
  (forall col, 0 <= col < ncol -> chr (v_attr vvp) col <> -1) ->
  exists ops,
    tty (put_cells_attr vvp st) = tty st ++ ops
    /\ painted h0 ops
       = map (fun col => (chr (v_text vvp) col, attr_color (chr (v_attr vvp) col)))
           (seqZ 0 ncol)
    /\ List.filter is_output ops = cells_put vvp 0 ncol
    /\ ttcol (put_cells_attr vvp st) = ttcol st + ncol.
Proof.
  intros Hn Hattr. unfold put_cells_attr.
  set (body := fun (col : Z) '(cur_attr, st) =>
         let attr := chr (v_attr vvp) col in
         let '(cur_attr, st) :=
           if negb (attr =? cur_attr)
           then (attr, ttcolor (if negb (attr =? 0) then CSELECT else CTEXT) st)
           else (cur_attr, st) in
         (cur_attr, ttputc (chr (v_text vvp) col) st)).
  enough (Hinv : (fun hi (s : Z * display) =>
              exists ops,
                tty s.2 = tty st ++ ops
                /\ painted h0 ops
                   = map (fun col => (chr (v_text vvp) col,
                                      attr_color (chr (v_attr vvp) col)))
                       (seqZ 0 hi)
                /\ List.filter is_output ops = cells_put vvp 0 hi
                /\ ttcol s.2 = ttcol st + hi
                /\ ((hi = 0 /\ s.1 = -1 /\ ops = [])
                    \/ hue_after h0 ops = attr_color s.1))
             ncol (for_range 0 ncol body (-1, st))).
  { destruct Hinv as (ops & H1 & H2 & H3 & H4 & _). exists ops. auto. }
  apply (for_range_index
           (fun hi (s : Z * display) =>
              exists ops,
                tty s.2 = tty st ++ ops
                /\ painted h0 ops
                   = map (fun col => (chr (v_text vvp) col,
                                      attr_color (chr (v_attr vvp) col)))
                       (seqZ 0 hi)
                /\ List.filter is_output ops = cells_put vvp 0 hi
                /\ ttcol s.2 = ttcol st + hi
                /\ ((hi = 0 /\ s.1 = -1 /\ ops = [])
                    \/ hue_after h0 ops = attr_color s.1)));
    [exact Hn | |].
  - intros col [cur s] Hc (ops & Ht & Hp & Hf & Hcol & Hhue).
    cbn [fst snd] in Ht, Hp, Hf, Hcol, Hhue. unfold body.
    cbv zeta. set (a := chr (v_attr vvp) col). set (ch := chr (v_text vvp) col).
    destruct (Z.eqb_spec a cur) as [Hsame | Hnew]; cbn [negb fst snd].
    + exists (ops ++ [TtPutc ch]).
      assert (Hh : hue_after h0 ops = attr_color a).
      { destruct Hhue as [(H0 & H1 & _) | Hh]; [| rewrite Hsame; exact Hh].
        exfalso. apply (Hattr col Hc). fold a. congruence. }
      split; [cbn [tty ttputc emit set_ttcol set_tty]; rewrite Ht, <- app_assoc;
              reflexivity |].
      split.
      { rewrite painted_app, Hp, Hh. cbn [painted].
        replace (col + 1) with (col - 0 + 1) by lia.
        rewrite seqZ_app by lia. rewrite map_app. cbn.
        replace (0 + (col - 0)) with col by lia.
        replace (col - 0) with col by lia. reflexivity. }
      split; [rewrite List.filter_app, Hf, cells_put_snoc by lia; reflexivity |].
      split; [cbn [ttcol ttputc set_ttcol]; lia |].
      right. rewrite hue_after_app. cbn. rewrite Hsame in Hh. exact Hh.
    + exists (ops ++ [TtColor (attr_color a); TtPutc ch]).
      split; [cbn [tty ttputc ttcolor emit set_ttcol set_tty]; rewrite Ht, <- !app_assoc;
              reflexivity |].
      split.
      { rewrite painted_app, Hp. cbn [painted].
        replace (col + 1) with (col - 0 + 1) by lia.
        rewrite seqZ_app by lia. rewrite map_app. cbn.
        replace (0 + (col - 0)) with col by lia.
        replace (col - 0) with col by lia. reflexivity. }
      split; [rewrite List.filter_app, Hf, cells_put_snoc by lia; reflexivity |].
      split; [cbn [ttcol ttputc ttcolor emit set_ttcol set_tty]; lia |].
      right. rewrite hue_after_app. reflexivity.
  - exists []. cbn [fst snd]. rewrite app_nil_r.
    split; [reflexivity |]. split; [reflexivity |].
    split; [reflexivity |]. split; [lia |]. left. auto.
Qed.

Lemma pvp_get_set (pvp : pvp_ref) (x : video) (st : display) :
  (forall i, pvp = PScreen i -> 0 <= i < Z.of_nat (length (pscreen st))) ->
  pvp_get pvp (pvp_set pvp x st) = x.
Proof.
  intros Hin. destruct pvp as [i |]; [| reflexivity].
  unfold pvp_get, pvp_set, prow, set_prow. cbn [pscreen set_pscreen].
  apply rd_zset_eq. apply Hin. reflexivity.
Qed.

Lemma pvp_get_ext (pvp : pvp_ref) (st st' : display) :
  pscreen st' = pscreen st -> blanks st' = blanks st ->
  pvp_get pvp st' = pvp_get pvp st.
Proof.
  intros Hp Hb. destruct pvp; unfold pvp_get, prow; congruence.
Qed.

Lemma pvp_set_frame (pvp : pvp_ref) (x : video) (st : display) :
  tty (pvp_set pvp x st) = tty st /\ ttcol (pvp_set pvp x st) = ttcol st
  /\ vscreen (pvp_set pvp x st) = vscreen st.
Proof. destruct pvp; cbn; auto. Qed.

(** X9.  A mode line, a row with a selected column, and a row whose color
    or attributes differ from the physical row's are repainted in full:
    uline moves to column 0 and sends every cell of the row in order, and
    nothing is erased.  Each cell of a mode line is sent in the mode
    color; each cell of a text row in the selection color when its
    attribute is set and in the text color when it is clear.  The color is
    then set back to text, and the attributes of the row are copied to the
    physical row (its text is not). *)
Theorem uline_repaints_in_color (row : Z) (vvp : video) (pvp : pvp_ref)
    (st : display) (hue : Z) :
  0 <= ncol ->
  full_redraw vvp (pvp_get pvp st) ->
  (forall col, 0 <= col < ncol -> chr (v_attr vvp) col <> -1) ->
  (forall i, pvp = PScreen i -> 0 <= i < Z.of_nat (length (pscreen st))) ->
  let st' := uline row vvp pvp st in
  (exists ops, emitted st st' = TtMove row 0 :: ops ++ [TtColor CTEXT])
  /\ painted hue (emitted st st')
     = map (fun col =>
              (chr (v_text vvp) col,
               if v_color vvp =? CMODE then CMODE
               else attr_color (chr (v_attr vvp) col)))
         (seqZ 0 ncol)
  /\ List.filter is_output (emitted st st') = cells_put vvp 0 ncol
  /\ ttcol st' = ttcol st + ncol
  /\ v_attr (pvp_get pvp st') = bcopy ncol (v_attr vvp) (v_attr (pvp_get pvp st))
  /\ v_text (pvp_get pvp st') = v_text (pvp_get pvp st)
  /\ v_color (pvp_get pvp st') = v_color (pvp_get pvp st)
  /\ vscreen st' = vscreen st.
Proof.
  intros Hn Hfull Hattr Hin st'. subst st'.
  unfold uline. cbv zeta.
  rewrite (proj2 (uline_test vvp (pvp_get pvp st)) Hfull).
  set (s0 := ttmove row 0 st).
  set (s1 := if v_color vvp =? CMODE
             then ttcolor CTEXT (put_cells vvp 0 ncol (ttcolor CMODE s0))
             else ttcolor CTEXT (put_cells_attr vvp s0)).
  assert (Hs1 : exists ops,
             tty s1 = tty st ++ TtMove row 0 :: ops ++ [TtColor CTEXT]
             /\ painted hue (TtMove row 0 :: ops ++ [TtColor CTEXT])
                = map (fun col =>
                         (chr (v_text vvp) col,
                          if v_color vvp =? CMODE then CMODE
                          else attr_color (chr (v_attr vvp) col)))
                    (seqZ 0 ncol)
             /\ List.filter is_output (TtMove row 0 :: ops ++ [TtColor CTEXT])
                = cells_put vvp 0 ncol
             /\ ttcol s1 = ttcol st + ncol
             /\ pscreen s1 = pscreen st /\ blanks s1 = blanks st
             /\ vscreen s1 = vscreen st).
  { unfold s1. destruct (v_color vvp =? CMODE).
    - destruct (put_cells_tty vvp 0 ncol (ttcolor CMODE s0) Hn) as [Ht Hc].
      destruct (tty_only_put_cells vvp 0 ncol (ttcolor CMODE s0))
        as (T1 & T2 & T3 & _).
      destruct (cells_put_facts vvp 0 CMODE (Z.to_nat ncol)) as (C1 & C2 & C3).
      replace (0 + Z.of_nat (Z.to_nat ncol)) with ncol in C1, C2, C3 by lia.
      replace (Z.of_nat (Z.to_nat ncol)) with ncol in C1 by lia.
      exists (TtColor CMODE :: cells_put vvp 0 ncol).
      split.
      { cbn [tty ttcolor emit set_tty]. rewrite Ht.
        cbn [tty ttcolor ttmove emit set_tty s0]. rewrite <- !app_assoc.
        reflexivity. }
      split.
      { cbn [painted app]. rewrite painted_app, C1. cbn [painted].
        rewrite app_nil_r. reflexivity. }
      split.
      { cbn [List.filter is_output app]. rewrite List.filter_app, C3.
        cbn. rewrite app_nil_r. reflexivity. }
      split; [cbn [ttcol ttcolor emit set_tty]; rewrite Hc; unfold s0;
              cbn [ttcol ttcolor ttmove emit set_tty]; lia |].
      cbn [pscreen blanks vscreen ttcolor emit set_tty]. rewrite T1, T2, T3. auto.
    - destruct (put_cells_attr_spec vvp hue s0 Hn Hattr) as (ops & Ht & Hp & Hf & Hc).
      destruct (tty_only_put_cells_attr vvp s0) as (T1 & T2 & T3 & _).
      exists ops.
      split.
      { cbn [tty ttcolor emit set_tty]. rewrite Ht.
        cbn [tty ttmove emit set_tty s0]. rewrite <- !app_assoc. reflexivity. }
      split.
      { cbn [painted app]. rewrite painted_app, Hp. cbn [painted].
        rewrite app_nil_r. reflexivity. }
      split.
      { cbn [List.filter is_output app]. rewrite List.filter_app, Hf.
        cbn. rewrite app_nil_r. reflexivity. }
      split; [cbn [ttcol ttcolor emit set_tty]; rewrite Hc; unfold s0;
              cbn [ttcol ttcolor ttmove emit set_tty]; lia |].
      cbn [pscreen blanks vscreen ttcolor emit set_tty]. rewrite T1, T2, T3. auto. }
  destruct Hs1 as (ops & Ht & Hp & Hf & Hc & Hps & Hbl & Hvs).
  pose proof (pvp_get_ext pvp st s1 Hps Hbl) as Hget.
  destruct (pvp_set_frame pvp
              (set_v_attr (bcopy ncol (v_attr vvp) (v_attr (pvp_get pvp s1)))
                 (pvp_get pvp s1)) s1) as (F1 & F2 & F3).
  assert (Hem : emitted st
             (pvp_set pvp
                (set_v_attr (bcopy ncol (v_attr vvp) (v_attr (pvp_get pvp s1)))
                   (pvp_get pvp s1)) s1)
           = TtMove row 0 :: ops ++ [TtColor CTEXT]).
  { apply emitted_app. rewrite F1. exact Ht. }
  rewrite Hem.
  split; [exists ops; reflexivity |]. split; [exact Hp |]. split; [exact Hf |].
  split; [rewrite F2; exact Hc |].
  rewrite F3.
  rewrite pvp_get_set by (rewrite Hps; exact Hin).
  cbn [v_attr v_text v_color set_v_attr]. rewrite Hget.
  split; [reflexivity |]. split; [reflexivity |]. split; [reflexivity |].
  exact Hvs.
Qed.
(** ** The cost found by setscores *)

Lemma best_of_cost (i j del ins mat : Z) :
  s_cost (best_of i j del ins mat) = Z.min mat (Z.min ins del).
Proof.
  unfold best_of.
  destruct (Z.ltb_spec ins del); destruct (Z.ltb_spec mat ins);
    destruct (Z.ltb_spec mat del); cbn [s_cost]; lia.
Qed.

Lemma iadd_id (a b : Z) :
  0 <= a -> 0 <= b -> a + b <= INT_MAX -> iadd a b = a + b.
Proof. intros. unfold iadd. apply to_int_id. unfold INT_MAX in *. lia. Qed.

Section Cost_bound.

Variables (offs size : Z) (st : display) (B : Z).
Hypothesis Hsize : 0 <= size < nrow.
Hypothesis Hlen : Z.of_nat (length (scores st)) = nrow * nrow.
Hypothesis Hins : 0 <= tcinsl <= B.
Hypothesis Hdel : 0 <= tcdell <= B.
Hypothesis Hcost :
  forall k, 0 <= k < size -> 0 <= v_cost (vrow st (offs + k)) <= B.
Hypothesis Hfit : 4 * B * nrow <= INT_MAX.

Let M (i j : Z) : score :=
  cell (scores (setscores offs size st)) (nrow * i + j).

Lemma bound_fits (n : Z) :
  0 <= n <= 2 * size -> 0 <= 2 * B * n /\ 2 * B * n + 2 * B <= INT_MAX.
Proof.
  intros Hn. assert (HB : 0 <= B) by lia.
  assert (H1 : B * (n + 1) <= B * (2 * nrow))
    by (apply Z.mul_le_mono_nonneg_l; lia).
  assert (H2 : 0 <= B * n) by (apply Z.mul_nonneg_nonneg; lia).
  lia.
Qed.

Lemma cost_row0 (b : nat) :
  Z.of_nat b <= size ->
  0 <= s_cost (M 0 (Z.of_nat b)) <= 2 * B * Z.of_nat b.
Proof.
  pose proof (setscores_matrix offs size st Hsize Hlen) as HM.
  cbv zeta in HM. destruct HM as (H00 & Hrow & _).
  unfold M.
  induction b as [| b IH]; intros Hb.
  - change (Z.of_nat 0) with 0. rewrite H00. cbn. lia.
  - specialize (IH ltac:(lia)).
    rewrite (Hrow (Z.of_nat (S b)) ltac:(lia)). cbn [s_cost].
    replace (Z.of_nat (S b) - 1) with (Z.of_nat b) by lia.
    replace (offs + Z.of_nat (S b) - 1) with (offs + Z.of_nat b) by lia.
    pose proof (Hcost (Z.of_nat b) ltac:(lia)) as Hc.
    pose proof (bound_fits (Z.of_nat b) ltac:(lia)) as Hf.
    rewrite (iadd_id (s_cost _) tcinsl) by lia.
    rewrite iadd_id by lia. lia.
Qed.

Lemma cost_col0 (a : nat) :
  Z.of_nat a <= size ->
  0 <= s_cost (M (Z.of_nat a) 0) <= 2 * B * Z.of_nat a.
Proof.
  pose proof (setscores_matrix offs size st Hsize Hlen) as HM.
  cbv zeta in HM. destruct HM as (H00 & _ & Hcol & _).
  unfold M.
  induction a as [| a IH]; intros Ha.
  - change (Z.of_nat 0) with 0. rewrite H00. cbn. lia.
  - specialize (IH ltac:(lia)).
    rewrite (Hcol (Z.of_nat (S a)) ltac:(lia)). cbn [s_cost].
    replace (Z.of_nat (S a) - 1) with (Z.of_nat a) by lia.
    pose proof (bound_fits (Z.of_nat a) ltac:(lia)) as Hf.
    rewrite iadd_id by lia. lia.
Qed.

(** No cost in the matrix is negative or large enough to wrap around. *)
Lemma cost_cell (a : nat) :
  forall b : nat,
    Z.of_nat a <= size -> Z.of_nat b <= size ->
    0 <= s_cost (M (Z.of_nat a) (Z.of_nat b)) <= 2 * B * (Z.of_nat a + Z.of_nat b).
Proof.
  pose proof (setscores_matrix offs size st Hsize Hlen) as HM.
  cbv zeta in HM. destruct HM as (_ & _ & _ & Hin & _).
  unfold M.
  induction a as [| a IHa]; intros b Ha Hb.
  - pose proof (cost_row0 b Hb) as H0. unfold M in H0.
    change (Z.of_nat 0) with 0. lia.
  - induction b as [| b IHb].
    + pose proof (cost_col0 (S a) Ha) as H0. unfold M in H0.
      change (Z.of_nat 0) with 0. lia.
    + specialize (IHb ltac:(lia)).
      pose proof (IHa (S b) ltac:(lia) Hb) as Hup.
      pose proof (IHa b ltac:(lia) ltac:(lia)) as Hdiag.
      rewrite (Hin (Z.of_nat (S a)) (Z.of_nat (S b))) by lia.
      rewrite best_of_cost.
      replace (Z.of_nat (S a) - 1) with (Z.of_nat a) by lia.
      replace (Z.of_nat (S b) - 1) with (Z.of_nat b) by lia.
      replace (offs + Z.of_nat (S b) - 1) with (offs + Z.of_nat b) by lia.
      pose proof (Hcost (Z.of_nat b) ltac:(lia)) as Hc.
      set (up := s_cost (cell (scores (setscores offs size st))
                           (nrow * Z.of_nat a + Z.of_nat (S b)))) in *.
      set (left := s_cost (cell (scores (setscores offs size st))
                             (nrow * Z.of_nat (S a) + Z.of_nat b))) in *.
      set (diag := s_cost (cell (scores (setscores offs size st))
                             (nrow * Z.of_nat a + Z.of_nat b))) in *.
      set (vc := v_cost (vrow st (offs + Z.of_nat b))) in *.
      pose proof (bound_fits (Z.of_nat a + Z.of_nat b) ltac:(lia)) as Hf0.
      pose proof (bound_fits (Z.of_nat a + Z.of_nat b + 1) ltac:(lia)) as Hf1.
      assert (Hd : 0 <= cost_delete size (Z.of_nat (S b)) up
                   <= 2 * B * (Z.of_nat (S a) + Z.of_nat (S b))).
      { unfold cost_delete. destruct (Z.of_nat (S b) =? size); [lia |].
        rewrite iadd_id by lia. lia. }
      assert (Hi : 0 <= cost_insert size (Z.of_nat (S a)) left vc
                   <= 2 * B * (Z.of_nat (S a) + Z.of_nat (S b))).
      { unfold cost_insert. destruct (Z.of_nat (S a) =? size).
        - rewrite iadd_id by lia. lia.
        - rewrite (iadd_id left vc) by lia. rewrite iadd_id by lia. lia. }
      assert (Hm : forall d, 0 <= cost_match d diag vc
                   <= 2 * B * (Z.of_nat (S a) + Z.of_nat (S b))).
      { intros d. unfold cost_match. destruct d; [| lia].
        rewrite iadd_id by lia. lia. }
      specialize (Hm (rows_differ (prow st (offs + Z.of_nat (S a) - 1))
                        (vrow st (offs + Z.of_nat b)))).
      lia.
Qed.

(** The cost on the diagonal is at most that of the matches along it. *)
Lemma cost_diag (k : nat) :
  Z.of_nat k <= size ->
  s_cost (M (Z.of_nat k) (Z.of_nat k)) <= inplace_cost st offs k
  /\ 0 <= inplace_cost st offs k <= B * Z.of_nat k.
Proof.
  pose proof (setscores_matrix offs size st Hsize Hlen) as HM.
  cbv zeta in HM. destruct HM as (H00 & _ & _ & Hin & _).
  unfold M.
  induction k as [| k IH]; intros Hk.
  - change (Z.of_nat 0) with 0. rewrite H00. cbn. lia.
  - destruct (IH ltac:(lia)) as [IH1 IH2].
    pose proof (cost_cell k k ltac:(lia) ltac:(lia)) as Hdiag. unfold M in Hdiag.
    pose proof (Hcost (Z.of_nat k) ltac:(lia)) as Hc.
    rewrite (Hin (Z.of_nat (S k)) (Z.of_nat (S k))) by lia.
    rewrite best_of_cost.
    replace (Z.of_nat (S k) - 1) with (Z.of_nat k) by lia.
    replace (offs + Z.of_nat (S k) - 1) with (offs + Z.of_nat k) by lia.
    cbn [inplace_cost]. unfold cost_match at 1.
    destruct (rows_differ (prow st (offs + Z.of_nat k)) (vrow st (offs + Z.of_nat k))).
    + pose proof (bound_fits (Z.of_nat k + Z.of_nat k) ltac:(lia)) as Hf.
      rewrite iadd_id by lia. split; lia.
    + split; lia.
Qed.

End Cost_bound.

(** X10.  When the costs are not negative and small enough for the sums
    not to wrap around, no cost in the matrix of setscores is negative, and
    the cost of the whole band, in the last cell, is at most the cost of
    redrawing in place the rows of the band that differ from the physical
    rows in the same places: the script the traceback follows is never
    dearer than the plain redraw.  A band in which no row differs costs
    nothing. *)
Theorem setscores_no_dearer_than_redraw (offs size : Z) (st : display) (B : Z) :
  0 <= size < nrow ->
  Z.of_nat (length (scores st)) = nrow * nrow ->
  0 <= tcinsl <= B -> 0 <= tcdell <= B ->
  (forall k, 0 <= k < size -> 0 <= v_cost (vrow st (offs + k)) <= B) ->
  4 * B * nrow <= INT_MAX ->
  let M i j := cell (scores (setscores offs size st)) (nrow * i + j) in
  (forall i j, 0 <= i <= size -> 0 <= j <= size -> 0 <= s_cost (M i j))
  /\ s_cost (M size size) <= inplace_cost st offs (Z.to_nat size)
  /\ ((forall k, 0 <= k < size ->
         rows_differ (prow st (offs + k)) (vrow st (offs + k)) = false) ->
      s_cost (M size size) = 0).
Proof.
  intros Hsize Hlen Hins Hdel Hcost Hfit M.
  assert (Hcell : forall i j, 0 <= i <= size -> 0 <= j <= size -> 0 <= s_cost (M i j)).
  { intros i j Hi Hj.
    pose proof (cost_cell offs size st B Hsize Hlen Hins Hdel Hcost Hfit
                  (Z.to_nat i) (Z.to_nat j) ltac:(lia) ltac:(lia)) as H.
    rewrite !Z2Nat.id in H by lia. subst M. cbv beta. lia. }
  destruct (cost_diag offs size st B Hsize Hlen Hins Hdel Hcost Hfit
              (Z.to_nat size) ltac:(lia)) as [Hd _].
  rewrite !Z2Nat.id in Hd by lia.
  split; [exact Hcell |]. split; [exact Hd |].
  intros Hsame.
  assert (H0 : forall k : nat, Z.of_nat k <= size -> inplace_cost st offs k = 0).
  { induction k as [| k IH]; intros Hk; [reflexivity |].
    cbn [inplace_cost]. rewrite IH by lia. rewrite Hsame by lia. reflexivity. }
  rewrite H0 in Hd by lia.
  specialize (Hcell size size ltac:(lia) ltac:(lia)). subst M. cbv beta in *. lia.
Qed.
(** ** Framing a window *)

Lemma walk_back_spec (bp : buffer) :
  forall (n : nat) (i : Z) (lp : nat),
    (lp <= b_headp bp)%nat -> 0 <= i -> (lp <= n)%nat ->
    walk_back n bp i lp = (lp - Z.to_nat i)%nat.
Proof.
  induction n as [| n IH]; intros i lp Hlp Hi Hn.
  - cbn [walk_back]. lia.
  - cbn [walk_back]. destruct (Z.eqb_spec i 0) as [-> | Hi0]; cbn [negb andb]; [lia |].
    destruct lp as [| p]; cbn [lback].
    + rewrite Nat.eqb_refl. cbn [negb]. lia.
    + destruct (Nat.eqb_spec p (b_headp bp)) as [He | Hne]; [lia |]. cbn [negb].
      rewrite IH by lia. lia.
Qed.

Lemma dot_scan_finds (wp : mgwin) :
  forall (n : nat) (lp : nat),
    (lp <= w_dotp wp)%nat -> (w_dotp wp <= b_headp (w_bufp wp))%nat ->
    (w_dotp wp - lp < n)%nat ->
    dot_scan n wp lp = true.
Proof.
  induction n as [| n IH]; intros lp H1 H2 H3; [lia |].
  cbn [dot_scan]. destruct (Nat.eqb_spec lp (w_dotp wp)) as [_ | Hne]; [reflexivity |].
  destruct (Nat.eqb_spec lp (b_headp (w_bufp wp))) as [He | _]; [lia |].
  unfold lforw. destruct (Nat.ltb_spec lp (b_headp (w_bufp wp))); [| lia].
  apply IH; lia.
Qed.

Lemma dot_scan_found (wp : mgwin) :
  forall (n : nat) (lp : nat),
    (lp <= b_headp (w_bufp wp))%nat ->
    dot_scan n wp lp = true ->
    (lp <= w_dotp wp < lp + n)%nat /\ (w_dotp wp <= b_headp (w_bufp wp))%nat.
Proof.
  induction n as [| n IH]; intros lp Hlp H; [discriminate H |].
  cbn [dot_scan] in H.
  destruct (Nat.eqb_spec lp (w_dotp wp)) as [He | Hne]; [lia |].
  destruct (Nat.eqb_spec lp (b_headp (w_bufp wp))) as [_ | Hh]; [discriminate H |].
  unfold lforw in H. destruct (Nat.ltb_spec lp (b_headp (w_bufp wp))); [| lia].
  apply IH in H; lia.
Qed.

Lemma cursor_row_finds (cw : mgwin) :
  forall (n : nat) (lp : nat) (r : Z),
    (lp <= w_dotp cw)%nat -> (w_dotp cw <= b_headp (w_bufp cw))%nat ->
    (w_dotp cw - lp < n)%nat ->
    cursor_row n cw lp r = Some (w_dotp cw, r + Z.of_nat (w_dotp cw - lp)).
Proof.
  induction n as [| n IH]; intros lp r H1 H2 H3; [lia |].
  cbn [cursor_row]. destruct (Nat.eqb_spec lp (w_dotp cw)) as [He | Hne]; cbn [negb].
  - subst lp. do 2 f_equal. lia.
  - unfold lforw. destruct (Nat.ltb_spec lp (b_headp (w_bufp cw))); [| lia].
    rewrite IH by lia. do 2 f_equal. lia.
Qed.

Lemma reframe_rows (wp : mgwin) :
  1 <= w_ntrows wp ->
  let i := w_frame wp in
  let i :=
    if i >? 0 then
      let i := i - 1 in
      if i >=? w_ntrows wp then w_ntrows wp - 1 else i
    else if i <? 0 then
      let i := i + w_ntrows wp in
      if i <? 0 then 0 else i
    else Z.quot (w_ntrows wp) 2 in
  0 <= i <= w_ntrows wp - 1.
Proof.
  intros Hn. cbv zeta. rewrite Z.gtb_ltb, Z.geb_leb.
  destruct (Z.ltb_spec 0 (w_frame wp)).
  - destruct (Z.leb_spec (w_ntrows wp) (w_frame wp - 1)); lia.
  - destruct (Z.ltb_spec (w_frame wp) 0).
    + destruct (Z.ltb_spec (w_frame wp + w_ntrows wp) 0); lia.
    + rewrite Z.quot_div_nonneg by lia.
      pose proof (Z.div_pos (w_ntrows wp) 2 ltac:(lia) ltac:(lia)).
      pose proof (Z.div_lt (w_ntrows wp) 2 ltac:(lia) ltac:(lia)). lia.
Qed.

(** X11.  After the framing code of update the line of dot is one of the
    rows of the window: it lies at or below the top line, fewer than
    w_ntrows lines from it, so the walk from the top line to dot ends and
    gives a screen row inside the window.  Framing moves nothing but the
    top line; when it moves the top line it asks for the window in full;
    and a window whose dot is already on one of its rows, reframing not
    being asked for, is left as it is. *)
Theorem frame_window_shows_dot (wp : mgwin) :
  1 <= w_ntrows wp ->
  (w_linep wp <= b_headp (w_bufp wp))%nat ->
  (w_dotp wp <= b_headp (w_bufp wp))%nat ->
  let wp' := frame_window wp in
  (w_linep wp' <= w_dotp wp < w_linep wp' + Z.to_nat (w_ntrows wp))%nat
  /\ cursor_row (ring_fuel wp') wp' (w_linep wp') (w_toprow wp')
     = Some (w_dotp wp, w_toprow wp + Z.of_nat (w_dotp wp - w_linep wp'))
  /\ w_toprow wp <= w_toprow wp + Z.of_nat (w_dotp wp - w_linep wp')
     < w_toprow wp + w_ntrows wp
  /\ (w_bufp wp', w_dotp wp', w_doto wp', w_dotline wp', w_markp wp', w_marko wp',
      w_markline wp', w_toprow wp', w_ntrows wp', w_frame wp')
     = (w_bufp wp, w_dotp wp, w_doto wp, w_dotline wp, w_markp wp, w_marko wp,
        w_markline wp, w_toprow wp, w_ntrows wp, w_frame wp)
  /\ (w_linep wp' <> w_linep wp -> Z.land (w_rflag wp') WFFULL = WFFULL)
  /\ (Z.land (w_rflag wp) WFFRAME = 0 ->
      (w_linep wp <= w_dotp wp < w_linep wp + Z.to_nat (w_ntrows wp))%nat ->
      wp' = wp).
Proof.
  intros Hn Hl Hd wp'.
  assert (Hcase :
    (wp' = wp /\ (w_linep wp <= w_dotp wp < w_linep wp + Z.to_nat (w_ntrows wp))%nat)
    \/ (wp' = reframe wp
        /\ ~ (Z.land (w_rflag wp) WFFRAME = 0
              /\ (w_linep wp <= w_dotp wp < w_linep wp + Z.to_nat (w_ntrows wp))%nat))).
  { subst wp'. unfold frame_window, dot_framed.
    destruct (Z.eqb_spec (Z.land (w_rflag wp) WFFRAME) 0) as [Hf | Hf]; cbn [andb].
    - destruct (dot_scan (Z.to_nat (w_ntrows wp)) wp (w_linep wp)) eqn:Hs.
      + left. split; [reflexivity |]. apply (dot_scan_found wp _ _ Hl Hs).
      + right. split; [reflexivity |]. intros [_ Hin].
        rewrite dot_scan_finds in Hs by lia. discriminate Hs.
    - right. split; [reflexivity |]. intros [H0 _]. contradiction. }
  assert (Hre :
    (w_linep (reframe wp) <= w_dotp wp
     < w_linep (reframe wp) + Z.to_nat (w_ntrows wp))%nat).
  { pose proof (reframe_rows wp Hn) as Hi. cbv zeta in Hi.
    unfold reframe. cbv zeta. cbn [w_linep or_rflag set_w_rflag set_w_linep].
    rewrite walk_back_spec by lia. lia. }
  assert (Hin : (w_linep wp' <= w_dotp wp
                 < w_linep wp' + Z.to_nat (w_ntrows wp))%nat).
  { destruct Hcase as [[-> Hin] | [-> _]]; [exact Hin | exact Hre]. }
  assert (Hsame :
    (w_bufp wp', w_dotp wp', w_doto wp', w_dotline wp', w_markp wp', w_marko wp',
     w_markline wp', w_toprow wp', w_ntrows wp', w_frame wp')
    = (w_bufp wp, w_dotp wp, w_doto wp, w_dotline wp, w_markp wp, w_marko wp,
       w_markline wp, w_toprow wp, w_ntrows wp, w_frame wp)).
  { destruct Hcase as [[-> _] | [-> _]]; reflexivity. }
  assert (Hb : w_bufp wp' = w_bufp wp) by congruence.
  assert (Hdp : w_dotp wp' = w_dotp wp) by congruence.
  assert (Htr : w_toprow wp' = w_toprow wp) by congruence.
  split; [exact Hin |]. split.
  { rewrite <- Hdp at 1 2. rewrite <- Htr.
    rewrite cursor_row_finds; unfold ring_fuel; rewrite ?Hb, ?Hdp; try lia.
    reflexivity. }
  split; [lia |]. split; [exact Hsame |]. split.
  - intros Hmoved. destruct Hcase as [[-> _] | [-> _]]; [contradiction |].
    unfold reframe. cbv zeta. apply or_rflag_has.
  - intros Hf Hvis. destruct Hcase as [[-> _] | [_ Hnot]]; [reflexivity |].
    exfalso. apply Hnot. split; assumption.
Qed.
(** ** update comes back *)

Lemma bind_some {A B : Type} (m : option A) (k : A -> option B)
    (P : A -> Prop) (Q : B -> Prop) :
  (exists x, m = Some x /\ P x) ->
  (forall x, P x -> exists y, k x = Some y /\ Q y) ->
  exists y, mbind k m = Some y /\ Q y.
Proof.
  intros (x & -> & Hx) Hk. cbn [mbind option_bind]. apply Hk, Hx.
Qed.

Lemma vtputc_total (c : Z) (wp : mgwin) (st : display) :
  chars_ok = true -> 0 <= vtcol st ->
  exists st', vtputc vt_fuel c wp st = Some st' /\ 0 <= vtcol st'.
Proof.
  intros Hok Hc. destruct (Z.lt_ge_cases (vtcol st) ncol) as [Hlt | Hge].
  - exists (put_glyphs (glyphs c (vtcol st) (b_tabw (w_bufp wp))) st).
    split; [apply vtputc_glyphs; [exact Hok | exact Hlt | lia] |].
    rewrite vtcol_put_glyphs, Z.geb_leb.
    destruct (Z.leb_spec ncol (vtcol st)); lia.
  - exists (vt_text (ncol - 1) 36 st). split; [| exact Hc].
    unfold vt_fuel. rewrite vtputc_S. cbv zeta. rewrite Z.geb_leb.
    destruct (Z.leb_spec ncol (vtcol st)); [reflexivity | lia].
Qed.

Lemma vtputs_loop_total (wp : mgwin) :
  chars_ok = true ->
  forall (s : list Z) (n : Z) (st : display),
    0 <= vtcol st ->
    exists r, vtputs_loop (fun c => vtputc vt_fuel c wp) s n st = Some r
              /\ 0 <= vtcol r.2.
Proof.
  intros Hok. induction s as [| c s IH]; intros n st Hc.
  - exists (n, st). split; [reflexivity | exact Hc].
  - cbn [vtputs_loop]. destruct (c =? 0).
    + exists (n, st). split; [reflexivity | exact Hc].
    + apply (bind_some _ _ (fun s => 0 <= vtcol s));
        [apply vtputc_total; assumption |].
      intros st1 H1. apply IH, H1.
Qed.

Lemma vtputs_total (s : list Z) (wp : mgwin) (st : display) :
  chars_ok = true -> 0 <= vtcol st ->
  exists r, vtputs s wp st = Some r /\ 0 <= vtcol r.2.
Proof. intros Hok Hc. apply vtputs_loop_total; assumption. Qed.

Lemma pad_to_total (wp : mgwin) (limit : Z) :
  chars_ok = true ->
  forall (k : nat) (n : Z) (st : display),
    0 <= vtcol st ->
    exists r, pad_to k limit wp n st = Some r /\ 0 <= vtcol r.2.
Proof.
  intros Hok. induction k as [| k IH]; intros n st Hc.
  - exists (n, st). split; [reflexivity | exact Hc].
  - cbn [pad_to]. destruct (n <? limit).
    + apply (bind_some _ _ (fun s => 0 <= vtcol s));
        [apply vtputc_total; assumption |].
      intros st1 H1. apply IH, H1.
    + exists (n, st). split; [reflexivity | exact Hc].
Qed.

Lemma put_modes_total (wp : mgwin) :
  chars_ok = true ->
  forall (k : nat) (md n : Z) (st : display),
    (Z.to_nat (b_nmodes (w_bufp wp) - md) < k)%nat -> 0 <= vtcol st ->
    exists r, put_modes k wp md n st = Some r /\ 0 <= vtcol r.2.
Proof.
  intros Hok. induction k as [| k IH]; intros md n st Hk Hc; [lia |].
  cbn [put_modes].
  apply (bind_some _ _ (fun s => 0 <= vtcol s)); [apply vtputc_total; assumption |].
  intros st1 H1.
  apply (bind_some _ _ (fun r : Z * display => 0 <= vtcol r.2));
    [apply vtputs_total; assumption |].
  intros [m st2] H2. cbn [snd] in H2. cbv zeta. rewrite Z.gtb_ltb.
  destruct (Z.ltb_spec (b_nmodes (w_bufp wp)) (md + 1)).
  - eexists. split; [reflexivity | exact H2].
  - apply (bind_some _ _ (fun s => 0 <= vtcol s)); [apply vtputc_total; assumption |].
    intros st3 H3. apply IH; [lia | exact H3].
Qed.

Lemma put_line_total (wp : mgwin) (lp : nat) (line_num : Z) :
  chars_ok = true ->
  forall (n : nat) (j : Z) (st : display),
    0 <= vtcol st ->
    exists st', put_line n wp lp line_num j st = Some st' /\ 0 <= vtcol st'.
Proof.
  intros Hok. induction n as [| n IH]; intros j st Hc.
  - exists st. split; [reflexivity | exact Hc].
  - cbn [put_line].
    apply (bind_some _ _ (fun s => 0 <= vtcol s)); [apply vtputc_total; assumption |].
    intros st1 H1. apply IH. rewrite attr_fill_vtcol. exact H1.
Qed.

(** One step of a computation that comes back with the virtual cursor on
    the screen. *)
Ltac put_step :=
  cbv beta iota zeta;
  first
    [ apply (bind_some _ _ (fun s : display => 0 <= vtcol s));
      [apply vtputc_total; assumption | intros ? ?]
    | apply (bind_some _ _ (fun r : Z * display => 0 <= vtcol r.2));
      [first [apply vtputs_total | apply pad_to_total]; assumption
      | intros [? ?] ?; cbn [snd] in * ] ].

Lemma modeline_total (wp : mgwin) (modelinecolor : Z) (st : display) :
  chars_ok = true ->
  exists st', modeline wp modelinecolor st = Some st' /\ 0 <= vtcol st'.
Proof.
  intros Hok. unfold modeline.
  set (s0 := vtmove _ 0 _).
  assert (H0 : 0 <= vtcol s0) by (cbn; lia).
  clearbody s0.
  put_step. put_step.
  cbv beta iota zeta.
  apply (bind_some _ _ (fun s : display => 0 <= vtcol s)).
  { destruct (negb (Z.land (b_flag (w_bufp wp)) BFREADONLY =? 0)).
    - put_step. destruct (negb (Z.land (b_flag (w_bufp wp)) BFCHG =? 0));
        apply vtputc_total; assumption.
    - destruct (negb (Z.land (b_flag (w_bufp wp)) BFCHG =? 0));
        put_step; apply vtputc_total; assumption. }
  intros ? ?. put_step. put_step.
  cbv beta iota zeta.
  apply (bind_some _ _ (fun r : Z * display => 0 <= vtcol r.2)).
  { destruct (negb (chr (b_bname (w_bufp wp)) 0 =? 0)).
    - put_step. put_step. eexists. split; [reflexivity | assumption].
    - eexists. split; [reflexivity | assumption]. }
  intros [? ?] ?; cbn [snd] in *.
  put_step.
  cbv beta iota zeta.
  match goal with
  | |- context [position_text wp ?s] => destruct (position_text wp s) as [sl len]
  end.
  apply (bind_some _ _ (fun r : Z * display => 0 <= vtcol r.2)).
  { match goal with |- context [if ?c then _ else _] => destruct c end.
    - put_step. eexists. split; [reflexivity | assumption].
    - eexists. split; [reflexivity | assumption]. }
  intros [? ?] ?; cbn [snd] in *.
  put_step. put_step.
  cbv beta iota zeta.
  apply (bind_some _ _ (fun r : Z * display => 0 <= vtcol r.2)).
  { apply put_modes_total; [assumption | lia | assumption]. }
  intros [? ?] ?; cbn [snd] in *.
  cbv beta iota zeta.
  apply (bind_some _ _ (fun r : Z * display => 0 <= vtcol r.2)).
  { destruct macrodef.
    - put_step. eexists. split; [reflexivity | assumption].
    - eexists. split; [reflexivity | assumption]. }
  intros [? ?] ?; cbn [snd] in *.
  cbv beta iota zeta.
  apply (bind_some _ _ (fun r : Z * display => 0 <= vtcol r.2)).
  { destruct globalwd.
    - put_step. eexists. split; [reflexivity | assumption].
    - eexists. split; [reflexivity | assumption]. }
  intros [? ?] ?; cbn [snd] in *.
  put_step.
  cbv beta iota zeta.
  apply (bind_some _ _ (fun r : Z * display => 0 <= vtcol r.2)).
  { match goal with |- context [if ?c then _ else _] => destruct c end.
    - put_step. eexists. split; [reflexivity | assumption].
    - eexists. split; [reflexivity | assumption]. }
  intros [? ?] ?; cbn [snd] in *.
  put_step. eexists. split; [reflexivity | assumption].
Qed.

Lemma ring_dist_step (wp : mgwin) (lp : nat) :
  window_ok wp -> lp <> w_dotp wp ->
  S (ring_dist wp (lforw (w_bufp wp) lp)) = ring_dist wp lp.
Proof.
  unfold window_ok, ring_dist, lforw. intros Hok Hne.
  destruct (Nat.ltb_spec lp (b_headp (w_bufp wp)));
    destruct (Nat.leb_spec lp (w_dotp wp));
    destruct (Nat.leb_spec lp (b_headp (w_bufp wp)));
    try destruct (Nat.leb_spec (S lp) (w_dotp wp));
    try destruct (Nat.leb_spec (S lp) (b_headp (w_bufp wp)));
    try destruct (Nat.leb_spec 0 (w_dotp wp)); lia.
Qed.

Lemma ring_dist_bound (wp : mgwin) (lp : nat) :
  window_ok wp -> (ring_dist wp lp < ring_fuel wp)%nat.
Proof.
  unfold window_ok, ring_dist, ring_fuel. intros Hok.
  destruct (Nat.leb_spec lp (w_dotp wp));
    destruct (Nat.leb_spec lp (b_headp (w_bufp wp))); lia.
Qed.

Lemma seek_dot_total (wp : mgwin) :
  window_ok wp ->
  forall (n : nat) (lp : nat) (i line_num : Z),
    (ring_dist wp lp < n)%nat ->
    exists i' ln', seek_dot n wp lp i line_num = Some (w_dotp wp, i', ln').
Proof.
  intros Hok. induction n as [| n IH]; intros lp i ln Hn; [lia |].
  cbn [seek_dot]. destruct (Nat.eqb_spec lp (w_dotp wp)) as [-> | Hne]; cbn [negb].
  - eexists _, _. reflexivity.
  - apply IH. pose proof (ring_dist_step wp lp Hok Hne). lia.
Qed.

Lemma cursor_row_total (cw : mgwin) :
  window_ok cw ->
  forall (n : nat) (lp : nat) (r : Z),
    (ring_dist cw lp < n)%nat ->
    exists r', cursor_row n cw lp r = Some (w_dotp cw, r').
Proof.
  intros Hok. induction n as [| n IH]; intros lp r Hn; [lia |].
  cbn [cursor_row]. destruct (Nat.eqb_spec lp (w_dotp cw)) as [-> | Hne]; cbn [negb].
  - eexists. reflexivity.
  - apply IH. pose proof (ring_dist_step cw lp Hok Hne). lia.
Qed.

Lemma full_rows_total (wp : mgwin) :
  chars_ok = true ->
  forall (n : nat) (lp : nat) (i line_num : Z) (st : display),
    exists st', full_rows n wp lp i line_num st = Some st'.
Proof.
  intros Hok. induction n as [| n IH]; intros lp i ln st.
  - exists st. reflexivity.
  - cbn [full_rows]. cbv zeta.
    set (s0 := vtmove i 0 _).
    assert (H0 : 0 <= vtcol s0) by (cbn; lia). clearbody s0.
    destruct (negb (lp =? b_headp (w_bufp wp))%nat).
    + destruct (put_line_total wp lp ln Hok (line_len wp lp) 0 s0 H0)
        as (s1 & -> & _).
      cbn [mbind option_bind]. apply IH.
    + cbn [mbind option_bind]. apply IH.
Qed.

Lemma frame_window_place (wp : mgwin) :
  window_place (frame_window wp) = window_place wp.
Proof. unfold frame_window. destruct (dot_framed wp); reflexivity. Qed.

Lemma window_ok_place (wp wp' : mgwin) :
  window_place wp' = window_place wp -> window_ok wp -> window_ok wp'.
Proof.
  unfold window_place, window_ok. intros H.
  injection H as Hb Hd _ _ _ _ _ _ _. rewrite Hb, Hd. auto.
Qed.

Lemma update_window_total (mc : Z) (wp : mgwin) (hflag : bool) (st : display) :
  chars_ok = true -> window_ok wp ->
  exists r, update_window mc wp hflag st = Some r
            /\ window_place r.1.1 = window_place wp.
Proof.
  intros Hok Hw. unfold update_window.
  destruct (w_rflag wp =? 0).
  { eexists. split; reflexivity. }
  cbv zeta.
  pose proof (frame_window_place wp) as Hpl.
  pose proof (window_ok_place _ _ Hpl Hw) as Hw'.
  set (wp' := frame_window wp) in *. clearbody wp'.
  apply (bind_some _ _ (fun _ : bool * display => True)).
  { destruct (edit_only wp').
    - apply (bind_some _ _ (fun _ : nat * Z * Z => True)).
      + destruct (seek_dot_total wp' Hw' (ring_fuel wp') (w_linep wp')
                    (w_toprow wp') (top_line_num wp')
                    (ring_dist_bound wp' _ Hw')) as (i' & ln' & ->).
        eexists. split; [reflexivity | exact I].
      + intros [[lp i] ln] _. cbv beta iota zeta.
        apply (bind_some _ _ (fun _ : display => True)).
        * destruct (put_line_total wp' lp ln Hok (line_len wp' lp) 0
                      (vtmove i 0 (or_vflag i (Z.lor VFCHG VFHBAD)
                                     (set_vcolor i CTEXT st))))
            as (s1 & -> & _); [cbn; lia |].
          eexists. split; [reflexivity | exact I].
        * intros s1 _. eexists. split; [reflexivity | exact I].
    - destruct (negb (Z.land (w_rflag wp') (Z.lor WFEDIT WFFULL) =? 0)).
      + apply (bind_some _ _ (fun _ : display => True)).
        * destruct (full_rows_total wp' Hok (Z.to_nat (w_ntrows wp')) (w_linep wp')
                      (w_toprow wp') (top_line_num wp') st) as (s1 & ->).
          eexists. split; [reflexivity | exact I].
        * intros s1 _. eexists. split; [reflexivity | exact I].
      + eexists. split; [reflexivity | exact I]. }
  intros [hf s1] _. cbv beta iota zeta.
  apply (bind_some _ _ (fun _ : display => True)).
  { destruct (negb (Z.land (w_rflag wp') WFMODE =? 0)).
    - destruct (modeline_total wp' mc s1 Hok) as (s2 & -> & _).
      eexists. split; [reflexivity | exact I].
    - eexists. split; [reflexivity | exact I]. }
  intros s2 _. eexists. split; [reflexivity |]. exact Hpl.
Qed.

Lemma update_windows_total (mc : Z) :
  chars_ok = true ->
  forall (ws : list mgwin) (hflag : bool) (st : display),
    Forall window_ok ws ->
    exists r, update_windows mc ws hflag st = Some r
              /\ map window_place r.1.1 = map window_place ws.
Proof.
  intros Hok. induction ws as [| wp ws IH]; intros hflag st Hws.
  - eexists. split; reflexivity.
  - inversion Hws as [| ? ? Hw Hws']; subst. cbn [update_windows].
    destruct (update_window_total mc wp hflag st Hok Hw) as ([[wp1 hf1] s1] & -> & Hp).
    cbn [mbind option_bind fst] in *.
    destruct (IH hf1 s1 Hws') as ([[ws2 hf2] s2] & -> & Hps).
    cbn [mbind option_bind fst] in *.
    eexists. split; [reflexivity |]. cbn [fst map]. rewrite Hp, Hps. reflexivity.
Qed.

(** *** The extended line *)

Lemma vtpute_S (k : nat) (c : Z) (wp : mgwin) (st : display) :
  vtpute (S k) c wp st
  = (let c := Z.land c 255 in
     if vtcol st >=? ncol then Some (vt_text (ncol - 1) 36 st)
     else if c =? 9 then
       let target := ntabstop (vtcol st + lbound st) (b_tabw (w_bufp wp)) in
       do_while (vtpute k 32 wp)
         (fun st => (vtcol st + lbound st <? target) && (vtcol st <? ncol)) k st
     else if ISCTRL c then
       st' ← vtpute k 94 wp st; vtpute k (CCHR c) wp st'
     else if isprint c then
       let st := if vtcol st >=? 0 then vt_text (vtcol st) c st else st in
       Some (set_vtcol (vtcol st + 1) st)
     else
       snd <$> vtputs_loop (fun c' => vtpute k c' wp) (bf_octal c) 0 st).
Proof. reflexivity. Qed.

Lemma vtpute_plain (k : nat) (c : Z) (wp : mgwin) (st : display) :
  plain_char (Z.land c 255) = true ->
  vtpute (S k) c wp st = Some (put_plain_ext (Z.land c 255) st).
Proof.
  intros Hp. destruct (plain_char_spec _ Hp) as (_ & H9 & Hctl & Hprt).
  rewrite vtpute_S. cbv zeta. rewrite H9, Hctl, Hprt. unfold put_plain_ext.
  destruct (vtcol st >=? ncol); [reflexivity |].
  destruct (vtcol st >=? 0); reflexivity.
Qed.

Lemma put_plain_ext_cursor (c : Z) (st : display) :
  lbound (put_plain_ext c st) = lbound st
  /\ vtcol (put_plain_ext c st)
     = (if vtcol st >=? ncol then vtcol st else vtcol st + 1).
Proof.
  unfold put_plain_ext. destruct (vtcol st >=? ncol); [split; reflexivity |].
  destruct (vtcol st >=? 0); split; reflexivity.
Qed.

Lemma tab_loop_ext (k : nat) (wp : mgwin) (target : Z) :
  plain_char 32 = true ->
  forall (n : nat) (st : display),
    vtcol st < ncol -> (1 <= n)%nat ->
    (Z.to_nat (Z.min (target - lbound st) ncol - vtcol st) <= n)%nat ->
    exists st',
      do_while (vtpute (S k) 32 wp)
        (fun st => (vtcol st + lbound st <? target) && (vtcol st <? ncol)) n st
      = Some st'
      /\ vtcol st <= vtcol st' /\ lbound st' = lbound st.
Proof.
  intros Hb. induction n as [| n IH]; intros st Hlt H1 Hn; [lia |].
  cbn [do_while].
  assert (Hb' : plain_char (Z.land 32 255) = true) by exact Hb.
  rewrite (vtpute_plain k 32 wp st Hb'). cbn [mbind option_bind].
  destruct (put_plain_ext_cursor (Z.land 32 255) st) as [Hl Hv].
  rewrite Z.geb_leb in Hv. destruct (Z.leb_spec ncol (vtcol st)); [lia |].
  rewrite Hl, Hv.
  destruct (Z.ltb_spec (vtcol st + 1 + lbound st) target) as [Ht | Ht];
    [destruct (Z.ltb_spec (vtcol st + 1) ncol) as [Hc | Hc] |]; cbn [andb].
  - destruct (IH (put_plain_ext (Z.land 32 255) st)) as (st' & Hrun & Hge & Hlb);
      rewrite ?Hl, ?Hv; try lia.
    exists st'. split; [exact Hrun |]. rewrite Hv, Hl in *. split; [lia | exact Hlb].
  - eexists. split; [reflexivity |]. rewrite Hv, Hl. split; [lia | reflexivity].
  - eexists. split; [reflexivity |]. rewrite Hv, Hl. split; [lia | reflexivity].
Qed.

Lemma vtputs_loop_ext (k : nat) (wp : mgwin) :
  forall (s : list Z) (n : Z) (st : display),
    Forall (fun d => plain_char d = true /\ d <> 0) s ->
    exists r, vtputs_loop (fun c => vtpute (S k) c wp) s n st = Some r
              /\ vtcol st <= vtcol r.2 /\ lbound r.2 = lbound st.
Proof.
  induction s as [| d s IH]; intros n st Hs.
  - exists (n, st). split; [reflexivity |]. cbn [snd]. split; [lia | reflexivity].
  - inversion Hs as [| ? ? [Hd H0] Hs']; subst.
    cbn [vtputs_loop]. destruct (Z.eqb_spec d 0); [contradiction |].
    destruct (plain_char_spec d Hd) as (Hm & _).
    rewrite vtpute_plain by (rewrite Hm; exact Hd). cbn [mbind option_bind].
    destruct (put_plain_ext_cursor (Z.land d 255) st) as [Hl Hv].
    destruct (IH (n + 1) (put_plain_ext (Z.land d 255) st) Hs')
      as (r & Hrun & Hge & Hlb).
    exists r. split; [exact Hrun |]. rewrite Hl, Hv in *.
    destruct (vtcol st >=? ncol); split; try lia; exact Hlb.
Qed.

Lemma vtpute_total (c : Z) (wp : mgwin) (st : display) :
  chars_ok = true -> 0 <= ncol ->
  0 < b_tabw (w_bufp wp) <= ncol + 1 ->
  0 <= vtcol st + lbound st ->
  exists st', vtpute vt_fuel c wp st = Some st'
              /\ vtcol st <= vtcol st' /\ lbound st' = lbound st.
Proof.
  intros Hok Hn Hw Hc.
  destruct (chars_ok_spec Hok) as (Hb & Hcar & _ & _ & Hfold).
  pose proof (land_255_range c) as Hr.
  unfold vt_fuel. rewrite vtpute_S. cbv zeta.
  rewrite Z.geb_leb. destruct (Z.leb_spec ncol (vtcol st)).
  { eexists. split; [reflexivity |]. split; [cbn; lia | reflexivity]. }
  destruct (Z.eqb_spec (Z.land c 255) 9) as [H9 | H9].
  - pose proof (ntabstop_next (vtcol st + lbound st) _ Hc (proj1 Hw)) as [Ht _].
    apply tab_loop_ext; [exact Hb | lia | lia | lia].
  - destruct (ISCTRL (Z.land c 255)) eqn:Hctl.
    + assert (Hcar' : plain_char (Z.land 94 255) = true) by exact Hcar.
      rewrite (vtpute_plain _ 94 wp st Hcar'). cbn [mbind option_bind].
      rewrite vtpute_plain by (apply Hfold; assumption).
      destruct (put_plain_ext_cursor (Z.land 94 255) st) as [Hl1 Hv1].
      destruct (put_plain_ext_cursor (Z.land (CCHR (Z.land c 255)) 255)
                  (put_plain_ext (Z.land 94 255) st)) as [Hl2 Hv2].
      eexists. split; [reflexivity |]. rewrite Hl2, Hl1, Hv2, Hv1.
      split; [| reflexivity].
      destruct (vtcol st >=? ncol);
        [destruct (vtcol st >=? ncol) | destruct (vtcol st + 1 >=? ncol)]; lia.
    + destruct (isprint (Z.land c 255)) eqn:Hprt.
      * eexists. split; [reflexivity |].
        destruct (vtcol st >=? 0); cbn; split; (lia || reflexivity).
      * destruct (vtputs_loop_ext (Z.to_nat ncol) wp (bf_octal (Z.land c 255)) 0 st)
          as (r & Hrun & Hge & Hlb); [apply bf_octal_plain; assumption |].
        rewrite Hrun. cbn [fmap option_fmap option_map].
        eexists. split; [reflexivity |]. split; [exact Hge | exact Hlb].
Qed.

Lemma attr_fill_ext_cursor (n : nat) :
  forall (old sel : Z) (st : display),
    vtcol (attr_fill_ext n old sel st) = vtcol st
    /\ lbound (attr_fill_ext n old sel st) = lbound st.
Proof.
  induction n as [| n IH]; intros old sel st; [split; reflexivity |].
  cbn [attr_fill_ext]. destruct (old <? vtcol st); [| split; reflexivity].
  destruct ((old >=? 0) && (old <? ncol)).
  - destruct (IH (old + 1) sel (vt_attr old sel st)) as [-> ->]. split; reflexivity.
  - apply IH.
Qed.

Lemma put_line_ext_total (wp : mgwin) (lp : nat) (line_num : Z) :
  chars_ok = true -> 0 <= ncol ->
  0 < b_tabw (w_bufp wp) <= ncol + 1 ->
  forall (n : nat) (j : Z) (st : display),
    0 <= vtcol st + lbound st ->
    exists st', put_line_ext n wp lp line_num j st = Some st'.
Proof.
  intros Hok Hn Hw. induction n as [| n IH]; intros j st Hc.
  - exists st. reflexivity.
  - cbn [put_line_ext].
    destruct (vtpute_total (lgetc (w_bufp wp) lp j) wp st Hok Hn Hw Hc)
      as (s1 & -> & Hge & Hlb).
    cbn [mbind option_bind]. apply IH.
    destruct (attr_fill_ext_cursor (Z.to_nat (vtcol s1 - vtcol st)) (vtcol st)
                (in_selection wp line_num j) s1) as [-> ->]. lia.
Qed.

Lemma updext_total (currow curcol : Z) (st : display) :
  chars_ok = true -> 0 <= ncol ->
  (let cw := nth (curwp st) (wheadp st) mgwin0 in
   0 < b_tabw (w_bufp cw) <= ncol + 1) ->
  exists st', updext currow curcol st = Some st'.
Proof.
  intros Hok Hn Hw. unfold updext. destruct (ncol <? 2); [eexists; reflexivity |].
  cbv zeta in *.
  match goal with
  | |- context [put_line_ext ?n ?cw ?lp ?ln 0 ?s] =>
      destruct (put_line_ext_total cw lp ln Hok Hn Hw n 0 s) as (s1 & ->);
        [cbn; lia |]
  end.
  cbn [mbind option_bind]. eexists. reflexivity.
Qed.

Lemma deext_rows_total (k : nat) (wp : mgwin) (curcol : Z) :
  chars_ok = true ->
  forall (n : nat) (lp : nat) (i line_num : Z) (st : display),
    exists r, deext_rows n k wp curcol lp i line_num st = Some r.
Proof.
  intros Hok. induction n as [| n IH]; intros lp i ln st.
  - eexists. reflexivity.
  - cbn [deext_rows].
    match goal with
    | |- exists r, mbind _ ?m = Some r =>
        assert (Hm : exists s1, m = Some s1)
    end.
    { destruct (negb (Z.land (v_flag (vrow st i)) VFEXT =? 0));
        [| eexists; reflexivity].
      cbv zeta.
      destruct (negb (k =? curwp (or_vflag i VFCHG st))%nat
                || negb (lp =? w_dotp wp)%nat || (curcol <? ncol - 1));
        [| eexists; reflexivity].
      destruct (put_line_total wp lp ln Hok (line_len wp lp) 0
                  (vtmove i 0 (or_vflag i VFCHG st))) as (s1 & -> & _);
        [cbn; lia |].
      cbn [mbind option_bind]. eexists. reflexivity. }
    destruct Hm as (s1 & ->). cbn [mbind option_bind]. apply IH.
Qed.

Lemma deext_windows_total (curcol : Z) :
  chars_ok = true ->
  forall (ws : list mgwin) (k : nat) (st : display),
    exists st', deext_windows ws k curcol st = Some st'.
Proof.
  intros Hok. induction ws as [| wp ws IH]; intros k st.
  - eexists. reflexivity.
  - cbn [deext_windows].
    destruct (deext_rows_total k wp curcol Hok (Z.to_nat (w_ntrows wp))
                (w_linep wp) (w_toprow wp) (top_line_num wp) st) as ([i s1] & ->).
    cbn [mbind option_bind]. apply IH.
Qed.

(** *** The whole of update *)

Lemma windows_ok_place (ws ws' : list mgwin) :
  map window_place ws' = map window_place ws ->
  Forall window_ok ws -> Forall window_ok ws'.
Proof.
  revert ws'. induction ws as [| wp ws IH]; intros [| wp' ws'] H Hok;
    try discriminate H; [constructor |].
  inversion Hok as [| ? ? Hw Hws]; subst. cbn [map] in H.
  pose proof (f_equal (List.hd (window_place wp)) H) as Hp.
  pose proof (f_equal (@List.tl _) H) as Hps. cbn [List.hd List.tl] in Hp, Hps.
  constructor.
  - eapply window_ok_place; [exact Hp | exact Hw].
  - apply IH; assumption.
Qed.

Lemma nth_window_place (ws ws' : list mgwin) (k : nat) :
  map window_place ws' = map window_place ws ->
  window_place (nth k ws' mgwin0) = window_place (nth k ws mgwin0).
Proof.
  intros H.
  rewrite <- (map_nth window_place ws' mgwin0 k).
  rewrite <- (map_nth window_place ws mgwin0 k). rewrite H. reflexivity.
Qed.

Lemma update_flags_place (st : display) :
  map window_place (wheadp (update_flags st)) = map window_place (wheadp st)
  /\ curwp (update_flags st) = curwp st.
Proof.
  unfold update_flags. cbv zeta. cbn [wheadp curwp set_wheadp].
  split; [| reflexivity].
  assert (He : forall ws, map window_place (map escalate_selection ws)
                          = map window_place ws).
  { intros ws. rewrite map_map. apply map_ext. intros wp.
    unfold escalate_selection. destruct (mark_set wp && negb (w_rflag wp =? 0));
      reflexivity. }
  assert (Ho : forall bits ws, map window_place (map (or_rflag bits) ws)
                               = map window_place ws).
  { intros bits ws. rewrite map_map. apply map_ext. reflexivity. }
  rewrite He.
  destruct (linenos st || colnos st); [rewrite Ho |];
    (destruct (sgarbf st); [rewrite Ho |]); reflexivity.
Qed.

Lemma nth_window_ok (ws : list mgwin) (k : nat) :
  Forall window_ok ws -> window_ok (nth k ws mgwin0).
Proof.
  intros H. destruct (nth_in_or_default k ws mgwin0) as [Hin | ->].
  - rewrite Forall_forall in H. apply H, Hin.
  - unfold window_ok. cbn. lia.
Qed.

Lemma update_build_total (mc : Z) (st : display) :
  chars_ok = true -> 0 <= ncol ->
  Forall window_ok (wheadp st) ->
  (let cw := nth (curwp st) (wheadp st) mgwin0 in
   0 < b_tabw (w_bufp cw) <= ncol + 1) ->
  exists hflag currow curcol st',
    update_build mc st = Some (hflag, currow, curcol, st')
    /\ map window_place (wheadp st') = map window_place (wheadp st)
    /\ curwp st' = curwp st.
Proof.
  intros Hok Hn Hws Htab. cbv zeta in Htab. unfold update_build. cbv zeta.
  destruct (update_flags_place st) as [Hfp Hfc].
  pose proof (windows_ok_place _ _ Hfp Hws) as Hws1.
  set (st1 := update_flags st) in *.
  destruct (update_windows_total mc Hok (wheadp st1) false st1 Hws1)
    as ([[ws hf] s2] & Hrun & Hp2).
  cbn [fst] in Hp2. rewrite Hrun. cbn [mbind option_bind].
  destruct (update_windows_built mc (wheadp st1) false st1 _ Hrun) as (Hb2 & _ & _).
  cbn [snd] in Hb2. destruct (built_fields _ _ Hb2) as (_ & _ & _ & _ & _ & _ & Hc2 & _).
  pose proof (windows_ok_place _ _ Hp2 Hws1) as Hws2.
  set (s3 := set_wheadp ws s2).
  assert (Hw3 : wheadp s3 = ws) by reflexivity.
  assert (Hc3 : curwp s3 = curwp st) by (unfold s3; cbn [curwp set_wheadp]; congruence).
  assert (Hplace : map window_place ws = map window_place (wheadp st)) by congruence.
  assert (Hcur : exists r c, cursor_place s3 = Some (r, c)).
  { unfold cursor_place. cbv zeta. rewrite Hw3, Hc3.
    pose proof (nth_window_ok ws (curwp st) Hws2) as Hcw.
    destruct (cursor_row_total _ Hcw (ring_fuel (nth (curwp st) ws mgwin0))
                (w_linep (nth (curwp st) ws mgwin0))
                (w_toprow (nth (curwp st) ws mgwin0))
                (ring_dist_bound _ _ Hcw)) as (r' & ->).
    cbn [mbind option_bind]. eexists _, _. reflexivity. }
  destruct Hcur as (currow & curcol & ->). cbn [mbind option_bind].
  assert (Hext : exists s4,
             (if curcol >=? ncol - 1
              then updext currow curcol (or_vflag currow (Z.lor VFEXT VFCHG) s3)
              else Some (set_lbound 0 s3)) = Some s4
             /\ wheadp s4 = ws /\ curwp s4 = curwp st).
  { destruct (curcol >=? ncol - 1).
    - destruct (updext_total currow curcol
                  (or_vflag currow (Z.lor VFEXT VFCHG) s3) Hok Hn) as (s4 & Hu).
      { cbv zeta. cbn [curwp wheadp or_vflag set_vrow set_vscreen].
        rewrite Hw3, Hc3.
        pose proof (nth_window_place _ _ (curwp st) Hplace) as Hnp.
        unfold window_place in Hnp. injection Hnp as -> _ _ _ _ _ _ _ _.
        exact Htab. }
      exists s4. split; [exact Hu |].
      destruct (built_fields _ _ (updext_built _ _ _ _ Hu))
        as (_ & _ & _ & _ & _ & Hw4 & Hc4 & _).
      rewrite Hw4, Hc4. split; [exact Hw3 | exact Hc3].
    - eexists. split; [reflexivity |]. split; [exact Hw3 | exact Hc3]. }
  destruct Hext as (s4 & -> & Hw4 & Hc4). cbn [mbind option_bind].
  destruct (deext_windows_total curcol Hok (wheadp s4) 0 s4) as (s5 & Hd).
  rewrite Hd. cbn [mbind option_bind].
  destruct (built_fields _ _ (deext_windows_built _ _ _ _ _ Hd))
    as (_ & _ & _ & _ & _ & Hw5 & Hc5 & _).
  exists hf, currow, curcol, s5. split; [reflexivity |].
  rewrite Hw5, Hc5, Hw4, Hc4. split; [exact Hplace | reflexivity].
Qed.

(** update on a display whose screens are sized for the terminal and whose
    windows have their dot in their buffer. *)
Lemma update_total (mc : Z) (st : display) :
  chars_ok = true -> screens_ok st ->
  Forall window_ok (wheadp st) ->
  (let cw := nth (curwp st) (wheadp st) mgwin0 in
   0 < b_tabw (w_bufp cw) <= ncol + 1) ->
  exists st',
    update mc st = Returned st'
    /\ screens_ok st'
    /\ map window_place (wheadp st') = map window_place (wheadp st)
    /\ curwp st' = curwp st
    /\ (charswaiting = true -> st' = st)
    /\ (charswaiting = false ->
        sgarbf st' = false
        /\ Forall (fun wp => w_rflag wp = 0) (wheadp st')
        /\ (forall i, 0 <= i < nrow - 1 -> flag_clear VFCHG (vrow st' i))
        /\ (sgarbf st = true -> forall i, 0 <= i < nrow - 1 -> row_done st' i)).
Proof.
  intros Hok Hscr Hws Htab. unfold update.
  destruct charswaiting.
  { exists st. split; [reflexivity |]. split; [exact Hscr |].
    split; [reflexivity |]. split; [reflexivity |].
    split; [reflexivity | discriminate]. }
  assert (Hn : 0 <= ncol) by (destruct Hscr as (_ & H & _); exact H).
  destruct (update_build_total mc st Hok Hn Hws Htab)
    as (hf & currow & curcol & s1 & Hb & Hpl & Hcw).
  rewrite Hb.
  destruct (update_build_frame mc st hf currow curcol s1 Hb)
    as (Hs1 & Hg1 & _ & _ & _ & Hfl & _).
  destruct (reconcile_returns hf currow curcol s1 (Hs1 Hscr))
    as (s2 & Hr & Hs2 & Hwp & Hg2 & Hrows).
  exists s2. split; [exact Hr |]. split; [exact Hs2 |].
  assert (Hwh : wheadp s2 = wheadp s1 /\ curwp s2 = curwp s1).
  { unfold window_part in Hwp. injection Hwp as _ _ _ _ _ _ Hw Hc. auto. }
  destruct Hwh as [Hw Hc].
  split; [rewrite Hw; exact Hpl |]. split; [congruence |].
  split; [discriminate |]. intros _.
  split; [exact Hg2 |]. split; [rewrite Hw; exact Hfl |].
  split; [intros j Hj; destruct (Hrows j Hj) as [Hfc _]; exact Hfc |].
  intros Hg j Hj. destruct (Hrows j Hj) as [_ Hdone]. apply Hdone.
  left. congruence.
Qed.
(** ** What a cycle sends *)

Lemma sends_refl (Q : ttyop -> Prop) (st : display) : sends Q st st.
Proof. exists []. rewrite app_nil_r. split; [reflexivity | constructor]. Qed.

Lemma sends_trans (Q : ttyop -> Prop) (st1 st2 st3 : display) :
  sends Q st1 st2 -> sends Q st2 st3 -> sends Q st1 st3.
Proof.
  intros (a & Ha & Qa) (b & Hb & Qb). exists (a ++ b).
  split; [rewrite Hb, Ha, app_assoc; reflexivity |].
  apply Forall_app. split; assumption.
Qed.

Lemma sends_emit (Q : ttyop -> Prop) (op : ttyop) (st : display) :
  Q op -> sends Q st (emit op st).
Proof.
  intros H. exists [op]. split; [reflexivity |]. constructor; [exact H | constructor].
Qed.

Lemma sends_same (Q : ttyop -> Prop) (st st' : display) :
  tty st' = tty st -> sends Q st st'.
Proof.
  intros H. exists []. rewrite app_nil_r. split; [exact H | constructor].
Qed.

Lemma sends_weaken (Q Q' : ttyop -> Prop) (st st' : display) :
  (forall op, Q op -> Q' op) -> sends Q st st' -> sends Q' st st'.
Proof.
  intros Himp (ops & H & HQ). exists ops. split; [exact H |].
  eapply Forall_impl; [| exact HQ]. exact Himp.
Qed.

Lemma sends_for {S : Type} (Q : ttyop -> Prop) (get : S -> display)
    (body : Z -> S -> S) :
  (forall col s, sends Q (get s) (get (body col s))) ->
  forall (n : nat) (col hi : Z) (s : S),
    sends Q (get s) (get (for_lt n col hi body s)).
Proof.
  intros Hbody n col hi s.
  apply (for_lt_inv (fun s' => sends Q (get s) (get s'))).
  - intros c s' Hs. eapply sends_trans; [exact Hs | apply Hbody].
  - apply sends_refl.
Qed.

Lemma sends_ttputc (Q : ttyop -> Prop) (c : Z) (st : display) :
  Q (TtPutc c) -> sends Q st (ttputc c st).
Proof.
  intros H. exists [TtPutc c]. split; [reflexivity |].
  constructor; [exact H | constructor].
Qed.

Lemma sends_put_cells (Q : ttyop -> Prop) (vvp : video) (lo hi : Z) (st : display) :
  (forall c, Q (TtPutc c)) -> sends Q st (put_cells vvp lo hi st).
Proof.
  intros H. unfold put_cells, for_range.
  apply (sends_for Q (fun s => s)). intros col s. apply sends_ttputc, H.
Qed.

Lemma sends_put_cells_attr (Q : ttyop -> Prop) (vvp : video) (st : display) :
  (forall c, Q (TtPutc c)) -> (forall c, Q (TtColor c)) ->
  sends Q st (put_cells_attr vvp st).
Proof.
  intros Hp Hc. unfold put_cells_attr, for_range.
  match goal with
  | |- sends _ _ (snd (for_lt ?n ?lo ?hi ?body ?s0)) =>
      assert (Hbody : forall col (s : Z * display), sends Q s.2 (body col s).2);
        [| exact (sends_for Q (fun s : Z * display => s.2) body Hbody n lo hi s0)]
  end.
  intros col [cur s]. cbv zeta. cbn [snd].
  destruct (negb (chr (v_attr vvp) col =? cur)); cbn [snd].
  - eapply sends_trans; [apply sends_emit, Hc | apply sends_ttputc, Hp].
  - apply sends_ttputc, Hp.
Qed.

(** Whatever uline does for a row, it calls the driver for that row only,
    and never inserts or deletes lines, erases the page or flushes. *)
Lemma uline_sends (row : Z) (vvp : video) (pvp : pvp_ref) (st : display) :
  sends (uline_op row) st (uline row vvp pvp st).
Proof.
  assert (Hp : forall c, uline_op row (TtPutc c)) by (intros; exact I).
  assert (Hc : forall c, uline_op row (TtColor c)) by (intros; exact I).
  assert (Hm : forall c, uline_op row (TtMove row c)) by (intros; reflexivity).
  unfold uline. cbv zeta.
  destruct ((v_color vvp =? CMODE) || has_selection vvp
            || negb (v_color vvp =? v_color (pvp_get pvp st))
            || memdiff ncol (v_attr vvp) (v_attr (pvp_get pvp st))).
  - match goal with
    | |- sends _ _ (pvp_set _ _ ?s) =>
        apply (sends_trans _ st s);
          [| apply sends_same; apply (proj1 (pvp_set_frame _ _ _))]
    end.
    destruct (v_color vvp =? CMODE).
    + eapply sends_trans; [apply sends_emit, Hm |].
      eapply sends_trans; [apply sends_emit, Hc |].
      eapply sends_trans; [apply sends_put_cells, Hp | apply sends_emit, Hc].
    + eapply sends_trans; [apply sends_emit, Hm |].
      eapply sends_trans; [apply sends_put_cells_attr; assumption |].
      apply sends_emit, Hc.
  - destruct (left_match (Z.to_nat ncol) vvp (pvp_get pvp st) 0 =? ncol);
      [apply sends_refl |].
    destruct (right_match (Z.to_nat ncol) vvp (pvp_get pvp st)
                (left_match (Z.to_nat ncol) vvp (pvp_get pvp st) 0) ncol false)
      as [end_ nbflag].
    destruct (negb nbflag && (v_color vvp =? CTEXT)).
    + match goal with
      | |- sends _ _ (if ?c then _ else _) => destruct c
      end.
      * eapply sends_trans; [apply sends_emit, Hm |].
        eapply sends_trans; [apply sends_emit, Hc |].
        eapply sends_trans; [apply sends_put_cells, Hp | apply sends_emit; exact I].
      * eapply sends_trans; [apply sends_emit, Hm |].
        eapply sends_trans; [apply sends_emit, Hc | apply sends_put_cells, Hp].
    + eapply sends_trans; [apply sends_emit, Hm |].
      eapply sends_trans; [apply sends_emit, Hc | apply sends_put_cells, Hp].
Qed.

(** The calls of the repaint of a garbage screen: the move home and the
    erase of the page, the rows, the move to the cursor and the flush. *)
Lemma update_garbage_sends (currow curcol : Z) (st : display) :
  exists ops,
    tty (update_garbage currow curcol st)
    = tty st ++ TtMove 0 0 :: TtEeop :: ops
               ++ [TtMove currow (curcol - lbound st); TtFlush]
    /\ Forall (fun op => exists row, 0 <= row < nrow - 1 /\ uline_op row op) ops.
Proof.
  unfold update_garbage. cbv zeta.
  set (s0 := tteeop (ttmove 0 0 _)).
  assert (Ht0 : tty s0 = tty st ++ [TtMove 0 0; TtEeop]).
  { unfold s0. cbn [tty tteeop ttmove emit set_tty set_sgarbf set_epresf set_tttop
                      set_ttbot set_tthue]. rewrite <- app_assoc. reflexivity. }
  assert (Hl0 : lbound s0 = lbound st) by reflexivity.
  set (Q := fun op => exists row, 0 <= row < nrow - 1 /\ uline_op row op).
  set (body := fun (i : Z) (s : display) => ucopy_row i (uline i (vrow s i) Blanks s)).
  assert (Hloop : forall n col s,
            col >= 0 ->
            sends Q s (for_lt n col (nrow - 1) body s)
            /\ lbound (for_lt n col (nrow - 1) body s) = lbound s).
  { induction n as [| n IH]; intros col s Hcol; cbn [for_lt].
    - split; [apply sends_refl | reflexivity].
    - destruct (Z.ltb_spec col (nrow - 1)); [| split; [apply sends_refl | reflexivity]].
      destruct (IH (col + 1) (body col s) ltac:(lia)) as [I1 I2].
      assert (Hb : sends Q s (body col s) /\ lbound (body col s) = lbound s).
      { unfold body.
        destruct (ucopy_row_frame col (uline col (vrow s col) Blanks s))
          as (_ & _ & _ & _ & Htty & _).
        split.
        - eapply sends_trans; [| apply sends_same, Htty].
          eapply sends_weaken; [| apply uline_sends].
          intros op Hop. exists col. split; [lia | exact Hop].
        - pose proof (uline_window_part col (vrow s col) Blanks s) as Hwu.
          unfold window_part in Hwu. injection Hwu as _ _ Hl' _ _ _ _ _.
          exact Hl'. }
      destruct Hb as [B1 B2].
      split; [eapply sends_trans; eassumption | congruence]. }
  destruct (Hloop (Z.to_nat (nrow - 1 - 0)) 0 s0 ltac:(lia)) as [(ops & Hops & HQ) Hlb].
  fold (for_range 0 (nrow - 1) body s0) in Hops, Hlb.
  exists ops. split; [| exact HQ].
  cbn [tty ttflush ttmove emit set_tty]. rewrite Hops, Ht0, Hlb, Hl0.
  rewrite <- !app_assoc. reflexivity.
Qed.



(** A cycle on a garbage screen. *)
Lemma garbage_cycle (mc : Z) (st : display) :
  chars_ok = true -> screens_ok st ->
  Forall window_ok (wheadp st) ->
  0 < b_tabw (w_bufp (nth (curwp st) (wheadp st) mgwin0)) <= ncol + 1 ->
  charswaiting = false -> sgarbf st = true ->
  exists st' ops currow col,
    update mc st = Returned st'
    /\ emitted st st' = TtMove 0 0 :: TtEeop :: ops ++ [TtMove currow col; TtFlush]
    /\ Forall (fun op => exists row, 0 <= row < nrow - 1 /\ uline_op row op) ops
    /\ (forall i, 0 <= i < nrow - 1 -> row_done st' i)
    /\ sgarbf st' = false.
Proof.
  intros Hok Hscr Hws Htab Hwait Hg.
  assert (Hn : 0 <= ncol) by (destruct Hscr as (_ & H & _); exact H).
  destruct (update_build_total mc st Hok Hn Hws Htab)
    as (hf & currow & curcol & s1 & Hb & _ & _).
  destruct (update_build_frame mc st hf currow curcol s1 Hb)
    as (Hs1 & Hg1 & _ & _ & Ht1 & _ & _).
  assert (Hrun : update mc st = Returned (update_garbage currow curcol s1)).
  { unfold update. rewrite Hwait, Hb. unfold reconcile. rewrite Hg1, Hg. reflexivity. }
  destruct (update_garbage_sends currow curcol s1) as (ops & Hops & HQ).
  destruct (update_garbage_done currow curcol s1 (Hs1 Hscr)) as (_ & _ & Hg2 & Hrows).
  exists (update_garbage currow curcol s1), ops, currow, (curcol - lbound s1).
  split; [exact Hrun |]. split.
  { apply emitted_app. rewrite Hops, Ht1. reflexivity. }
  split; [exact HQ |]. split; [exact Hrows | exact Hg2].
Qed.


Section Toggle_proofs.
Context {D : Defs}.

Lemma toggled_twice (f n : Z) (flag : bool) :
  Z.land f FFARG = 0 -> toggled f n (toggled f n flag) = flag.
Proof.
  intros H. unfold toggled. rewrite H. cbn. apply negb_involutive.
Qed.

(** A display that differs from [st] in the mode flags and is garbage. *)
Lemma toggled_cycle (mc : Z) (st t : display) :
  chars_ok = true -> screens_ok st ->
  Forall window_ok (wheadp st) ->
  0 < b_tabw (w_bufp (nth (curwp st) (wheadp st) mgwin0)) <= ncol + 1 ->
  charswaiting = false ->
  vscreen t = vscreen st -> pscreen t = pscreen st -> scores t = scores st ->
  wheadp t = wheadp st -> curwp t = curwp st -> sgarbf t = true ->
  exists st' ops,
    update mc t = Returned st'
    /\ emitted t st' = TtMove 0 0 :: TtEeop :: ops
    /\ (forall i, 0 <= i < nrow - 1 -> row_done st' i)
    /\ sgarbf st' = false.
Proof.
  intros Hok Hscr Hws Htab Hwait Hv Hp Hs Hw Hc Hg.
  assert (Hscr' : screens_ok t).
  { apply (screens_ok_eq st t); [exact Hv | congruence | congruence | exact Hscr]. }
  destruct (garbage_cycle mc t Hok Hscr') as (st' & ops & r & c & H1 & H2 & _ & H4 & H5);
    try (rewrite ?Hw, ?Hc; assumption).
  exists st', (ops ++ [TtMove r c; TtFlush]).
  split; [exact H1 |]. split; [exact H2 |]. split; [exact H4 | exact H5].
Qed.


End Toggle_proofs.

(** ** mouse.c: the current window *)

Lemma cur_window_set (wp : mgwin) (st : display) :
  (curwp st < length (wheadp st))%nat ->
  cur_window (set_cur_window wp st) = wp.
Proof.
  intros Hk. unfold cur_window, set_cur_window. cbn [wheadp curwp set_wheadp].
  apply nth_lookup_Some with (d := mgwin0). apply list_lookup_insert_eq. exact Hk.
Qed.

Lemma set_cur_window_other (wp : mgwin) (st : display) (k : nat) :
  k <> curwp st ->
  wheadp (set_cur_window wp st) !! k = wheadp st !! k.
Proof.
  intros Hk. unfold set_cur_window. cbn [wheadp set_wheadp].
  apply list_lookup_insert_ne. congruence.
Qed.

Lemma set_cur_window_length (wp : mgwin) (st : display) :
  length (wheadp (set_cur_window wp st)) = length (wheadp st).
Proof. unfold set_cur_window. cbn [wheadp set_wheadp]. apply length_insert. Qed.

Lemma set_cur_window_twice (wp wp' : mgwin) (st : display) :
  set_cur_window wp' (set_cur_window wp st) = set_cur_window wp' st.
Proof.
  unfold set_cur_window. cbn [wheadp curwp set_wheadp].
  rewrite list_insert_insert_eq. reflexivity.
Qed.

Lemma set_cur_window_id (st : display) :
  (curwp st < length (wheadp st))%nat ->
  set_cur_window (cur_window st) st = st.
Proof.
  intros Hk. unfold set_cur_window, cur_window.
  rewrite list_insert_id.
  - destruct st; reflexivity.
  - destruct (lookup_lt_is_Some_2 _ _ Hk) as [w Hw].
    rewrite Hw. f_equal. symmetry. apply nth_lookup_Some with (d := mgwin0).
    exact Hw.
Qed.

Section Mouse_proofs.
Context {D : Defs}.

(** ** scroll_view_only *)

Lemma scroll_forw_spec (bp : buffer) :
  forall (n : nat) (lp : nat),
    (lp < b_headp bp)%nat ->
    scroll_forw n bp (b_headp bp) lp = Nat.min (lp + n) (b_headp bp - 1).
Proof.
  induction n as [| n IH]; intros lp Hlp; cbn [scroll_forw]; [lia |].
  unfold lforw. destruct (Nat.ltb_spec lp (b_headp bp)); [| lia].
  destruct (Nat.eqb_spec (S lp) (b_headp bp)) as [He | Hne]; [lia |].
  fold (lforw bp lp). unfold lforw. destruct (Nat.ltb_spec lp (b_headp bp)); [| lia].
  rewrite IH by lia. lia.
Qed.

Lemma scroll_back_spec (bp : buffer) :
  forall (n : nat) (lp : nat),
    (lp < b_headp bp)%nat ->
    scroll_back n bp (b_headp bp) lp = (lp - n)%nat.
Proof.
  induction n as [| n IH]; intros lp Hlp; cbn [scroll_back]; [lia |].
  destruct lp as [| p]; cbn [lback].
  - rewrite Nat.eqb_refl. reflexivity.
  - destruct (Nat.eqb_spec p (b_headp bp)) as [He | Hne]; [lia |].
    rewrite IH by lia. lia.
Qed.

(** X16.  Scrolling with the wheel moves the view and nothing else:
    scroll_view_only returns TRUE and leaves dot, mark, buffer and geometry
    of the current window, every other window and the rest of the display
    as they were.  The top line moves by [n] lines but stops at the first
    and at the last line of the buffer, so it never becomes the header;
    when it moves, the window is flagged WFFULL and WFSAVE, and when it
    cannot move nothing is changed at all. *)
Theorem scroll_view_keeps_dot (n : Z) (st : display) (m : mouse) :
  (curwp st < length (wheadp st))%nat ->
  curbp m = w_bufp (cur_window st) ->
  (w_linep (cur_window st) < b_headp (curbp m))%nat ->
  let r := scroll_view_only n st m in
  let wp := cur_window st in
  let wp' := cur_window r.2 in
  r.1 = TRUE
  /\ r.2 = set_cur_window wp' st
  /\ window_place wp' = window_place wp
  /\ w_frame wp' = w_frame wp
  /\ Z.of_nat (w_linep wp')
     = Z.max 0 (Z.min (Z.of_nat (w_linep wp) + n) (Z.of_nat (b_headp (curbp m)) - 1))
  /\ (w_linep wp' <> w_linep wp ->
      w_rflag wp' = Z.lor (w_rflag wp) (Z.lor WFFULL WFSAVE))
  /\ (w_linep wp' = w_linep wp -> r.2 = st).
Proof.
  intros Hk Hbp Htop r wp wp'. subst r wp'. unfold scroll_view_only.
  destruct (Z.eqb_spec n 0) as [-> | Hn0].
  { cbn [fst snd]. subst wp. rewrite set_cur_window_id by exact Hk.
    repeat split; try reflexivity; lia. }
  rewrite Hbp in *. fold wp in Htop |- *.
  set (lp := if n >? 0 then scroll_forw _ _ _ _ else scroll_back _ _ _ _).
  assert (Hlp : Z.of_nat lp
                = Z.max 0 (Z.min (Z.of_nat (w_linep wp) + n)
                                 (Z.of_nat (b_headp (w_bufp wp)) - 1))).
  { subst lp. destruct (Z.gtb_spec n 0).
    - rewrite scroll_forw_spec by exact Htop. lia.
    - rewrite scroll_back_spec by exact Htop. lia. }
  destruct (Nat.eqb_spec lp (w_linep wp)) as [He | Hne]; cbn [negb fst snd].
  - subst wp. rewrite set_cur_window_id by exact Hk.
    repeat split; try reflexivity; [lia | intros Hc; contradiction].
  - rewrite cur_window_set by exact Hk.
    repeat split; try reflexivity; [exact Hlp | intros Hc; contradiction].
Qed.

(** ** col_to_offset *)

Lemma offset_loop_spec (bp : buffer) (lp : nat) (x tabw : Z) :
  forall (n : nat) (i : nat),
    Z.of_nat i + Z.of_nat n = llength bp lp ->
    exists r : nat,
      offset_loop n bp lp x tabw (Z.of_nat i) (offset_col bp lp tabw i) = Z.of_nat r
      /\ (i <= r)%nat /\ Z.of_nat r <= llength bp lp
      /\ (forall j, (i <= j < r)%nat -> offset_col bp lp tabw j < x)
      /\ (Z.of_nat r < llength bp lp -> x <= offset_col bp lp tabw r).
Proof.
  induction n as [| n IH]; intros i Hi.
  - exists i. cbn [offset_loop]. repeat split; try lia.
  - cbn [offset_loop]. destruct (Z.ltb_spec (Z.of_nat i) (llength bp lp)); [| lia].
    destruct (Z.geb_spec (offset_col bp lp tabw i) x) as [Hge | Hlt].
    + exists i. repeat split; try lia.
    + destruct (IH (S i) ltac:(lia)) as (r & Hr & H1 & H2 & H3 & H4).
      exists r. cbn [offset_col] in Hr.
      replace (Z.of_nat (S i)) with (Z.of_nat i + 1) in Hr by lia.
      split; [exact Hr |]. split; [lia |]. split; [exact H2 |].
      split; [| exact H4].
      intros j Hj. destruct (Nat.eq_dec j i) as [-> | Hne]; [lia |].
      apply H3. lia.
Qed.

Lemma offset_col_grows (bp : buffer) (lp : nat) (tabw : Z) :
  0 < tabw ->
  forall n : nat,
    0 <= offset_col bp lp tabw n
    /\ offset_col bp lp tabw n < offset_col bp lp tabw (S n).
Proof.
  intros Hw. induction n as [| n [IH0 IH]].
  - split; [cbn [offset_col]; lia |].
    cbn [offset_col]. pose proof (ntabstop_next 0 tabw ltac:(lia) Hw) as [Ht _].
    destruct (_ =? 9); [lia |]. destruct (ISCTRL _); lia.
  - assert (H0 : 0 <= offset_col bp lp tabw (S n)) by lia.
    split; [exact H0 |].
    change (offset_col bp lp tabw (S (S n)))
      with (let c := lgetc bp lp (Z.of_nat (S n)) in
            let col := offset_col bp lp tabw (S n) in
            if c =? 9 then ntabstop col tabw
            else if ISCTRL c then col + 2 else col + 1).
    cbv zeta.
    pose proof (ntabstop_next (offset_col bp lp tabw (S n)) tabw H0 Hw) as [Ht _].
    destruct (_ =? 9); [lia |]. destruct (ISCTRL _); lia.
Qed.

Lemma offset_col_mono (bp : buffer) (lp : nat) (tabw : Z) :
  0 < tabw ->
  forall i j : nat, (i < j)%nat -> offset_col bp lp tabw i < offset_col bp lp tabw j.
Proof.
  intros Hw i j Hij. induction j as [| j IH]; [lia |].
  destruct (offset_col_grows bp lp tabw Hw j) as [_ Hg].
  destruct (Nat.eq_dec i j) as [-> | Hne]; [exact Hg |].
  specialize (IH ltac:(lia)). lia.
Qed.

Lemma dot_col_S (wp : mgwin) (lp : nat) :
  forall (n : nat) (i col : Z),
    cursor_col (S n) (set_w_doto (i + Z.of_nat (S n)) wp) lp i col
    = next_col (lgetc (w_bufp wp) lp (i + Z.of_nat n))
        (cursor_col n (set_w_doto (i + Z.of_nat n) wp) lp i col)
        (b_tabw (w_bufp wp)).
Proof.
  induction n as [| n IH]; intros i col.
  - rewrite cursor_col_S by (cbn [w_doto set_w_doto]; lia).
    cbn [cursor_col w_bufp set_w_doto]. rewrite Z.add_0_r. reflexivity.
  - rewrite (cursor_col_S (S n)) by (cbn [w_doto set_w_doto]; lia).
    cbn [w_bufp set_w_doto].
    replace (i + Z.of_nat (S (S n))) with (i + 1 + Z.of_nat (S n)) by lia.
    rewrite IH.
    replace (i + 1 + Z.of_nat n) with (i + Z.of_nat (S n)) by lia.
    f_equal.
    replace (i + 1 + Z.of_nat (S n)) with (i + Z.of_nat (S (S n))) by lia.
    replace (i + Z.of_nat (S n)) with (i + 1 + Z.of_nat n) by lia.
    rewrite (cursor_col_S n _ lp i) by (cbn [w_doto set_w_doto]; lia).
    reflexivity.
Qed.

Lemma dot_col_offset_col (wp : mgwin) (lp : nat) :
  forall k : nat,
    (forall i, 0 <= i < Z.of_nat k ->
       lgetc (w_bufp wp) lp i = 9 \/ ISCTRL (lgetc (w_bufp wp) lp i) = true
       \/ isprint (lgetc (w_bufp wp) lp i) = true) ->
    dot_col wp lp (Z.of_nat k) = offset_col (w_bufp wp) lp (b_tabw (w_bufp wp)) k.
Proof.
  induction k as [| k IH]; intros Hc; [reflexivity |].
  unfold dot_col in *. rewrite Nat2Z.id in *.
  change (Z.of_nat (S k)) with (0 + Z.of_nat (S k)).
  rewrite dot_col_S. rewrite Z.add_0_l.
  rewrite IH by (intros i Hi; apply Hc; lia).
  cbn [offset_col]. unfold next_col.
  destruct (Hc (Z.of_nat k) ltac:(lia)) as [H9 | [Hctl | Hpr]].
  - rewrite H9. reflexivity.
  - rewrite Hctl. reflexivity.
  - rewrite Hpr. reflexivity.
Qed.

(** X17.  col_to_offset undoes the column computation of update.  On a
    line whose characters before the offset [k] are tabs, control
    characters or printable, a click on the column where update shows the
    offset [k] gives [k] back; so does a click on any column right of the
    column of the offset before and up to that of [k] (the columns of a
    tab or of the caret of a control character lead to the character
    after it), and a click right of the end of the line gives the end of
    the line. *)
Theorem col_to_offset_inverts_column (wp : mgwin) (lp : nat) (k : Z) :
  0 < b_tabw (w_bufp wp) ->
  0 <= k <= llength (w_bufp wp) lp ->
  (forall i, 0 <= i < k ->
     lgetc (w_bufp wp) lp i = 9 \/ ISCTRL (lgetc (w_bufp wp) lp i) = true
     \/ isprint (lgetc (w_bufp wp) lp i) = true) ->
  col_to_offset (w_bufp wp) lp (dot_col wp lp k) (b_tabw (w_bufp wp)) = k
  /\ (forall x,
        k = 0 \/ dot_col wp lp (k - 1) < x ->
        x <= dot_col wp lp k \/ k = llength (w_bufp wp) lp ->
        col_to_offset (w_bufp wp) lp x (b_tabw (w_bufp wp)) = k).
Proof.
  intros Hw Hk Hc.
  set (bp := w_bufp wp) in *. set (tabw := b_tabw bp) in *.
  assert (Hcol : forall j : nat, (j <= Z.to_nat k)%nat ->
            dot_col wp lp (Z.of_nat j) = offset_col bp lp tabw j).
  { intros j Hj. apply dot_col_offset_col. intros i Hi. apply Hc. lia. }
  assert (Hgen : forall x,
            k = 0 \/ dot_col wp lp (k - 1) < x ->
            x <= dot_col wp lp k \/ k = llength bp lp ->
            col_to_offset bp lp x tabw = k).
  { intros x Hlo Hhi. unfold col_to_offset.
    destruct (offset_loop_spec bp lp x tabw (Z.to_nat (llength bp lp)) 0 ltac:(lia))
      as (r & Hr & _ & Hrl & Hbelow & Hat).
    cbn [offset_col] in Hr. change (Z.of_nat 0) with 0 in Hr. rewrite Hr.
    destruct (Nat.lt_trichotomy r (Z.to_nat k)) as [Hlt | [-> | Hgt]]; [| lia |].
    - exfalso. destruct Hlo as [H0 | Hlo]; [lia |].
      specialize (Hat ltac:(lia)).
      replace (k - 1) with (Z.of_nat (Z.to_nat k - 1)) in Hlo by lia.
      rewrite Hcol in Hlo by lia.
      destruct (Nat.eq_dec r (Z.to_nat k - 1)%nat) as [He | Hne]; [subst r; lia |].
      pose proof (offset_col_mono bp lp tabw Hw r (Z.to_nat k - 1)%nat ltac:(lia)). lia.
    - exfalso. destruct Hhi as [Hhi | Hhi]; [| lia].
      specialize (Hbelow (Z.to_nat k) ltac:(lia)).
      replace k with (Z.of_nat (Z.to_nat k)) in Hhi at 1 by lia.
      rewrite Hcol in Hhi by lia. lia. }
  split; [| exact Hgen].
  apply Hgen; [| left; lia].
  destruct (Z.eq_dec k 0) as [H0 | Hne]; [left; exact H0 | right].
  replace (k - 1) with (Z.of_nat (Z.to_nat k - 1)) by lia.
  replace k with (Z.of_nat (Z.to_nat k)) at 2 by lia.
  rewrite !Hcol by lia.
  apply offset_col_mono; [exact Hw | lia].
Qed.

(** ** mouse_move_to *)

Lemma window_from_spec (row : Z) :
  forall (ws : list mgwin) (k : nat),
    match window_from k row ws with
    | Some j =>
        (k <= j)%nat
        /\ (exists wp, ws !! (j - k)%nat = Some wp /\ on_window row wp)
        /\ (forall i wq, (i < j - k)%nat -> ws !! i = Some wq -> ~ on_window row wq)
    | None => forall wq, In wq ws -> ~ on_window row wq
    end.
Proof.
  induction ws as [| wp ws IH]; intros k; cbn [window_from].
  - intros wq [].
  - destruct (Z.geb_spec row (w_toprow wp)) as [H1 | H1]; cbn [andb].
    + destruct (Z.ltb_spec row (w_toprow wp + w_ntrows wp)) as [H2 | H2].
      * split; [lia |]. split.
        -- exists wp. rewrite Nat.sub_diag. split; [reflexivity | unfold on_window; lia].
        -- intros i wq Hi. lia.
      * specialize (IH (S k)). destruct (window_from (S k) row ws) as [j |].
        -- destruct IH as (Hj & (w & Hw & Hon) & Hfirst).
           split; [lia |]. split.
           ++ exists w. replace (j - k)%nat with (S (j - S k)) by lia.
              split; [exact Hw | exact Hon].
           ++ intros i wq Hi Hq. destruct i as [| i].
              ** injection Hq as <-. unfold on_window. lia.
              ** apply (Hfirst i wq); [lia | exact Hq].
        -- intros wq [<- | Hin]; [unfold on_window; lia | apply IH; exact Hin].
    + specialize (IH (S k)). destruct (window_from (S k) row ws) as [j |].
      * destruct IH as (Hj & (w & Hw & Hon) & Hfirst).
        split; [lia |]. split.
        -- exists w. replace (j - k)%nat with (S (j - S k)) by lia.
           split; [exact Hw | exact Hon].
        -- intros i wq Hi Hq. destruct i as [| i].
           ++ injection Hq as <-. unfold on_window. lia.
           ++ apply (Hfirst i wq); [lia | exact Hq].
      * intros wq [<- | Hin]; [unfold on_window; lia | apply IH; exact Hin].
Qed.

Lemma walk_down_spec (bp : buffer) :
  forall (n : nat) (lp : nat),
    (lp <= b_headp bp)%nat ->
    walk_down n bp (b_headp bp) lp = Nat.min (lp + n) (b_headp bp).
Proof.
  induction n as [| n IH]; intros lp Hlp; cbn [walk_down]; [lia |].
  destruct (Nat.eqb_spec lp (b_headp bp)) as [He | Hne]; cbn [negb]; [lia |].
  unfold lforw. destruct (Nat.ltb_spec lp (b_headp bp)); [| lia].
  rewrite IH by lia. lia.
Qed.

Lemma count_lines_spec (bp : buffer) (lp : nat) :
  forall (n : nat) (tlp : nat) (lineno : Z),
    (tlp <= lp)%nat -> (lp <= b_headp bp)%nat -> (lp - tlp < n)%nat ->
    count_lines n bp lp tlp lineno = Some (lineno + Z.of_nat (lp - tlp)).
Proof.
  induction n as [| n IH]; intros tlp lineno H1 H2 H3; [lia |].
  cbn [count_lines].
  destruct (Nat.eqb_spec tlp lp) as [He | Hne]; cbn [negb andb].
  - subst tlp. f_equal. lia.
  - destruct (Nat.eqb_spec tlp (b_headp bp)) as [He | _]; [lia |]. cbn [negb].
    unfold lforw. destruct (Nat.ltb_spec tlp (b_headp bp)); [| lia].
    rewrite IH by lia. f_equal. lia.
Qed.

Lemma col_to_offset_range (bp : buffer) (lp : nat) (x tabw : Z) :
  0 <= col_to_offset bp lp x tabw <= llength bp lp.
Proof.
  unfold col_to_offset.
  assert (Hl : 0 <= llength bp lp) by (unfold llength; lia).
  destruct (offset_loop_spec bp lp x tabw (Z.to_nat (llength bp lp)) 0 ltac:(lia))
    as (r & Hr & _ & Hrl & _).
  cbn [offset_col] in Hr. change (Z.of_nat 0) with 0 in Hr. rewrite Hr. lia.
Qed.

Lemma set_curbp_id (m : mouse) : set_curbp (curbp m) m = m.
Proof. destruct m; reflexivity. Qed.

(** What mouse_move_to does when the row is a text row of the window
    number [k]. *)
Lemma mouse_move_to_found (x y : Z) (st : display) (m : mouse) (k : nat) (wp : mgwin) :
  curbp m = w_bufp (cur_window st) ->
  window_at_row y st = Some k ->
  wheadp st !! k = Some wp ->
  (w_linep wp < b_headp (w_bufp wp))%nat ->
  let lp := Nat.min (w_linep wp + Z.to_nat (y - w_toprow wp)) (b_headp (w_bufp wp) - 1) in
  let cw :=
    or_rflag WFMOVE
      (set_w_doto (col_to_offset (w_bufp wp) lp x (b_tabw (w_bufp wp)))
         (set_w_dotp lp (set_w_dotline (Z.of_nat lp + 1) wp))) in
  mouse_move_to x y st m
  = Some (TRUE, (set_cur_window cw (set_curwp k st), set_curbp (w_bufp wp) m)).
Proof.
  intros Hbp Hat Hk Htop lp cw. unfold mouse_move_to. rewrite Hat.
  assert (Hnth : nth k (wheadp st) mgwin0 = wp)
    by (apply nth_lookup_Some with (d := mgwin0); exact Hk).
  rewrite Hnth.
  set (sm := if negb (k =? curwp st)%nat then _ else _).
  assert (Hsm : sm = (set_curwp k st, set_curbp (w_bufp wp) m)).
  { subst sm. destruct (Nat.eqb_spec k (curwp st)) as [He | Hne]; cbn [negb].
    - assert (Hw : cur_window st = wp) by (unfold cur_window; rewrite <- He; exact Hnth).
      rewrite <- Hw, <- Hbp, set_curbp_id. subst k. destruct st; reflexivity.
    - reflexivity. }
  rewrite Hsm. cbn [curbp set_curbp].
  rewrite walk_down_spec by lia.
  set (lp0 := Nat.min _ (b_headp (w_bufp wp))).
  assert (Hlp : (if (lp0 =? b_headp (w_bufp wp))%nat then lback (w_bufp wp) lp0 else lp0)
                = lp).
  { subst lp0 lp. destruct (Nat.eqb_spec (Nat.min (w_linep wp + Z.to_nat (y - w_toprow wp))
                                             (b_headp (w_bufp wp))) (b_headp (w_bufp wp)))
      as [He | Hne].
    - rewrite He. unfold lback. destruct (b_headp (w_bufp wp)) eqn:Hh; lia.
    - lia. }
  rewrite Hlp.
  assert (Hfirst : lforw (w_bufp wp) (b_headp (w_bufp wp)) = 0%nat).
  { unfold lforw. rewrite Nat.ltb_irrefl. reflexivity. }
  rewrite Hfirst.
  rewrite count_lines_spec by (subst lp; lia).
  cbn [mbind option_bind].
  assert (Hcw : cur_window (set_curwp k st) = wp).
  { unfold cur_window. cbn [curwp wheadp set_curwp]. exact Hnth. }
  rewrite Hcw. rewrite Nat.sub_0_r.
  replace (1 + Z.of_nat lp) with (Z.of_nat lp + 1) by lia.
  reflexivity.
Qed.

(** X18.  mouse_move_to puts dot where the click is.  A row that is a text
    row of no window (a mode line, the echo line) gives FALSE and changes
    nothing.  Otherwise the first window with the row among its text rows
    becomes the current window and its buffer the current buffer; dot
    goes to the line shown on that row, or to the last line of the buffer
    when the row is below the text; the line number of dot is the place of
    that line counted from one; the offset is the one col_to_offset gives
    and lies within the line; WFMOVE is flagged.  The top line, the mark
    and the geometry of the window, the other windows and the rest of the
    display stay as they were. *)
Theorem mouse_move_to_lands (x y : Z) (st : display) (m : mouse) :
  curbp m = w_bufp (cur_window st) ->
  Forall (fun wp => (w_linep wp < b_headp (w_bufp wp))%nat) (wheadp st) ->
  match window_at_row y st with
  | None =>
      (forall wq, In wq (wheadp st) -> ~ on_window y wq)
      /\ mouse_move_to x y st m = Some (FALSE, (st, m))
  | Some k =>
      exists wp st' m',
        wheadp st !! k = Some wp /\ on_window y wp
        /\ (forall i wq, (i < k)%nat -> wheadp st !! i = Some wq -> ~ on_window y wq)
        /\ mouse_move_to x y st m = Some (TRUE, (st', m'))
        /\ curwp st' = k
        /\ curbp m' = w_bufp (cur_window st')
        /\ m' = set_curbp (w_bufp wp) m
        /\ st' = set_cur_window (cur_window st') (set_curwp k st)
        /\ w_dotp (cur_window st')
           = Nat.min (w_linep wp + Z.to_nat (y - w_toprow wp)) (b_headp (w_bufp wp) - 1)
        /\ w_dotline (cur_window st') = Z.of_nat (w_dotp (cur_window st')) + 1
        /\ w_doto (cur_window st')
           = col_to_offset (w_bufp wp) (w_dotp (cur_window st')) x (b_tabw (w_bufp wp))
        /\ 0 <= w_doto (cur_window st')
             <= llength (w_bufp wp) (w_dotp (cur_window st'))
        /\ w_rflag (cur_window st') = Z.lor (w_rflag wp) WFMOVE
        /\ (w_bufp (cur_window st'), w_linep (cur_window st'),
            w_markp (cur_window st'), w_marko (cur_window st'),
            w_markline (cur_window st'), w_toprow (cur_window st'),
            w_ntrows (cur_window st'), w_frame (cur_window st'))
           = (w_bufp wp, w_linep wp, w_markp wp, w_marko wp, w_markline wp,
              w_toprow wp, w_ntrows wp, w_frame wp)
  end.
Proof.
  intros Hbp Htops.
  pose proof (window_from_spec y (wheadp st) 0) as Hspec.
  fold (window_at_row y st) in Hspec.
  destruct (window_at_row y st) as [k |] eqn:Hat.
  - destruct Hspec as (_ & (wp & Hk & Hon) & Hfirst).
    rewrite Nat.sub_0_r in Hk.
    assert (Htop : (w_linep wp < b_headp (w_bufp wp))%nat).
    { rewrite Forall_forall in Htops. apply Htops.
      apply list_elem_of_In. eapply list_elem_of_lookup_2. exact Hk. }
    pose proof (mouse_move_to_found x y st m k wp Hbp Hat Hk Htop) as Hrun.
    cbv zeta in Hrun.
    set (lp := Nat.min (w_linep wp + Z.to_nat (y - w_toprow wp))
                 (b_headp (w_bufp wp) - 1)) in *.
    set (cw := or_rflag WFMOVE _) in Hrun.
    assert (Hlen : (curwp (set_curwp k st) < length (wheadp (set_curwp k st)))%nat).
    { cbn [curwp wheadp set_curwp]. apply lookup_lt_is_Some_1. eexists. exact Hk. }
    assert (Hcw : cur_window (set_cur_window cw (set_curwp k st)) = cw)
      by (apply cur_window_set; exact Hlen).
    exists wp, (set_cur_window cw (set_curwp k st)), (set_curbp (w_bufp wp) m).
    rewrite Hcw.
    split; [exact Hk |]. split; [exact Hon |].
    split; [intros i wq Hi; apply Hfirst; lia |].
    split; [exact Hrun |].
    repeat split; try reflexivity.
    + apply (col_to_offset_range (w_bufp wp) lp x (b_tabw (w_bufp wp))).
    + apply (col_to_offset_range (w_bufp wp) lp x (b_tabw (w_bufp wp))).
  - split; [exact Hspec |]. unfold mouse_move_to. rewrite Hat. reflexivity.
Qed.

(** ** A click and the cursor of update *)

Lemma dot_col_window (wp wp' : mgwin) (lp : nat) (k : Z) :
  w_bufp wp' = w_bufp wp -> dot_col wp' lp k = dot_col wp lp k.
Proof.
  intros Hb. unfold dot_col.
  assert (H : forall (n : nat) (i col : Z),
            cursor_col n (set_w_doto k wp') lp i col
            = cursor_col n (set_w_doto k wp) lp i col).
  { induction n as [| n IH]; intros i col; cbn [cursor_col]; [reflexivity |].
    cbn [w_doto w_bufp set_w_doto]. rewrite Hb.
    destruct (i <? k); [| reflexivity]. apply IH. }
  apply H.
Qed.

Lemma set_w_doto_id (wp : mgwin) : set_w_doto (w_doto wp) wp = wp.
Proof. destruct wp; reflexivity. Qed.

(** X19.  After a click on a row that shows a line, update finds the
    cursor on that row.  The window of the click, reframing not being
    asked for, passes the framing code of update unchanged, since dot is
    on one of its rows; the walk from the top line to dot gives the row of
    the click; and on a line of tabs, control characters and printable
    characters the column of the cursor is the first column of a
    character at or right of the click, or the end of the line when the
    click is right of it. *)
Theorem click_puts_cursor_on_row (x y : Z) (st : display) (m : mouse)
    (k : nat) (wp : mgwin) :
  curbp m = w_bufp (cur_window st) ->
  window_at_row y st = Some k ->
  wheadp st !! k = Some wp ->
  let lp := (w_linep wp + Z.to_nat (y - w_toprow wp))%nat in
  (lp < b_headp (w_bufp wp))%nat ->
  Z.land (Z.lor (w_rflag wp) WFMOVE) WFFRAME = 0 ->
  0 < b_tabw (w_bufp wp) ->
  (forall i, 0 <= i < llength (w_bufp wp) lp ->
     lgetc (w_bufp wp) lp i = 9 \/ ISCTRL (lgetc (w_bufp wp) lp i) = true
     \/ isprint (lgetc (w_bufp wp) lp i) = true) ->
  exists st' m' col,
    mouse_move_to x y st m = Some (TRUE, (st', m'))
    /\ w_dotp (cur_window st') = lp
    /\ frame_window (cur_window st') = cur_window st'
    /\ cursor_place st' = Some (y, col)
    /\ col = dot_col wp lp (w_doto (cur_window st'))
    /\ (x <= col \/ w_doto (cur_window st') = llength (w_bufp wp) lp)
    /\ (forall j, 0 <= j < w_doto (cur_window st') -> dot_col wp lp j < x).
Proof.
  intros Hbp Hat Hk lp Hline Hfl Hw Hc.
  pose proof (window_from_spec y (wheadp st) 0) as Hspec.
  fold (window_at_row y st) in Hspec. rewrite Hat in Hspec.
  destruct Hspec as (_ & (wp0 & Hk0 & Hon) & _).
  rewrite Nat.sub_0_r, Hk in Hk0. injection Hk0 as <-. unfold on_window in Hon.
  pose proof (mouse_move_to_found x y st m k wp Hbp Hat Hk ltac:(lia)) as Hrun.
  cbv zeta in Hrun.
  replace (Nat.min (w_linep wp + Z.to_nat (y - w_toprow wp)) (b_headp (w_bufp wp) - 1))
    with lp in Hrun by (subst lp; lia).
  set (o := col_to_offset (w_bufp wp) lp x (b_tabw (w_bufp wp))) in *.
  set (cw := or_rflag WFMOVE _) in Hrun.
  assert (Hlen : (curwp (set_curwp k st) < length (wheadp (set_curwp k st)))%nat).
  { cbn [curwp wheadp set_curwp]. apply lookup_lt_is_Some_1. eexists. exact Hk. }
  assert (Hcw : cur_window (set_cur_window cw (set_curwp k st)) = cw)
    by (apply cur_window_set; exact Hlen).
  assert (Ho : 0 <= o <= llength (w_bufp wp) lp) by apply col_to_offset_range.
  assert (Hcols : forall j : nat, Z.of_nat j <= llength (w_bufp wp) lp ->
            dot_col wp lp (Z.of_nat j) = offset_col (w_bufp wp) lp (b_tabw (w_bufp wp)) j).
  { intros j Hj. apply dot_col_offset_col. intros i Hi. apply Hc. lia. }
  exists (set_cur_window cw (set_curwp k st)), (set_curbp (w_bufp wp) m),
         (dot_col wp lp o).
  rewrite Hcw.
  split; [exact Hrun |]. split; [reflexivity |].
  assert (Hframed : dot_framed cw = true).
  { unfold dot_framed. apply andb_true_intro. split.
    - apply Z.eqb_eq. exact Hfl.
    - apply dot_scan_finds; cbn [w_dotp w_linep w_bufp w_ntrows cw or_rflag set_w_rflag
                                 set_w_doto set_w_dotp set_w_dotline]; subst lp; lia. }
  split; [unfold frame_window; rewrite Hframed; reflexivity |].
  split.
  { unfold cursor_place. fold (cur_window (set_cur_window cw (set_curwp k st))).
    rewrite Hcw.
    rewrite (cursor_row_finds cw (ring_fuel cw) (w_linep cw) (w_toprow cw))
      by (unfold ring_fuel; subst cw lp;
          cbn [w_dotp w_linep w_bufp or_rflag set_w_rflag set_w_doto set_w_dotp
               set_w_dotline]; lia).
    cbn [mbind option_bind]. f_equal. f_equal.
    - cbn [w_dotp w_linep w_toprow cw or_rflag set_w_rflag set_w_doto set_w_dotp
           set_w_dotline]. subst lp. lia.
    - rewrite <- (dot_col_window wp cw) by reflexivity.
      unfold dot_col. change o with (w_doto cw). rewrite set_w_doto_id.
      reflexivity. }
  split; [reflexivity |].
  unfold col_to_offset in o.
  destruct (offset_loop_spec (w_bufp wp) lp x (b_tabw (w_bufp wp))
              (Z.to_nat (llength (w_bufp wp) lp)) 0 ltac:(lia))
    as (r & Hr & _ & Hrl & Hbelow & Hat').
  cbn [offset_col] in Hr. change (Z.of_nat 0) with 0 in Hr. fold o in Hr.
  change (w_doto cw) with o.
  split.
  - destruct (Z.eq_dec o (llength (w_bufp wp) lp)) as [He | Hne]; [right; exact He |].
    left. rewrite Hr, Hcols by lia. apply Hat'. lia.
  - intros j Hj. replace j with (Z.of_nat (Z.to_nat j)) by lia.
    rewrite Hcols by lia. apply Hbelow. lia.
Qed.

(** ** select_word *)

Lemma word_start_spec (bp : buffer) (lp : nat) :
  forall (n : nat) (offset : Z),
    0 <= offset <= Z.of_nat n ->
    let s := word_start n bp lp offset in
    0 <= s <= offset
    /\ (forall j, s <= j < offset -> ISWORD (lgetc bp lp j) = true)
    /\ (s = 0 \/ ISWORD (lgetc bp lp (s - 1)) = false).
Proof.
  induction n as [| n IH]; intros offset Ho; cbn [word_start].
  - cbv zeta. split; [lia |]. split; [intros j Hj; lia | left; lia].
  - destruct (Z.gtb_spec offset 0) as [Hpos | H0]; cbn [andb].
    + destruct (ISWORD (lgetc bp lp (offset - 1))) eqn:Hw.
      * destruct (IH (offset - 1) ltac:(lia)) as (H1 & H2 & H3).
        cbv zeta. split; [lia |]. split; [| exact H3].
        intros j Hj. destruct (Z.eq_dec j (offset - 1)) as [-> | Hne]; [exact Hw |].
        apply H2. lia.
      * cbv zeta. split; [lia |]. split; [intros j Hj; lia | right; exact Hw].
    + cbv zeta. split; [lia |]. split; [intros j Hj; lia | left; lia].
Qed.

Lemma word_end_spec (bp : buffer) (lp : nat) :
  forall (n : nat) (offset : Z),
    offset <= llength bp lp <= offset + Z.of_nat n ->
    let e := word_end n bp lp offset in
    offset <= e <= llength bp lp
    /\ (forall j, offset <= j < e -> ISWORD (lgetc bp lp j) = true)
    /\ (e = llength bp lp \/ ISWORD (lgetc bp lp e) = false).
Proof.
  induction n as [| n IH]; intros offset Ho; cbn [word_end].
  - cbv zeta. split; [lia |]. split; [intros j Hj; lia | left; lia].
  - destruct (Z.ltb_spec offset (llength bp lp)) as [Hlt | Hge]; cbn [andb].
    + destruct (ISWORD (lgetc bp lp offset)) eqn:Hw.
      * destruct (IH (offset + 1) ltac:(lia)) as (H1 & H2 & H3).
        cbv zeta. split; [lia |]. split; [| exact H3].
        intros j Hj. destruct (Z.eq_dec j offset) as [-> | Hne]; [exact Hw |].
        apply H2. lia.
      * cbv zeta. split; [lia |]. split; [intros j Hj; lia | right; exact Hw].
    + cbv zeta. split; [lia |]. split; [intros j Hj; lia | left; lia].
Qed.

(** X20.  select_word selects the word around dot.  When dot is at the
    end of its line or on a character that is not of a word, it returns
    FALSE and changes nothing.  Otherwise, isetmark putting the mark at
    dot, it returns TRUE with the mark at the start and dot at the end of
    the longest run of word characters around the old dot: every
    character between them is of a word, the character before the mark
    and the character at dot are not (or the line begins or ends there);
    mark and dot are on the line dot was on, WFFULL is flagged, and
    nothing else is changed. *)
Theorem select_word_selects (st : display) (m : mouse) :
  (curwp st < length (wheadp st))%nat ->
  (forall s b, isetmark s b = (mark_at_dot s, b)) ->
  0 <= w_doto (cur_window st) ->
  let wp := cur_window st in
  let bp := w_bufp wp in
  let lp := w_dotp wp in
  let o := w_doto wp in
  let r := select_word st m in
  let wp' := cur_window r.2.1 in
  ((o <? llength bp lp) && ISWORD (lgetc bp lp o) = false -> r = (FALSE, (st, m)))
  /\ ((o <? llength bp lp) && ISWORD (lgetc bp lp o) = true ->
      r.1 = TRUE /\ r.2.2 = m /\ r.2.1 = set_cur_window wp' st
      /\ w_markp wp' = Some lp /\ w_dotp wp' = lp
      /\ w_marko wp' <= o < w_doto wp' /\ 0 <= w_marko wp'
      /\ w_doto wp' <= llength bp lp
      /\ (forall j, w_marko wp' <= j < w_doto wp' -> ISWORD (lgetc bp lp j) = true)
      /\ (w_marko wp' = 0 \/ ISWORD (lgetc bp lp (w_marko wp' - 1)) = false)
      /\ (w_doto wp' = llength bp lp \/ ISWORD (lgetc bp lp (w_doto wp')) = false)
      /\ w_markline wp' = w_dotline wp
      /\ w_rflag wp' = Z.lor (w_rflag wp) WFFULL
      /\ (w_bufp wp', w_linep wp', w_dotline wp', w_toprow wp', w_ntrows wp', w_frame wp')
         = (w_bufp wp, w_linep wp, w_dotline wp, w_toprow wp, w_ntrows wp, w_frame wp)).
Proof.
  intros Hk Hmark Ho wp bp lp o r wp'. subst r wp'. unfold select_word.
  fold wp. fold bp lp o.
  assert (Ho' : 0 <= o) by exact Ho.
  destruct (Z.ltb_spec o (llength bp lp)) as [Hlt | Hge]; cbn [andb].
  2: { destruct (Z.geb_spec o (llength bp lp)); [| lia]. cbn [orb].
       split; [reflexivity | discriminate]. }
  destruct (Z.geb_spec o (llength bp lp)); [lia |]. cbn [orb].
  destruct (ISWORD (lgetc bp lp o)) eqn:Hw; cbn [negb].
  2: { split; [reflexivity | discriminate]. }
  split; [discriminate |]. intros _.
  rewrite Hmark.
  destruct (word_start_spec bp lp (Z.to_nat o) o ltac:(lia)) as (Hs1 & Hs2 & Hs3).
  set (s := word_start (Z.to_nat o) bp lp o) in *.
  destruct (word_end_spec bp lp (Z.to_nat (llength bp lp - s)) s ltac:(lia))
    as (He1 & He2 & He3).
  set (e := word_end (Z.to_nat (llength bp lp - s)) bp lp s) in *.
  assert (Hoe : o < e).
  { destruct He3 as [He3 | He3]; [lia |].
    destruct (Z.lt_ge_cases o e) as [Hc | Hc]; [exact Hc |].
    destruct (Z.eq_dec e o) as [Heo | Hne]; [rewrite Heo in He3; congruence |].
    assert (Hx : ISWORD (lgetc bp lp e) = true) by (apply Hs2; lia). congruence. }
  unfold mark_at_dot.
  repeat (rewrite set_cur_window_twice || rewrite cur_window_set by exact Hk).
  cbn [fst snd]. rewrite set_curbp_id.
  repeat (rewrite set_cur_window_twice || rewrite cur_window_set by exact Hk).
  cbn [w_markp w_dotp w_marko w_doto w_markline w_rflag w_bufp w_linep w_dotline
       w_toprow w_ntrows w_frame or_rflag set_w_rflag set_w_doto set_w_markline
       set_w_marko set_w_markp].
  split; [reflexivity |]. split; [reflexivity |]. split; [reflexivity |].
  split; [reflexivity |]. split; [reflexivity |]. split; [lia |].
  split; [lia |]. split; [lia |].
  split.
  { intros j Hj. destruct (Z.lt_ge_cases j o); [apply Hs2 | apply He2]; lia. }
  split; [exact Hs3 |]. split; [exact He3 |].
  repeat split; reflexivity.
Qed.

(** ** mouse_handle *)

Lemma window_from_geometry (row : Z) :
  forall (ws ws' : list mgwin) (k : nat),
    map (fun w => (w_toprow w, w_ntrows w)) ws
    = map (fun w => (w_toprow w, w_ntrows w)) ws' ->
    window_from k row ws = window_from k row ws'.
Proof.
  induction ws as [| w ws IH]; intros [| w' ws'] k Hg; try discriminate Hg.
  - reflexivity.
  - cbn [map] in Hg. injection Hg as Ht Hn Hrest.
    cbn [window_from]. rewrite Ht, Hn, (IH ws' (S k) Hrest). reflexivity.
Qed.

Lemma window_at_row_set (y : Z) (w : mgwin) (st : display) :
  w_toprow w = w_toprow (cur_window st) ->
  w_ntrows w = w_ntrows (cur_window st) ->
  window_at_row y (set_cur_window w st) = window_at_row y st.
Proof.
  intros Ht Hn. unfold window_at_row, set_cur_window. cbn [wheadp set_wheadp].
  apply window_from_geometry.
  destruct (Nat.lt_ge_cases (curwp st) (length (wheadp st))) as [Hk | Hk].
  - change (map ?f ?l) with (f <$> l).
    rewrite list_fmap_insert. apply list_insert_id.
    rewrite list_lookup_fmap.
    destruct (lookup_lt_is_Some_2 _ _ Hk) as [w0 Hw0]. rewrite Hw0. cbn.
    assert (Hc : cur_window st = w0)
      by (apply nth_lookup_Some with (d := mgwin0); exact Hw0).
    rewrite Ht, Hn, Hc. reflexivity.
  - rewrite list_insert_ge by exact Hk. reflexivity.
Qed.

Lemma window_at_row_curwp (y : Z) (k : nat) (st : display) :
  window_at_row y (set_curwp k st) = window_at_row y st.
Proof. reflexivity. Qed.

Lemma window_at_row_lt (y : Z) (st : display) (k : nat) :
  window_at_row y st = Some k -> (k < length (wheadp st))%nat.
Proof.
  intros Hat. pose proof (window_from_spec y (wheadp st) 0) as Hs.
  fold (window_at_row y st) in Hs. rewrite Hat in Hs.
  destruct Hs as (_ & (w & Hw & _) & _). rewrite Nat.sub_0_r in Hw.
  apply lookup_lt_is_Some_1. eexists. exact Hw.
Qed.

Lemma mouse_move_to_click (x y : Z) (st : display) (m : mouse) (k : nat) (wp : mgwin) :
  curbp m = w_bufp (cur_window st) ->
  window_at_row y st = Some k ->
  wheadp st !! k = Some wp ->
  (w_linep wp < b_headp (w_bufp wp))%nat ->
  mouse_move_to x y st m
  = Some (TRUE, (set_cur_window (click_window wp x y) (set_curwp k st),
                 set_curbp (w_bufp wp) m)).
Proof. exact (mouse_move_to_found x y st m k wp). Qed.

Lemma clear_mark_fields (wp : mgwin) :
  w_markp (clear_mark wp) = None
  /\ (w_bufp (clear_mark wp), w_linep (clear_mark wp), w_dotp (clear_mark wp),
      w_doto (clear_mark wp), w_dotline (clear_mark wp), w_toprow (clear_mark wp),
      w_ntrows (clear_mark wp), w_frame (clear_mark wp))
     = (w_bufp wp, w_linep wp, w_dotp wp, w_doto wp, w_dotline wp, w_toprow wp,
        w_ntrows wp, w_frame wp).
Proof.
  unfold clear_mark. destruct (w_markp wp) eqn:Hm.
  - split; reflexivity.
  - split; [exact Hm | reflexivity].
Qed.

(** What a press of the left button does on a text row of the window
    number [k]. *)
Lemma press_left_does (x y : Z) (now : Z * Z) (st : display) (m : mouse)
    (k : nat) (wp : mgwin) :
  TRUE <> FALSE ->
  (curwp st < length (wheadp st))%nat ->
  curbp m = w_bufp (cur_window st) ->
  window_at_row y st = Some k ->
  wheadp st !! k = Some wp ->
  (w_linep wp < b_headp (w_bufp wp))%nat ->
  let wp0 := if (k =? curwp st)%nat then clear_mark wp else wp in
  let st0 := set_cur_window (clear_mark (cur_window st)) st in
  let st1 := set_cur_window (click_window wp0 x y) (set_curwp k st0) in
  let m1 := set_curbp (w_bufp wp) (press_recorded x y now m) in
  mouse_handle {| me_type := MOUSE_PRESS; me_button := MOUSE_BUTTON_LEFT;
                  me_x := x; me_y := y |} now st m
  = Some (TRUE, if is_double_click x y now m then (select_word st1 m1).2
                else (st1, m1)).
Proof.
  intros Htf Hk Hbp Hat Hwp Htop wp0 st0 st1 m1.
  unfold mouse_handle. cbn [me_type me_button me_x me_y].
  rewrite Z.eqb_refl.
  fold (press_recorded x y now m). fold st0.
  destruct (clear_mark_fields (cur_window st)) as [_ Hcl].
  assert (Hat0 : window_at_row y st0 = Some k).
  { unfold st0. rewrite window_at_row_set; [exact Hat | |]; injection Hcl; auto. }
  assert (Hc : cur_window st = nth (curwp st) (wheadp st) mgwin0) by reflexivity.
  assert (Hwp0 : wheadp st0 !! k = Some wp0).
  { unfold st0, set_cur_window, wp0. cbn [wheadp set_wheadp].
    destruct (Nat.eqb_spec k (curwp st)) as [-> | Hne].
    - rewrite list_lookup_insert_eq by exact Hk. f_equal. f_equal.
      apply nth_lookup_Some with (d := mgwin0). exact Hwp.
    - rewrite list_lookup_insert_ne by congruence. exact Hwp. }
  assert (Hb0 : w_bufp wp0 = w_bufp wp /\ w_linep wp0 = w_linep wp).
  { unfold wp0. destruct (k =? curwp st)%nat; [| split; reflexivity].
    destruct (clear_mark_fields wp) as [_ Hf]. injection Hf. auto. }
  destruct Hb0 as [Hb0 Hl0].
  assert (Hbp0 : curbp (press_recorded x y now m) = w_bufp (cur_window st0)).
  { unfold st0. rewrite cur_window_set by exact Hk.
    cbn [press_recorded curbp set_drag_start_y set_drag_start_x set_mouse_down
         set_last_click_y set_last_click_x set_last_click_time].
    rewrite Hbp. injection Hcl. auto. }
  rewrite (mouse_move_to_click x y st0 _ k wp0 Hbp0 Hat0 Hwp0)
    by (rewrite Hb0, Hl0; exact Htop).
  cbn [mbind option_bind]. rewrite Hb0. fold st1. fold m1.
  destruct (Z.eqb_spec TRUE FALSE) as [He | _]; [contradiction |].
  fold (is_double_click x y now m).
  destruct (is_double_click x y now m).
  - destruct (select_word st1 m1) as [r [s2 m2]]. reflexivity.
  - reflexivity.
Qed.

Lemma click_window_fields (wp : mgwin) (x y : Z) :
  w_dotp (click_window wp x y) = click_line wp y
  /\ w_doto (click_window wp x y)
     = col_to_offset (w_bufp wp) (click_line wp y) x (b_tabw (w_bufp wp))
  /\ w_dotline (click_window wp x y) = Z.of_nat (click_line wp y) + 1
  /\ (w_bufp (click_window wp x y), w_linep (click_window wp x y),
      w_markp (click_window wp x y), w_marko (click_window wp x y),
      w_markline (click_window wp x y), w_toprow (click_window wp x y),
      w_ntrows (click_window wp x y), w_frame (click_window wp x y))
     = (w_bufp wp, w_linep wp, w_markp wp, w_marko wp, w_markline wp,
        w_toprow wp, w_ntrows wp, w_frame wp).
Proof. repeat split; reflexivity. Qed.

Lemma click_line_window (wp wp' : mgwin) (y : Z) :
  w_bufp wp' = w_bufp wp -> w_linep wp' = w_linep wp -> w_toprow wp' = w_toprow wp ->
  click_line wp' y = click_line wp y.
Proof. intros Hb Hl Ht. unfold click_line. rewrite Hb, Hl, Ht. reflexivity. Qed.

(** What a drag with the left button held does on a text row of the
    current window, no mark being set. *)
Lemma drag_left_does (x y : Z) (now : Z * Z) (st : display) (m : mouse) (wp : mgwin) :
  (forall s b, isetmark s b = (mark_at_dot s, b)) ->
  (curwp st < length (wheadp st))%nat ->
  curbp m = w_bufp (cur_window st) ->
  mouse_down m <> 0 ->
  window_at_row y st = Some (curwp st) ->
  cur_window st = wp ->
  w_markp wp = None ->
  (w_linep wp < b_headp (w_bufp wp))%nat ->
  let wpm :=
    set_w_markline (w_dotline wp)
      (set_w_marko (w_doto wp) (set_w_markp (Some (w_dotp wp)) wp)) in
  mouse_handle {| me_type := MOUSE_DRAG; me_button := MOUSE_BUTTON_LEFT;
                  me_x := x; me_y := y |} now st m
  = Some (TRUE, (set_cur_window (click_window wpm x y) st, m)).
Proof.
  intros Hmark Hk Hbp Hdown Hat Hcw Hnone Htop wpm.
  unfold mouse_handle. cbn [me_type me_button me_x me_y].
  rewrite Z.eqb_refl. destruct (Z.eqb_spec (mouse_down m) 0) as [H0 | _]; [contradiction |].
  cbn [negb andb]. rewrite Hcw, Hnone, Hmark. rewrite set_curbp_id.
  unfold mark_at_dot. rewrite Hcw. fold wpm.
  assert (Hat' : window_at_row y (set_cur_window wpm st) = Some (curwp st)).
  { rewrite window_at_row_set; [exact Hat | rewrite Hcw; reflexivity
                                | rewrite Hcw; reflexivity]. }
  assert (Hw' : wheadp (set_cur_window wpm st) !! curwp st = Some wpm).
  { unfold set_cur_window. cbn [wheadp set_wheadp].
    apply list_lookup_insert_eq. exact Hk. }
  assert (Hbp' : curbp m = w_bufp (cur_window (set_cur_window wpm st))).
  { rewrite cur_window_set by exact Hk. rewrite Hbp, Hcw. reflexivity. }
  rewrite (mouse_move_to_click x y (set_cur_window wpm st) m (curwp st) wpm
             Hbp' Hat' Hw' Htop).
  assert (Hs : set_curwp (curwp st) (set_cur_window wpm st) = set_cur_window wpm st)
    by (destruct st; reflexivity).
  rewrite Hs, set_cur_window_twice.
  change (w_bufp wpm) with (w_bufp wp). rewrite <- Hcw, <- Hbp, set_curbp_id.
  reflexivity.
Qed.


(** ** The double click *)

Lemma to_long_small (z : Z) : - 2 ^ 63 <= z < 2 ^ 63 -> to_long z = z.
Proof.
  intros Hz. unfold to_long.
  change 9223372036854775808 with (2 ^ 63). change 18446744073709551616 with (2 ^ 64).
  rewrite Z.mod_small; lia.
Qed.

Lemma elapsed_ms_value (now last : Z * Z) :
  timeval_ok now -> timeval_ok last ->
  elapsed_ms now last = (now.1 - last.1) * 1000 + Z.quot (now.2 - last.2) 1000.
Proof.
  intros [Hs Hu] [Hls Hlu]. unfold elapsed_ms.
  assert (Hq : -1000 < Z.quot (now.2 - last.2) 1000 < 1000).
  { destruct (Z.le_gt_cases 0 (now.2 - last.2)) as [Hp | Hneg].
    - rewrite Z.quot_div_nonneg by lia.
      pose proof (Z.div_pos (now.2 - last.2) 1000 Hp ltac:(lia)).
      pose proof (Z.div_lt_upper_bound (now.2 - last.2) 1000 1000 ltac:(lia) ltac:(lia)).
      lia.
    - rewrite <- (Z.opp_involutive (now.2 - last.2)). rewrite Z.quot_opp_l by lia.
      rewrite Z.quot_div_nonneg by lia.
      pose proof (Z.div_pos (- (now.2 - last.2)) 1000 ltac:(lia) ltac:(lia)).
      pose proof (Z.div_lt_upper_bound (- (now.2 - last.2)) 1000 1000
                    ltac:(lia) ltac:(lia)).
      lia. }
  rewrite (to_long_small (now.1 - last.1)) by lia.
  rewrite (to_long_small ((now.1 - last.1) * 1000)) by lia.
  rewrite (to_long_small (now.2 - last.2)) by lia.
  apply to_long_small. lia.
Qed.

Lemma elapsed_ms_window (now last : Z * Z) :
  timeval_ok now -> timeval_ok last ->
  (0 <= usec_between now last <= 400000 ->
   0 <= elapsed_ms now last <= DOUBLE_CLICK_MS)
  /\ (0 <= elapsed_ms now last <= DOUBLE_CLICK_MS ->
      -1000 < usec_between now last < 401000).
Proof.
  intros Hn Hl. rewrite (elapsed_ms_value now last Hn Hl).
  destruct Hn as [Hs Hu], Hl as [Hls Hlu]. unfold usec_between, DOUBLE_CLICK_MS.
  set (ds := now.1 - last.1). set (du := now.2 - last.2).
  assert (Hdu : -1000000 < du < 1000000) by (unfold du; lia).
  destruct (Z.le_gt_cases 0 du) as [Hp | Hneg].
  - rewrite Z.quot_div_nonneg by lia.
    pose proof (Z.div_mod du 1000 ltac:(lia)) as Hdm.
    pose proof (Z.mod_pos_bound du 1000 ltac:(lia)) as Hmb. split; intros H; lia.
  - assert (Hq : Z.quot du 1000 = - ((- du) / 1000)).
    { rewrite <- (Z.opp_involutive du) at 1. rewrite Z.quot_opp_l by lia.
      rewrite Z.quot_div_nonneg by lia. reflexivity. }
    rewrite Hq.
    pose proof (Z.div_mod (- du) 1000 ltac:(lia)) as Hdm.
    pose proof (Z.mod_pos_bound (- du) 1000 ltac:(lia)) as Hmb. split; intros H; lia.
Qed.

(** X22.  The double click.  A press of the left button on a text row
    records its time and place, holds the button down, clears the mark of
    the window that was current and puts dot under the pointer.  When the
    press before was at the same column and row and at most 400 ms
    earlier, it then selects the word at dot with select_word; when the
    press before was elsewhere, or 401 ms or more ago, or later by the
    clock, it does not.  The time between the presses is taken in whole
    milliseconds from seconds and microseconds, which is exact to a
    millisecond. *)
Theorem double_click_selects_word (x y : Z) (now : Z * Z) (st : display) (m : mouse)
    (k : nat) (wp : mgwin) :
  TRUE <> FALSE ->
  (curwp st < length (wheadp st))%nat ->
  curbp m = w_bufp (cur_window st) ->
  window_at_row y st = Some k ->
  wheadp st !! k = Some wp ->
  (w_linep wp < b_headp (w_bufp wp))%nat ->
  timeval_ok now -> timeval_ok (last_click_time m) ->
  let press := {| me_type := MOUSE_PRESS; me_button := MOUSE_BUTTON_LEFT;
                  me_x := x; me_y := y |} in
  let wp0 := if (k =? curwp st)%nat then clear_mark wp else wp in
  let st1 := set_cur_window (click_window wp0 x y)
               (set_curwp k (set_cur_window (clear_mark (cur_window st)) st)) in
  let m1 := set_curbp (w_bufp wp) (press_recorded x y now m) in
  let d := usec_between now (last_click_time m) in
  (x = last_click_x m -> y = last_click_y m -> 0 <= d <= 400000 ->
   mouse_handle press now st m = Some (TRUE, (select_word st1 m1).2))
  /\ (x <> last_click_x m \/ y <> last_click_y m \/ d <= -1000 \/ 401000 <= d ->
      mouse_handle press now st m = Some (TRUE, (st1, m1)))
  /\ last_click_time m1 = now /\ last_click_x m1 = x /\ last_click_y m1 = y
  /\ mouse_down m1 = 1 /\ drag_start_x m1 = x /\ drag_start_y m1 = y.
Proof.
  intros Htf Hk Hbp Hat Hwp Htop Hnow Hlast press wp0 st1 m1 d.
  pose proof (press_left_does x y now st m k wp Htf Hk Hbp Hat Hwp Htop) as Hpress.
  cbv zeta in Hpress. fold press wp0 st1 m1 in Hpress.
  destruct (elapsed_ms_window now (last_click_time m) Hnow Hlast) as [Hin Hout].
  fold d in Hin, Hout.
  split; [| split].
  - intros Hx Hy Hd. rewrite Hpress. unfold is_double_click.
    specialize (Hin Hd).
    destruct (Z.leb_spec (elapsed_ms now (last_click_time m)) DOUBLE_CLICK_MS); [| lia].
    destruct (Z.geb_spec (elapsed_ms now (last_click_time m)) 0); [| lia].
    rewrite <- Hx, <- Hy, !Z.eqb_refl. reflexivity.
  - intros Hno. rewrite Hpress. unfold is_double_click.
    destruct (Z.leb_spec (elapsed_ms now (last_click_time m)) DOUBLE_CLICK_MS);
      [| reflexivity].
    destruct (Z.geb_spec (elapsed_ms now (last_click_time m)) 0); [| reflexivity].
    destruct (Z.eqb_spec x (last_click_x m)); [| reflexivity].
    destruct (Z.eqb_spec y (last_click_y m)); [| reflexivity].
    exfalso. specialize (Hout ltac:(lia)). destruct Hno as [? | [? | [? | ?]]]; lia.
  - repeat split; reflexivity.
Qed.

(** ** Press and release *)


End Mouse_proofs.

(** ** traceback calls the driver for the band only *)

Lemma collect_inserts_count (sc : list score) (size i itrace : Z) :
  traces_ok size sc -> 0 <= itrace <= size ->
  forall (n : nat) (jtrace ninsl ndraw : Z),
    0 <= jtrace <= size -> (Z.to_nat jtrace < n)%nat ->
    exists jt,
      collect_inserts n sc size i itrace jtrace ninsl ndraw
      = Some (jt, (if negb (i =? size) then ninsl + (jtrace - jt) else ninsl),
              ndraw + (jtrace - jt))
      /\ 0 <= jt <= jtrace.
Proof.
  intros Hok Hi. induction n as [| n IH]; intros jtrace ninsl ndraw Hj Hn.
  - lia.
  - cbn [collect_inserts].
    assert (Hstop : exists jt,
              Some (jtrace, ninsl, ndraw)
              = Some (jt, (if negb (i =? size) then ninsl + (jtrace - jt) else ninsl),
                      ndraw + (jtrace - jt))
              /\ 0 <= jt <= jtrace).
    { exists jtrace. rewrite Z.sub_diag, !Z.add_0_r.
      split; [destruct (negb (i =? size)); reflexivity | lia]. }
    destruct (negb (itrace =? 0) || negb (jtrace =? 0)) eqn:Hnz; [| exact Hstop].
    destruct (Z.eqb_spec (s_itrace (cell sc (nrow * itrace + jtrace))) itrace)
      as [He | Hne]; cbn [negb]; [| exact Hstop].
    assert (H00 : ~ (itrace = 0 /\ jtrace = 0)).
    { intros [-> ->]. discriminate Hnz. }
    destruct (Hok itrace jtrace Hi Hj H00) as [H | [H | H]]; cbv zeta in H; try lia.
    destruct H as (_ & Hjt & Hj1). rewrite Hjt.
    destruct (IH (jtrace - 1) (if negb (i =? size) then ninsl + 1 else ninsl)
                (ndraw + 1)) as (jt & Hrun & Hjt'); try lia.
    exists jt. rewrite Hrun. split; [| lia].
    destruct (negb (i =? size)); f_equal; apply pair_equal_spec;
      (split; [apply pair_equal_spec; split; [reflexivity | lia] | lia]).
Qed.

Lemma collect_deletes_count (sc : list score) (size j jtrace : Z) :
  traces_ok size sc -> 0 <= jtrace <= size ->
  forall (n : nat) (itrace ndell : Z),
    0 <= itrace <= size -> (Z.to_nat itrace < n)%nat ->
    exists it,
      collect_deletes n sc size j itrace jtrace ndell
      = Some (it, (if negb (j =? size) then ndell + (itrace - it) else ndell))
      /\ 0 <= it <= itrace.
Proof.
  intros Hok Hj. induction n as [| n IH]; intros itrace ndell Hi Hn.
  - lia.
  - cbn [collect_deletes].
    assert (Hstop : exists it,
              Some (itrace, ndell)
              = Some (it, (if negb (j =? size) then ndell + (itrace - it) else ndell))
              /\ 0 <= it <= itrace).
    { exists itrace. rewrite Z.sub_diag, !Z.add_0_r.
      split; [destruct (negb (j =? size)); reflexivity | lia]. }
    destruct (negb (itrace =? 0) || negb (jtrace =? 0)) eqn:Hnz; [| exact Hstop].
    destruct (Z.eqb_spec (s_jtrace (cell sc (nrow * itrace + jtrace))) jtrace)
      as [He | Hne]; cbn [negb]; [| exact Hstop].
    assert (H00 : ~ (itrace = 0 /\ jtrace = 0)).
    { intros [-> ->]. discriminate Hnz. }
    destruct (Hok itrace jtrace Hi Hj H00) as [H | [H | H]]; cbv zeta in H; try lia.
    destruct H as (Hit & _ & Hi1). rewrite Hit.
    destruct (IH (itrace - 1) (if negb (j =? size) then ndell + 1 else ndell))
      as (it & Hrun & Hit'); try lia.
    exists it. rewrite Hrun. split; [| lia].
    destruct (negb (j =? size)); f_equal; apply pair_equal_spec;
      (split; [reflexivity | lia]).
Qed.

Lemma band_op_uline (offs size row : Z) (op : ttyop) :
  offs <= row < offs + size -> uline_op row op -> band_op offs size op.
Proof. intros Hrow. destruct op; cbn; intros H; try exact H; try lia. Qed.

Lemma draw_inserted_band (offs size j : Z) :
  forall (n : nat) (ndraw : Z) (st : display),
    1 <= ndraw -> Z.of_nat n = ndraw ->
    offs <= offs + j - ndraw -> offs + j - 1 < offs + size ->
    exists st',
      draw_inserted n offs j ndraw st = Some st'
      /\ band_frame offs size st st' /\ sends (band_op offs size) st st'.
Proof.
  induction n as [| n IH]; intros ndraw st Hd Hn Hlo Hhi.
  - lia.
  - cbn [draw_inserted].
    set (st1 := uline (offs + j - ndraw) (vrow st (offs + j - ndraw)) Blanks st).
    assert (H1 : band_frame offs size st st1).
    { apply band_frame_uline. intros p Hp. discriminate Hp. }
    assert (S1 : sends (band_op offs size) st st1).
    { eapply sends_weaken; [| apply uline_sends].
      intros op. apply band_op_uline. lia. }
    destruct (Z.eqb_spec (ndraw - 1) 0) as [He | Hne]; cbn [negb].
    + exists st1. split; [reflexivity |]. split; assumption.
    + destruct (IH (ndraw - 1) st1) as (st' & Hrun & H2 & S2); try lia.
      exists st'. split; [exact Hrun |].
      split; [eapply band_frame_trans; eassumption | eapply sends_trans; eassumption].
Qed.

Lemma traceback_band (offs size : Z) :
  forall (fuel : nat) (i j : Z) (st : display),
    traces_ok size (scores st) ->
    0 <= i <= size -> 0 <= j <= size -> (Z.to_nat (i + j) < fuel)%nat ->
    exists st',
      traceback fuel offs size i j st = Some st'
      /\ band_frame offs size st st' /\ sends (band_op offs size) st st'.
Proof.
  induction fuel as [| k IH]; intros i j st Hok Hi Hj Hfuel.
  - lia.
  - cbn [traceback].
    destruct ((i =? 0) && (j =? 0)) eqn:H0.
    { exists st. split; [reflexivity |].
      split; [apply band_frame_refl | apply sends_refl]. }
    assert (H00 : ~ (i = 0 /\ j = 0)).
    { intros [-> ->]. discriminate H0. }
    pose proof (Hok i j Hi Hj H00) as Htr. unfold trace_ok in Htr. cbv zeta in Htr.
    set (c := cell (scores st) (nrow * i + j)) in *.
    destruct (Z.eqb_spec (s_itrace c) i) as [Hit | Hit].
    + destruct Htr as [H | [H | H]]; try lia.
      destruct H as (_ & Hjt & Hj1). rewrite Hit, Hjt.
      destruct (collect_inserts_count (scores st) size i i Hok Hi k (j - 1)
                  (if negb (i =? size) then 1 else 0) 1)
        as (jt & Hrun & Hjt'); try lia.
      rewrite Hrun. cbn [mbind option_bind].
      destruct (IH i jt st Hok Hi) as (st1 & Hrec & Hf1 & S1); try lia.
      rewrite Hrec. cbn [mbind option_bind].
      set (ni := if negb (i =? size)
                 then (if negb (i =? size) then 1 else 0) + (j - 1 - jt)
                 else (if negb (i =? size) then 1 else 0)).
      assert (Hni : ni = 0 \/ ni = j - jt).
      { unfold ni. destruct (negb (i =? size)); [right; lia | left; reflexivity]. }
      set (st2 := if negb (ni =? 0) then _ else st1).
      assert (Hf2 : band_frame offs size st1 st2 /\ sends (band_op offs size) st1 st2).
      { unfold st2. destruct (Z.eqb_spec ni 0) as [Hz | Hnz]; cbn [negb].
        - split; [apply band_frame_refl | apply sends_refl].
        - split; [eapply band_frame_trans; apply band_frame_emit |].
          apply (sends_trans _ st1 (ttcolor CTEXT st1));
            [apply sends_emit; exact I |].
          apply sends_emit. cbn. destruct Hni as [Hz | ->]; [contradiction | lia]. }
      destruct Hf2 as [Hf2 S2].
      destruct (draw_inserted_band offs size j (Z.to_nat (1 + (j - 1 - jt)))
                  (1 + (j - 1 - jt)) st2)
        as (st3 & Hdraw & Hf3 & S3); try lia.
      exists st3. split; [exact Hdraw |]. split.
      * eapply band_frame_trans; [| exact Hf3]. eapply band_frame_trans; eassumption.
      * eapply sends_trans; [| exact S3]. eapply sends_trans; eassumption.
    + destruct (Z.eqb_spec (s_jtrace c) j) as [Hjt | Hjt].
      * destruct Htr as [H | [H | H]]; try lia.
        destruct H as (Hit' & _ & Hi1). rewrite Hit', Hjt.
        destruct (collect_deletes_count (scores st) size j j Hok Hj k (i - 1)
                    (if negb (j =? size) then 1 else 0))
          as (it & Hrun & Hit''); try lia.
        rewrite Hrun. cbn [mbind option_bind].
        set (nd := if negb (j =? size)
                   then (if negb (j =? size) then 1 else 0) + (i - 1 - it)
                   else (if negb (j =? size) then 1 else 0)).
        assert (Hnd : nd = 0 \/ nd = i - it).
        { unfold nd. destruct (negb (j =? size)); [right; lia | left; reflexivity]. }
        set (st1 := if negb (nd =? 0) then _ else st).
        assert (Hf1 : band_frame offs size st st1 /\ sends (band_op offs size) st st1).
        { unfold st1. destruct (Z.eqb_spec nd 0) as [Hz | Hnz]; cbn [negb].
          - split; [apply band_frame_refl | apply sends_refl].
          - split; [eapply band_frame_trans; apply band_frame_emit |].
            apply (sends_trans _ st (ttcolor CTEXT st));
              [apply sends_emit; exact I |].
            apply sends_emit. cbn. destruct Hnd as [Hz | ->]; [contradiction | lia]. }
        destruct Hf1 as [Hf1 S1].
        assert (Hok1 : traces_ok size (scores st1)).
        { destruct Hf1 as (_ & -> & _). exact Hok. }
        destruct (IH it j st1 Hok1) as (st2 & Hrec & Hf2 & S2); try lia.
        exists st2. split; [exact Hrec |].
        split; [eapply band_frame_trans; eassumption | eapply sends_trans; eassumption].
      * destruct Htr as [H | [H | H]]; try lia.
        destruct H as (Hit' & Hjt' & Hi1 & Hj1). rewrite Hit', Hjt'.
        destruct (IH (i - 1) (j - 1) st Hok) as (st1 & Hrec & Hf1 & S1); try lia.
        rewrite Hrec. cbn [mbind option_bind].
        eexists. split; [reflexivity |]. split.
        -- eapply band_frame_trans; [exact Hf1 |].
           apply band_frame_uline. intros p Hp. injection Hp as <-. lia.
        -- eapply sends_trans; [exact S1 |].
           eapply sends_weaken; [| apply uline_sends].
           intros op. apply band_op_uline. lia.
Qed.

(** X24.  traceback works on its band and nowhere else.  On the matrix
    setscores has filled for the band of [size] rows at [offs], traceback
    from the last cell returns; every insert or delete of lines it asks
    of the driver begins at a row of the band, ends at the last row of
    the band and moves at least one line and no more than lie between;
    every other call is a move on a row of the band, a color, a character
    or an erase to the end of a line; the page is never erased.  The
    virtual screen, the matrix, the windows and the physical rows outside
    the band are left as they were. *)
Theorem traceback_stays_in_band (offs size : Z) (st : display) :
  0 <= size < nrow ->
  Z.of_nat (length (scores st)) = nrow * nrow ->
  exists st',
    traceback (tb_fuel size) offs size size size (setscores offs size st) = Some st'
    /\ sends (band_op offs size) (setscores offs size st) st'
    /\ vscreen st' = vscreen st
    /\ scores st' = scores (setscores offs size st)
    /\ wheadp st' = wheadp st
    /\ length (pscreen st') = length (pscreen st)
    /\ (forall q, ~ (offs <= q < offs + size) -> prow st' q = prow st q).
Proof.
  intros Hsize Hlen.
  pose proof (setscores_traces_ok offs size st Hsize Hlen) as Hok.
  destruct (traceback_band offs size (tb_fuel size) size size (setscores offs size st)
              Hok ltac:(lia) ltac:(lia) ltac:(unfold tb_fuel; lia))
    as (st' & Hrun & Hf & Hs).
  destruct Hf as (Hv & Hsc & _ & Hw & Hp & Hrows).
  destruct (setscores_matrix offs size st Hsize Hlen)
    as (_ & _ & _ & _ & _ & Hv0 & Hp0).
  exists st'. split; [exact Hrun |]. split; [exact Hs |].
  split; [rewrite Hv; exact Hv0 |]. split; [exact Hsc |].
  split.
  { assert (Hw' : wheadp st' = wheadp (setscores offs size st)).
    { unfold window_part in Hw. injection Hw. auto. }
    rewrite Hw'. reflexivity. }
  split; [rewrite Hp, Hp0; reflexivity |].
  intros q Hq. rewrite (Hrows q Hq). unfold prow. rewrite Hp0. reflexivity.
Qed.

(** ** updext: the extended line *)

Lemma vtpute_plain_byte (k : nat) (c : Z) (wp : mgwin) (st : display) :
  plain_char c = true ->
  vtpute (S k) c wp st = Some (put_plain_ext c st).
Proof.
  intros Hp. destruct (plain_char_spec _ Hp) as (Hm & _).
  rewrite vtpute_plain; rewrite Hm; [reflexivity | exact Hp].
Qed.

(** One character of the extended line, with the attribute of its
    column. *)
Lemma ext_step (c sel : Z) (st : display) :
  0 <= vtrow st < Z.of_nat (length (vscreen st)) ->
  ncol <= Z.of_nat (length (v_text (vrow st (vtrow st)))) ->
  ncol <= Z.of_nat (length (v_attr (vrow st (vtrow st)))) ->
  1 <= ncol ->
  let st1 := attr_fill_ext (Z.to_nat (vtcol (put_plain_ext c st) - vtcol st))
               (vtcol st) sel (put_plain_ext c st) in
  vtcol st1 = (if ncol <=? vtcol st then vtcol st else vtcol st + 1)
  /\ row_only st st1
  /\ forall col,
       chr (v_text (vrow st1 (vtrow st))) col
       = (if ncol <=? vtcol st
          then (if col =? ncol - 1 then 36 else chr (v_text (vrow st (vtrow st))) col)
          else if (col =? vtcol st) && (0 <=? vtcol st) then c
               else chr (v_text (vrow st (vtrow st))) col)
       /\ chr (v_attr (vrow st1 (vtrow st))) col
          = (if (vtcol st <? ncol) && (col =? vtcol st) && (0 <=? vtcol st) then sel
             else chr (v_attr (vrow st (vtrow st))) col).
Proof.
  intros Hr Ht Ha Hn st1. subst st1. unfold put_plain_ext.
  rewrite !Z.geb_leb.
  destruct (Z.leb_spec ncol (vtcol st)) as [Hge | Hlt].
  - (* at the margin *)
    change (vtcol (vt_text (ncol - 1) 36 st)) with (vtcol st).
    rewrite Z.sub_diag. change (Z.to_nat 0) with 0%nat. cbn [attr_fill_ext].
    split; [reflexivity |]. split; [apply row_only_vt_text |].
    intros col. rewrite vrow_vt_text by exact Hr.
    cbn [v_text v_attr set_v_text]. unfold chr. rewrite rd_zset by lia.
    destruct (Z.ltb_spec (vtcol st) ncol); [lia |]. cbn [andb].
    split; reflexivity.
  - destruct (Z.leb_spec 0 (vtcol st)) as [Hpos | Hneg].
    + (* on the screen *)
      set (s1 := vt_text (vtcol st) c st).
      cbn [vtcol set_vtcol]. replace (vtcol st + 1 - vtcol st) with 1 by lia.
      change (Z.to_nat 1) with 1%nat. cbn [attr_fill_ext vtcol set_vtcol].
      destruct (Z.ltb_spec (vtcol st) (vtcol st + 1)); [| lia].
      rewrite Z.geb_leb.
      destruct (Z.leb_spec 0 (vtcol st)); [| lia].
      destruct (Z.ltb_spec (vtcol st) ncol); [| lia]. cbn [andb].
      split; [reflexivity |]. split.
      { eapply row_only_trans; [apply row_only_vt_text |].
        eapply row_only_trans; [apply row_only_set_vtcol |]. apply row_only_vt_attr. }
      intros col.
      change (vtrow st) with (vtrow (set_vtcol (vtcol st + 1) s1)) at 1 3.
      rewrite vrow_vt_attr
        by (cbn [vtrow set_vtcol vscreen]; unfold s1;
            rewrite length_vscreen_vt_text; exact Hr).
      cbn [vtrow set_vtcol].
      change (vrow (set_vtcol (vtcol st + 1) s1) (vtrow s1)) with (vrow s1 (vtrow st)).
      unfold s1. rewrite vrow_vt_text by exact Hr.
      cbn [v_text v_attr set_v_text set_v_attr]. unfold chr.
      rewrite !rd_zset by lia.
      destruct (Z.eqb_spec col (vtcol st)); cbn [andb]; split; reflexivity.
    + (* left of the screen *)
      cbn [vtcol set_vtcol]. replace (vtcol st + 1 - vtcol st) with 1 by lia.
      change (Z.to_nat 1) with 1%nat. cbn [attr_fill_ext vtcol set_vtcol].
      destruct (Z.ltb_spec (vtcol st) (vtcol st + 1)); [| lia].
      rewrite Z.geb_leb.
      destruct (Z.leb_spec 0 (vtcol st)); [lia |]. cbn [andb].
      split; [reflexivity |]. split; [apply row_only_set_vtcol |].
      intros col. rewrite !andb_false_r. split; reflexivity.
Qed.

(** The loop of updext over a line of bytes drawn as themselves: the
    character at the offset [k] goes to the column [k - lbound], when that
    is a column of the screen, and a dollar sign to the last column when
    the line goes on beyond it. *)
Lemma put_line_ext_plain (wp : mgwin) (lp : nat) (line_num : Z) :
  1 <= ncol ->
  forall (n : nat) (j : Z) (st : display),
    (forall k, j <= k < j + Z.of_nat n ->
       plain_char (lgetc (w_bufp wp) lp k) = true) ->
    vtcol st = Z.min (j - lbound st) ncol ->
    0 <= vtrow st < Z.of_nat (length (vscreen st)) ->
    ncol <= Z.of_nat (length (v_text (vrow st (vtrow st)))) ->
    ncol <= Z.of_nat (length (v_attr (vrow st (vtrow st)))) ->
    exists st',
      put_line_ext n wp lp line_num j st = Some st'
      /\ vtcol st' = Z.min (j + Z.of_nat n - lbound st) ncol
      /\ row_only st st'
      /\ forall col,
           chr (v_text (vrow st' (vtrow st))) col
           = (if (col =? ncol - 1) && (ncol <=? j + Z.of_nat n - 1 - lbound st)
                 && (1 <=? Z.of_nat n)
              then 36
              else if (0 <=? col) && (col <? ncol) && (j <=? col + lbound st)
                      && (col + lbound st <? j + Z.of_nat n)
              then lgetc (w_bufp wp) lp (col + lbound st)
              else chr (v_text (vrow st (vtrow st))) col)
           /\ chr (v_attr (vrow st' (vtrow st))) col
              = (if (0 <=? col) && (col <? ncol) && (j <=? col + lbound st)
                    && (col + lbound st <? j + Z.of_nat n)
                 then in_selection wp line_num (col + lbound st)
                 else chr (v_attr (vrow st (vtrow st))) col).
Proof.
  intros Hn. induction n as [| n IH]; intros j st Hp Hv Hr Ht Ha.
  - exists st. split; [reflexivity |]. split; [rewrite Hv; f_equal; lia |].
    split; [apply row_only_refl |].
    intros col. rewrite !andb_false_r.
    destruct (Z.ltb_spec (col + lbound st) (j + Z.of_nat 0));
      destruct (Z.leb_spec j (col + lbound st)); rewrite ?andb_false_r, ?andb_true_r;
      try lia; split; try reflexivity.
    all: rewrite ?andb_false_r; reflexivity.
  - cbn [put_line_ext]. unfold vt_fuel.
    rewrite vtpute_plain_byte by (apply Hp; lia).
    cbn [mbind option_bind].
    set (c := lgetc (w_bufp wp) lp j).
    set (sel := in_selection wp line_num j).
    destruct (ext_step c sel st Hr Ht Ha Hn) as (Hv1 & Hro & Hcells).
    set (st1 := attr_fill_ext _ _ _ _) in *.
    destruct Hro as (R1 & R2 & R3 & R4 & R5 & R6 & R7 & R8) eqn:Ero. clear Ero.
    assert (Hv1' : vtcol st1 = Z.min (j + 1 - lbound st1) ncol).
    { rewrite Hv1, R2, Hv. destruct (Z.leb_spec ncol (Z.min (j - lbound st) ncol)); lia. }
    destruct (IH (j + 1) st1) as (st' & Hrun & Hcol & Hro' & Hcells');
      try (rewrite ?R1, ?R3, ?R6, ?R7; lia); try exact Hv1'.
    { intros k Hk. apply Hp. lia. }
    exists st'. split; [exact Hrun |].
    split; [rewrite Hcol, R2; f_equal; lia |].
    split; [eapply row_only_trans; [| exact Hro']; unfold row_only; tauto |].
    intros col. rewrite R1, R2 in Hcells'.
    destruct (Hcells' col) as [-> ->]. destruct (Hcells col) as [-> ->].
    rewrite Hv.
    replace (j + 1 + Z.of_nat n) with (j + Z.of_nat (S n)) by lia.
    destruct (Z.eqb_spec col (ncol - 1));
      destruct (Z.leb_spec ncol (j + Z.of_nat (S n) - 1 - lbound st));
      destruct (Z.leb_spec 1 (Z.of_nat n));
      destruct (Z.leb_spec 1 (Z.of_nat (S n)));
      destruct (Z.leb_spec 0 col);
      destruct (Z.ltb_spec col ncol);
      destruct (Z.leb_spec (j + 1) (col + lbound st));
      destruct (Z.leb_spec j (col + lbound st));
      destruct (Z.ltb_spec (col + lbound st) (j + Z.of_nat (S n)));
      destruct (Z.leb_spec ncol (Z.min (j - lbound st) ncol));
      destruct (Z.ltb_spec (Z.min (j - lbound st) ncol) ncol);
      destruct (Z.eqb_spec col (Z.min (j - lbound st) ncol));
      destruct (Z.leb_spec 0 (Z.min (j - lbound st) ncol));
      cbn [andb]; try lia; try (split; reflexivity).
    all: try (split; [| reflexivity]).
    all: try (split; [reflexivity |]).
    all: unfold c, sel.
    all: try (repeat f_equal; lia).
    all: replace (col + lbound st) with j by lia; split; reflexivity.
Qed.

Lemma ext_bound (curcol : Z) :
  2 <= ncol -> ncol - 1 <= curcol ->
  let L := curcol - Z.rem curcol (Z.shiftr ncol 1) - Z.shiftr ncol 2 in
  1 <= L <= curcol
  /\ Z.shiftr ncol 2 <= curcol - L < Z.shiftr ncol 1 + Z.shiftr ncol 2
  /\ curcol - L < ncol.
Proof.
  intros Hn Hc L. subst L.
  rewrite (Z.shiftr_div_pow2 ncol 1), (Z.shiftr_div_pow2 ncol 2) by lia.
  change (2 ^ 1) with 2. change (2 ^ 2) with 4.
  pose proof (Z.div_mod ncol 2 ltac:(lia)) as H2.
  pose proof (Z.mod_pos_bound ncol 2 ltac:(lia)) as M2.
  pose proof (Z.div_mod ncol 4 ltac:(lia)) as H4.
  pose proof (Z.mod_pos_bound ncol 4 ltac:(lia)) as M4.
  assert (Hh : 1 <= ncol / 2) by lia.
  assert (Hq : 0 <= ncol / 4) by lia.
  rewrite Z.rem_mod_nonneg by lia.
  assert (Hh' : 0 < ncol / 2) by lia.
  pose proof (Z.mod_pos_bound curcol (ncol / 2) Hh') as Mr.
  repeat split; lia.
Qed.

(** X25.  updext shows the part of the line around the cursor.  Called as
    update calls it, with the cursor at or beyond the last column, on a
    line of bytes drawn as themselves, it returns with a left bound of at
    least one column that brings the cursor onto the screen, between a
    quarter and three quarters of its width.  The row then holds a dollar
    sign in its first column, and in every other column the character of
    the line that the left bound brings there with the selection attribute
    of its place, blanks without attribute after the end of the line, and
    a dollar sign in the last column when the line goes on beyond it.
    Nothing but that row, the virtual cursor and the left bound is
    changed. *)
Theorem updext_shows_cursor_part (currow curcol : Z) (st : display) :
  let cw := nth (curwp st) (wheadp st) mgwin0 in
  let lp := w_dotp cw in
  let len := llength (w_bufp cw) lp in
  2 <= ncol -> ncol - 1 <= curcol <= len ->
  0 <= currow < Z.of_nat (length (vscreen st)) ->
  ncol <= Z.of_nat (length (v_text (vrow st currow))) ->
  ncol <= Z.of_nat (length (v_attr (vrow st currow))) ->
  forallb plain_char (ltext (w_bufp cw) lp) = true ->
  exists st',
    updext currow curcol st = Some st'
    /\ lbound st' = curcol - Z.rem curcol (Z.shiftr ncol 1) - Z.shiftr ncol 2
    /\ 1 <= lbound st'
    /\ Z.shiftr ncol 2 <= curcol - lbound st' < Z.shiftr ncol 1 + Z.shiftr ncol 2
    /\ curcol - lbound st' < ncol
    /\ chr (v_text (vrow st' currow)) 0 = 36
    /\ (forall col, 1 <= col < ncol ->
          chr (v_text (vrow st' currow)) col
          = (if (col =? ncol - 1) && (lbound st' + ncol <? len) then 36
             else if col + lbound st' <? len
                  then lgetc (w_bufp cw) lp (col + lbound st')
                  else 32))
    /\ (forall col, 0 <= col < ncol ->
          chr (v_attr (vrow st' currow)) col
          = (if col + lbound st' <? len
             then in_selection cw (w_dotline cw) (col + lbound st')
             else 0))
    /\ (forall i, i <> currow -> vrow st' i = vrow st i)
    /\ beyond_builder st' = beyond_builder st.
Proof.
  intros cw lp len Hn Hc Hr Ht Ha Hplain.
  destruct (ext_bound curcol Hn ltac:(lia)) as (HL & Hmid & Hon).
  set (L := curcol - Z.rem curcol (Z.shiftr ncol 1) - Z.shiftr ncol 2) in *.
  unfold updext. destruct (Z.ltb_spec ncol 2) as [Hlt | _]; [lia |].
  cbv zeta. fold L.
  change (nth (curwp (vtmove currow (- lbound (set_lbound L st)) (set_lbound L st)))
              (wheadp (vtmove currow (- lbound (set_lbound L st)) (set_lbound L st)))
              mgwin0) with cw.
  fold lp.
  set (st0 := vtmove currow (- lbound (set_lbound L st)) (set_lbound L st)).
  assert (Hr0 : vtrow st0 = currow) by reflexivity.
  assert (Hl0 : lbound st0 = L) by reflexivity.
  assert (Hrow0 : vrow st0 currow = vrow st currow) by reflexivity.
  assert (Hlen : len = Z.of_nat (line_len cw lp)) by reflexivity.
  destruct (put_line_ext_plain cw lp (w_dotline cw) ltac:(lia) (line_len cw lp) 0 st0)
    as (st1 & Hrun & Hcol & Hro & Hcells);
    try (rewrite ?Hr0, ?Hrow0; first [exact Hr | exact Ht | exact Ha]).
  { intros k Hk. rewrite forallb_forall in Hplain. apply Hplain.
    unfold lgetc. rewrite chr_nth by lia. apply nth_In. unfold line_len in Hk. lia. }
  { rewrite Hl0. change (vtcol st0) with (- L). lia. }
  rewrite Hrun. cbn [mbind option_bind].
  rewrite Hr0, Hrow0, Hl0, <- Hlen in Hcells. rewrite Hl0, <- Hlen in Hcol.
  destruct Hro as (R1 & R2 & R3 & R4 & R5 & R6 & R7 & R8) eqn:Ero. clear Ero.
  rewrite Hr0 in R1, R5, R6, R7. rewrite Hrow0 in R6, R7.
  destruct (vteeol_loop_cells (Z.to_nat (ncol - vtcol st1)) st1)
    as (E2 & E3 & E4);
    try (rewrite ?R1, ?R3, ?R6, ?R7; first [exact Hr | lia]).
  fold (vteeol st1) in E2, E3, E4. rewrite R1 in E4.
  destruct E3 as (S1 & S2 & S3 & S4 & S5 & S6 & S7 & S8) eqn:Ero. clear Ero.
  rewrite R1 in S1, S5, S6, S7.
  set (st2 := vteeol st1) in *.
  eexists. split; [reflexivity |].
  assert (Hvs : 0 <= currow < Z.of_nat (length (vscreen st2))).
  { rewrite S3, R3. exact Hr. }
  assert (Hrow : vrow (set_vrow currow
                         (set_v_text (zset (v_text (vrow st2 currow)) 0 36)
                            (vrow st2 currow)) st2) currow
                 = set_v_text (zset (v_text (vrow st2 currow)) 0 36) (vrow st2 currow)).
  { unfold set_vrow, vrow. cbn [vscreen set_vscreen]. apply rd_zset_eq. exact Hvs. }
  cbn [lbound set_vrow set_vscreen]. rewrite S2, R2, Hl0.
  split; [reflexivity |]. split; [lia |]. split; [exact Hmid |]. split; [exact Hon |].
  rewrite Hrow. cbn [v_text v_attr set_v_text]. unfold chr.
  split; [rewrite rd_zset by (rewrite S6, R6; lia); reflexivity |].
  split.
  { intros col Hcolr. rewrite rd_zset by (rewrite S6, R6; lia).
    destruct (Z.eqb_spec col 0); [lia |].
    destruct (E4 col) as [Et _]. unfold chr in Et. rewrite Et, Hcol.
    destruct (Hcells col) as [Hc1 _]. unfold chr in Hc1. rewrite Hc1.
    destruct (Z.leb_spec (Z.min (0 + len - L) ncol) col);
      destruct (Z.ltb_spec col ncol);
      destruct (Z.eqb_spec col (ncol - 1));
      destruct (Z.leb_spec ncol (0 + len - 1 - L));
      destruct (Z.leb_spec 1 len);
      destruct (Z.ltb_spec (L + ncol) len);
      destruct (Z.leb_spec 0 col);
      destruct (Z.leb_spec 0 (col + L));
      destruct (Z.ltb_spec (col + L) (0 + len));
      destruct (Z.ltb_spec (col + L) len);
      cbn [andb]; try lia; reflexivity. }
  split.
  { intros col Hcolr.
    destruct (E4 col) as [_ Ea]. unfold chr in Ea. rewrite Ea, Hcol.
    destruct (Hcells col) as [_ Hc2]. unfold chr in Hc2. rewrite Hc2.
    destruct (Z.leb_spec (Z.min (0 + len - L) ncol) col);
      destruct (Z.ltb_spec col ncol);
      destruct (Z.leb_spec 0 col);
      destruct (Z.leb_spec 0 (col + L));
      destruct (Z.ltb_spec (col + L) (0 + len));
      destruct (Z.ltb_spec (col + L) len);
      cbn [andb]; try lia; reflexivity. }
  split.
  { intros i Hi. unfold set_vrow, vrow. cbn [vscreen set_vscreen].
    rewrite rd_zset_ne by congruence.
    change (rd video0 (vscreen st2) i) with (vrow st2 i).
    rewrite S5, R5 by exact Hi. reflexivity. }
  transitivity (beyond_builder st2); [reflexivity |].
  rewrite S4, R4. reflexivity.
Qed.

(** ** mouse_parse: what is not a report *)

Lemma read_number_inv :
  forall (input : list Z) (v v' c : Z) (rest : list Z),
    read_number v input = Some (v', c, rest) ->
    exists ds, input = ds ++ c :: rest /\ Forall is_digit ds /\ ~ is_digit c.
Proof.
  induction input as [| d input IH]; intros v v' c rest H; cbn [read_number] in H.
  - discriminate H.
  - destruct (Z.leb_spec 48 d) as [H1 | H1]; cbn [andb] in H.
    + destruct (Z.leb_spec d 57) as [H2 | H2].
      * destruct (IH _ _ _ _ H) as (ds & -> & Hds & Hc).
        exists (d :: ds). split; [reflexivity |].
        split; [constructor; [unfold is_digit; lia | exact Hds] | exact Hc].
      * injection H as <- <- <-. exists []. split; [reflexivity |].
        split; [constructor | unfold is_digit; lia].
    + injection H as <- <- <-. exists []. split; [reflexivity |].
      split; [constructor | unfold is_digit; lia].
Qed.

(** X26.  mouse_parse accepts SGR reports only, and a report it rejects
    leaves the event alone.  When it returns 1, the character before was
    '<' and the input read is three runs of digits (each may be empty),
    the first two closed by semicolons and the third by 'M' or 'm'; what
    follows the closing letter is left unread.  In every other case it
    returns 0 and the event behind [mep] is as it was; without the '<' no
    input is read at all, and otherwise the input has been read up to and
    with the first character that does not fit: one that is neither a
    digit nor the semicolon due after the first or the second run, or
    neither a digit nor 'M' nor 'm' after the third. *)
Theorem mouse_parse_accepts_only_sgr (startc : Z) (mep mep' : mouse_event)
    (input rest : list Z) (r : Z) :
  mouse_parse startc mep input = Some (r, mep', rest) ->
  (r = 1 /\ startc = 60
   /\ exists bs xs ys term,
        input = bs ++ 59 :: xs ++ 59 :: ys ++ term :: rest
        /\ Forall is_digit bs /\ Forall is_digit xs /\ Forall is_digit ys
        /\ (term = 77 \/ term = 109))
  \/ (r = 0 /\ mep' = mep
      /\ (startc <> 60 -> rest = input)
      /\ (startc = 60 ->
          exists bs c,
            Forall is_digit bs /\ ~ is_digit c
            /\ ((input = bs ++ c :: rest /\ c <> 59)
                \/ exists xs,
                     Forall is_digit xs
                     /\ ((input = bs ++ 59 :: xs ++ c :: rest /\ c <> 59)
                         \/ exists ys,
                              Forall is_digit ys
                              /\ input = bs ++ 59 :: xs ++ 59 :: ys ++ c :: rest
                              /\ c <> 77 /\ c <> 109)))).
Proof.
  intros H. unfold mouse_parse in H.
  destruct (Z.eqb_spec startc 60) as [Hs | Hs]; cbn [negb] in H.
  2: { injection H as <- <- <-. right. split; [reflexivity |]. split; [reflexivity |].
       split; [reflexivity | contradiction]. }
  destruct (read_number 0 input) as [[[button c1] in1] |] eqn:R1;
    cbn [mbind option_bind] in H; [| discriminate H].
  destruct (read_number_inv _ _ _ _ _ R1) as (bs & -> & Hbs & Hc1).
  destruct (Z.eqb_spec c1 59) as [-> | Hn1]; cbn [negb] in H.
  2: { injection H as <- <- <-. right. split; [reflexivity |]. split; [reflexivity |].
       split; [intros Hc; contradiction |]. intros _.
       exists bs, c1. split; [exact Hbs |]. split; [exact Hc1 |].
       left. split; [reflexivity | exact Hn1]. }
  destruct (read_number 0 in1) as [[[x c2] in2] |] eqn:R2;
    cbn [mbind option_bind] in H; [| discriminate H].
  destruct (read_number_inv _ _ _ _ _ R2) as (xs & -> & Hxs & Hc2).
  destruct (Z.eqb_spec c2 59) as [-> | Hn2]; cbn [negb] in H.
  2: { injection H as <- <- <-. right. split; [reflexivity |]. split; [reflexivity |].
       split; [intros Hc; contradiction |]. intros _.
       exists bs, c2. split; [exact Hbs |]. split; [exact Hc2 |].
       right. exists xs. split; [exact Hxs |].
       left. split; [reflexivity | exact Hn2]. }
  destruct (read_number 0 in2) as [[[y c3] in3] |] eqn:R3;
    cbn [mbind option_bind] in H; [| discriminate H].
  destruct (read_number_inv _ _ _ _ _ R3) as (ys & -> & Hys & Hc3).
  destruct (Z.eqb_spec c3 109) as [H109 | H109]; cbn [negb andb] in H.
  - destruct (negb (Z.land button 32 =? 0)); injection H as <- <- <-;
      left; (split; [reflexivity |]); (split; [exact Hs |]);
      exists bs, xs, ys, c3; repeat split; auto.
  - destruct (Z.eqb_spec c3 77) as [H77 | H77]; cbn [negb] in H.
    + destruct (negb (Z.land button 32 =? 0)); injection H as <- <- <-;
        left; (split; [reflexivity |]); (split; [exact Hs |]);
        exists bs, xs, ys, c3; repeat split; auto.
    + injection H as <- <- <-. right. split; [reflexivity |]. split; [reflexivity |].
      split; [intros Hc; contradiction |]. intros _.
      exists bs, c3. split; [exact Hbs |]. split; [exact Hc3 |].
      right. exists xs. split; [exact Hxs |].
      right. exists ys. split; [exact Hys |].
      split; [reflexivity |]. split; [exact H77 | exact H109].
Qed.

(** ** From the report to dot *)

Section Report_proofs.
Context {D : Defs}.

(** The report of a press of button 0 at column X and row Y, as the
    terminal sends it after the "<". *)
Lemma press_report_parsed (xs ys : list Z) (mep : mouse_event) (rest : list Z) :
  Forall is_digit xs -> Forall is_digit ys ->
  digits_value xs <= INT_MAX -> digits_value ys <= INT_MAX ->
  mouse_parse 60 mep (48 :: 59 :: xs ++ 59 :: ys ++ 77 :: rest)
  = Some (1, {| me_type := MOUSE_PRESS; me_button := 0;
                me_x := digits_value xs - 1; me_y := digits_value ys - 1 |}, rest).
Proof.
  intros Hx Hy Mx My. unfold mouse_parse, digits_value in *.
  assert (N59 : ~ is_digit 59) by (unfold is_digit; lia).
  assert (N77 : ~ is_digit 77) by (unfold is_digit; lia).
  pose proof (digits_acc_ge xs 0 Hx ltac:(lia)) as Gx.
  pose proof (digits_acc_ge ys 0 Hy ltac:(lia)) as Gy.
  cbn [negb Z.eqb Pos.eqb].
  assert (Hb : Forall is_digit [48]) by (repeat constructor; unfold is_digit; lia).
  match goal with
  | |- context [read_number 0 (48 :: 59 :: ?r)] =>
      change (48 :: 59 :: r) with ([48] ++ 59 :: r)
  end.
  rewrite (read_number_digits [48] 0 59 _ Hb N59 ltac:(lia))
    by (cbn; unfold INT_MAX; lia).
  cbn [mbind option_bind negb Z.eqb Pos.eqb fold_left].
  rewrite (read_number_digits xs 0 59 _ Hx N59) by (assumption || lia).
  cbn [mbind option_bind negb Z.eqb Pos.eqb].
  rewrite (read_number_digits ys 0 77 _ Hy N77) by (assumption || lia).
  cbn [mbind option_bind negb Z.eqb Pos.eqb andb].
  rewrite !to_int_id by (unfold INT_MAX in *; lia).
  reflexivity.
Qed.


End Report_proofs.
End Display.

(** * The statements on the sample configuration *)

#[local] Existing Instance sample_env.

Lemma sample_screens_ok (st : display) :
  vscreen st = vscreen sample_display \/ vscreen st = vscreen sample_shifted ->
  length (pscreen st) = 2%nat -> length (scores st) = 9%nat ->
  screens_ok st.
Proof.
  intros Hv Hp Hs. unfold screens_ok, vrow. cbn [nrow ncol sample_env].
  rewrite Hp, Hs.
  split; [lia |]. split; [lia |].
  split; [destruct Hv as [-> | ->]; reflexivity |].
  split; [reflexivity |]. split; [reflexivity |].
  intros i Hi. assert (Hc : i = 0 \/ i = 1) by lia.
  destruct Hv as [-> | ->]; destruct Hc as [-> | ->]; split; reflexivity.
Qed.

Lemma setscores_recurrence_witness :
  (0 <= 2 < nrow
   /\ Z.of_nat (length (scores sample_shifted)) = nrow * nrow)
  /\ cell_ok sample_shifted 0 2
       (scores (setscores 0 2 sample_shifted)) 1 1
  /\ cell (scores (setscores 0 2 sample_shifted)) (3 * 2 + 2)
     = {| s_itrace := 1; s_jtrace := 1; s_cost := 10 |}.
Proof.
  assert (H1 : 0 <= 2 < nrow) by (cbn; lia).
  assert (H2 : Z.of_nat (length (scores sample_shifted))
               = nrow * nrow) by reflexivity.
  split; [split; assumption |].
  destruct (setscores_recurrence 0 2 sample_shifted H1 H2)
    as (_ & _ & _ & Hm & _).
  split.
  - unfold cell_ok. cbv zeta. apply (Hm 1 1); lia.
  - change (3 * 2 + 2) with (nrow * 2 + 2).
    rewrite (Hm 2 2) by lia. vm_compute. reflexivity.
Defined.


Lemma vtputc_tab_advance_witness :
  (ISCTRL 32 = false /\ isprint 32 = true /\ 0 < b_tabw (w_bufp sample_tabs)
   /\ 0 <= 7 < ncol)
  /\ exists st',
       vtputc vt_fuel 9 sample_tabs (set_vtcol 7 (set_vtrow 0 sample_display))
       = Some st'
       /\ vtcol st' = 8
       /\ chr (v_text (vrow st' 0)) 7 = 32.
Proof.
  assert (H1 : ISCTRL 32 = false) by reflexivity.
  assert (H2 : isprint 32 = true) by reflexivity.
  assert (H3 : 0 < b_tabw (w_bufp sample_tabs)) by reflexivity.
  assert (H4 : 0 <= vtcol (set_vtcol 7 (set_vtrow 0 sample_display)) < ncol)
    by (cbn; lia).
  assert (H5 : (Z.to_nat (ncol - vtcol (set_vtcol 7 (set_vtrow 0 sample_display)))
                < vt_fuel)%nat) by (vm_compute; lia).
  split; [repeat split; assumption || (cbn; lia) |].
  destruct (vtputc_tab_advance vt_fuel sample_tabs
              (set_vtcol 7 (set_vtrow 0 sample_display)) H1 H2 H3 H4 H5)
    as (_ & st' & Hrun & Hcol & Hmove & _ & Htext).
  assert (Hc8 : vtcol st' = 8) by exact Hcol.
  exists st'. split; [exact Hrun |]. split; [exact Hc8 |].
  apply Htext; [cbn; lia | reflexivity |].
  rewrite Hc8. cbn. lia.
Defined.

Lemma in_selection_interval_witness :
  w_markp sample_selecting <> None
  /\ in_selection sample_selecting 2 3 = 1
  /\ in_selection sample_selecting 4 0 = 1
  /\ in_selection sample_selecting 5 1 <> 1
  /\ in_selection (swap_mark_dot sample_selecting) 5 0
     = in_selection sample_selecting 5 0.
Proof.
  assert (Hm : w_markp sample_selecting <> None) by discriminate.
  split; [exact Hm |].
  destruct (in_selection_interval sample_selecting 2 3 Hm) as (Ha & _).
  destruct (in_selection_interval sample_selecting 4 0 Hm) as (_ & _ & _ & Hb).
  destruct (in_selection_interval sample_selecting 5 1 Hm) as (Hc & _).
  destruct (in_selection_interval sample_selecting 5 0 Hm) as (_ & _ & Hd & _).
  split; [apply Ha; unfold pos_le, pos_lt; cbn; lia |].
  split; [apply Hb; cbn; lia |].
  split; [| exact Hd].
  intros H. apply Hc in H. unfold pos_le, pos_lt in H. cbn in H. lia.
Defined.


Lemma selection_forces_full_witness :
  Z.land (Z.land (WFFULL) (Z.lnot (WFMODE)))
    (Z.lnot (WFEDIT)) <> 0
  /\ exists wp',
       wheadp (update_flags
                 (set_wheadp [sample_selecting] sample_shifted)) !! 0%nat
       = Some wp'
       /\ Z.land (w_rflag wp') (WFFULL) = WFFULL
       /\ edit_only (frame_window wp') = false.
Proof.
  assert (Hbit : Z.land (Z.land (WFFULL) (Z.lnot (WFMODE)))
                   (Z.lnot (WFEDIT)) <> 0) by (vm_compute; discriminate).
  split; [exact Hbit |].
  destruct (selection_forces_full
              (set_wheadp [sample_selecting] sample_shifted) Hbit) as [Hall Hpend].
  destruct (Hpend 0%nat sample_selecting) as (wp' & Hk & Hm & Hf);
    [reflexivity | reflexivity | discriminate |].
  exists wp'. split; [exact Hk |].
  destruct (Hall wp') as (H1 & _ & H3 & _);
    [eapply list_elem_of_lookup_2; exact Hk | exact Hm | exact Hf |].
  split; assumption.
Defined.

Lemma mouse_parse_sgr_witness :
  mouse_parse 60 {| me_type := MOUSE_DRAG; me_button := 9; me_x := 9; me_y := 9 |}
    [48; 59; 49; 49; 59; 54; 77]
  = Some (1, {| me_type := MOUSE_PRESS; me_button := 0; me_x := 10; me_y := 5 |}, [])
  /\ mouse_parse 60 {| me_type := MOUSE_DRAG; me_button := 9; me_x := 9; me_y := 9 |}
       [48; 59; 49; 49; 59; 54; 109]
     = Some (1, {| me_type := MOUSE_RELEASE; me_button := 0; me_x := 10; me_y := 5 |}, [])
  /\ mouse_parse 60 {| me_type := MOUSE_PRESS; me_button := 9; me_x := 9; me_y := 9 |}
       [51; 50; 59; 49; 59; 49; 77; 120]
     = Some (1, {| me_type := MOUSE_DRAG; me_button := 0; me_x := 0; me_y := 0 |}, [120]).
Proof.
  assert (D : forall ds, Forall (fun c => (48 <=? c) = true /\ (c <=? 57) = true) ds ->
                         Forall is_digit ds).
  { intros ds. apply Forall_impl. intros c [H1 H2]. unfold is_digit. lia. }
  split; [| split].
  - apply (mouse_parse_sgr [48] [49; 49] [54] 77 _ []);
      try (apply D; repeat constructor); try (vm_compute; discriminate).
    left; reflexivity.
  - apply (mouse_parse_sgr [48] [49; 49] [54] 109 _ []);
      try (apply D; repeat constructor); try (vm_compute; discriminate).
    right; reflexivity.
  - apply (mouse_parse_sgr [51; 50] [49] [49] 77 _ [120]);
      try (apply D; repeat constructor); try (vm_compute; discriminate).
    left; reflexivity.
Defined.

Lemma hard_band_empty_panics_witness :
  hard_band 1 1 0 0 sample_shifted
  = Panic "Illegal screen size in update".
Proof.
  apply (hard_band_empty_panics 1 1 0 0 sample_shifted). reflexivity.
Defined.

Lemma update_hard_band_nonempty_witness :
  1 <= nrow
  /\ update_hard 0 0 sample_shifted
     <> Panic "Illegal screen size in update".
Proof.
  assert (H : 1 <= nrow) by (cbn; lia).
  split; [exact H |].
  apply (update_hard_band_nonempty 0 0 sample_shifted H).
Defined.




(** * The further statements on the sample configuration *)

(** Closed comparisons of integers, by computation. *)
Ltac zcomp :=
  vm_compute; repeat split; first [discriminate | reflexivity].

Lemma sample_chars_ok : chars_ok = true.
Proof. vm_compute. reflexivity. Qed.

Lemma sample_cells (l : list Z) (P : Z -> Prop) :
  Forall P l -> P 0 -> forall col, P (chr l col).
Proof.
  intros Hl H0 col. unfold chr, rd, zget.
  destruct (col <? 0); [exact H0 |].
  destruct (l !! Z.to_nat col) as [x |] eqn:Hx; [| exact H0].
  cbn. rewrite Forall_forall in Hl. apply Hl.
  apply list_elem_of_In. eapply list_elem_of_lookup_2. exact Hx.
Qed.


Lemma vtputc_control_two_columns_witness :
  (chars_ok = true /\ ISCTRL (Z.land 7 255) = true)
  /\ exists st',
       vtputc vt_fuel 7 sample_window (vtmove 0 2 sample_plain) = Some st'
       /\ vtcol st' = 4
       /\ chr (v_text (vrow st' 0)) 2 = 94
       /\ chr (v_text (vrow st' 0)) 3 = 71.
Proof.
  assert (H1 : chars_ok = true) by exact sample_chars_ok.
  assert (H2 : Z.land 7 255 <> 9) by (vm_compute; discriminate).
  assert (H3 : ISCTRL (Z.land 7 255) = true) by reflexivity.
  assert (H4 : 0 <= vtrow (vtmove 0 2 sample_plain)
               < Z.of_nat (length (vscreen (vtmove 0 2 sample_plain))))
    by (cbn; lia).
  assert (H5 : ncol <= Z.of_nat (length (v_text (vrow (vtmove 0 2 sample_plain)
                                        (vtrow (vtmove 0 2 sample_plain))))))
    by (vm_compute; discriminate).
  assert (H6 : 0 <= vtcol (vtmove 0 2 sample_plain) < ncol) by (cbn; lia).
  split; [split; assumption |].
  destruct (vtputc_control_two_columns 7 sample_window (vtmove 0 2 sample_plain)
              H1 H2 H3 H4 H5 H6) as (st' & Hrun & Hfit & _).
  destruct Hfit as [Hcol Hcells]; [cbn; lia |].
  exists st'. split; [exact Hrun |]. split; [exact Hcol |].
  split; [exact (Hcells 2) | exact (Hcells 3)].
Defined.

Lemma vtputc_octal_escape_witness :
  (chars_ok = true /\ ISCTRL (Z.land 200 255) = false
   /\ isprint (Z.land 200 255) = false)
  /\ exists st' ds,
       vtputc vt_fuel 200 sample_window (vtmove 0 1 sample_plain) = Some st'
       /\ octal_value ds = 200 /\ length ds = 3%nat
       /\ vtcol st' = 5
       /\ chr (v_text (vrow st' 0)) 1 = 92.
Proof.
  assert (H1 : chars_ok = true) by exact sample_chars_ok.
  assert (H2 : Z.land 200 255 <> 9) by (vm_compute; discriminate).
  assert (H3 : ISCTRL (Z.land 200 255) = false) by reflexivity.
  assert (H4 : isprint (Z.land 200 255) = false) by reflexivity.
  assert (H5 : 0 <= vtrow (vtmove 0 1 sample_plain)
               < Z.of_nat (length (vscreen (vtmove 0 1 sample_plain))))
    by (cbn; lia).
  assert (H6 : ncol <= Z.of_nat (length (v_text (vrow (vtmove 0 1 sample_plain)
                                        (vtrow (vtmove 0 1 sample_plain))))))
    by (vm_compute; discriminate).
  assert (H7 : 0 <= vtcol (vtmove 0 1 sample_plain)) by (cbn; lia).
  assert (H8 : vtcol (vtmove 0 1 sample_plain) + 4 <= ncol) by (cbn; lia).
  split; [split; [| split]; assumption |].
  destruct (vtputc_octal_escape 200 sample_window (vtmove 0 1 sample_plain)
              H1 H2 H3 H4 H5 H6 H7 H8)
    as (st' & ds & Hrun & _ & Hval & _ & Hlen & Hcol & Hcells).
  specialize (Hlen ltac:(vm_compute; discriminate)).
  exists st', ds. split; [exact Hrun |]. split; [exact Hval |].
  split; [exact Hlen |]. split; [rewrite Hcol, Hlen; reflexivity |].
  exact (Hcells 1).
Defined.

Lemma vteeol_blanks_rest_witness :
  (0 <= vtcol (vtmove 0 1 (set_vrow 0 sample_stale sample_plain)))
  /\ vtcol (vteeol (vtmove 0 1 (set_vrow 0 sample_stale sample_plain))) = 8
  /\ chr (v_text (vrow (vteeol (vtmove 0 1 (set_vrow 0 sample_stale sample_plain))) 0)) 0
     = 97
  /\ chr (v_text (vrow (vteeol (vtmove 0 1 (set_vrow 0 sample_stale sample_plain))) 0)) 1
     = 32.
Proof.
  set (st := vtmove 0 1 (set_vrow 0 sample_stale sample_plain)).
  assert (H1 : 0 <= vtrow st < Z.of_nat (length (vscreen st))) by zcomp.
  assert (H2 : 0 <= vtcol st) by zcomp.
  assert (H3 : ncol <= Z.of_nat (length (v_text (vrow st (vtrow st)))))
    by (vm_compute; discriminate).
  assert (H4 : ncol <= Z.of_nat (length (v_attr (vrow st (vtrow st)))))
    by (vm_compute; discriminate).
  split; [exact H2 |].
  destruct (vteeol_blanks_rest st H1 H2 H3 H4) as (_ & Hcol & _ & Hcells).
  split; [apply Hcol; zcomp |].
  split; [exact (proj1 (Hcells 0)) | exact (proj1 (Hcells 1))].
Defined.

Lemma render_plain_line_witness :
  (forallb plain_char (ltext (w_bufp sample_window) 0) = true
   /\ llength (w_bufp sample_window) 0 <= ncol)
  /\ exists st1,
       put_line (line_len sample_window 0) sample_window 0 1 0
         (vtmove 0 0 sample_plain) = Some st1
       /\ v_text (vrow (vteeol st1) 0) = [97; 98; 32; 32; 32; 32; 32; 32]
       /\ v_attr (vrow (vteeol st1) 0) = [0; 0; 0; 0; 0; 0; 0; 0].
Proof.
  assert (H1 : 0 <= 0 < Z.of_nat (length (vscreen sample_plain))) by (cbn; lia).
  assert (H2 : length (v_text (vrow sample_plain 0)) = Z.to_nat ncol) by reflexivity.
  assert (H3 : length (v_attr (vrow sample_plain 0)) = Z.to_nat ncol) by reflexivity.
  assert (H4 : forallb plain_char (ltext (w_bufp sample_window) 0) = true)
    by reflexivity.
  assert (H5 : llength (w_bufp sample_window) 0 <= ncol) by (vm_compute; discriminate).
  split; [split; assumption |].
  destruct (render_plain_line sample_window 0 1 0 sample_plain H1 H2 H3 H4 H5)
    as (st1 & Hrun & Htext & Hattr & _).
  exists st1. split; [exact Hrun |]. split; [exact Htext | exact Hattr].
Defined.

Lemma cursor_col_is_render_col_witness :
  (chars_ok = true /\ 0 < b_tabw (w_bufp sample_tabbed) /\ 0 <= ncol)
  /\ exists st',
       put_line 2 sample_tabbed 0 1 0 (vtmove 0 0 sample_plain) = Some st'
       /\ vtcol st' = 4.
Proof.
  assert (H1 : chars_ok = true) by exact sample_chars_ok.
  assert (H2 : 0 < b_tabw (w_bufp sample_tabbed)) by reflexivity.
  assert (H3 : 0 <= ncol) by (cbn; lia).
  assert (H4 : forall k, 0 <= lgetc (w_bufp sample_tabbed) 0 k < 256).
  { intros k. unfold lgetc. apply sample_cells; [| lia].
    cbn. repeat constructor; lia. }
  assert (H5 : vtcol (vtmove 0 0 sample_plain) = 0) by reflexivity.
  split; [split; [| split]; assumption |].
  destruct (cursor_col_is_render_col sample_tabbed 0 1 (vtmove 0 0 sample_plain)
              H1 H2 H3 H4 H5) as (st' & Hrun & Hcol).
  exists st'. split; [exact Hrun | exact Hcol].
Defined.

Lemma sample_plain_path (pv : video) :
  v_color pv = 1 -> v_attr pv = replicate 8 0 ->
  ~ full_redraw sample_stale pv.
Proof.
  intros Hc Ha [H | [(col & Hcol & H) | [H | H]]].
  - discriminate H.
  - apply H. cbn [v_attr sample_stale].
    apply (sample_cells (replicate 8 0) (fun a => a = 0)); [| reflexivity].
    repeat constructor.
  - apply H. rewrite Hc. reflexivity.
  - apply H. rewrite Ha. reflexivity.
Qed.

Lemma uline_equal_rows_silent_witness :
  (0 <= ncol
   /\ ~ full_redraw sample_stale
         (pvp_get (PScreen 0) (set_prow 0 sample_stale sample_shifted)))
  /\ uline 0 sample_stale (PScreen 0) (set_prow 0 sample_stale sample_shifted)
     = set_prow 0 sample_stale sample_shifted.
Proof.
  assert (H1 : 0 <= ncol) by (cbn; lia).
  assert (H2 : ~ full_redraw sample_stale
                 (pvp_get (PScreen 0) (set_prow 0 sample_stale sample_shifted)))
    by (apply sample_plain_path; reflexivity).
  assert (H3 : forall col, 0 <= col < ncol ->
                 chr (v_text sample_stale) col
                 = chr (v_text (pvp_get (PScreen 0)
                                  (set_prow 0 sample_stale sample_shifted))) col)
    by (intros; reflexivity).
  split; [split; assumption |].
  exact (proj1 (uline_equal_rows_silent 0 sample_stale (PScreen 0)
                  (set_prow 0 sample_stale sample_shifted) H1 H2 H3)).
Defined.

Lemma uline_sends_the_difference_witness :
  (0 <= ncol /\ ~ full_redraw sample_stale (pvp_get (PScreen 0) sample_shifted))
  /\ exists (stop : Z) (erase : bool),
       emitted sample_shifted (uline 0 sample_stale (PScreen 0) sample_shifted)
       = TtMove 0 0 :: TtColor 1
           :: cells_put sample_stale 0 stop ++ (if erase then [TtEeol] else []).
Proof.
  assert (H1 : 0 <= ncol) by (cbn; lia).
  assert (H2 : ~ full_redraw sample_stale (pvp_get (PScreen 0) sample_shifted))
    by (apply sample_plain_path; reflexivity).
  assert (H3 : exists col, 0 <= col < ncol
                 /\ chr (v_text sample_stale) col
                    <> chr (v_text (pvp_get (PScreen 0) sample_shifted)) col).
  { exists 0. split; [cbn; lia | vm_compute; discriminate]. }
  split; [split; assumption |].
  destruct (uline_sends_the_difference 0 sample_stale (PScreen 0) sample_shifted
              H1 H2 H3)
    as (start & stop & erase & Hs & _ & Hem & _ & Hleft & Hd & _).
  assert (H0 : start = 0).
  { destruct (Z.eq_dec start 0) as [-> | Hne]; [reflexivity |].
    exfalso. assert (Hl := Hleft 0 ltac:(lia)). vm_compute in Hl. discriminate Hl. }
  subst start. exists stop, erase. exact Hem.
Defined.

Lemma uline_repaints_in_color_witness :
  (0 <= ncol
   /\ full_redraw (set_v_color 2 sample_stale) (pvp_get (PScreen 1) sample_shifted))
  /\ painted 0 (emitted sample_shifted
                  (uline 1 (set_v_color 2 sample_stale) (PScreen 1) sample_shifted))
     = [(97, 2); (98, 2); (32, 2); (32, 2); (32, 2); (32, 2); (32, 2); (32, 2)].
Proof.
  assert (H1 : 0 <= ncol) by (cbn; lia).
  assert (H2 : full_redraw (set_v_color 2 sample_stale)
                 (pvp_get (PScreen 1) sample_shifted)) by (left; reflexivity).
  assert (H3 : forall col, 0 <= col < ncol ->
                 chr (v_attr (set_v_color 2 sample_stale)) col <> -1).
  { intros col _.
    apply (sample_cells (replicate 8 0) (fun a => a <> -1)); [| discriminate].
    repeat constructor; discriminate. }
  assert (H4 : forall i, PScreen 1 = PScreen i ->
                 0 <= i < Z.of_nat (length (pscreen sample_shifted))).
  { intros i Hi. injection Hi as <-. cbn. lia. }
  split; [split; assumption |].
  destruct (uline_repaints_in_color 1 (set_v_color 2 sample_stale) (PScreen 1)
              sample_shifted 0 H1 H2 H3 H4) as (_ & Hp & _).
  rewrite Hp. reflexivity.
Defined.

Lemma setscores_no_dearer_than_redraw_witness :
  (0 <= 2 < nrow /\ 0 <= tcinsl <= 6 /\ 0 <= tcdell <= 6
   /\ 4 * 6 * nrow <= INT_MAX)
  /\ s_cost (cell (scores (setscores 0 2 sample_shifted)) (nrow * 2 + 2)) <= 4 + 6.
Proof.
  assert (H1 : 0 <= 2 < nrow) by (cbn; lia).
  assert (H2 : Z.of_nat (length (scores sample_shifted)) = nrow * nrow)
    by reflexivity.
  assert (H3 : 0 <= tcinsl <= 6) by (cbn; lia).
  assert (H4 : 0 <= tcdell <= 6) by (cbn; lia).
  assert (H5 : forall k, 0 <= k < 2 ->
                 0 <= v_cost (vrow sample_shifted (0 + k)) <= 6).
  { intros k Hk. assert (Hc : k = 0 \/ k = 1) by lia.
    destruct Hc as [-> | ->]; zcomp. }
  assert (H6 : 4 * 6 * nrow <= INT_MAX) by (vm_compute; discriminate).
  split; [split; [exact H1 | split; [exact H3 | split; [exact H4 | exact H6]]] |].
  destruct (setscores_no_dearer_than_redraw 0 2 sample_shifted 6 H1 H2 H3 H4 H5 H6)
    as (_ & Hd & _).
  exact Hd.
Defined.

Lemma frame_window_shows_dot_witness :
  (1 <= w_ntrows sample_window
   /\ (w_linep sample_window <= b_headp (w_bufp sample_window))%nat
   /\ (w_dotp sample_window <= b_headp (w_bufp sample_window))%nat)
  /\ cursor_row (ring_fuel (frame_window sample_window)) (frame_window sample_window)
       (w_linep (frame_window sample_window)) (w_toprow (frame_window sample_window))
     = Some (w_dotp sample_window,
             w_toprow sample_window
             + Z.of_nat (w_dotp sample_window - w_linep (frame_window sample_window))).
Proof.
  assert (H1 : 1 <= w_ntrows sample_window) by (cbn; lia).
  assert (H2 : (w_linep sample_window <= b_headp (w_bufp sample_window))%nat)
    by (cbn; lia).
  assert (H3 : (w_dotp sample_window <= b_headp (w_bufp sample_window))%nat)
    by (cbn; lia).
  split; [split; [exact H1 | split; [exact H2 | exact H3]] |].
  destruct (frame_window_shows_dot sample_window H1 H2 H3) as (_ & Hrow & _).
  exact Hrow.
Defined.

Lemma sample_windows_ok : Forall window_ok (wheadp sample_display).
Proof. repeat constructor. Qed.

Lemma sample_display_ok : screens_ok sample_display.
Proof. apply sample_screens_ok; [left; reflexivity | reflexivity | reflexivity]. Qed.




#[local] Existing Instance sample_defs.


(** ** mouse.c on the sample configuration *)

Ltac sample_comp := first [cbn; lia | zcomp | vm_compute; lia].

Lemma sample_click_current : (curwp sample_click < length (wheadp sample_click))%nat.
Proof. cbn. lia. Qed.

Lemma sample_click_tops :
  Forall (fun wp => (w_linep wp < b_headp (w_bufp wp))%nat) (wheadp sample_click).
Proof. repeat constructor. Qed.

Lemma sample_isetmark : forall s b, isetmark s b = (mark_at_dot s, b).
Proof. intros s b. reflexivity. Qed.

Lemma sample_line_prints (lp : nat) (n : Z) :
  forallb (fun c => (c =? 9) || ISCTRL c || isprint c) (ltext sample_text lp) = true ->
  forall i, 0 <= i < n ->
    lgetc sample_text lp i = 9 \/ ISCTRL (lgetc sample_text lp i) = true
    \/ isprint (lgetc sample_text lp i) = true.
Proof.
  intros Hall i _. unfold lgetc.
  apply (sample_cells (ltext sample_text lp)
           (fun c => c = 9 \/ ISCTRL c = true \/ isprint c = true)).
  - rewrite forallb_forall in Hall. apply Forall_forall. intros c Hc.
    specialize (Hall c Hc).
    destruct (Z.eqb_spec c 9); [left; assumption |].
    destruct (ISCTRL c); [right; left; reflexivity |].
    destruct (isprint c); [right; right; reflexivity | discriminate Hall].
  - right. left. reflexivity.
Qed.

Lemma scroll_view_keeps_dot_witness :
  ((curwp sample_click < length (wheadp sample_click))%nat
   /\ curbp sample_mouse = w_bufp (cur_window sample_click)
   /\ (w_linep (cur_window sample_click) < b_headp (curbp sample_mouse))%nat)
  /\ (scroll_view_only 3 sample_click sample_mouse).1 = TRUE
  /\ Z.of_nat (w_linep (cur_window (scroll_view_only 3 sample_click sample_mouse).2)) = 2
  /\ window_place (cur_window (scroll_view_only 3 sample_click sample_mouse).2)
     = window_place (cur_window sample_click).
Proof.
  assert (H1 : (curwp sample_click < length (wheadp sample_click))%nat)
    by exact sample_click_current.
  assert (H2 : curbp sample_mouse = w_bufp (cur_window sample_click)) by reflexivity.
  assert (H3 : (w_linep (cur_window sample_click) < b_headp (curbp sample_mouse))%nat)
    by sample_comp.
  split; [split; [exact H1 | split; [exact H2 | exact H3]] |].
  destruct (scroll_view_keeps_dot 3 sample_click sample_mouse H1 H2 H3)
    as (Hr & _ & Hpl & _ & Htop & _).
  split; [exact Hr |]. split; [rewrite Htop; reflexivity | exact Hpl].
Defined.

Lemma col_to_offset_inverts_column_witness :
  (0 < b_tabw (w_bufp sample_lines)
   /\ 0 <= 1 <= llength (w_bufp sample_lines) 1)
  /\ dot_col sample_lines 1 1 = 4
  /\ col_to_offset (w_bufp sample_lines) 1 (dot_col sample_lines 1 1)
       (b_tabw (w_bufp sample_lines)) = 1
  /\ col_to_offset (w_bufp sample_lines) 1 2 (b_tabw (w_bufp sample_lines)) = 1.
Proof.
  assert (H1 : 0 < b_tabw (w_bufp sample_lines)) by sample_comp.
  assert (H2 : 0 <= 1 <= llength (w_bufp sample_lines) 1) by sample_comp.
  assert (H3 : forall i, 0 <= i < 1 ->
            lgetc (w_bufp sample_lines) 1 i = 9
            \/ ISCTRL (lgetc (w_bufp sample_lines) 1 i) = true
            \/ isprint (lgetc (w_bufp sample_lines) 1 i) = true)
    by (apply sample_line_prints; reflexivity).
  split; [split; [exact H1 | exact H2] |].
  destruct (col_to_offset_inverts_column sample_lines 1 1 H1 H2 H3) as [Hback Hgen].
  split; [reflexivity |]. split; [exact Hback |].
  apply Hgen; [right; vm_compute; reflexivity | left; vm_compute; discriminate].
Defined.

Lemma mouse_move_to_lands_witness :
  (curbp sample_mouse = w_bufp (cur_window sample_click)
   /\ Forall (fun wp => (w_linep wp < b_headp (w_bufp wp))%nat) (wheadp sample_click))
  /\ (exists st' m',
        mouse_move_to 3 0 sample_click sample_mouse = Some (TRUE, (st', m'))
        /\ w_dotp (cur_window st') = 0%nat /\ w_dotline (cur_window st') = 1
        /\ w_doto (cur_window st') = 3)
  /\ mouse_move_to 3 1 sample_click sample_mouse = Some (FALSE, (sample_click, sample_mouse)).
Proof.
  assert (H1 : curbp sample_mouse = w_bufp (cur_window sample_click)) by reflexivity.
  assert (H2 : Forall (fun wp => (w_linep wp < b_headp (w_bufp wp))%nat)
                 (wheadp sample_click)) by exact sample_click_tops.
  split; [split; [exact H1 | exact H2] |].
  split.
  - pose proof (mouse_move_to_lands 3 0 sample_click sample_mouse H1 H2) as Hon.
    change (window_at_row 0 sample_click) with (Some 0%nat) in Hon.
    destruct Hon as (wp & st' & m' & Hwp & _ & _ & Hrun & _ & _ & _ & _ & Hdot & Hline
                     & Hoff & _).
    injection Hwp as <-.
    exists st', m'. split; [exact Hrun |].
    split; [rewrite Hdot; reflexivity |].
    split; [rewrite Hline, Hdot; reflexivity |].
    rewrite Hoff, Hdot. reflexivity.
  - pose proof (mouse_move_to_lands 3 1 sample_click sample_mouse H1 H2) as Hoff.
    change (window_at_row 1 sample_click) with (@None nat) in Hoff.
    exact (proj2 Hoff).
Defined.

Lemma click_puts_cursor_on_row_witness :
  (curbp sample_mouse = w_bufp (cur_window sample_click)
   /\ window_at_row 0 sample_click = Some 0%nat
   /\ wheadp sample_click !! 0%nat = Some sample_lines
   /\ Z.land (Z.lor (w_rflag sample_lines) WFMOVE) WFFRAME = 0
   /\ 0 < b_tabw (w_bufp sample_lines))
  /\ exists st' m',
       mouse_move_to 3 0 sample_click sample_mouse = Some (TRUE, (st', m'))
       /\ frame_window (cur_window st') = cur_window st'
       /\ cursor_place st' = Some (0, 3).
Proof.
  assert (H1 : curbp sample_mouse = w_bufp (cur_window sample_click)) by reflexivity.
  assert (H2 : window_at_row 0 sample_click = Some 0%nat) by reflexivity.
  assert (H3 : wheadp sample_click !! 0%nat = Some sample_lines) by reflexivity.
  assert (H4 : (w_linep sample_lines + Z.to_nat (0 - w_toprow sample_lines)
                < b_headp (w_bufp sample_lines))%nat) by sample_comp.
  assert (H5 : Z.land (Z.lor (w_rflag sample_lines) WFMOVE) WFFRAME = 0) by reflexivity.
  assert (H6 : 0 < b_tabw (w_bufp sample_lines)) by sample_comp.
  assert (H7 : forall i,
            0 <= i < llength (w_bufp sample_lines)
                       (w_linep sample_lines + Z.to_nat (0 - w_toprow sample_lines)) ->
            lgetc (w_bufp sample_lines)
              (w_linep sample_lines + Z.to_nat (0 - w_toprow sample_lines)) i = 9
            \/ ISCTRL (lgetc (w_bufp sample_lines)
                         (w_linep sample_lines + Z.to_nat (0 - w_toprow sample_lines)) i)
               = true
            \/ isprint (lgetc (w_bufp sample_lines)
                          (w_linep sample_lines + Z.to_nat (0 - w_toprow sample_lines)) i)
               = true)
    by (apply sample_line_prints; reflexivity).
  split; [split; [exact H1 | split; [exact H2 | split; [exact H3 |
            split; [exact H5 | exact H6]]]] |].
  destruct (click_puts_cursor_on_row 3 0 sample_click sample_mouse 0 sample_lines
              H1 H2 H3 H4 H5 H6 H7)
    as (st' & m' & col & Hrun & _ & Hfr & Hcur & Hcol & _).
  exists st', m'. split; [exact Hrun |]. split; [exact Hfr |].
  rewrite Hcur, Hcol. do 2 f_equal.
  pose proof (mouse_move_to_click 3 0 sample_click sample_mouse 0 sample_lines
                H1 H2 H3 ltac:(sample_comp)) as Hrun'.
  rewrite Hrun in Hrun'. injection Hrun' as -> _. reflexivity.
Defined.

(** The sample window with dot on the "b" of the first line. *)
Lemma select_word_selects_witness :
  ((curwp (set_cur_window (set_w_doto 1 sample_lines) sample_click)
    < length (wheadp (set_cur_window (set_w_doto 1 sample_lines) sample_click)))%nat
   /\ (forall s b, isetmark s b = (mark_at_dot s, b))
   /\ 0 <= w_doto (cur_window (set_cur_window (set_w_doto 1 sample_lines) sample_click)))
  /\ (select_word (set_cur_window (set_w_doto 1 sample_lines) sample_click)
        sample_mouse).1 = TRUE
  /\ w_markp (cur_window (select_word (set_cur_window (set_w_doto 1 sample_lines)
                                         sample_click) sample_mouse).2.1)
     = Some 0%nat
  /\ w_marko (cur_window (select_word (set_cur_window (set_w_doto 1 sample_lines)
                                         sample_click) sample_mouse).2.1) <= 1.
Proof.
  set (st := set_cur_window (set_w_doto 1 sample_lines) sample_click).
  assert (H1 : (curwp st < length (wheadp st))%nat) by sample_comp.
  assert (H2 : forall s b, isetmark s b = (mark_at_dot s, b)) by exact sample_isetmark.
  assert (H3 : 0 <= w_doto (cur_window st)) by sample_comp.
  split; [split; [exact H1 | split; [exact H2 | exact H3]] |].
  destruct (select_word_selects st sample_mouse H1 H2 H3) as [_ Hsel].
  destruct (Hsel ltac:(reflexivity)) as (Hr & _ & _ & Hm & _ & Ho & _).
  split; [exact Hr |]. split; [exact Hm |]. exact (proj1 Ho).
Defined.


(** The globals after a press on the "b" at second 100. *)
Lemma double_click_selects_word_witness :
  (TRUE <> FALSE
   /\ (curwp sample_click < length (wheadp sample_click))%nat
   /\ curbp (press_recorded 1 0 (100, 0) sample_mouse) = w_bufp (cur_window sample_click)
   /\ window_at_row 0 sample_click = Some 0%nat
   /\ wheadp sample_click !! 0%nat = Some sample_lines
   /\ timeval_ok (100, 300000)
   /\ timeval_ok (last_click_time (press_recorded 1 0 (100, 0) sample_mouse)))
  /\ exists st2 m2,
       mouse_handle {| me_type := MOUSE_PRESS; me_button := MOUSE_BUTTON_LEFT;
                       me_x := 1; me_y := 0 |} (100, 300000) sample_click
         (press_recorded 1 0 (100, 0) sample_mouse)
       = Some (TRUE, (st2, m2))
       /\ w_markp (cur_window st2) = Some 0%nat
       /\ w_marko (cur_window st2) = 0 /\ w_doto (cur_window st2) = 2.
Proof.
  set (m := press_recorded 1 0 (100, 0) sample_mouse).
  assert (H1 : TRUE <> FALSE) by discriminate.
  assert (H2 : (curwp sample_click < length (wheadp sample_click))%nat)
    by exact sample_click_current.
  assert (H3 : curbp m = w_bufp (cur_window sample_click)) by reflexivity.
  assert (H4 : window_at_row 0 sample_click = Some 0%nat) by reflexivity.
  assert (H5 : wheadp sample_click !! 0%nat = Some sample_lines) by reflexivity.
  assert (H6 : (w_linep sample_lines < b_headp (w_bufp sample_lines))%nat)
    by sample_comp.
  assert (H7 : timeval_ok (100, 300000)) by (unfold timeval_ok; cbn; lia).
  assert (H8 : timeval_ok (last_click_time m)) by (unfold timeval_ok; cbn; lia).
  split; [split; [exact H1 | split; [exact H2 | split; [exact H3 | split; [exact H4 |
            split; [exact H5 | split; [exact H7 | exact H8]]]]]] |].
  destruct (double_click_selects_word 1 0 (100, 300000) sample_click m 0 sample_lines
              H1 H2 H3 H4 H5 H6 H7 H8) as (Hdbl & _).
  specialize (Hdbl ltac:(reflexivity) ltac:(reflexivity) ltac:(vm_compute; split; discriminate)).
  eexists. eexists. split; [rewrite Hdbl; reflexivity |].
  vm_compute. repeat split; reflexivity.
Defined.


(** ** traceback and updext on the sample configuration *)

Lemma traceback_stays_in_band_witness :
  (0 <= 2 < nrow /\ Z.of_nat (length (scores sample_shifted)) = nrow * nrow)
  /\ exists st',
       traceback (tb_fuel 2) 0 2 2 2 (setscores 0 2 sample_shifted) = Some st'
       /\ sends (band_op 0 2) (setscores 0 2 sample_shifted) st'
       /\ wheadp st' = wheadp sample_shifted.
Proof.
  assert (H1 : 0 <= 2 < nrow) by (cbn; lia).
  assert (H2 : Z.of_nat (length (scores sample_shifted)) = nrow * nrow) by reflexivity.
  split; [split; [exact H1 | exact H2] |].
  destruct (traceback_stays_in_band 0 2 sample_shifted H1 H2)
    as (st' & Hrun & Hs & _ & _ & Hw & _).
  exists st'. split; [exact Hrun |]. split; [exact Hs | exact Hw].
Defined.

Lemma updext_shows_cursor_part_witness :
  (2 <= ncol
   /\ ncol - 1 <= 9
      <= llength (w_bufp (nth (curwp sample_wide) (wheadp sample_wide) mgwin0))
           (w_dotp (nth (curwp sample_wide) (wheadp sample_wide) mgwin0))
   /\ 0 <= 0 < Z.of_nat (length (vscreen sample_wide)))
  /\ exists st',
       updext 0 9 sample_wide = Some st'
       /\ lbound st' = 6
       /\ chr (v_text (vrow st' 0)) 0 = 36
       /\ chr (v_text (vrow st' 0)) 1 = 104
       /\ chr (v_text (vrow st' 0)) 4 = 32.
Proof.
  assert (H1 : 2 <= ncol) by (cbn; lia).
  assert (H2 : ncol - 1 <= 9
               <= llength (w_bufp (nth (curwp sample_wide) (wheadp sample_wide) mgwin0))
                    (w_dotp (nth (curwp sample_wide) (wheadp sample_wide) mgwin0)))
    by zcomp.
  assert (H3 : 0 <= 0 < Z.of_nat (length (vscreen sample_wide))) by zcomp.
  assert (H4 : ncol <= Z.of_nat (length (v_text (vrow sample_wide 0)))) by zcomp.
  assert (H5 : ncol <= Z.of_nat (length (v_attr (vrow sample_wide 0)))) by zcomp.
  assert (H6 : forallb plain_char
                 (ltext (w_bufp (nth (curwp sample_wide) (wheadp sample_wide) mgwin0))
                    (w_dotp (nth (curwp sample_wide) (wheadp sample_wide) mgwin0)))
               = true) by reflexivity.
  split; [split; [exact H1 | split; [exact H2 | exact H3]] |].
  destruct (updext_shows_cursor_part 0 9 sample_wide H1 H2 H3 H4 H5 H6)
    as (st' & Hrun & Hl & _ & _ & _ & H0 & Hcells & _).
  exists st'. split; [exact Hrun |]. split; [rewrite Hl; reflexivity |].
  split; [exact H0 |].
  split; [rewrite (Hcells 1) by (cbn; lia); rewrite Hl; reflexivity |].
  rewrite (Hcells 4) by (cbn; lia). rewrite Hl. reflexivity.
Defined.

(** ** A report cut short: "<0M" *)

Lemma mouse_parse_accepts_only_sgr_witness :
  mouse_parse 60 {| me_type := MOUSE_PRESS; me_button := 0; me_x := 0; me_y := 0 |}
    [48; 77; 65]
  = Some (0, {| me_type := MOUSE_PRESS; me_button := 0; me_x := 0; me_y := 0 |}, [65])
  /\ exists bs c,
       Forall is_digit bs /\ ~ is_digit c
       /\ [48; 77; 65] = bs ++ c :: [65] /\ c <> 59.
Proof.
  assert (H : mouse_parse 60
                {| me_type := MOUSE_PRESS; me_button := 0; me_x := 0; me_y := 0 |}
                [48; 77; 65]
              = Some (0, {| me_type := MOUSE_PRESS; me_button := 0; me_x := 0;
                            me_y := 0 |}, [65])) by reflexivity.
  split; [exact H |].
  destruct (mouse_parse_accepts_only_sgr _ _ _ _ _ _ H)
    as [(Hr & _) | (_ & _ & _ & Hshape)]; [discriminate Hr |].
  destruct (Hshape eq_refl) as (bs & c & Hbs & Hc & Hcases).
  exists bs, c. split; [exact Hbs |]. split; [exact Hc |].
  destruct Hcases as [[Hin Hne] | (xs & Hxs & Hcases)]; [split; assumption |].
  exfalso.
  assert (Hno : forall l r, [48; 77; 65] = bs ++ 59 :: l ++ r -> False).
  { intros l r He. destruct bs as [| b0 bs]; [discriminate He |].
    injection He as Hb0 He.
    destruct bs as [| b1 bs]; [discriminate He |].
    injection He as Hb1 He. subst b0 b1.
    inversion Hbs as [| ? ? _ Hbs']; subst.
    inversion Hbs' as [| ? ? H77 _]; subst. unfold is_digit in H77. lia. }
  destruct Hcases as [[Hin _] | (ys & _ & Hin & _)].
  - apply (Hno xs (c :: [65])). exact Hin.
  - apply (Hno xs (59 :: ys ++ c :: [65])). exact Hin.
Defined.

(** ** The report "<0;2;1M" on the sample configuration *)

